(** * pbirdoc: the PBIR parsers and the report generator, embedded and verified

    The repository holds four JavaScript classes that read a Power BI report
    definition (a tree of JSON documents) and normalise it:

    - [PBIRReportGenerator]  (the command-line report generator),
    - [PBIRParserEnhanced]   (the schema-aware browser parser),
    - [PBIRParser]           (the basic browser parser),
    - [EnhancedPBIRParser]   (the command-line parser with validation).

    Each class is embedded below in a module of its own name, over a small
    model of the JavaScript values that [JSON.parse] produces and of the
    operators the classes apply to them. *)

From Stdlib Require Import List String Ascii ZArith QArith Bool Lia.
From Stdlib Require Import DecimalString Permutation Sorted OrdersEx Qround Lqa.
Import ListNotations.
Close Scope Q_scope.
Open Scope list_scope.
Open Scope string_scope.

(* ================================================================== *)
(** ** Outcomes of a run *)

(** A method either completes with a value, or throws (every exception that
    the modelled code can raise is a [TypeError]), or reaches an operation of
    the language that this development leaves out ([Beyond]): the conversion
    of a non-numeric operand to a number, and the printing of a number that
    is not an integer. *)
Inductive result (A : Type) : Type :=
| Ok (a : A)
| Throw
| Beyond.
Arguments Ok {A} a.
Arguments Throw {A}.
Arguments Beyond {A}.

Definition bind {A B : Type} (c : result A) (k : A -> result B) : result B :=
  match c with
  | Ok a => k a
  | Throw => Throw
  | Beyond => Beyond
  end.

Notation "x <- c ;; k" := (bind c (fun x => k))
  (at level 61, c at next level, right associativity).

Fixpoint mapM {A B : Type} (f : A -> result B) (l : list A) : result (list B) :=
  match l with
  | [] => Ok []
  | a :: r => b <- f a ;; bs <- mapM f r ;; Ok (b :: bs)
  end.

(* ================================================================== *)
(** ** Strings

    A string is a sequence of code units; [ascii] stands for the code units
    below 256. *)

Definition startsWith (s p : string) : bool := String.prefix p s.

Fixpoint includes (s sub : string) : bool :=
  String.prefix sub s ||
  match s with
  | EmptyString => false
  | String _ r => includes r sub
  end.

Definition endsWith (s suf : string) : bool :=
  let n := String.length s in
  let m := String.length suf in
  (m <=? n)%nat && (String.substring (n - m) m s =? suf).

(** [s.replace(pat, rep)] with a string pattern: the first occurrence only. *)
Fixpoint replaceFirst (s pat rep : string) : string :=
  if String.prefix pat s
  then rep ++ String.substring (String.length pat) (String.length s - String.length pat) s
  else match s with
       | EmptyString => EmptyString
       | String c r => String c (replaceFirst r pat rep)
       end.

(** White space and line terminators, as [String.prototype.trim] sees them
    among the code units below 256. *)
Definition isWhiteSpace (c : ascii) : bool :=
  let n := nat_of_ascii c in
  ((9 <=? n) && (n <=? 13))%nat || (n =? 32)%nat || (n =? 160)%nat.

Fixpoint trimStart (s : string) : string :=
  match s with
  | EmptyString => EmptyString
  | String c r => if isWhiteSpace c then trimStart r else s
  end.

Fixpoint rev_string (s acc : string) : string :=
  match s with
  | EmptyString => acc
  | String c r => rev_string r (String c acc)
  end.

Definition trimEnd (s : string) : string :=
  rev_string (trimStart (rev_string s "")) "".

Definition trim (s : string) : string := trimEnd (trimStart s).

(** [title.replace(/^'|'$/g, '')]: one quote is removed at the start, if
    there is one, and one at the end of what is left, if there is one. *)
Definition dropLeadingQuote (s : string) : string :=
  match s with
  | String "'"%char r => r
  | _ => s
  end.

Definition dropTrailingQuote (s : string) : string :=
  rev_string (dropLeadingQuote (rev_string s "")) "".

Definition stripQuotes (s : string) : string :=
  dropTrailingQuote (dropLeadingQuote s).

Fixpoint join (sep : string) (l : list string) : string :=
  match l with
  | [] => ""
  | [x] => x
  | x :: r => x ++ sep ++ join sep r
  end.

Definition natToString (n : nat) : string :=
  NilZero.string_of_uint (Nat.to_uint n).

(* ================================================================== *)
(** ** Values *)

(** The values of the language that the parsers handle.  [JSON.parse] yields
    [JNull], [JBool], [JNum], [JStr], [JArr] and [JObj]; [JUndefined] is what
    a missing property reads as, and [JBuiltin name] is the function [name]
    that a value inherits: a member of [Object.prototype], or a method of
    every array; it occurs in no parsed document.  The numbers of the
    documents are taken as rationals.  An object is its list of own
    properties, with pairwise distinct keys, in the order in which they were
    written; the language enumerates in that order, except that it moves the
    keys that are array indices to the front, which [enumerate] does. *)
#[warnings="-register-all"]
Inductive value : Type :=
| JUndefined
| JNull
| JBool (b : bool)
| JNum (q : Q)
| JStr (s : string)
| JArr (l : list value)
| JObj (props : list (string * value))
| JBuiltin (name : string).

Definition num (z : Z) : value := JNum (inject_Z z).

Definition truthy (v : value) : bool :=
  match v with
  | JUndefined | JNull => false
  | JBool b => b
  | JNum q => negb (Qeq_bool q (inject_Z 0))
  | JStr s => negb (s =? "")
  | JArr _ | JObj _ | JBuiltin _ => true
  end.

Definition nullish (v : value) : bool :=
  match v with
  | JUndefined | JNull => true
  | _ => false
  end.

(** [a || b] *)
Definition or_else (a b : value) : value := if truthy a then a else b.

Fixpoint own (ps : list (string * value)) (k : string) : option value :=
  match ps with
  | [] => None
  | (k', v) :: r => if k' =? k then Some v else own r k
  end.

Definition ownOr (ps : list (string * value)) (k : string) : value :=
  match own ps k with
  | Some v => v
  | None => JUndefined
  end.

(** [v.k] for the property names that the classes spell out.  None of them
    is a member of a prototype, except [length] on arrays and strings, and
    [filter] and [fill] on arrays, which [getMethod] reads where the value
    can be an array. *)
Definition get (v : value) (k : string) : result value :=
  match v with
  | JUndefined | JNull => Throw
  | JObj ps => Ok (ownOr ps k)
  | JArr l => Ok (if k =? "length" then num (Z.of_nat (List.length l)) else JUndefined)
  | JStr s => Ok (if k =? "length" then num (Z.of_nat (String.length s)) else JUndefined)
  | JBool _ | JNum _ | JBuiltin _ => Ok JUndefined
  end.

(** [v?.k] *)
Definition getOpt (v : value) (k : string) : result value :=
  if nullish v then Ok JUndefined else get v k.

(** The value of [v && v.k]. *)
Definition and_get (v : value) (k : string) : result value :=
  if truthy v then get v k else Ok v.

(** [v.k] for the two names that are methods of every array, [filter] and
    [fill]: an array gives the method, a function. *)
Definition getMethod (v : value) (k : string) : result value :=
  match v with
  | JArr _ => Ok (JBuiltin k)
  | _ => get v k
  end.

(** [v[i]] for an index written as a number. *)
Definition idx (v : value) (i : nat) : result value :=
  match v with
  | JUndefined | JNull => Throw
  | JArr l => Ok (nth i l JUndefined)
  | JStr s => Ok (match String.get i s with
                  | Some c => JStr (String c EmptyString)
                  | None => JUndefined
                  end)
  | JObj ps => Ok (ownOr ps (natToString i))
  | JBool _ | JNum _ | JBuiltin _ => Ok JUndefined
  end.

Definition and_idx (v : value) (i : nat) : result value :=
  if truthy v then idx v i else Ok v.

(** The integer that a number is, if it is one. *)
Definition asInteger (q : Q) : option Z :=
  let d := Z.pos (Qden q) in
  if (Qnum q mod d =? 0)%Z then Some (Qnum q / d)%Z else None.

Definition intToString (z : Z) : string :=
  NilZero.string_of_int (Z.to_int z).

(** [Number::toString] on the integers below 10^21 in absolute value, which
    print in plain decimal. *)
Definition numberToString (q : Q) : result string :=
  match asInteger q with
  | Some z => if (Z.abs z <? 10 ^ 21)%Z then Ok (intToString z) else Beyond
  | None => Beyond
  end.

(** The names of the own properties of [Object.prototype]: a lookup with a
    computed key in an object literal finds them when the literal has no own
    property of that name. *)
Definition objectPrototypeMembers : list string :=
  [ "constructor"; "__defineGetter__"; "__defineSetter__"; "hasOwnProperty";
    "__lookupGetter__"; "__lookupSetter__"; "isPrototypeOf";
    "propertyIsEnumerable"; "toString"; "valueOf"; "__proto__";
    "toLocaleString" ].

Definition inherited (k : string) : value :=
  if existsb (String.eqb k) objectPrototypeMembers then JBuiltin k else JUndefined.

(** [table[key]] for an object literal [table] whose values are strings. *)
Fixpoint tableOwn (table : list (string * string)) (k : string) : option string :=
  match table with
  | [] => None
  | (k', v) :: r => if k' =? k then Some v else tableOwn r k
  end.

Definition tableGet (table : list (string * string)) (k : string) : value :=
  match tableOwn table k with
  | Some v => JStr v
  | None => inherited k
  end.

(** How Node.js prints the inherited members in a template literal. *)
Definition builtinToString (name : string) : string :=
  if name =? "__proto__" then "[object Object]"
  else if name =? "constructor" then "function Object() { [native code] }"
  else "function " ++ name ++ "() { [native code] }".

(** [String(v)], the conversion that template literals, [join] and computed
    property keys apply.  An object with an own [toString] property (which
    cannot be a function in a parsed document) has no primitive value. *)
Fixpoint toString (v : value) : result string :=
  match v with
  | JUndefined => Ok "undefined"
  | JNull => Ok "null"
  | JBool true => Ok "true"
  | JBool false => Ok "false"
  | JNum q => numberToString q
  | JStr s => Ok s
  | JArr l =>
      (fix elems (l : list value) : result string :=
         match l with
         | [] => Ok ""
         | [x] => if nullish x then Ok "" else toString x
         | x :: r =>
             sx <- (if nullish x then Ok "" else toString x) ;;
             sr <- elems r ;;
             Ok (sx ++ "," ++ sr)
         end) l
  | JObj ps =>
      match own ps "toString" with
      | Some _ => Throw
      | None => Ok "[object Object]"
      end
  | JBuiltin name => Ok (builtinToString name)
  end.

(** A document on disk: its path relative to the report directory and what
    reading and parsing it gives, [inl message] when either fails. *)
Record file : Type := mkFile {
  relativePath : string;
  content : string + value
}.

(** The truth of [v > 0].  A string, an array or an object on the left is
    first converted to a number, which is left out. *)
Definition gtZero (v : value) : result bool :=
  match v with
  | JNum q => Ok (negb (Qle_bool q (inject_Z 0)))
  | JBool b => Ok b
  | JUndefined | JNull => Ok false
  | JStr _ | JArr _ | JObj _ | JBuiltin _ => Beyond
  end.

(** [table[v]] with a computed key [v].  A number that does not print in
    plain decimal prints with a point or an exponent, which is no key of a
    table and no member of the prototype. *)
Definition tableGetV (table : list (string * string)) (v : value) : result value :=
  match v with
  | JNum q =>
      match asInteger q with
      | Some z => if (Z.abs z <? 10 ^ 21)%Z then Ok (tableGet table (intToString z))
                  else Ok JUndefined
      | None => Ok JUndefined
      end
  | _ => k <- toString v ;; Ok (tableGet table k)
  end.

(** Walking a parsed document along a path of object keys and array indices;
    used to state where a document carries a value. *)
Inductive step : Type :=
| Key (k : string)
| Index (i : nat).

Fixpoint at_path (v : value) (p : list step) : option value :=
  match p with
  | [] => Some v
  | Key k :: r =>
      match v with
      | JObj ps => match own ps k with Some x => at_path x r | None => None end
      | _ => None
      end
  | Index i :: r =>
      match v with
      | JArr l => match nth_error l i with Some x => at_path x r | None => None end
      | _ => None
      end
  end.

(** [{...v}]: the own enumerable properties of [v]. *)
Fixpoint indexed (i : nat) (l : list value) : list (string * value) :=
  match l with
  | [] => []
  | x :: r => (natToString i, x) :: indexed (S i) r
  end.

Fixpoint chars (s : string) : list value :=
  match s with
  | EmptyString => []
  | String c r => JStr (String c EmptyString) :: chars r
  end.

Definition spread (v : value) : list (string * value) :=
  match v with
  | JObj ps => ps
  | JArr l => indexed 0 l
  | JStr s => indexed 0 (chars s)
  | _ => []
  end.

(** Defining or overwriting a property; the first writing of a key fixes its
    place.  The same function is [Map.prototype.set] on a [Map] with string
    keys. *)
Fixpoint setProp (ps : list (string * value)) (k : string) (v : value)
  : list (string * value) :=
  match ps with
  | [] => [(k, v)]
  | (k', v') :: r => if k' =? k then (k', v) :: r else (k', v') :: setProp r k v
  end.

(** *** Enumeration of the own properties

    [Object.keys] lists the keys that are array indices first, in ascending
    order, and the other keys after them in the order of their writing.  An
    array index is a key that prints a natural number below 2^32 - 1. *)

Fixpoint digits (s : string) (acc : N) : option N :=
  match s with
  | EmptyString => Some acc
  | String c r =>
      let n := N_of_ascii c in
      if ((48 <=? n) && (n <=? 57))%N then digits r (10 * acc + (n - 48))%N
      else None
  end.

Definition arrayIndex (k : string) : option N :=
  match k with
  | EmptyString => None
  | String "0"%char EmptyString => Some 0%N
  | String "0"%char _ => None
  | _ =>
      match digits k 0 with
      | Some n => if (n <? 2 ^ 32 - 1)%N then Some n else None
      | None => None
      end
  end.

Fixpoint insertIndex {A : Type} (i : N) (e : string * A) (l : list (N * (string * A)))
  : list (N * (string * A)) :=
  match l with
  | [] => [(i, e)]
  | (j, e') :: r => if (i <=? j)%N then (i, e) :: l else (j, e') :: insertIndex i e r
  end.

Fixpoint indexKeys {A : Type} (ps : list (string * A)) : list (N * (string * A)) :=
  match ps with
  | [] => []
  | (k, v) :: r =>
      match arrayIndex k with
      | Some i => insertIndex i (k, v) (indexKeys r)
      | None => indexKeys r
      end
  end.

Definition namedKeys {A : Type} (ps : list (string * A)) : list (string * A) :=
  filter (fun e => match arrayIndex (fst e) with Some _ => false | None => true end) ps.

Definition enumerate {A : Type} (ps : list (string * A)) : list (string * A) :=
  (map snd (indexKeys ps) ++ namedKeys ps)%list.

(** The pairs [(k, v[k])] for [k] in [Object.keys(v)]. *)
Definition keyed (v : value) : list (string * value) := enumerate (spread v).

(** *** [JSON.stringify] without indentation *)

Definition hexDigit (n : nat) : ascii :=
  match String.get n "0123456789abcdef" with
  | Some c => c
  | None => "0"%char
  end.

Definition backslash : ascii := ascii_of_nat 92.

Definition escaped (c : ascii) : string := String backslash (String c "").

Definition quoteChar (c : ascii) : string :=
  let n := nat_of_ascii c in
  if (n =? 34)%nat then escaped c
  else if (n =? 92)%nat then escaped c
  else if (n =? 8)%nat then escaped "b"
  else if (n =? 9)%nat then escaped "t"
  else if (n =? 10)%nat then escaped "n"
  else if (n =? 12)%nat then escaped "f"
  else if (n =? 13)%nat then escaped "r"
  else if (n <? 32)%nat
       then escaped "u" ++ "00"
            ++ String (hexDigit (n / 16)) (String (hexDigit (n mod 16)) "")
  else String c "".

Fixpoint quoteBody (s : string) : string :=
  match s with
  | EmptyString => EmptyString
  | String c r => quoteChar c ++ quoteBody r
  end.

Definition quote (s : string) : string :=
  String (ascii_of_nat 34) (quoteBody s ++ String (ascii_of_nat 34) "").

(** The members of an object that have a text: a member without one is
    left out of the text of the object. *)
Fixpoint withText (ts : list (string * option string)) : list (string * string) :=
  match ts with
  | [] => []
  | (k, Some t) :: r => (k, t) :: withText r
  | (_, None) :: r => withText r
  end.

(** [None] stands for the [undefined] that [JSON.stringify] gives for a
    value that has no text.  The members of an object are printed in the
    order of [Object.keys]. *)
Fixpoint stringifyText (v : value) : result (option string) :=
  match v with
  | JUndefined | JBuiltin _ => Ok None
  | JNull => Ok (Some "null")
  | JBool true => Ok (Some "true")
  | JBool false => Ok (Some "false")
  | JNum q => t <- numberToString q ;; Ok (Some t)
  | JStr s => Ok (Some (quote s))
  | JArr l =>
      ts <- (fix elems (l : list value) : result (list string) :=
               match l with
               | [] => Ok []
               | x :: r =>
                   t <- stringifyText x ;;
                   ts <- elems r ;;
                   Ok (match t with Some t => t | None => "null" end :: ts)
               end) l ;;
      Ok (Some ("[" ++ join "," ts ++ "]"))
  | JObj ps =>
      ts <- (fix members (ps : list (string * value))
               : result (list (string * option string)) :=
               match ps with
               | [] => Ok []
               | (k, x) :: r =>
                   t <- stringifyText x ;;
                   ts <- members r ;;
                   Ok ((k, t) :: ts)
               end) ps ;;
      Ok (Some ("{" ++ join "," (map (fun m => quote (fst m) ++ ":" ++ snd m)
                                     (withText (enumerate ts)))
                ++ "}"))
  end.

Definition stringify (v : value) : result value :=
  t <- stringifyText v ;;
  Ok (match t with Some t => JStr t | None => JUndefined end).

(** The greatest number of nested arrays and objects in a value. *)
Fixpoint depth (v : value) : nat :=
  match v with
  | JArr l => S (fold_right (fun x d => Nat.max (depth x) d) 0 l)
  | JObj ps => S ((fix members (ps : list (string * value)) : nat :=
                     match ps with
                     | [] => 0
                     | (_, x) :: r => Nat.max (depth x) (members r)
                     end) ps)
  | _ => 0
  end.

(* ================================================================== *)
(** ** Rounding *)

(** [Math.round]: the nearest integer, a half going up.  Only a number, a
    boolean and [null] are converted to a number here. *)
Definition roundHalfUp (q : Q) : Z := Qfloor (Qplus q (1 # 2)).

Definition mathRound (v : value) : result value :=
  match v with
  | JNum q => Ok (num (roundHalfUp q))
  | JBool true => Ok (num 1)
  | JBool false | JNull => Ok (num 0)
  | JUndefined | JStr _ | JArr _ | JObj _ | JBuiltin _ => Beyond
  end.

(** Membership in a [Set] of strings: no other value equals a member. *)
Definition has (members : list string) (v : value) : bool :=
  match v with
  | JStr s => existsb (String.eqb s) members
  | _ => false
  end.

(** [v.type === t] on a value that is not nullish. *)
Definition typeIs (t : string) (v : value) : bool :=
  match v with
  | JObj ps => match own ps "type" with
               | Some (JStr s) => s =? t
               | _ => false
               end
  | _ => false
  end.

(* ================================================================== *)
(** ** [JSON.stringify] with an indentation of two spaces *)

Definition newline : string := String (ascii_of_nat 10) "".

Fixpoint stringifyIndentedText (indent : string) (v : value) : result (option string) :=
  match v with
  | JUndefined | JBuiltin _ => Ok None
  | JNull => Ok (Some "null")
  | JBool true => Ok (Some "true")
  | JBool false => Ok (Some "false")
  | JNum q => t <- numberToString q ;; Ok (Some t)
  | JStr s => Ok (Some (quote s))
  | JArr l =>
      let inner := indent ++ "  " in
      ts <- (fix elems (l : list value) : result (list string) :=
               match l with
               | [] => Ok []
               | x :: r =>
                   t <- stringifyIndentedText inner x ;;
                   ts <- elems r ;;
                   Ok (match t with Some t => t | None => "null" end :: ts)
               end) l ;;
      Ok (Some (match ts with
                | [] => "[]"
                | _ => "[" ++ newline ++ inner
                       ++ join ("," ++ newline ++ inner) ts
                       ++ newline ++ indent ++ "]"
                end))
  | JObj ps =>
      let inner := indent ++ "  " in
      ts <- (fix members (ps : list (string * value))
               : result (list (string * option string)) :=
               match ps with
               | [] => Ok []
               | (k, x) :: r =>
                   t <- stringifyIndentedText inner x ;;
                   ts <- members r ;;
                   Ok ((k, t) :: ts)
               end) ps ;;
      Ok (Some (match withText (enumerate ts) with
                | [] => "{}"
                | ms => "{" ++ newline ++ inner
                        ++ join ("," ++ newline ++ inner)
                             (map (fun m => quote (fst m) ++ ": " ++ snd m) ms)
                        ++ newline ++ indent ++ "}"
                end))
  end.

(** [JSON.stringify(v, null, 2)] *)
Definition stringifyIndented (v : value) : result value :=
  t <- stringifyIndentedText "" v ;;
  Ok (match t with Some t => JStr t | None => JUndefined end).

(* ================================================================== *)
(** ** Identifiers in paths *)

(** What follows the last slash of [s], and what comes before it (the slash
    included). *)
Fixpoint untilSlash (s : string) : string :=
  match s with
  | EmptyString => EmptyString
  | String c r => if (c =? "/")%char then EmptyString else String c (untilSlash r)
  end.

Definition lastSegment (s : string) : string :=
  rev_string (untilSlash (rev_string s "")) "".

(** [path.match(/D([^\/]+)T$/)] for a pattern whose literal part [D] ends
    with a slash and whose literal part [T] follows the group: the group is
    the last segment before [T], and [D] must stand right before it. *)
Definition matchSegment (D T path : string) : option string :=
  if endsWith path T then
    let body := String.substring 0 (String.length path - String.length T) path in
    let segment := lastSegment body in
    let before := String.substring 0 (String.length body - String.length segment) body in
    if negb (segment =? "") && endsWith before D then Some segment else None
  else None.

Definition orUnknown (m : option string) : string :=
  match m with
  | Some id => id
  | None => "unknown"
  end.

(* ================================================================== *)
(** ** The report generator *)

Module PBIRReportGenerator.

(** *** [getVisualType] *)

Definition typeMapping : list (string * string) :=
  [ ("columnChart", "Column Chart");
    ("barChart", "Bar Chart");
    ("lineChart", "Line Chart");
    ("pieChart", "Pie Chart");
    ("card", "Card");
    ("multiRowCard", "Multi-row Card");
    ("tableEx", "Table");
    ("matrix", "Matrix");
    ("slicer", "Slicer");
    ("textbox", "Text Box");
    ("image", "Image");
    ("basicShape", "Shape");
    ("actionButton", "Button");
    ("pivotTable", "Pivot Table");
    ("qnaVisual", "Q&A Visual");
    ("keyDriversVisual", "Key Drivers");
    ("decompositionTreeVisual", "Decomposition Tree") ].

(** The raw type is [visual.visualType], else [visual.singleVisual.visualType],
    else ['unknown'].  [startsWith] is a method of strings only. *)
Definition getVisualType (visualData : value) : result value :=
  visual <- get visualData "visual" ;;
  direct <- and_get visual "visualType" ;;
  visualType <-
    (if truthy direct then Ok direct
     else
       singleVisual <- and_get visual "singleVisual" ;;
       legacy <- and_get singleVisual "visualType" ;;
       if truthy legacy then Ok legacy else Ok (JStr "unknown")) ;;
  match visualType with
  | JStr s =>
      if startsWith s "PBI_CV_" || includes s "CV_" || (30 <? String.length s)%nat
      then Ok (JStr "Custom Visual")
      else Ok (or_else (tableGet typeMapping s) visualType)
  | _ => Throw
  end.

(** *** [getVisualDisplayName] *)

(** What [title.replace(/^'|'$/g, '').trim()] leaves, when it is a title:
    not empty and not the placeholder. *)
Definition cleanTitle (v : value) : result (option string) :=
  match v with
  | JStr s =>
      let title := trim (stripQuotes s) in
      if negb (title =? "") && negb (title =? "Title") then Ok (Some title) else Ok None
  | _ => Throw
  end.

(** What [value.trim()] leaves, when it is not empty. *)
Definition trimmedTitle (v : value) : result (option string) :=
  match v with
  | JStr s => let title := trim s in if title =? "" then Ok None else Ok (Some title)
  | _ => Throw
  end.

(** The first block: the title of the visual container objects, read in the
    shape [text.expr.Literal.Value]. *)
Definition containerTitle (visualData : value) : result (option string) :=
  visual <- get visualData "visual" ;;
  ofVisual <- getOpt visual "visualContainerObjects" ;;
  containerObjects <-
    (if truthy ofVisual then Ok ofVisual else get visualData "visualContainerObjects") ;;
  titles <- and_get containerObjects "title" ;;
  if truthy titles then
    titleConfig <- idx titles 0 ;;
    properties <- and_get titleConfig "properties" ;;
    text <- and_get properties "text" ;;
    if truthy text then
      textExpr <- get text "expr" ;;
      literal <- and_get textExpr "Literal" ;;
      val <- and_get literal "Value" ;;
      if truthy val then cleanTitle val else Ok None
    else Ok None
  else Ok None.

(** The two shapes tried on [objects.title[0].properties.text] of the single
    visual. *)
Definition singleVisualTitle (objects : value) : result (option string) :=
  titles <- get objects "title" ;;
  t0 <- and_idx titles 0 ;;
  properties <- and_get t0 "properties" ;;
  if truthy properties then
    titleProp <- get properties "text" ;;
    literal <- and_get titleProp "literal" ;;
    val <- and_get literal "value" ;;
    fromLiteral <- (if truthy val then trimmedTitle val else Ok None) ;;
    match fromLiteral with
    | Some title => Ok (Some title)
    | None =>
        expr <- and_get titleProp "expr" ;;
        exprLiteral <- and_get expr "Literal" ;;
        if truthy exprLiteral then
          v <- get exprLiteral "Value" ;;
          cleanTitle v
        else Ok None
    end
  else Ok None.

(** The first text run of a text box. *)
Definition textBoxTitle (objects : value) : result (option string) :=
  general <- get objects "general" ;;
  g0 <- and_idx general 0 ;;
  properties <- and_get g0 "properties" ;;
  if truthy properties then
    paragraphs <- get properties "paragraphs" ;;
    some <- (if truthy paragraphs
             then len <- get paragraphs "length" ;; gtZero len
             else Ok false) ;;
    if (some : bool) then
      firstParagraph <- idx paragraphs 0 ;;
      textRuns <- get firstParagraph "textRuns" ;;
      someRuns <- (if truthy textRuns
                   then len <- get textRuns "length" ;; gtZero len
                   else Ok false) ;;
      if (someRuns : bool) then
        run <- idx textRuns 0 ;;
        firstText <- get run "value" ;;
        if truthy firstText then
          match firstText with
          | JStr s =>
              if negb (trim s =? "") && (String.length s <? 50)%nat
              then Ok (Some (trim s)) else Ok None
          | _ => Throw
          end
        else Ok None
      else Ok None
    else Ok None
  else Ok None.

(** The title of [visual.objects]. *)
Definition directObjectsTitle (visual : value) : result (option string) :=
  objects <- get visual "objects" ;;
  titles <- and_get objects "title" ;;
  if truthy titles then
    titleObj <- idx titles 0 ;;
    properties <- and_get titleObj "properties" ;;
    text <- and_get properties "text" ;;
    if truthy text then
      literal <- get text "literal" ;;
      val <- getOpt literal "value" ;;
      fromLiteral <- (if truthy val then trimmedTitle val else Ok None) ;;
      match fromLiteral with
      | Some title => Ok (Some title)
      | None =>
          expr <- get text "expr" ;;
          exprLiteral <- and_get expr "Literal" ;;
          if truthy exprLiteral then
            v <- get exprLiteral "Value" ;;
            cleanTitle v
          else Ok None
      end
    else Ok None
  else Ok None.

(** The second block: the titles found under [visualData.visual]. *)
Definition visualTitle (visual : value) : result (option string) :=
  singleVisual <- get visual "singleVisual" ;;
  objects <- and_get singleVisual "objects" ;;
  ofSingle <-
    (if truthy objects then
       t <- singleVisualTitle objects ;;
       match t with
       | Some title => Ok (Some title)
       | None => textBoxTitle objects
       end
     else Ok None) ;;
  match ofSingle with
  | Some title => Ok (Some title)
  | None => directObjectsTitle visual
  end.

(** The name made up from the type and the first eight code units of the
    identifier. *)
Definition generatedName (visualData : value) : result string :=
  visualType <- getVisualType visualData ;;
  name <- get visualData "name" ;;
  shortId <-
    (if truthy name then
       match name with
       | JStr s => Ok (String.substring 0 8 s)
       | _ => Throw
       end
     else Ok "unknown") ;;
  match visualType with
  | JStr "unknown" => Ok ("Visual (" ++ shortId ++ ")")
  | _ => t <- toString visualType ;; Ok (t ++ " (" ++ shortId ++ ")")
  end.

Definition getVisualDisplayName (visualData : value) : result string :=
  c <- containerTitle visualData ;;
  match c with
  | Some title => Ok title
  | None =>
      visual <- get visualData "visual" ;;
      t <- (if truthy visual then visualTitle visual else Ok None) ;;
      match t with
      | Some title => Ok title
      | None => generatedName visualData
      end
  end.

(** *** Field bindings of the role/projection map *)

Definition aggregationTypes : list (string * string) :=
  [ ("0", "Sum"); ("1", "Average"); ("2", "Count (Distinct)");
    ("3", "Min"); ("4", "Max"); ("5", "Count") ].

(** [e?.SourceRef?.Entity || 'Unknown Table'] *)
Definition entityOf (expression : value) : result value :=
  sourceRef <- getOpt expression "SourceRef" ;;
  entity <- getOpt sourceRef "Entity" ;;
  Ok (or_else entity (JStr "Unknown Table")).

Definition parseProjectionField (roleKey : string) (projection : value) : result value :=
  field <- get projection "field" ;;
  if truthy field then
    measure <- get field "Measure" ;;
    if truthy measure then
      queryRef <- get projection "queryRef" ;;
      property <- get measure "Property" ;;
      expression <- get measure "Expression" ;;
      table <- entityOf expression ;;
      Ok (JObj [ ("type", JStr "measure"); ("role", JStr roleKey);
                 ("name", or_else queryRef property); ("table", table);
                 ("field", property) ])
    else
      column <- get field "Column" ;;
      if truthy column then
        queryRef <- get projection "queryRef" ;;
        property <- get column "Property" ;;
        expression <- get column "Expression" ;;
        table <- entityOf expression ;;
        Ok (JObj [ ("type", JStr "dimension"); ("role", JStr roleKey);
                   ("name", or_else queryRef property); ("table", table);
                   ("field", property) ])
      else
        aggregation <- get field "Aggregation" ;;
        if truthy aggregation then
          queryRef <- get projection "queryRef" ;;
          function <- get aggregation "Function" ;;
          named <- tableGetV aggregationTypes function ;;
          expression <- get aggregation "Expression" ;;
          column <- getOpt expression "Column" ;;
          columnExpression <- getOpt column "Expression" ;;
          table <- entityOf columnExpression ;;
          expression' <- get aggregation "Expression" ;;
          column' <- getOpt expression' "Column" ;;
          property <- getOpt column' "Property" ;;
          Ok (JObj [ ("type", JStr "measure"); ("role", JStr roleKey);
                     ("name", or_else queryRef (JStr "Aggregated Field"));
                     ("aggregation", or_else named (JStr "Unknown"));
                     ("table", table);
                     ("field", or_else property (JStr "Unknown Field")) ])
        else Ok JNull
  else Ok JNull.

(** [extractTableName] and [extractFieldName] of the legacy Select list. *)
Definition extractTableName (expression : value) : result value :=
  sourceRef <- and_get expression "SourceRef" ;;
  if truthy sourceRef then
    entity <- get sourceRef "Entity" ;;
    Ok (or_else entity (JStr "Unknown Table"))
  else
    column <- and_get expression "Column" ;;
    columnExpression <- and_get column "Expression" ;;
    columnSource <- and_get columnExpression "SourceRef" ;;
    if truthy columnSource then
      entity <- get columnSource "Entity" ;;
      Ok (or_else entity (JStr "Unknown Table"))
    else Ok (JStr "Unknown Table").

Definition extractFieldName (expression : value) : result value :=
  column <- and_get expression "Column" ;;
  if truthy column then
    property <- get column "Property" ;;
    Ok (or_else property (JStr "Unknown Field"))
  else Ok (JStr "Unknown Field").

Definition parseFieldFromSelect (select : value) : result value :=
  measure <- get select "Measure" ;;
  if truthy measure then
    name <- get select "Name" ;;
    expression <- get measure "Expression" ;;
    table <- extractTableName expression ;;
    property <- get measure "Property" ;;
    Ok (JObj [ ("type", JStr "measure");
               ("name", or_else name (JStr "Unnamed Measure"));
               ("table", table); ("field", property) ])
  else
    column <- get select "Column" ;;
    if truthy column then
      name <- get select "Name" ;;
      expression <- get column "Expression" ;;
      table <- extractTableName expression ;;
      property <- get column "Property" ;;
      Ok (JObj [ ("type", JStr "dimension");
                 ("name", or_else name (JStr "Unnamed Column"));
                 ("table", table); ("field", property) ])
    else
      aggregation <- get select "Aggregation" ;;
      if truthy aggregation then
        name <- get select "Name" ;;
        function <- get aggregation "Function" ;;
        named <- tableGetV aggregationTypes function ;;
        expression <- get aggregation "Expression" ;;
        table <- extractTableName expression ;;
        expression' <- get aggregation "Expression" ;;
        field <- extractFieldName expression' ;;
        Ok (JObj [ ("type", JStr "measure");
                   ("name", or_else name (JStr "Aggregated Field"));
                   ("aggregation", or_else named (JStr "Unknown"));
                   ("table", table); ("field", field) ])
      else Ok JNull.

(** *** Pages and their visuals *)

Definition extractPageName (path : string) : string :=
  orUnknown (matchSegment "/pages/" "/page.json" path).

Definition extractVisualName (path : string) : string :=
  orUnknown (matchSegment "/visuals/" "/visual.json" path).

(** What [extractVisualInfo] builds for a visual. *)
Record visualInfo : Type := mkVisualInfo {
  id : string;
  name : string;
  type : value;
  position : value;
  fields : value;
  filters : value;
  isHidden : value
}.

Section Visuals.

(** [String.prototype.localeCompare], the collation of the host: negative,
    zero or positive. *)
Variable localeCompare : string -> string -> Z.

(** The extractors of the position, of the field bindings and of the
    filters, on which the order of the visuals does not depend. *)
Variable getVisualPosition getVisualFields getVisualFilters : value -> result value.

Definition extractVisualInfo (visualName : string) (visualData : value)
  : result visualInfo :=
  name <- getVisualDisplayName visualData ;;
  type <- getVisualType visualData ;;
  position <- getVisualPosition visualData ;;
  fields <- getVisualFields visualData ;;
  filters <- getVisualFilters visualData ;;
  hidden <- get visualData "isHidden" ;;
  Ok (mkVisualInfo visualName name type position fields filters
        (or_else hidden (JBool false))).

(** [visuals.sort((a, b) => a.name.localeCompare(b.name))]: the sort of the
    language is stable. *)
Fixpoint insertByName (x : visualInfo) (l : list visualInfo) : list visualInfo :=
  match l with
  | [] => [x]
  | y :: r =>
      if (localeCompare (name x) (name y) <=? 0)%Z then x :: l
      else y :: insertByName x r
  end.

Definition sortByName (l : list visualInfo) : list visualInfo :=
  fold_right insertByName [] l.

Definition isVisualOf (pageName : string) (f : file) : bool :=
  includes (relativePath f) ("/pages/" ++ pageName ++ "/visuals/")
  && endsWith (relativePath f) "/visual.json".

(** The loop over the visual files: a file that cannot be read or parsed,
    or that holds a falsy value, is passed over. *)
Fixpoint collectVisuals (visualFiles : list file) : result (list visualInfo) :=
  match visualFiles with
  | [] => Ok []
  | f :: r =>
      match content f with
      | inr visualData =>
          if truthy visualData then
            info <- extractVisualInfo (extractVisualName (relativePath f)) visualData ;;
            rest <- collectVisuals r ;;
            Ok (info :: rest)
          else collectVisuals r
      | inl _ => collectVisuals r
      end
  end.

Definition parsePageVisuals (files : list file) (pageName : string)
  : result (list visualInfo) :=
  visuals <- collectVisuals (filter (isVisualOf pageName) files) ;;
  Ok (sortByName visuals).

End Visuals.

(** *** [getVisualPosition] *)

Definition getVisualPosition (visualData : value) : result value :=
  position <- get visualData "position" ;;
  if truthy position then
    x <- get position "x" ;;
    x' <- mathRound (or_else x (num 0)) ;;
    y <- get position "y" ;;
    y' <- mathRound (or_else y (num 0)) ;;
    width <- get position "width" ;;
    width' <- mathRound (or_else width (num 0)) ;;
    height <- get position "height" ;;
    height' <- mathRound (or_else height (num 0)) ;;
    Ok (JObj [ ("x", x'); ("y", y'); ("width", width'); ("height", height') ])
  else Ok JNull.

(** *** [getVisualFields] *)

(** [v.forEach(f)]: only an array has the method. *)
Definition forEach {A : Type} (f : value -> result A) (v : value) : result (list A) :=
  match v with
  | JArr l => mapM f l
  | _ => Throw
  end.

Definition parseFieldFromDataRole (roleName : string) (item : value) : result value :=
  queryRef <- get item "queryRef" ;;
  if truthy queryRef then
    name <- get queryRef "Name" ;;
    measure <- get queryRef "Measure" ;;
    Ok (JObj [ ("role", JStr roleName);
               ("name", or_else name (JStr "Unnamed Field"));
               ("type", JStr (if truthy measure then "measure" else "dimension")) ])
  else Ok JNull.

(** The bindings of one role of the query state, and of one legacy role. *)
Definition projectedFields (roleKey : string) (role : value) : result (list value) :=
  projections <- get role "projections" ;;
  match projections with
  | JArr l =>
      found <- mapM (parseProjectionField roleKey) l ;;
      Ok (filter truthy found)
  | _ => Ok []
  end.

Definition roleValues (roleKey : string) (role : value) : result (list value) :=
  match role with
  | JArr l =>
      found <- mapM (parseFieldFromDataRole roleKey) l ;;
      Ok (filter truthy found)
  | _ => Ok []
  end.

Definition overKeys (f : string -> value -> result (list value)) (v : value)
  : result (list value) :=
  per <- mapM (fun e => f (fst e) (snd e)) (keyed v) ;;
  Ok (List.concat per).

Definition fieldsRecord (bound values : list value) : value :=
  JObj [ ("measures", JArr (filter (typeIs "measure") bound));
         ("dimensions", JArr (filter (fun b => negb (typeIs "measure" b)) bound));
         ("values", JArr values) ].

Definition getVisualFields (visualData : value) : result value :=
  visual <- get visualData "visual" ;;
  if truthy visual then
    query <- get visual "query" ;;
    queryState <- and_get query "queryState" ;;
    fromState <- (if truthy queryState then overKeys projectedFields queryState
                  else Ok []) ;;
    singleVisual <- get visual "singleVisual" ;;
    if truthy singleVisual then
      prototypeQuery <- get singleVisual "prototypeQuery" ;;
      select <- and_get prototypeQuery "Select" ;;
      fromSelect <- (if truthy select
                     then found <- forEach parseFieldFromSelect select ;;
                          Ok (filter truthy found)
                     else Ok []) ;;
      dataRoles <- get singleVisual "dataRoles" ;;
      values <- (if truthy dataRoles then overKeys roleValues dataRoles else Ok []) ;;
      Ok (fieldsRecord (fromState ++ fromSelect)%list values)
    else Ok (fieldsRecord fromState [])
  else Ok (fieldsRecord [] []).

(** *** Filters *)

Definition filterTypeMapping : list (string * string) :=
  [ ("Categorical", "List Filter");
    ("Range", "Range Filter");
    ("Advanced", "Advanced Filter");
    ("TopN", "Top N Filter");
    ("RelativeDate", "Relative Date Filter") ].

Definition getFilterTypeName (type : value) : result value :=
  named <- tableGetV filterTypeMapping type ;;
  Ok (or_else named type).

Definition getFilterFieldName (field : value) : result value :=
  column <- and_get field "Column" ;;
  if truthy column then
    expression <- get column "Expression" ;;
    table <- extractTableName expression ;;
    property <- get column "Property" ;;
    st <- toString table ;;
    sp <- toString property ;;
    Ok (JStr (st ++ "." ++ sp))
  else
    measure <- and_get field "Measure" ;;
    if truthy measure then
      expression <- get measure "Expression" ;;
      table <- extractTableName expression ;;
      property <- get measure "Property" ;;
      st <- toString table ;;
      sp <- toString property ;;
      Ok (JStr (st ++ "." ++ sp))
    else Ok (JStr "Unknown Field").

Definition parseFilter (filter : value) : result value :=
  displayName <- get filter "displayName" ;;
  name <- get filter "name" ;;
  type <- get filter "type" ;;
  typeName <- getFilterTypeName type ;;
  field <- get filter "field" ;;
  fieldName <- getFilterFieldName field ;;
  hidden <- get filter "isHiddenInViewMode" ;;
  locked <- get filter "isLockedInViewMode" ;;
  Ok (JObj [ ("name", or_else displayName (or_else name (JStr "Unnamed Filter")));
             ("type", typeName);
             ("field", fieldName);
             ("isHidden", or_else hidden (JBool false));
             ("isLocked", or_else locked (JBool false)) ]).

(** The filters listed under [filterConfig.filters] of a visual or of a
    page; [getVisualFilters] and [extractPageFilters] are the same code. *)
Definition listedFilters (container : value) : result value :=
  filterConfig <- get container "filterConfig" ;;
  listed <- and_get filterConfig "filters" ;;
  if truthy listed then
    found <- forEach parseFilter listed ;;
    Ok (JArr (List.filter truthy found))
  else Ok (JArr []).

Definition getVisualFilters (visualData : value) : result value :=
  listedFilters visualData.

Definition extractPageFilters (pageData : value) : result value :=
  listedFilters pageData.

End PBIRReportGenerator.

(* ================================================================== *)
(** ** The schema-aware parser *)

Module PBIRParserEnhanced.

(** The tables of [loadSchemaDefinitions] that the methods below consult. *)
Definition aggregationFunctions : list (string * string) :=
  [ ("0", "Sum"); ("1", "Average"); ("2", "DistinctCount"); ("3", "Min");
    ("4", "Max"); ("5", "Count"); ("6", "Median");
    ("7", "StandardDeviation"); ("8", "Variance") ].

Definition comparisonKinds : list (string * string) :=
  [ ("0", "Equal"); ("1", "GreaterThan"); ("2", "GreaterThanOrEqual");
    ("3", "LessThan"); ("4", "LessThanOrEqual") ].

Definition extractLiteralValue (property : value) : result value :=
  if negb (truthy property) then Ok JNull
  else
    literal <- get property "literal" ;;
    if truthy literal then get literal "value"
    else
      solid <- get property "solid" ;;
      if truthy solid then get solid "color"
      else Ok property.

Definition validatePosition (position : value) : result value :=
  if negb (truthy position) then Ok JNull
  else
    x <- get position "x" ;;
    y <- get position "y" ;;
    z <- get position "z" ;;
    height <- get position "height" ;;
    width <- get position "width" ;;
    tabOrder <- get position "tabOrder" ;;
    angle <- get position "angle" ;;
    Ok (JObj [ ("x", or_else x (num 0)); ("y", or_else y (num 0));
               ("z", or_else z (num 0)); ("height", or_else height (num 0));
               ("width", or_else width (num 0)); ("tabOrder", tabOrder);
               ("angle", angle) ]).

Definition extractLayoutEnhanced (visualData : value) : result value :=
  pos <- get visualData "position" ;;
  if truthy pos then
    x <- get pos "x" ;;
    y <- get pos "y" ;;
    width <- get pos "width" ;;
    height <- get pos "height" ;;
    z <- get pos "z" ;;
    tabOrder <- get pos "tabOrder" ;;
    angle <- get pos "angle" ;;
    Ok (JObj [ ("x", or_else x (num 0)); ("y", or_else y (num 0));
               ("width", or_else width (num 0)); ("height", or_else height (num 0));
               ("z", or_else z (num 0)); ("tabOrder", tabOrder); ("angle", angle) ])
  else
    Ok (JObj [ ("x", num 0); ("y", num 0); ("width", num 0); ("height", num 0);
               ("z", num 0); ("tabOrder", JNull); ("angle", JNull) ]).

(** [e?.SourceRef || e?.Source] *)
Definition sourceOf (expression : value) : result value :=
  sourceRef <- getOpt expression "SourceRef" ;;
  if truthy sourceRef then Ok sourceRef else getOpt expression "Source".

Definition parseSelectExpression (select : value) : result value :=
  name <- get select "Name" ;;
  measure <- get select "Measure" ;;
  if truthy measure then
    expression <- get measure "Expression" ;;
    property <- get measure "Property" ;;
    source <- sourceOf expression ;;
    Ok (JObj [ ("type", JStr "measure"); ("name", name);
               ("expression", expression); ("property", property);
               ("source", source) ])
  else
    column <- get select "Column" ;;
    if truthy column then
      expression <- get column "Expression" ;;
      property <- get column "Property" ;;
      source <- sourceOf expression ;;
      Ok (JObj [ ("type", JStr "dimension"); ("name", name);
                 ("expression", expression); ("property", property);
                 ("source", source) ])
    else
      hierarchy <- get select "Hierarchy" ;;
      if truthy hierarchy then
        h <- get hierarchy "Hierarchy" ;;
        expression <- get hierarchy "Expression" ;;
        Ok (JObj [ ("type", JStr "hierarchy"); ("name", name);
                   ("hierarchy", h); ("expression", expression) ])
      else
        aggregation <- get select "Aggregation" ;;
        if truthy aggregation then
          function <- get aggregation "Function" ;;
          named <- tableGetV aggregationFunctions function ;;
          expression <- get aggregation "Expression" ;;
          Ok (JObj [ ("type", JStr "measure"); ("name", name);
                     ("aggregation", or_else named (JStr "Unknown"));
                     ("expression", expression) ])
        else Ok JNull.

(** *** The sets of [loadSchemaDefinitions] *)

Definition visualTypes : list string :=
  [ "columnChart"; "barChart"; "lineChart"; "pieChart"; "donutChart";
    "scatterChart"; "tableEx"; "matrix"; "card"; "multiRowCard";
    "gauge"; "kpi"; "slicer"; "map"; "filledMap"; "treemap";
    "waterfallChart"; "ribbonChart"; "funnel"; "textbox" ].

Definition filterTypes : list string :=
  [ "Categorical"; "Range"; "Advanced"; "Passthrough"; "TopN";
    "Include"; "Exclude"; "RelativeDate"; "Tuple"; "RelativeTime"; "VisualTopN" ].

(** *** Normalisation of the documents *)

Definition validateAndNormalizeReport (reportData : value) : result value :=
  schema <- get reportData "$schema" ;;
  themeCollection <- get reportData "themeCollection" ;;
  filterConfig <- get reportData "filterConfig" ;;
  objects <- get reportData "objects" ;;
  reportSource <- get reportData "reportSource" ;;
  publicCustomVisuals <- get reportData "publicCustomVisuals" ;;
  resourcePackages <- get reportData "resourcePackages" ;;
  organizationCustomVisuals <- get reportData "organizationCustomVisuals" ;;
  annotations <- get reportData "annotations" ;;
  settings <- get reportData "settings" ;;
  slowDataSourceSettings <- get reportData "slowDataSourceSettings" ;;
  Ok (JObj [ ("$schema", schema);
             ("themeCollection", or_else themeCollection (JObj []));
             ("filterConfig", filterConfig);
             ("objects", objects);
             ("reportSource", or_else reportSource (JStr "Default"));
             ("publicCustomVisuals", or_else publicCustomVisuals (JArr []));
             ("resourcePackages", or_else resourcePackages (JArr []));
             ("organizationCustomVisuals", or_else organizationCustomVisuals (JArr []));
             ("annotations", or_else annotations (JArr []));
             ("settings", or_else settings (JObj []));
             ("slowDataSourceSettings", or_else slowDataSourceSettings (JObj [])) ]).

Definition validateVersionMetadata (versionData : value) : result value :=
  version <- get versionData "version" ;;
  minVersion <- get versionData "minVersion" ;;
  lastSavedUtc <- get versionData "lastSavedUtc" ;;
  Ok (JObj [ ("version", version); ("minVersion", minVersion);
             ("lastSavedUtc", lastSavedUtc) ]).

Definition validateAndNormalizePage (pageData : value) : result value :=
  schema <- get pageData "$schema" ;;
  name <- get pageData "name" ;;
  displayName <- get pageData "displayName" ;;
  displayOption <- get pageData "displayOption" ;;
  width <- get pageData "width" ;;
  height <- get pageData "height" ;;
  filterConfig <- get pageData "filterConfig" ;;
  pageBinding <- get pageData "pageBinding" ;;
  objects <- get pageData "objects" ;;
  type <- get pageData "type" ;;
  visibility <- get pageData "visibility" ;;
  visualInteractions <- get pageData "visualInteractions" ;;
  annotations <- get pageData "annotations" ;;
  howCreated <- get pageData "howCreated" ;;
  Ok (JObj [ ("$schema", schema);
             ("name", name);
             ("displayName", displayName);
             ("displayOption", or_else displayOption (JStr "FitToPage"));
             ("width", width);
             ("height", height);
             ("filterConfig", filterConfig);
             ("pageBinding", pageBinding);
             ("objects", objects);
             ("type", type);
             ("visibility", or_else visibility (JStr "AlwaysVisible"));
             ("visualInteractions", or_else visualInteractions (JArr []));
             ("annotations", or_else annotations (JArr []));
             ("howCreated", or_else howCreated (JStr "Default")) ]).

Definition validateVisualContainer (visualData : value) : result value :=
  schema <- get visualData "$schema" ;;
  name <- get visualData "name" ;;
  position <- get visualData "position" ;;
  position' <- validatePosition position ;;
  visual <- get visualData "visual" ;;
  visualGroup <- get visualData "visualGroup" ;;
  parentGroupName <- get visualData "parentGroupName" ;;
  filterConfig <- get visualData "filterConfig" ;;
  isHidden <- get visualData "isHidden" ;;
  annotations <- get visualData "annotations" ;;
  howCreated <- get visualData "howCreated" ;;
  Ok (JObj [ ("$schema", schema);
             ("name", name);
             ("position", position');
             ("visual", visual);
             ("visualGroup", visualGroup);
             ("parentGroupName", parentGroupName);
             ("filterConfig", filterConfig);
             ("isHidden", or_else isHidden (JBool false));
             ("annotations", or_else annotations (JArr []));
             ("howCreated", or_else howCreated (JStr "Default")) ]).

Definition validateBookmark (bookmarkData : value) : result value :=
  name <- get bookmarkData "name" ;;
  displayName <- get bookmarkData "displayName" ;;
  state <- get bookmarkData "state" ;;
  annotations <- get bookmarkData "annotations" ;;
  Ok (JObj [ ("name", name); ("displayName", displayName); ("state", state);
             ("annotations", or_else annotations (JArr [])) ]).

(** *** What is extracted from one visual *)

(** [v.forEach(f)]: only an array has the method. *)
Definition forEach {A : Type} (f : value -> result A) (v : value) : result (list A) :=
  match v with
  | JArr l => mapM f l
  | _ => Throw
  end.

Definition extractVisualPropertiesEnhanced (visualData : value) : result value :=
  name <- get visualData "name" ;;
  isHidden <- get visualData "isHidden" ;;
  howCreated <- get visualData "howCreated" ;;
  visual <- get visualData "visual" ;;
  found <-
    (if truthy visual then
       direct <- get visual "visualType" ;;
       if truthy direct then Ok (direct, JNull)
       else
         singleVisual <- get visual "singleVisual" ;;
         if truthy singleVisual then
           legacy <- get singleVisual "visualType" ;;
           let type := if truthy legacy then legacy else JStr "unknown" in
           objects <- get singleVisual "objects" ;;
           titles <- and_get objects "title" ;;
           if truthy titles then
             titleConfig <- idx titles 0 ;;
             properties <- and_get titleConfig "properties" ;;
             text <- and_get properties "text" ;;
             if truthy text then
               title <- extractLiteralValue text ;;
               Ok (type, title)
             else Ok (type, JNull)
           else Ok (type, JNull)
         else Ok (JStr "unknown", JNull)
     else Ok (JStr "unknown", JNull)) ;;
  Ok (JObj [ ("name", name);
             ("type", if has visualTypes (fst found) then fst found else JStr "unknown");
             ("title", snd found);
             ("isHidden", isHidden);
             ("howCreated", howCreated) ]).

Definition calculation (transform : value) : result value :=
  algorithm <- get transform "Algorithm" ;;
  match algorithm with
  | JStr s =>
      if s =? "VisualCalculation" then
        name <- get transform "Name" ;;
        input <- get transform "Input" ;;
        output <- get transform "Output" ;;
        Ok (JObj [ ("name", name); ("algorithm", algorithm); ("input", input);
                   ("output", output) ])
      else Ok JNull
  | _ => Ok JNull
  end.

Definition extractFieldsEnhanced (visualData : value) : result value :=
  visual <- get visualData "visual" ;;
  singleVisual <- and_get visual "singleVisual" ;;
  if truthy singleVisual then
    dataRoles <- get singleVisual "dataRoles" ;;
    query <- get singleVisual "prototypeQuery" ;;
    selected <- (if truthy query then
                   select <- get query "Select" ;;
                   if truthy select
                   then found <- forEach parseSelectExpression select ;;
                        Ok (filter truthy found)
                   else Ok []
                 else Ok []) ;;
    calculations <- (if truthy query then
                       transform <- get query "Transform" ;;
                       if truthy transform
                       then found <- forEach calculation transform ;;
                            Ok (filter truthy found)
                       else Ok []
                     else Ok []) ;;
    Ok (JObj [ ("dataRoles", if truthy dataRoles then dataRoles else JObj []);
               ("measures", JArr (filter (typeIs "measure") selected));
               ("dimensions", JArr (filter (typeIs "dimension") selected));
               ("hierarchies", JArr (filter (typeIs "hierarchy") selected));
               ("calculations", JArr calculations) ])
  else
    Ok (JObj [ ("dataRoles", JObj []); ("measures", JArr []); ("dimensions", JArr []);
               ("hierarchies", JArr []); ("calculations", JArr []) ]).

(** *** Filters *)

Definition getFieldDescription (field : value) : result string :=
  if negb (truthy field) then Ok "unknown field"
  else
    column <- get field "Column" ;;
    if truthy column then
      expression <- get column "Expression" ;;
      entity <- getOpt expression "Entity" ;;
      se <- toString (or_else entity (JStr "table")) ;;
      property <- get column "Property" ;;
      sp <- toString property ;;
      Ok (se ++ "." ++ sp)
    else
      measure <- get field "Measure" ;;
      if truthy measure then
        expression <- get measure "Expression" ;;
        entity <- getOpt expression "Entity" ;;
        se <- toString (or_else entity (JStr "table")) ;;
        property <- get measure "Property" ;;
        sp <- toString property ;;
        Ok (se ++ "." ++ sp)
      else Ok "field".

Definition describedOn (prefix : string) (filterContainer : value) : result string :=
  field <- get filterContainer "field" ;;
  d <- getFieldDescription field ;;
  Ok (prefix ++ d).

(** The description of a filter of a type that the [switch] does not
    name. *)
Definition describedByType (type filterContainer : value) : result string :=
  st <- toString type ;;
  field <- get filterContainer "field" ;;
  if truthy field then
    d <- getFieldDescription field ;;
    Ok (st ++ " filter" ++ " on " ++ d)
  else Ok (st ++ " filter").

Definition generateFilterDescription (filterContainer : value) : result string :=
  type <- get filterContainer "type" ;;
  match type with
  | JStr s =>
      if s =? "TopN" then describedOn "Top N filter on " filterContainer
      else if s =? "Advanced" then describedOn "Advanced filter on " filterContainer
      else if s =? "Categorical" then describedOn "Categorical filter on " filterContainer
      else if s =? "Range" then describedOn "Range filter on " filterContainer
      else describedByType type filterContainer
  | _ => describedByType type filterContainer
  end.

Definition parseFilterContainer (filterContainer : value) : result value :=
  type <- get filterContainer "type" ;;
  if negb (has filterTypes type) then Ok JNull
  else
    name <- get filterContainer "name" ;;
    displayName <- get filterContainer "displayName" ;;
    ordinal <- get filterContainer "ordinal" ;;
    field <- get filterContainer "field" ;;
    inner <- get filterContainer "filter" ;;
    restatement <- get filterContainer "restatement" ;;
    howCreated <- get filterContainer "howCreated" ;;
    hidden <- get filterContainer "isHiddenInViewMode" ;;
    locked <- get filterContainer "isLockedInViewMode" ;;
    description <- generateFilterDescription filterContainer ;;
    Ok (JObj [ ("type", type); ("name", name); ("displayName", displayName);
               ("ordinal", ordinal); ("field", field); ("filter", inner);
               ("restatement", restatement); ("howCreated", howCreated);
               ("isHiddenInViewMode", hidden); ("isLockedInViewMode", locked);
               ("description", JStr description) ]).

(** [parseConditionExpression] calls itself on the two sides of [And] and of
    [Or]; [fuel] bounds the nesting of these calls. *)
Fixpoint parseConditionExpressionN (fuel : nat) (condition : value) : result value :=
  match fuel with
  | O => Beyond
  | S fuel =>
      if negb (truthy condition) then Ok JNull
      else
        comp <- get condition "Comparison" ;;
        if truthy comp then
          kind <- get comp "ComparisonKind" ;;
          named <- tableGetV comparisonKinds kind ;;
          left <- get comp "Left" ;;
          right <- get comp "Right" ;;
          Ok (JObj [ ("type", JStr "Comparison");
                     ("comparisonKind", or_else named (JStr "Unknown"));
                     ("left", left); ("right", right) ])
        else
          inn <- get condition "In" ;;
          if truthy inn then
            expressions <- get inn "Expressions" ;;
            values <- get inn "Values" ;;
            Ok (JObj [ ("type", JStr "In"); ("expressions", expressions);
                       ("values", values) ])
          else
            between <- get condition "Between" ;;
            if truthy between then
              expression <- get between "Expression" ;;
              lowerBound <- get between "LowerBound" ;;
              upperBound <- get between "UpperBound" ;;
              Ok (JObj [ ("type", JStr "Between"); ("expression", expression);
                         ("lowerBound", lowerBound); ("upperBound", upperBound) ])
            else
              conj <- get condition "And" ;;
              if truthy conj then
                l <- get conj "Left" ;;
                left <- parseConditionExpressionN fuel l ;;
                r <- get conj "Right" ;;
                right <- parseConditionExpressionN fuel r ;;
                Ok (JObj [ ("type", JStr "And"); ("left", left); ("right", right) ])
              else
                disj <- get condition "Or" ;;
                if truthy disj then
                  l <- get disj "Left" ;;
                  left <- parseConditionExpressionN fuel l ;;
                  r <- get disj "Right" ;;
                  right <- parseConditionExpressionN fuel r ;;
                  Ok (JObj [ ("type", JStr "Or"); ("left", left); ("right", right) ])
                else Ok condition
  end.

(** Each nested call goes down the document, so that one more than its
    depth is fuel enough. *)
Definition parseConditionExpression (condition : value) : result value :=
  parseConditionExpressionN (S (depth condition)) condition.

Definition parseQueryFilter (queryFilter : value) : result value :=
  target <- get queryFilter "Target" ;;
  c <- get queryFilter "Condition" ;;
  condition <- parseConditionExpression c ;;
  annotations <- get queryFilter "Annotations" ;;
  Ok (JObj [ ("type", JStr "Query Filter"); ("target", target);
             ("condition", condition); ("annotations", annotations) ]).

Definition extractFiltersEnhanced (visualData : value) : result value :=
  filterConfig <- get visualData "filterConfig" ;;
  configured <- and_get filterConfig "filters" ;;
  fromConfig <- (if truthy configured
                 then found <- forEach parseFilterContainer configured ;;
                      Ok (filter truthy found)
                 else Ok []) ;;
  visual <- get visualData "visual" ;;
  singleVisual <- and_get visual "singleVisual" ;;
  fromQuery <-
    (if truthy singleVisual then
       prototypeQuery <- get singleVisual "prototypeQuery" ;;
       clauses <- and_get prototypeQuery "Where" ;;
       if truthy clauses then forEach parseQueryFilter clauses else Ok []
     else Ok []) ;;
  Ok (JArr (fromConfig ++ fromQuery)%list).

(** *** Formatting *)

Definition processFormattingObject (objectKey : string) (properties : value)
  (formatting : list (string * value)) : result (list (string * value)) :=
  if objectKey =? "background" then
    color <- get properties "color" ;;
    color' <- extractLiteralValue color ;;
    transparency <- get properties "transparency" ;;
    transparency' <- extractLiteralValue transparency ;;
    image <- get properties "image" ;;
    Ok (setProp formatting "background"
          (JObj [ ("color", color'); ("transparency", transparency');
                  ("image", image) ]))
  else if objectKey =? "border" then
    show <- get properties "show" ;;
    show' <- extractLiteralValue show ;;
    color <- get properties "color" ;;
    color' <- extractLiteralValue color ;;
    width <- get properties "width" ;;
    width' <- extractLiteralValue width ;;
    Ok (setProp formatting "border"
          (JObj [ ("show", show'); ("color", color'); ("width", width') ]))
  else if objectKey =? "title" then
    text <- get properties "text" ;;
    text' <- extractLiteralValue text ;;
    fontColor <- get properties "fontColor" ;;
    fontColor' <- extractLiteralValue fontColor ;;
    fontSize <- get properties "fontSize" ;;
    fontSize' <- extractLiteralValue fontSize ;;
    fontFamily <- get properties "fontFamily" ;;
    fontFamily' <- extractLiteralValue fontFamily ;;
    Ok (setProp formatting "title"
          (JObj [ ("text", text'); ("fontColor", fontColor');
                  ("fontSize", fontSize'); ("fontFamily", fontFamily') ]))
  else if objectKey =? "dataColors" then
    fill <- getMethod properties "fill" ;;
    if truthy fill then
      fill' <- extractLiteralValue fill ;;
      match own formatting "colors" with
      | Some (JArr colors) =>
          Ok (setProp formatting "colors" (JArr (colors ++ [fill'])%list))
      | _ => Ok formatting
      end
    else Ok formatting
  else if objectKey =? "general" then
    Ok (setProp formatting "general" properties)
  else Ok formatting.

(** The loop over the elements of one formatting object. *)
Fixpoint formatEach (objectKey : string) (objectArray : list value)
  (formatting : list (string * value)) : result (list (string * value)) :=
  match objectArray with
  | [] => Ok formatting
  | obj :: r =>
      properties <- get obj "properties" ;;
      formatting' <- (if truthy properties
                      then processFormattingObject objectKey properties formatting
                      else Ok formatting) ;;
      formatEach objectKey r formatting'
  end.

Fixpoint formatAll (keys : list (string * value)) (formatting : list (string * value))
  : result (list (string * value)) :=
  match keys with
  | [] => Ok formatting
  | (objectKey, objectArray) :: r =>
      formatting' <- match objectArray with
                     | JArr l => formatEach objectKey l formatting
                     | _ => Ok formatting
                     end ;;
      formatAll r formatting'
  end.

Definition extractFormattingEnhanced (visualData : value) : result value :=
  let formatting :=
    [ ("background", JNull); ("border", JNull); ("font", JNull);
      ("colors", JArr []); ("general", JNull) ] in
  visual <- get visualData "visual" ;;
  singleVisual <- and_get visual "singleVisual" ;;
  objects <- and_get singleVisual "objects" ;;
  if truthy objects then
    formatting' <- formatAll (keyed objects) formatting ;;
    Ok (JObj formatting')
  else Ok (JObj formatting).

(** *** [processVisualDataEnhanced] *)

Definition processVisualDataEnhanced (visualData mobileData : value) : result value :=
  validated <- validateVisualContainer visualData ;;
  properties <- extractVisualPropertiesEnhanced validated ;;
  fields <- extractFieldsEnhanced validated ;;
  filters <- extractFiltersEnhanced validated ;;
  layout <- extractLayoutEnhanced validated ;;
  formatting <- extractFormattingEnhanced validated ;;
  Ok (JObj (setProp (setProp (setProp (setProp (setProp (setProp
         (spread validated)
         "mobile" mobileData) "properties" properties) "fields" fields)
         "filters" filters) "layout" layout) "formatting" formatting)).

End PBIRParserEnhanced.

(* ================================================================== *)
(** ** Maps of the parsers

    A [Map] with string keys, as the list of its entries in insertion order;
    [Map.prototype.set] is [setProp], [Map.prototype.get] is [own]. *)

Definition entries : Type := list (string * value).

(** [files.find(f => f.relativePath.endsWith(relativePath))] and the loop of
    the browser parsers over the file map: the first file that fits. *)
Definition findFile (files : list file) (suffix : string) : option file :=
  find (fun f => endsWith (relativePath f) suffix) files.

(** [files.find(f => f.relativePath === path)] and [fileMap.get(path)]. *)
Definition fileAt (files : list file) (path : string) : option file :=
  find (fun f => relativePath f =? path) files.

(** What [parseJsonFile] returns: the parsed value, or [null] after logging
    the failure. *)
Definition parseJsonFile (f : file) : value :=
  match content f with
  | inr data => data
  | inl _ => JNull
  end.

(** [values.join(sep)]: [null] and [undefined] print as nothing. *)
Fixpoint joinValues (sep : string) (l : list value) : result string :=
  match l with
  | [] => Ok ""
  | [x] => if nullish x then Ok "" else toString x
  | x :: r =>
      sx <- (if nullish x then Ok "" else toString x) ;;
      sr <- joinValues sep r ;;
      Ok (sx ++ sep ++ sr)
  end.

(** [v.map(f)]: only an array has the method. *)
Definition mapArray (f : value -> result value) (v : value) : result (list value) :=
  match v with
  | JArr l => mapM f l
  | _ => Throw
  end.

(** A [Map] with string keys whose values are not values of the language. *)
Fixpoint entryOf {A : Type} (l : list (string * A)) (k : string) : option A :=
  match l with
  | [] => None
  | (k', a) :: r => if k' =? k then Some a else entryOf r k
  end.

Fixpoint setEntry {A : Type} (l : list (string * A)) (k : string) (a : A)
  : list (string * A) :=
  match l with
  | [] => [(k, a)]
  | (k', a') :: r => if k' =? k then (k', a) :: r else (k', a') :: setEntry r k a
  end.

(** [getVisualTypesSummary], which the three parsers share word for word:
    the number of entries of [this.visuals] per [properties.type].  The
    counting [Map] is keyed by the type; a type that is not a string (a key
    compared by identity or by numeric value) is left out.  The result is
    [Object.fromEntries] of the counts. *)
Fixpoint countTypes (visuals : entries) (types : list (string * Z))
  : result (list (string * Z)) :=
  match visuals with
  | [] => Ok types
  | (_, visual) :: r =>
      properties <- get visual "properties" ;;
      declared <- getOpt properties "type" ;;
      match or_else declared (JStr "unknown") with
      | JStr type =>
          let seen := match entryOf types type with
                      | Some n => n
                      | None => 0%Z
                      end in
          countTypes r (setEntry types type (seen + 1)%Z)
      | _ => Beyond
      end
  end.

Definition typesSummary (visuals : entries) : result value :=
  types <- countTypes visuals [] ;;
  Ok (JObj (map (fun e => (fst e, num (snd e))) types)).

(* ================================================================== *)
(** ** The basic parser *)

Module PBIRParser.

Record state : Type := mkState {
  reportData : value;
  pages : entries;
  visuals : entries;
  bookmarks : entries
}.

Definition initial : state := mkState JNull [] [] [].

(** *** Aggregations and filter rendering *)

Definition functions : list (string * string) :=
  [ ("0", "Sum"); ("1", "Average"); ("2", "Min"); ("3", "Max");
    ("4", "Count"); ("5", "CountDistinct") ].

Definition getAggregationFunction (funcId : value) : result value :=
  named <- tableGetV functions funcId ;;
  Ok (or_else named (JStr "Unknown")).

Definition formatExpression (expression : value) : result value :=
  match expression with
  | JStr _ => Ok expression
  | _ =>
      column <- and_get expression "Column" ;;
      if truthy column then
        e <- get column "Expression" ;;
        se <- toString e ;;
        p <- get column "Property" ;;
        sp <- toString p ;;
        Ok (JStr (se ++ "." ++ sp))
      else
        aggregation <- and_get expression "Aggregation" ;;
        if truthy aggregation then
          e <- get aggregation "Expression" ;;
          se <- toString e ;;
          f <- get aggregation "Function" ;;
          sf <- toString f ;;
          Ok (JStr (se ++ " (" ++ sf ++ ")"))
        else
          literal <- and_get expression "Literal" ;;
          if truthy literal then get literal "Value"
          else stringify expression
  end.

(** [formatFilterObject] calls itself on the members of [And] and [Or] and on
    [Not]; [fuel] bounds the nesting of these calls. *)
Fixpoint formatFilterObjectN (fuel : nat) (filterObj : value) : result value :=
  match fuel with
  | O => Beyond
  | S fuel =>
      inn <- get filterObj "In" ;;
      expressions <- and_get inn "Expressions" ;;
      if truthy expressions then
        values <- mapArray formatExpression expressions ;;
        joined <- joinValues ", " values ;;
        Ok (JStr ("IN (" ++ joined ++ ")"))
      else
        between <- get filterObj "Between" ;;
        if truthy between then
          lower <- get between "LowerBound" ;;
          l <- formatExpression lower ;;
          sl <- toString l ;;
          upper <- get between "UpperBound" ;;
          u <- formatExpression upper ;;
          su <- toString u ;;
          Ok (JStr ("BETWEEN " ++ sl ++ " AND " ++ su))
        else
          conj <- get filterObj "And" ;;
          if truthy conj then
            conditions <- mapArray (formatFilterObjectN fuel) conj ;;
            joined <- joinValues " AND " conditions ;;
            Ok (JStr ("(" ++ joined ++ ")"))
          else
            disj <- get filterObj "Or" ;;
            if truthy disj then
              conditions <- mapArray (formatFilterObjectN fuel) disj ;;
              joined <- joinValues " OR " conditions ;;
              Ok (JStr ("(" ++ joined ++ ")"))
            else
              neg <- get filterObj "Not" ;;
              if truthy neg then
                inner <- formatFilterObjectN fuel neg ;;
                si <- toString inner ;;
                Ok (JStr ("NOT (" ++ si ++ ")"))
              else
                comparison <- get filterObj "Comparison" ;;
                if truthy comparison then
                  kind <- get comparison "ComparisonKind" ;;
                  sk <- toString kind ;;
                  right <- get comparison "Right" ;;
                  r <- formatExpression right ;;
                  sr <- toString r ;;
                  Ok (JStr (sk ++ " " ++ sr))
                else stringify filterObj
  end.

(** Each nested call goes one level down the document, so that one more
    than its depth is fuel enough. *)
Definition formatFilterObject (filterObj : value) : result value :=
  formatFilterObjectN (S (depth filterObj)) filterObj.

(** *** The report record *)

(** [{ ...reportData, key: data }] *)
Definition withField (reportData : value) (key : string) (data : value) : value :=
  JObj (setProp (spread reportData) key data).

Definition parseReportStructure (fileMap : list file) (st : state) : state :=
  let st1 :=
    match findFile fileMap "definition/report.json" with
    | Some reportFile =>
        mkState (parseJsonFile reportFile) (pages st) (visuals st) (bookmarks st)
    | None => st
    end in
  let st2 :=
    match findFile fileMap "definition/version.json" with
    | Some versionFile =>
        mkState (withField (reportData st1) "version" (parseJsonFile versionFile))
                (pages st1) (visuals st1) (bookmarks st1)
    | None => st1
    end in
  match findFile fileMap "definition/reportExtensions.json" with
  | Some extensionsFile =>
      mkState (withField (reportData st2) "extensions" (parseJsonFile extensionsFile))
              (pages st2) (visuals st2) (bookmarks st2)
  | None => st2
  end.

(** *** Identifiers *)

Definition extractPageName (path : string) : string :=
  orUnknown (matchSegment "/pages/" "/page.json" path).

Definition extractVisualName (path : string) : string :=
  orUnknown (matchSegment "/visuals/" "/visual.json" path).

Definition extractBookmarkName (path : string) : string :=
  orUnknown (matchSegment "/" ".bookmark.json" path).

(** *** Pages and visuals *)

Section Pages.

(** [processVisualData], the extraction of the properties, fields, filters,
    layout and formatting of one visual; the identity of the entries does
    not depend on what it extracts. *)
Variable processVisualData : value -> value -> result value.

Definition isVisualOf (pageName : string) (f : file) : bool :=
  includes (relativePath f) ("/pages/" ++ pageName ++ "/visuals/")
  && endsWith (relativePath f) "/visual.json".

Definition isPage (f : file) : bool :=
  includes (relativePath f) "/pages/" && endsWith (relativePath f) "/page.json".

Definition mobileOf (fileMap : list file) (f : file) : value :=
  match fileAt fileMap (replaceFirst (relativePath f) "/visual.json" "/mobile.json") with
  | Some mobileFile => parseJsonFile mobileFile
  | None => JNull
  end.

(** The loop of [parsePageVisuals]: [local] is the map of the page, [global]
    is [this.visuals]. *)
Fixpoint visualsLoop (fileMap : list file) (pageName : string) (todo : list file)
  (local global : entries) : result (entries * entries) :=
  match todo with
  | [] => Ok (local, global)
  | f :: r =>
      if isVisualOf pageName f then
        let visualName := extractVisualName (relativePath f) in
        processedVisual <- processVisualData (parseJsonFile f) (mobileOf fileMap f) ;;
        visualsLoop fileMap pageName r
          (setProp local visualName processedVisual)
          (setProp global (pageName ++ ":" ++ visualName)
             (JObj (setProp (setProp (spread processedVisual)
                                "pageName" (JStr pageName))
                       "visualName" (JStr visualName))))
      else visualsLoop fileMap pageName r local global
  end.

(** Returns [Object.fromEntries(visuals)] and the new [this.visuals]. *)
Definition parsePageVisuals (fileMap : list file) (pageName : string)
  (global : entries) : result (value * entries) :=
  r <- visualsLoop fileMap pageName fileMap [] global ;;
  Ok (JObj (fst r), snd r).

Fixpoint pagesLoop (fileMap : list file) (todo : list file) (st : state)
  : result state :=
  match todo with
  | [] => Ok st
  | f :: r =>
      if isPage f then
        let pageName := extractPageName (relativePath f) in
        let pageData := parseJsonFile f in
        pv <- parsePageVisuals fileMap pageName (visuals st) ;;
        pagesLoop fileMap r
          (mkState (reportData st)
             (setProp (pages st) pageName
                (JObj (setProp (setProp (spread pageData) "name" (JStr pageName))
                         "visuals" (fst pv))))
             (snd pv) (bookmarks st))
      else pagesLoop fileMap r st
  end.

Definition parsePages (fileMap : list file) (st : state) : result state :=
  pagesList <-
    match findFile fileMap "definition/pages/pages.json" with
    | Some pagesFile =>
        listed <- get (parseJsonFile pagesFile) "pages" ;;
        Ok (or_else listed (JArr []))
    | None => Ok (JArr [])
    end ;;
  pagesLoop fileMap fileMap st.

(** [this.visuals] and [this.pages] after [parsePages]. *)
Definition isBookmark (f : file) : bool :=
  includes (relativePath f) "/bookmarks/" && endsWith (relativePath f) ".bookmark.json".

Fixpoint bookmarksLoop (todo : list file) (bookmarks : entries) : entries :=
  match todo with
  | [] => bookmarks
  | f :: r =>
      if isBookmark f
      then bookmarksLoop r
             (setProp bookmarks (extractBookmarkName (relativePath f)) (parseJsonFile f))
      else bookmarksLoop r bookmarks
  end.

Definition parseBookmarks (fileMap : list file) (st : state) : state :=
  match findFile fileMap "definition/bookmarks/bookmarks.json" with
  | Some _ =>
      mkState (reportData st) (pages st) (visuals st)
              (bookmarksLoop fileMap (bookmarks st))
  | None => st
  end.

(** [fileMap.set(file.webkitRelativePath, file)] for every file: a path
    keeps the place of its first file and the content of its last. *)
Fixpoint setFile (fileMap : list file) (f : file) : list file :=
  match fileMap with
  | [] => [f]
  | g :: r => if relativePath g =? relativePath f then f :: r else g :: setFile r f
  end.

Definition toFileMap (files : list file) : list file :=
  fold_left setFile files [].

Definition parseFiles (files : list file) : result state :=
  let fileMap := toFileMap files in
  st <- parsePages fileMap (parseReportStructure fileMap initial) ;;
  Ok (parseBookmarks fileMap st).

End Pages.

(** *** What is extracted from one visual *)

Definition extractVisualProperties (visualData : value) : result value :=
  visual <- get visualData "visual" ;;
  p2 <-
    (if truthy visual then
       direct <- get visual "visualType" ;;
       p1 <-
         (if truthy direct then Ok [("type", direct)]
          else
            singleVisual <- get visual "singleVisual" ;;
            legacy <- and_get singleVisual "visualType" ;;
            if truthy legacy then Ok [("type", legacy)]
            else
              objects <- and_get singleVisual "objects" ;;
              general <- and_get objects "general" ;;
              if truthy general then
                g0 <- idx general 0 ;;
                properties <- and_get g0 "properties" ;;
                visualType <- and_get properties "visualType" ;;
                if truthy visualType then
                  literal <- get visualType "literal" ;;
                  v <- get literal "value" ;;
                  Ok [("type", v)]
                else Ok []
              else Ok []) ;;
       singleVisual <- get visual "singleVisual" ;;
       objects <- and_get singleVisual "objects" ;;
       titleObj <- and_get objects "title" ;;
       if truthy titleObj then
         t0 <- idx titleObj 0 ;;
         properties <- and_get t0 "properties" ;;
         text <- and_get properties "text" ;;
         if truthy text then
           literal <- get text "literal" ;;
           title <- get literal "value" ;;
           Ok (setProp p1 "title" title)
         else Ok p1
       else Ok p1
     else Ok []) ;;
  name <- get visualData "name" ;;
  let p3 := if truthy name then setProp p2 "name" name else p2 in
  Ok (JObj (if truthy (ownOr p3 "type") then p3
            else setProp p3 "type" (JStr "unknown"))).

(** [root !== undefined ? root : positioned] *)
Definition unlessUndefined (root positioned : value) : value :=
  match root with
  | JUndefined => positioned
  | _ => root
  end.

Definition extractLayout (visualData : value) : result value :=
  position <- get visualData "position" ;;
  positioned <-
    (if truthy position then
       x <- get position "x" ;;
       y <- get position "y" ;;
       width <- get position "width" ;;
       height <- get position "height" ;;
       z <- get position "z" ;;
       Ok [ or_else x (num 0); or_else y (num 0); or_else width (num 0);
            or_else height (num 0); or_else z (num 0) ]
     else Ok [ num 0; num 0; num 0; num 0; num 0 ]) ;;
  x <- get visualData "x" ;;
  y <- get visualData "y" ;;
  width <- get visualData "width" ;;
  height <- get visualData "height" ;;
  z <- get visualData "z" ;;
  Ok (JObj [ ("x", unlessUndefined x (nth 0 positioned JUndefined));
             ("y", unlessUndefined y (nth 1 positioned JUndefined));
             ("width", unlessUndefined width (nth 2 positioned JUndefined));
             ("height", unlessUndefined height (nth 3 positioned JUndefined));
             ("zIndex", unlessUndefined z (nth 4 positioned JUndefined)) ]).

(** *** Filters of the basic parser *)

Definition extractFieldName (field : value) : result value :=
  column <- and_get field "Column" ;;
  property <- and_get column "Property" ;;
  if truthy property then Ok property
  else
    aggregation <- and_get field "Aggregation" ;;
    expression <- and_get aggregation "Expression" ;;
    aggregated <- and_get expression "Column" ;;
    if truthy aggregated then
      function <- get aggregation "Function" ;;
      aggFunction <- getAggregationFunction function ;;
      sa <- toString aggFunction ;;
      p <- get aggregated "Property" ;;
      sp <- toString p ;;
      Ok (JStr (sa ++ "(" ++ sp ++ ")"))
    else
      match field with
      | JStr _ => Ok field
      | _ => Ok (JStr "Unknown Field")
      end.

(** The reading is wrapped in [try]/[catch]: whatever is thrown gives ['N']. *)
Definition extractTopNValue (filterObj : value) : result value :=
  match (from <- and_get filterObj "From" ;;
         f0 <- and_idx from 0 ;;
         expression <- and_get f0 "Expression" ;;
         subquery <- and_get expression "Subquery" ;;
         query <- and_get subquery "Query" ;;
         and_get query "Top") with
  | Ok top => Ok (if truthy top then top else JStr "N")
  | Throw => Ok (JStr "N")
  | Beyond => Beyond
  end.

(** The record of a [TopN] or [BottomN] filter; [lower] is what
    [filter.type.toLowerCase()] gives for [kind]. *)
Definition topFilter (kind lower : string) (filter : value) : result value :=
  f <- get filter "field" ;;
  field <- extractFieldName f ;;
  inner <- get filter "filter" ;;
  topValue <- extractTopNValue inner ;;
  sv <- toString topValue ;;
  sf <- toString field ;;
  Ok (JObj [ ("type", JStr (kind ++ " Filter"));
             ("description", JStr (kind ++ " " ++ sv));
             ("field", field);
             ("expression", JStr ("Show " ++ lower ++ " " ++ sv ++ " by " ++ sf)) ]).

Definition namedFilter (kind : string) (filter : value) : result value :=
  f <- get filter "field" ;;
  field <- extractFieldName f ;;
  sf <- toString field ;;
  Ok (JObj [ ("type", JStr (kind ++ " Filter"));
             ("field", field);
             ("description", JStr (kind ++ " filter on " ++ sf));
             ("expression", JStr (kind ++ " filtering applied to " ++ sf)) ]).

(** A filter of another type: an expression filter when it has an
    expression, and else an unknown one. *)
Definition otherFilter (filter : value) : result value :=
  expression <- get filter "expression" ;;
  if truthy expression then
    inner <- get filter "filter" ;;
    if truthy inner then
      e <- formatExpression expression ;;
      i <- formatFilterObject inner ;;
      Ok (JObj [ ("type", JStr "Expression Filter"); ("expression", e);
                 ("filter", i); ("raw", filter) ])
    else
      e <- formatExpression expression ;;
      Ok (JObj [ ("type", JStr "Expression Filter"); ("expression", e);
                 ("raw", filter) ])
  else
    d <- stringifyIndented filter ;;
    Ok (JObj [ ("type", JStr "Unknown Filter"); ("description", d);
               ("raw", filter) ]).

Definition parseFilterExpression (filter : value) : result value :=
  type <- get filter "type" ;;
  match type with
  | JStr s =>
      if s =? "TopN" then topFilter "TopN" "topn" filter
      else if s =? "BottomN" then topFilter "BottomN" "bottomn" filter
      else if s =? "Advanced" then namedFilter "Advanced" filter
      else if s =? "Basic" then namedFilter "Basic" filter
      else otherFilter filter
  | _ => otherFilter filter
  end.

(** [formatFilterConfig]; a configuration that is a string is split and
    handed to [JSON.parse], which is left out. *)
Definition formatFilterConfig (config : value) : result value :=
  listed <- get config "filters" ;;
  match listed with
  | JArr l =>
      parsed <- mapM parseFilterExpression l ;;
      joined <- joinValues "; " parsed ;;
      Ok (JStr joined)
  | _ =>
      expression <- get config "expression" ;;
      if truthy expression then formatExpression expression
      else match config with
           | JStr _ => Beyond
           | _ => stringify config
           end
  end.

Definition parseFilterConfig (filterConfig : value) : result value :=
  formatted <- formatFilterConfig filterConfig ;;
  match formatted with
  | JArr _ => Ok formatted
  | _ => Ok (JObj [ ("type", JStr "Visual Filter Config");
                    ("description", formatted); ("raw", filterConfig) ])
  end.

(** *** Queries on the parsed report *)

Definition getVisualTypesSummary (st : state) : result value :=
  typesSummary (visuals st).

Definition getPageVisuals (st : state) (pageName : string) : result value :=
  match own (pages st) pageName with
  | Some page => if truthy page then get page "visuals" else Ok (JObj [])
  | None => Ok (JObj [])
  end.

Definition getVisualDetails (st : state) (pageName visualName : string) : value :=
  ownOr (visuals st) (pageName ++ ":" ++ visualName).

End PBIRParser.

(* ================================================================== *)
(** ** The command-line parser *)

Module EnhancedPBIRParser.

Record state : Type := mkState {
  reportData : value;
  pages : entries;
  visuals : entries;
  bookmarks : entries;
  parseErrors : list string;
  parseWarnings : list string
}.

Definition initial : state := mkState JNull [] [] [] [] [].

Definition setReport (st : state) (v : value) : state :=
  mkState v (pages st) (visuals st) (bookmarks st) (parseErrors st) (parseWarnings st).

Definition warn (st : state) (w : string) : state :=
  mkState (reportData st) (pages st) (visuals st) (bookmarks st)
          (parseErrors st) (parseWarnings st ++ [w])%list.

Definition fail (st : state) (e : string) : state :=
  mkState (reportData st) (pages st) (visuals st) (bookmarks st)
          (parseErrors st ++ [e])%list (parseWarnings st).

(** *** What is extracted from one visual *)

(** [v.forEach(f)]: only an array has the method. *)
Definition forEach {A : Type} (f : value -> result A) (v : value) : result (list A) :=
  match v with
  | JArr l => mapM f l
  | _ => Throw
  end.

Fixpoint somes {A : Type} (l : list (option A)) : list A :=
  match l with
  | [] => []
  | Some a :: r => a :: somes r
  | None :: r => somes r
  end.

Definition extractVisualProperties (visualData : value) : result value :=
  visual <- get visualData "visual" ;;
  direct <- and_get visual "visualType" ;;
  let p1 := if truthy direct then [("type", direct)] else [] in
  name <- get visualData "name" ;;
  let p2 := if truthy name then setProp p1 "name" name else p1 in
  singleVisual <- and_get visual "singleVisual" ;;
  p4 <-
    (if truthy singleVisual then
       legacy <- get singleVisual "visualType" ;;
       let p3 := if truthy legacy then setProp p2 "type" legacy else p2 in
       objects <- get singleVisual "objects" ;;
       titleObj <- and_get objects "title" ;;
       if truthy titleObj then
         t0 <- idx titleObj 0 ;;
         properties <- and_get t0 "properties" ;;
         text <- and_get properties "text" ;;
         if truthy text then
           literal <- get text "literal" ;;
           title <- getOpt literal "value" ;;
           Ok (setProp p3 "title" title)
         else Ok p3
       else Ok p3
     else Ok p2) ;;
  Ok (JObj (if truthy (ownOr p4 "type") then p4
            else setProp p4 "type" (JStr "unknown"))).

Definition selectedField (select : value) : result (option (bool * value)) :=
  measure <- get select "Measure" ;;
  if truthy measure then
    name <- get select "Name" ;;
    expression <- get measure "Expression" ;;
    property <- get measure "Property" ;;
    Ok (Some (true, JObj [ ("name", name); ("expression", expression);
                           ("property", property) ]))
  else
    column <- get select "Column" ;;
    if truthy column then
      name <- get select "Name" ;;
      expression <- get column "Expression" ;;
      property <- get column "Property" ;;
      Ok (Some (false, JObj [ ("name", name); ("expression", expression);
                              ("property", property) ]))
    else Ok None.

Definition extractFields (visualData : value) : result value :=
  visual <- get visualData "visual" ;;
  singleVisual <- and_get visual "singleVisual" ;;
  if truthy singleVisual then
    dataRoles <- get singleVisual "dataRoles" ;;
    prototypeQuery <- get singleVisual "prototypeQuery" ;;
    select <- and_get prototypeQuery "Select" ;;
    found <- (if truthy select then forEach selectedField select else Ok []) ;;
    Ok (JObj [ ("dataRoles", if truthy dataRoles then dataRoles else JObj []);
               ("measures",
                JArr (map snd (filter (fun x => fst x) (somes found))));
               ("dimensions",
                JArr (map snd (filter (fun x => negb (fst x)) (somes found)))) ])
  else
    Ok (JObj [ ("dataRoles", JObj []); ("measures", JArr []); ("dimensions", JArr []) ]).

Definition parseFilterFromSchema (filter : value) : result value :=
  type <- get filter "type" ;;
  name <- get filter "name" ;;
  displayName <- get filter "displayName" ;;
  field <- get filter "field" ;;
  inner <- getMethod filter "filter" ;;
  restatement <- get filter "restatement" ;;
  howCreated <- get filter "howCreated" ;;
  hidden <- get filter "isHiddenInViewMode" ;;
  locked <- get filter "isLockedInViewMode" ;;
  Ok (JObj [ ("type", or_else type (JStr "Unknown")); ("name", name);
             ("displayName", displayName); ("field", field); ("filter", inner);
             ("restatement", restatement); ("howCreated", howCreated);
             ("isHiddenInViewMode", hidden); ("isLockedInViewMode", locked) ]).

Definition queryFilter (clause : value) : result value :=
  condition <- get clause "Condition" ;;
  target <- get clause "Target" ;;
  Ok (JObj [ ("type", JStr "Query Filter"); ("condition", condition);
             ("target", target); ("raw", clause) ]).

Definition extractFilters (visualData : value) : result value :=
  filterConfig <- get visualData "filterConfig" ;;
  configured <- and_get filterConfig "filters" ;;
  fromConfig <- (if truthy configured then forEach parseFilterFromSchema configured
                 else Ok []) ;;
  visual <- get visualData "visual" ;;
  singleVisual <- and_get visual "singleVisual" ;;
  fromQuery <-
    (if truthy singleVisual then
       prototypeQuery <- get singleVisual "prototypeQuery" ;;
       clauses <- and_get prototypeQuery "Where" ;;
       if truthy clauses then forEach queryFilter clauses else Ok []
     else Ok []) ;;
  Ok (JArr (fromConfig ++ fromQuery)%list).

Definition extractLayout (visualData : value) : result value :=
  position <- get visualData "position" ;;
  if truthy position then
    x <- get position "x" ;;
    y <- get position "y" ;;
    width <- get position "width" ;;
    height <- get position "height" ;;
    z <- get position "z" ;;
    tabOrder <- get position "tabOrder" ;;
    Ok (JObj [ ("x", or_else x (num 0)); ("y", or_else y (num 0));
               ("width", or_else width (num 0)); ("height", or_else height (num 0));
               ("z", or_else z (num 0)); ("tabOrder", or_else tabOrder (num 0)) ])
  else
    Ok (JObj [ ("x", num 0); ("y", num 0); ("width", num 0); ("height", num 0);
               ("z", num 0); ("tabOrder", num 0) ]).

(** [objects.k[0]?.properties] *)
Definition firstProperties (group : value) : result value :=
  first <- idx group 0 ;;
  getOpt first "properties".

Definition fillOf (colorObj : value) : result (option value) :=
  properties <- get colorObj "properties" ;;
  fill <- (if truthy properties then getMethod properties "fill" else Ok properties) ;;
  Ok (if truthy fill then Some fill else None).

Definition extractFormatting (visualData : value) : result value :=
  visual <- get visualData "visual" ;;
  singleVisual <- and_get visual "singleVisual" ;;
  objects <- and_get singleVisual "objects" ;;
  if truthy objects then
    bg <- get objects "background" ;;
    background <- (if truthy bg then firstProperties bg else Ok JNull) ;;
    bd <- get objects "border" ;;
    border <- (if truthy bd then firstProperties bd else Ok JNull) ;;
    dataColors <- get objects "dataColors" ;;
    fills <- (if truthy dataColors then forEach fillOf dataColors else Ok []) ;;
    Ok (JObj [ ("background", background); ("border", border); ("font", JNull);
               ("colors", JArr (somes fills)) ])
  else
    Ok (JObj [ ("background", JNull); ("border", JNull); ("font", JNull);
               ("colors", JArr []) ]).

Definition processVisualData (visualData mobileData : value) : result value :=
  properties <- extractVisualProperties visualData ;;
  fields <- extractFields visualData ;;
  filters <- extractFilters visualData ;;
  layout <- extractLayout visualData ;;
  formatting <- extractFormatting visualData ;;
  Ok (JObj (setProp (setProp (setProp (setProp (setProp (setProp
         (spread visualData)
         "mobile" mobileData) "properties" properties) "fields" fields)
         "filters" filters) "layout" layout) "formatting" formatting)).

(** *** Identifiers *)

Definition extractPageName (path : string) : string :=
  orUnknown (matchSegment "/pages/" "/page.json" path).

Definition extractVisualName (path : string) : string :=
  orUnknown (matchSegment "/visuals/" "/visual.json" path).

Definition extractBookmarkName (path : string) : string :=
  orUnknown (matchSegment "/" ".bookmark.json" path).

(** *** Reading the directory *)

Section Directory.

(** [this.validator.validate(data, schemaName)]: [inl message] when the
    validator throws, else whether the document is valid and the errors
    found. *)
Variable validate : value -> string -> string + (bool * list string).

(** Everything thrown inside is caught and recorded as a parse error. *)
Definition parseJsonFileWithValidation (f : file) (schemaName : string) (st : state)
  : value * state :=
  match content f with
  | inl message =>
      (JNull, fail st ("Error parsing " ++ relativePath f ++ ": " ++ message))
  | inr data =>
      if schemaName =? "" then (data, st)
      else
        match validate data schemaName with
        | inl message =>
            (JNull, fail st ("Error parsing " ++ relativePath f ++ ": " ++ message))
        | inr (valid, errors) =>
            if (valid : bool) then (data, st)
            else (data,
                  warn st ("Schema validation failed for " ++ relativePath f
                           ++ " (" ++ schemaName ++ "): " ++ join ", " errors))
        end
  end.

(** [{ ...reportData, key: data }] *)
Definition withField (reportData : value) (key : string) (data : value) : value :=
  JObj (setProp (spread reportData) key data).

(** Merging an optional document under [key], when there is a report and
    the document was read. *)
Definition mergeOptional (files : list file) (path schemaName key : string)
  (st : state) : state :=
  match findFile files path with
  | Some optionalFile =>
      let '(data, st') := parseJsonFileWithValidation optionalFile schemaName st in
      if truthy (reportData st') && truthy data
      then setReport st' (withField (reportData st') key data)
      else st'
  | None => st
  end.

Definition parseReportStructure (files : list file) (st : state) : state :=
  let st1 :=
    match findFile files "definition/report.json" with
    | Some reportFile =>
        let '(data, st') := parseJsonFileWithValidation reportFile "report" st in
        setReport st' data
    | None => warn st "No main report.json found"
    end in
  let st2 := mergeOptional files "definition/version.json" "versionMetadata" "version" st1 in
  mergeOptional files "definition/reportExtensions.json" "reportExtension" "extensions" st2.

Definition isVisualOf (pageName : string) (f : file) : bool :=
  includes (relativePath f) ("/pages/" ++ pageName ++ "/visuals/")
  && endsWith (relativePath f) "/visual.json".

Definition isPage (f : file) : bool :=
  includes (relativePath f) "/pages/" && endsWith (relativePath f) "/page.json".

Definition isBookmark (f : file) : bool :=
  includes (relativePath f) "/bookmarks/" && endsWith (relativePath f) ".bookmark.json".

Definition setVisuals (st : state) (vs : entries) : state :=
  mkState (reportData st) (pages st) vs (bookmarks st) (parseErrors st) (parseWarnings st).

Definition setPages (st : state) (ps : entries) : state :=
  mkState (reportData st) ps (visuals st) (bookmarks st) (parseErrors st) (parseWarnings st).

Definition setBookmarks (st : state) (bs : entries) : state :=
  mkState (reportData st) (pages st) (visuals st) bs (parseErrors st) (parseWarnings st).

(** The loop of [parsePageVisuals] over the visual files of the page;
    [local] is the map of the page. *)
Fixpoint visualsLoop (files : list file) (pageName : string) (visualFiles : list file)
  (local : entries) (st : state) : result (entries * state) :=
  match visualFiles with
  | [] => Ok (local, st)
  | visualFile :: r =>
      let visualName := extractVisualName (relativePath visualFile) in
      let '(visualData, st1) :=
        parseJsonFileWithValidation visualFile "visualContainer" st in
      if truthy visualData then
        let '(mobileData, st2) :=
          match fileAt files (replaceFirst (relativePath visualFile)
                                "/visual.json" "/mobile.json") with
          | Some mobileFile =>
              parseJsonFileWithValidation mobileFile "visualContainerMobileState" st1
          | None => (JNull, st1)
          end in
        processedVisual <- processVisualData visualData mobileData ;;
        visualsLoop files pageName r
          (setProp local visualName processedVisual)
          (setVisuals st2
             (setProp (visuals st2) (pageName ++ ":" ++ visualName)
                (JObj (setProp (setProp (spread processedVisual)
                                   "pageName" (JStr pageName))
                          "visualName" (JStr visualName)))))
      else visualsLoop files pageName r local st1
  end.

Definition parsePageVisuals (files : list file) (pageName : string) (st : state)
  : result (value * state) :=
  r <- visualsLoop files pageName (filter (isVisualOf pageName) files) [] st ;;
  Ok (JObj (fst r), snd r).

Fixpoint pagesLoop (files : list file) (pageFiles : list file) (st : state)
  : result state :=
  match pageFiles with
  | [] => Ok st
  | pageFile :: r =>
      let pageName := extractPageName (relativePath pageFile) in
      let '(pageData, st1) := parseJsonFileWithValidation pageFile "page" st in
      if truthy pageData then
        pv <- parsePageVisuals files pageName st1 ;;
        pagesLoop files r
          (setPages (snd pv)
             (setProp (pages (snd pv)) pageName
                (JObj (setProp (setProp (spread pageData) "name" (JStr pageName))
                         "visuals" (fst pv)))))
      else pagesLoop files r st1
  end.

Definition parsePages (files : list file) (st : state) : result state :=
  let st1 :=
    match findFile files "definition/pages/pages.json" with
    | Some pagesFile => snd (parseJsonFileWithValidation pagesFile "pagesMetadata" st)
    | None => st
    end in
  pagesLoop files (filter isPage files) st1.

Fixpoint bookmarksLoop (bookmarkFiles : list file) (st : state) : state :=
  match bookmarkFiles with
  | [] => st
  | bookmarkFile :: r =>
      let '(bookmarkData, st1) :=
        parseJsonFileWithValidation bookmarkFile "bookmark" st in
      if truthy bookmarkData
      then bookmarksLoop r
             (setBookmarks st1
                (setProp (bookmarks st1)
                   (extractBookmarkName (relativePath bookmarkFile)) bookmarkData))
      else bookmarksLoop r st1
  end.

Definition parseBookmarks (files : list file) (st : state) : state :=
  match findFile files "definition/bookmarks/bookmarks.json" with
  | Some bookmarksFile =>
      let st1 := snd (parseJsonFileWithValidation bookmarksFile "bookmarksMetadata" st) in
      bookmarksLoop (filter isBookmark files) st1
  | None => st
  end.

(** [parseDirectory] on the files that [collectFiles] found; the record
    returned holds the fields of the final state. *)
Definition parseDirectory (files : list file) : result state :=
  st <- parsePages files (parseReportStructure files initial) ;;
  Ok (parseBookmarks files st).

End Directory.

(** *** Queries on the parsed report *)

Definition getVisualTypesSummary (st : state) : result value :=
  typesSummary (visuals st).


End EnhancedPBIRParser.

(* ================================================================== *)
(** ** The schema validator of the command-line parser *)

Module SchemaValidator.

(** [file.replace('_schema.json', '').replace('.json', '')] *)
Definition schemaName (file : string) : string :=
  replaceFirst (replaceFirst file "_schema.json" "") ".json" "".

(** [loadSchemas] on the files of the schema directory, each with its name
    and what reading and parsing it gives: a schema that cannot be read is
    passed over. *)
Fixpoint loadSchemas (schemaFiles : list file) (schemas : entries) : entries :=
  match schemaFiles with
  | [] => schemas
  | f :: r =>
      if endsWith (relativePath f) ".json" then
        match content f with
        | inr schema => loadSchemas r (setProp schemas (schemaName (relativePath f)) schema)
        | inl _ => loadSchemas r schemas
        end
      else loadSchemas r schemas
  end.

(** [k in data]: the operator throws on a value that is not an object and
    finds the members of the prototype beside the own properties.  The
    methods of arrays are left out. *)
Definition hasProperty (data : value) (k : string) : result bool :=
  match data with
  | JObj ps =>
      Ok (match own ps k with
          | Some _ => true
          | None => existsb (String.eqb k) objectPrototypeMembers
          end)
  | JArr l =>
      match arrayIndex k with
      | Some i => Ok (i <? N.of_nat (List.length l))%N
      | None =>
          if (k =? "length") || existsb (String.eqb k) objectPrototypeMembers
          then Ok true else Beyond
      end
  | JBuiltin _ => Beyond
  | JUndefined | JNull | JBool _ | JNum _ | JStr _ => Throw
  end.

(** What [for (const requiredField of required)] goes through. *)
Definition iterate (required : value) : result (list value) :=
  match required with
  | JArr l => Ok l
  | JStr s => Ok (chars s)
  | _ => Throw
  end.

Fixpoint missing (data : value) (required : list value) : result (list string) :=
  match required with
  | [] => Ok []
  | requiredField :: r =>
      present <- match data with
                 | JObj _ | JArr _ | JBuiltin _ =>
                     k <- toString requiredField ;; hasProperty data k
                 | _ => Throw
                 end ;;
      if (present : bool) then missing data r
      else
        k <- toString requiredField ;;
        errors <- missing data r ;;
        Ok (("Missing required field: " ++ k) :: errors)
  end.

Definition basicValidate (data schema : value) : result (bool * list string) :=
  required <- get schema "required" ;;
  errors <- (if truthy required
             then fields <- iterate required ;; missing data fields
             else Ok []) ;;
  Ok (match errors with [] => true | _ => false end, errors).

Definition validate (schemas : entries) (data : value) (name : string)
  : result (bool * list string) :=
  match own schemas name with
  | Some schema =>
      if truthy schema then basicValidate data schema
      else Ok (false, ["Schema " ++ name ++ " not found"])
  | None => Ok (false, ["Schema " ++ name ++ " not found"])
  end.

End SchemaValidator.

(* ================================================================== *)
(** ** The report generator: pages *)

Module PBIRReportGeneratorPages.

(** What [parsePages] stores for a page. *)
Record pageInfo : Type := mkPageInfo {
  id : string;
  name : value;
  width : value;
  height : value;
  displayOption : value;
  visibility : value;
  type : value;
  filters : value;
  visuals : list PBIRReportGenerator.visualInfo
}.

(** [pagesMetadata[page.name] = page] for the pages of the page list.  A
    page named [__proto__] gives the lookup object another prototype, which
    is left out. *)
Fixpoint listPages (listed : list value) (pagesMetadata : entries) : result entries :=
  match listed with
  | [] => Ok pagesMetadata
  | page :: r =>
      n <- get page "name" ;;
      k <- toString n ;;
      if k =? "__proto__" then Beyond
      else listPages r (setProp pagesMetadata k page)
  end.

(** [pagesMetadata[pageName]?.displayName]: the members that the lookup
    object inherits have no display name. *)
Definition listedName (pagesMetadata : entries) (pageName : string) : result value :=
  match own pagesMetadata pageName with
  | Some page => getOpt page "displayName"
  | None => getOpt (inherited pageName) "displayName"
  end.

Definition isPage (f : file) : bool :=
  includes (relativePath f) "/pages/" && endsWith (relativePath f) "/page.json".

Section Pages.

Variable localeCompare : string -> string -> Z.

Fixpoint pagesLoop (files : list file) (pagesMetadata : entries)
  (pageFiles : list file) (pages : list (string * pageInfo))
  : result (list (string * pageInfo)) :=
  match pageFiles with
  | [] => Ok pages
  | pageFile :: r =>
      let pageName := PBIRReportGenerator.extractPageName (relativePath pageFile) in
      let pageData := parseJsonFile pageFile in
      if truthy pageData then
        displayName <- get pageData "displayName" ;;
        listed <- listedName pagesMetadata pageName ;;
        width <- get pageData "width" ;;
        height <- get pageData "height" ;;
        displayOption <- get pageData "displayOption" ;;
        visibility <- get pageData "visibility" ;;
        type <- get pageData "type" ;;
        filters <- PBIRReportGenerator.extractPageFilters pageData ;;
        visuals <- PBIRReportGenerator.parsePageVisuals localeCompare
                     PBIRReportGenerator.getVisualPosition
                     PBIRReportGenerator.getVisualFields
                     PBIRReportGenerator.getVisualFilters files pageName ;;
        pagesLoop files pagesMetadata r
          (setEntry pages pageName
             (mkPageInfo pageName
                (or_else displayName (or_else listed (JStr pageName)))
                width height displayOption visibility type filters visuals))
      else pagesLoop files pagesMetadata r pages
  end.

Definition parsePages (files : list file) (pages : list (string * pageInfo))
  : result (list (string * pageInfo)) :=
  pagesMetadata <-
    match findFile files "definition/pages/pages.json" with
    | Some pagesFile =>
        let pagesData := parseJsonFile pagesFile in
        listed <- and_get pagesData "pages" ;;
        if truthy listed then
          match listed with
          | JArr l => listPages l []
          | _ => Throw
          end
        else Ok []
    | None => Ok []
    end ;;
  pagesLoop files pagesMetadata (filter isPage files) pages.

End Pages.

End PBIRReportGeneratorPages.

(* ================================================================== *)
(** * Vocabulary of the properties and sample documents *)

Definition obj1 (k : string) (v : value) : value := JObj [(k, v)].

(** ** Visual types *)

(** [s] is the raw type string of the document: it stands under
    [visual.visualType], or under [visual.singleVisual.visualType] when the
    former holds nothing truthy. *)
Inductive RawType (visualData : value) (s : string) : Prop :=
| raw_direct :
    at_path visualData [Key "visual"; Key "visualType"] = Some (JStr s) ->
    s <> "" ->
    RawType visualData s
| raw_legacy :
    (forall d, at_path visualData [Key "visual"; Key "visualType"] = Some d ->
               truthy d = false) ->
    at_path visualData [Key "visual"; Key "singleVisual"; Key "visualType"]
      = Some (JStr s) ->
    s <> "" ->
    RawType visualData s.

(** The canonical name that the type resolution is said to give to a raw
    string with the infix token or of at least thirty code units. *)
Definition customFromThirty (visualData : value) (s : string) : Prop :=
  RawType visualData s ->
  includes s "CV_" = true \/ (30 <= String.length s)%nat ->
  PBIRReportGenerator.getVisualType visualData = Ok (JStr "Custom Visual").

Definition thirty : string := "abcdefghijklmnopqrstuvwxyzabcd".

(** What the type resolution makes of a raw type string. *)
Definition resolved (s : string) : value :=
  if startsWith s "PBI_CV_" || includes s "CV_" || (30 <? String.length s)%nat
  then JStr "Custom Visual"
  else or_else (tableGet PBIRReportGenerator.typeMapping s) (JStr s).

Definition typedVisual (s : string) : value :=
  obj1 "visual" (obj1 "visualType" (JStr s)).

(** ** Literal wrappers *)

(** The literal resolver as it is described: the direct literal, then the
    solid colour, then the expression literal without the quotes around it,
    and [null] when none of the three shapes fits. *)
Definition describedLiteral (property : value) : value :=
  match at_path property [Key "literal"; Key "value"] with
  | Some v => v
  | None =>
      match at_path property [Key "solid"; Key "color"] with
      | Some c => c
      | None =>
          match at_path property [Key "expr"; Key "Literal"; Key "Value"] with
          | Some (JStr s) => JStr (stripQuotes s)
          | Some v => v
          | None => JNull
          end
      end
  end.

Definition resolvesAsDescribed (property : value) : Prop :=
  PBIRParserEnhanced.extractLiteralValue property = Ok (describedLiteral property).

Definition exprWrapper : value :=
  obj1 "expr" (obj1 "Literal" (obj1 "Value" (JStr "'Revenue Trend'"))).

Definition gradientWrapper : value :=
  obj1 "gradient" (obj1 "start" (JStr "#000000")).

Definition literalWrapper : value :=
  JObj [ ("literal", obj1 "value" (JStr "Chart1"));
         ("solid", obj1 "color" (JStr "#FF0000")) ].

Definition solidWrapper : value :=
  obj1 "solid" (obj1 "color" (JStr "#FF0000")).

(** [v] holds nothing truthy under the key [k]. *)
Definition lacks (v : value) (k : string) : Prop :=
  forall d, at_path v [Key k] = Some d -> truthy d = false.

(** ** Aggregations *)

(** A projected field or a Select entry that binds an aggregation with the
    function code [code], and neither a measure nor a column. *)
Definition aggregates (entry code : value) : Prop :=
  lacks entry "Measure" /\ lacks entry "Column"
  /\ at_path entry [Key "Aggregation"; Key "Function"] = Some code.

Definition memberOf (r : result value) (k : string) : option value :=
  match r with
  | Ok (JObj ps) => own ps k
  | _ => None
  end.

Definition aggregated (code : Z) : value :=
  obj1 "Aggregation"
    (JObj [ ("Function", num code);
            ("Expression", obj1 "Column" (obj1 "Property" (JStr "Amount"))) ]).

(** The numeric code [q] is mapped by [table]: a key of the table is the
    decimal text of an integer equal to [q]. *)
Definition mappedCode (table : list (string * string)) (q : Q) : Prop :=
  exists z, (q == inject_Z z)%Q /\ In (intToString z) (map fst table).

(** ** Positions *)

(** The member [k] of a value that is not [null] or [undefined], for a key
    other than [length]. *)
Definition member (v : value) (k : string) : value :=
  match v with
  | JObj ps => ownOr ps k
  | _ => JUndefined
  end.

Definition nonNegative (v : value) : Prop :=
  exists q, v = JNum q /\ (0 <= q)%Q.

(** The layout record as it is described: width and height are numbers that
    are not negative. *)
Definition layoutAsDescribed (layout : result value) : Prop :=
  (exists w, memberOf layout "width" = Some w /\ nonNegative w)
  /\ (exists h, memberOf layout "height" = Some h /\ nonNegative h).

(** What the code makes of the coordinate [k] of a visual document: the
    value of the document when it is truthy, and 0 otherwise. *)
Definition coordinate (visualData : value) (k : string) : value :=
  match at_path visualData [Key "position"; Key k] with
  | Some d => if truthy d then d else num 0
  | None => num 0
  end.

Definition coordinates : list string := ["x"; "y"; "z"; "width"; "height"].

Definition narrowVisual : value :=
  obj1 "position"
    (JObj [ ("x", num 10); ("y", num 20); ("width", num (-5)); ("height", num 40) ]).

Definition placedVisual : value :=
  obj1 "position"
    (JObj [ ("x", JNum (21 # 2)); ("y", num 20); ("width", num 300);
            ("height", JNull) ]).

(** ** Filters *)

Definition inNode (vs : list value) : value :=
  obj1 "In" (obj1 "Expressions" (JArr vs)).

Definition comparisonNode (kind right : value) : value :=
  obj1 "Comparison" (JObj [ ("ComparisonKind", kind); ("Right", right) ]).

Definition literalNode (v : value) : value :=
  obj1 "Literal" (obj1 "Value" v).

Definition andNode (left right : value) : value :=
  obj1 "And" (JArr [left; right]).

Definition sampleFilter : value :=
  andNode (inNode [JStr "A"; JStr "B"])
          (comparisonNode (JStr "GreaterThan") (literalNode (num 10))).

(** ** Titles *)

Definition titleText : list step :=
  [Key "title"; Index 0; Key "properties"; Key "text"].

Definition exprValue : list step := [Key "expr"; Key "Literal"; Key "Value"].

(** [s] is the expression literal of the title of the visual container
    objects: those under [visual] or, when [visual] holds none, those at the
    root of the document. *)
Inductive ContainerTitle (visualData : value) (s : string) : Prop :=
| container_of_visual :
    at_path visualData
      (Key "visual" :: Key "visualContainerObjects" :: titleText ++ exprValue)%list
      = Some (JStr s) ->
    ContainerTitle visualData s
| container_of_root :
    (forall c, at_path visualData [Key "visual"; Key "visualContainerObjects"] = Some c ->
               truthy c = false) ->
    at_path visualData (Key "visualContainerObjects" :: titleText ++ exprValue)%list
      = Some (JStr s) ->
    ContainerTitle visualData s.

(** [t] is the direct literal of the legacy title of the single visual. *)
Definition LegacyTitle (visualData : value) (t : string) : Prop :=
  at_path visualData
    (Key "visual" :: Key "singleVisual" :: Key "objects"
       :: titleText ++ [Key "literal"; Key "value"])%list
  = Some (JStr t).

Definition titled (text : value) : value :=
  obj1 "title" (JArr [obj1 "properties" (obj1 "text" text)]).

(** A line chart edited by two generations of the tool: it carries a
    container title and a legacy title. *)
Definition twiceTitled : value :=
  JObj [ ("name", JStr "44929275ab");
         ("visual",
          JObj [ ("visualType", JStr "lineChart");
                 ("visualContainerObjects",
                  titled (obj1 "expr" (literalNode (JStr "'Revenue Trend'"))));
                 ("singleVisual",
                  obj1 "objects" (titled (obj1 "literal" (obj1 "value" (JStr "Chart1"))))) ]) ].

(** The title as it is described: a text that the literal resolver, as it is
    described, resolves to a string that is not empty and not the
    placeholder. *)
Definition ResolvesToTitle (text : value) (s : string) : Prop :=
  describedLiteral text = JStr s /\ s <> "" /\ s <> "Title".

(** The claim at one document: whenever it carries a title of the visual
    container objects, under [visual] or at its root, and a legacy title,
    and both resolve, its display name is the container title. *)
Definition containerOverrideWins (visualData : value) : Prop :=
  forall text legacy c l,
    (at_path visualData (Key "visual" :: Key "visualContainerObjects" :: titleText)
       = Some text
     \/ at_path visualData (Key "visualContainerObjects" :: titleText) = Some text) ->
    at_path visualData
      (Key "visual" :: Key "singleVisual" :: Key "objects" :: titleText)
      = Some legacy ->
    ResolvesToTitle text c -> ResolvesToTitle legacy l ->
    PBIRReportGenerator.getVisualDisplayName visualData = Ok c.

(** A visual whose title sits in the container objects at the root of the
    document, while [visual] has container objects of its own, without a
    title. *)
Definition shadowedTitle : value :=
  JObj [ ("name", JStr "44929275ab");
         ("visualContainerObjects",
          titled (obj1 "expr" (literalNode (JStr "'Revenue Trend'"))));
         ("visual",
          JObj [ ("visualType", JStr "lineChart");
                 ("visualContainerObjects", obj1 "background" (JArr []));
                 ("singleVisual",
                  obj1 "objects" (titled (obj1 "literal" (obj1 "value" (JStr "Chart1"))))) ]) ].

(** ** The report record *)

(** The field [k] of a record. *)
Definition fieldOf (v : value) (k : string) : option value := own (spread v) k.

(** Every field of [before] is a field of [after], with the same value. *)
Definition onlyAdds (before after : value) : Prop :=
  forall k v, fieldOf before k = Some v -> fieldOf after k = Some v.

(** The merge as it is described, for the basic parser and for the
    command-line parser: what [definition/report.json] sets is found
    unchanged in the report record. *)
Definition basicMergeOnlyAdds (fileMap : list file) : Prop :=
  forall reportFile,
    findFile fileMap "definition/report.json" = Some reportFile ->
    onlyAdds (parseJsonFile reportFile)
      (PBIRParser.reportData (PBIRParser.parseReportStructure fileMap PBIRParser.initial)).

Definition checkedMergeOnlyAdds
  (validate : value -> string -> string + (bool * list string))
  (files : list file) : Prop :=
  forall reportFile,
    findFile files "definition/report.json" = Some reportFile ->
    onlyAdds (parseJsonFile reportFile)
      (EnhancedPBIRParser.reportData
         (EnhancedPBIRParser.parseReportStructure validate files
            EnhancedPBIRParser.initial)).

(** A validator that finds every document valid. *)
Definition accept (data : value) (schemaName : string) : string + (bool * list string) :=
  inr (true, []).

(** A report whose root document has a field named [version] of its own. *)
Definition versionedReport : list file :=
  [ mkFile "definition/report.json"
      (inr (JObj [ ("version", JStr "5.0"); ("themeCollection", JObj []) ]));
    mkFile "definition/version.json"
      (inr (obj1 "version" (JStr "2.0.0"))) ].

(** The report document that the parsers start the merges from. *)
Definition basicRoot (fileMap : list file) (st : PBIRParser.state) : value :=
  match findFile fileMap "definition/report.json" with
  | Some reportFile => parseJsonFile reportFile
  | None => PBIRParser.reportData st
  end.

(** The report document that the command-line parser starts the merges
    from: [null] when there is none. *)
Definition checkedRoot (validate : value -> string -> string + (bool * list string))
  (files : list file) : value :=
  match findFile files "definition/report.json" with
  | Some reportFile =>
      fst (EnhancedPBIRParser.parseJsonFileWithValidation validate reportFile "report"
             EnhancedPBIRParser.initial)
  | None => JNull
  end.

(** What merging the optional document [optional], read as [data], leaves
    under [key] in a record that started as [root]: the command-line parser
    merges when both are truthy. *)
Definition checkedField (root : value) (key : string) (data : value) : option value :=
  if truthy root && truthy data then Some data else fieldOf root key.

(** ** The order of the visuals *)

(** [a] does not come after [b] in the collation. *)
Definition byName (localeCompare : string -> string -> Z)
  (a b : PBIRReportGenerator.visualInfo) : Prop :=
  (localeCompare (PBIRReportGenerator.name a) (PBIRReportGenerator.name b) <= 0)%Z.

(** The comparison of strings code unit by code unit, one collation among
    those that a host may have. *)
Definition codeUnitCompare (a b : string) : Z :=
  match String_as_OT.compare a b with
  | Lt => (-1)%Z
  | Eq => 0%Z
  | Gt => 1%Z
  end.

Definition titledVisual (id title : string) : value :=
  JObj [ ("name", JStr id);
         ("visual",
          JObj [ ("visualType", JStr "card");
                 ("visualContainerObjects",
                  titled (obj1 "expr" (literalNode (JStr title)))) ]) ].

Definition salesPage : list file :=
  [ mkFile "definition/pages/Sales/page.json" (inr (obj1 "displayName" (JStr "Sales")));
    mkFile "definition/pages/Sales/visuals/v1/visual.json"
      (inr (titledVisual "v1" "'Units Sold'"));
    mkFile "definition/pages/Sales/visuals/v2/visual.json"
      (inr (titledVisual "v2" "'Net Sales'"));
    mkFile "definition/pages/Sales/visuals/v3/visual.json"
      (inr (titledVisual "v3" "'Returns'")) ].

(** ** Identifiers and entries *)

Fixpoint slashFree (s : string) : bool :=
  match s with
  | EmptyString => true
  | String c r => negb (c =? "/")%char && slashFree r
  end.

(** [path] has the shape that the pattern [/D([^\/]+)T$/] asks for, with the
    group [segment]. *)
Definition Matches (D T path segment : string) : Prop :=
  exists before, path = before ++ D ++ segment ++ T
                 /\ segment <> "" /\ slashFree segment = true.

(** The entry that [parsePages] makes for a page document. *)
Definition pageEntry (f : file) (visuals : value) : value :=
  JObj (setProp (setProp (spread (parseJsonFile f)) "name"
                   (JStr (PBIRParser.extractPageName (relativePath f))))
          "visuals" visuals).

(** The last page document of the file map whose identifier is [id]. *)
Fixpoint lastPageOf (id : string) (fileMap : list file) : option file :=
  match fileMap with
  | [] => None
  | f :: r =>
      match lastPageOf id r with
      | Some g => Some g
      | None =>
          if PBIRParser.isPage f
             && (PBIRParser.extractPageName (relativePath f) =? id)
          then Some f else None
      end
  end.

Definition pagesNamed (id : string) (fileMap : list file) : list file :=
  filter (fun f => PBIRParser.isPage f
                   && (PBIRParser.extractPageName (relativePath f) =? id)) fileMap.

Definition entriesOf (id : string) (m : entries) : entries :=
  filter (fun e => fst e =? id) m.

(** The pages as they are described: each page document whose identifier
    resolved to the sentinel has an entry of its own. *)
Definition keepsUnknownApart (processVisualData : value -> value -> result value)
  (fileMap : list file) : Prop :=
  forall st,
    PBIRParser.parsePages processVisualData fileMap PBIRParser.initial = Ok st ->
    List.length (entriesOf "unknown" (PBIRParser.pages st))
    = List.length (pagesNamed "unknown" fileMap).

(** Two page documents that lie one folder too deep for the pattern. *)
Definition strayPages : list file :=
  [ mkFile "definition/pages/archive/2023/page.json"
      (inr (obj1 "displayName" (JStr "Results 2023")));
    mkFile "definition/pages/archive/2024/page.json"
      (inr (obj1 "displayName" (JStr "Results 2024"))) ].

(** The last visual document of the page [pageName] among [todo] whose
    identifier is [id], the last whose entry in the map of all visuals has
    the key [key], and the last bookmark document whose identifier is
    [id]. *)
Fixpoint lastVisualOf (pageName id : string) (todo : list file) : option file :=
  match todo with
  | [] => None
  | f :: r =>
      match lastVisualOf pageName id r with
      | Some g => Some g
      | None =>
          if PBIRParser.isVisualOf pageName f
             && (PBIRParser.extractVisualName (relativePath f) =? id)
          then Some f else None
      end
  end.

Fixpoint lastVisualAt (key pageName : string) (todo : list file) : option file :=
  match todo with
  | [] => None
  | f :: r =>
      match lastVisualAt key pageName r with
      | Some g => Some g
      | None =>
          if PBIRParser.isVisualOf pageName f
             && (pageName ++ ":" ++ PBIRParser.extractVisualName (relativePath f)
                 =? key)
          then Some f else None
      end
  end.

Fixpoint lastBookmarkOf (id : string) (todo : list file) : option file :=
  match todo with
  | [] => None
  | f :: r =>
      match lastBookmarkOf id r with
      | Some g => Some g
      | None =>
          if PBIRParser.isBookmark f
             && (PBIRParser.extractBookmarkName (relativePath f) =? id)
          then Some f else None
      end
  end.

(** The last page document among [todo] that has a visual document keyed
    [key], with that visual document: the pages are gone through in the
    order of the file map, and for each of them the visuals in that order. *)
Fixpoint lastVisualUnder (key : string) (fileMap todo : list file)
  : option (file * file) :=
  match todo with
  | [] => None
  | g :: r =>
      match lastVisualUnder key fileMap r with
      | Some found => Some found
      | None =>
          if PBIRParser.isPage g then
            match lastVisualAt key (PBIRParser.extractPageName (relativePath g))
                    fileMap with
            | Some h => Some (g, h)
            | None => None
            end
          else None
      end
  end.

(** The entry that [parsePageVisuals] makes in the map of all visuals. *)
Definition visualEntry (processed : value) (pageName visualName : string) : value :=
  JObj (setProp (setProp (spread processed) "pageName" (JStr pageName))
          "visualName" (JStr visualName)).

(** Two pages, each with two visual documents that lie one folder too deep
    for the pattern. *)
Definition strayVisuals : list file :=
  [ mkFile "definition/pages/Sales/page.json" (inr (obj1 "displayName" (JStr "Sales")));
    mkFile "definition/pages/Other/page.json" (inr (obj1 "displayName" (JStr "Other")));
    mkFile "definition/pages/Sales/visuals/old/a/visual.json" (inr (obj1 "name" (JStr "a")));
    mkFile "definition/pages/Sales/visuals/old/b/visual.json" (inr (obj1 "name" (JStr "b")));
    mkFile "definition/pages/Other/visuals/old/c/visual.json" (inr (obj1 "name" (JStr "c")));
    mkFile "definition/pages/Other/visuals/old/d/visual.json" (inr (obj1 "name" (JStr "d"))) ].

(** ** A report without its root document *)

Definition noMainReport : string := "No main report.json found".

(** What the command-line parser reads from a file, under a schema: the
    parsed value, or [null] when reading, parsing or validating throws. *)
Definition dataOf (validate : value -> string -> string + (bool * list string))
  (schemaName : string) (f : file) : value :=
  fst (EnhancedPBIRParser.parseJsonFileWithValidation validate f schemaName
         EnhancedPBIRParser.initial).

(** [e] is the entry of the page [id], made from a page document of that
    identifier, and with a visual for every visual document of the page that
    could be read. *)
Definition Populated (validate : value -> string -> string + (bool * list string))
  (files : list file) (id : string) (e : value) : Prop :=
  exists g V,
    In g files /\ EnhancedPBIRParser.isPage g = true
    /\ EnhancedPBIRParser.extractPageName (relativePath g) = id
    /\ truthy (dataOf validate "page" g) = true
    /\ e = JObj (setProp (setProp (spread (dataOf validate "page" g))
                            "name" (JStr id))
                   "visuals" (JObj V))
    /\ forall h, In h files -> EnhancedPBIRParser.isVisualOf id h = true ->
         truthy (dataOf validate "visualContainer" h) = true ->
         own V (EnhancedPBIRParser.extractVisualName (relativePath h)) <> None.

(** A report directory without [definition/report.json]. *)
Definition rootless : list file :=
  [ mkFile "definition/version.json" (inr (obj1 "version" (JStr "2.0.0")));
    mkFile "definition/pages/pages.json"
      (inr (obj1 "pageOrder" (JArr [JStr "Sales"])));
    mkFile "definition/pages/Sales/page.json"
      (inr (JObj [ ("displayName", JStr "Sales"); ("width", num 1280) ]));
    mkFile "definition/pages/Sales/visuals/v1/visual.json"
      (inr (JObj [ ("name", JStr "v1");
                   ("position", JObj [ ("x", num 10); ("y", num 20) ]);
                   ("visual", obj1 "visualType" (JStr "card")) ]));
    mkFile "definition/pages/Sales/visuals/v2/visual.json"
      (inl "Unexpected end of JSON input") ].

Definition missingRootWarnings (st : EnhancedPBIRParser.state) : nat :=
  count_occ string_dec (EnhancedPBIRParser.parseWarnings st) noMainReport.

(** The mobile layout that goes with the visual document [h]: [null] when
    the directory has none. *)
Definition mobileDataOf (validate : value -> string -> string + (bool * list string))
  (files : list file) (h : file) : value :=
  match fileAt files (replaceFirst (relativePath h) "/visual.json" "/mobile.json") with
  | Some mobileFile => dataOf validate "visualContainerMobileState" mobileFile
  | None => JNull
  end.

(** [h] is a visual document that the parser reads: it could be read, and
    so could the page document [g] of its page. *)
Definition ReadVisual (validate : value -> string -> string + (bool * list string))
  (files : list file) (g h : file) : Prop :=
  In g files /\ EnhancedPBIRParser.isPage g = true
  /\ truthy (dataOf validate "page" g) = true
  /\ In h files
  /\ EnhancedPBIRParser.isVisualOf
       (EnhancedPBIRParser.extractPageName (relativePath g)) h = true
  /\ truthy (dataOf validate "visualContainer" h) = true.

(** Every visual document that the parser reads can be processed. *)
Definition Processable (validate : value -> string -> string + (bool * list string))
  (files : list file) : Prop :=
  forall g h, ReadVisual validate files g h ->
    exists processed,
      EnhancedPBIRParser.processVisualData (dataOf validate "visualContainer" h)
        (mobileDataOf validate files h) = Ok processed.

(** The claim at one directory: without a root the parse returns, records
    the missing root once, and has an entry for every page document and for
    every visual document of the directory. *)
Definition populatedFromAll (validate : value -> string -> string + (bool * list string))
  (files : list file) : Prop :=
  findFile files "definition/report.json" = None ->
  exists st,
    EnhancedPBIRParser.parseDirectory validate files = Ok st
    /\ missingRootWarnings st = 1%nat
    /\ (forall g, In g files -> EnhancedPBIRParser.isPage g = true ->
          own (EnhancedPBIRParser.pages st)
            (EnhancedPBIRParser.extractPageName (relativePath g)) <> None)
    /\ (forall h pageName,
          In h files -> EnhancedPBIRParser.isVisualOf pageName h = true ->
          own (EnhancedPBIRParser.visuals st)
            (pageName ++ ":" ++ EnhancedPBIRParser.extractVisualName (relativePath h))
          <> None).

(** A directory without root whose one visual has a number where the list
    of its selected fields should be. *)
Definition unprocessable : list file :=
  [ mkFile "definition/pages/Sales/page.json"
      (inr (obj1 "displayName" (JStr "Sales")));
    mkFile "definition/pages/Sales/visuals/v1/visual.json"
      (inr (JObj [ ("name", JStr "v1");
                   ("visual",
                    obj1 "singleVisual"
                      (obj1 "prototypeQuery" (obj1 "Select" (num 5)))) ])) ].

(** A directory without root whose one visual belongs to a page that has
    no page document. *)
Definition orphaned : list file :=
  [ mkFile "definition/pages/Sales/page.json"
      (inr (obj1 "displayName" (JStr "Sales")));
    mkFile "definition/pages/Ghost/visuals/v1/visual.json"
      (inr (JObj [ ("name", JStr "v1");
                   ("visual", obj1 "visualType" (JStr "card")) ])) ].

(** No entry of [m] is missing from [m']. *)
Definition keeps (m m' : entries) : Prop :=
  forall k, own m k <> None -> own m' k <> None.

(** What the loops over the files leave as it was: the report and the count
    of the missing-root warnings; and they remove no page and no visual. *)
Definition extends (st st' : EnhancedPBIRParser.state) : Prop :=
  EnhancedPBIRParser.reportData st' = EnhancedPBIRParser.reportData st
  /\ missingRootWarnings st' = missingRootWarnings st
  /\ keeps (EnhancedPBIRParser.pages st) (EnhancedPBIRParser.pages st')
  /\ keeps (EnhancedPBIRParser.visuals st) (EnhancedPBIRParser.visuals st').

(** ** More sample documents *)

(** A card without any title. *)
Definition plainCard : value :=
  JObj [ ("name", JStr "44929275ab");
         ("visual", obj1 "visualType" (JStr "card")) ].

(** A visual whose container title is a direct literal, next to a legacy
    title. *)
Definition directlyTitled : value :=
  JObj [ ("name", JStr "44929275ab");
         ("visual",
          JObj [ ("visualType", JStr "lineChart");
                 ("visualContainerObjects",
                  titled (obj1 "literal" (obj1 "value" (JStr "Revenue Trend"))));
                 ("singleVisual",
                  obj1 "objects" (titled (obj1 "literal" (obj1 "value" (JStr "Chart1"))))) ]) ].

(** A text box with a short first run. *)
Definition textBox : value :=
  JObj [ ("name", JStr "0a1b2c3d4e");
         ("visual",
          JObj [ ("visualType", JStr "textbox");
                 ("singleVisual",
                  obj1 "objects"
                    (obj1 "general"
                       (JArr [obj1 "properties"
                                (obj1 "paragraphs"
                                   (JArr [obj1 "textRuns"
                                            (JArr [obj1 "value" (JStr " Overview ")])]))]))) ]) ].

(* ================================================================== *)
(** ** Further vocabulary: what the parsers keep of a document *)

(** The fields that [processVisualData] computes. *)
Definition computedFields : list string :=
  ["mobile"; "properties"; "fields"; "filters"; "layout"; "formatting"].

(** The fields of the visual container schema that the schema-aware parser
    copies. *)
Definition containerFields : list string :=
  [ "$schema"; "name"; "position"; "visual"; "visualGroup"; "parentGroupName";
    "filterConfig"; "isHidden"; "annotations"; "howCreated" ].

(** A visual document with a field that no schema knows and with a field
    named like a computed one. *)
Definition annotatedCard : value :=
  JObj [ ("name", JStr "44929275ab");
         ("layout", JStr "mine");
         ("note", JStr "kept");
         ("position", JObj [ ("x", num 10); ("y", JNull); ("width", num (-5)) ]);
         ("visual", obj1 "visualType" (JStr "card")) ].

(** Applying [f] to its own result changes nothing. *)
Definition Idempotent (f : value -> result value) : Prop :=
  forall v n, f v = Ok n -> f n = Ok n.

(** A report document with some of the optional collections. *)
Definition sparseReport : value :=
  JObj [ ("$schema", JStr "report/1.0.0"); ("reportSource", JStr "");
         ("annotations", JArr [obj1 "name" (JStr "a")]) ].

(** The record [processed] holds under [k] what the run [r] returned. *)
Definition holds (processed : value) (k : string) (r : result value) : Prop :=
  exists x, r = Ok x /\ fieldOf processed k = Some x.

(** A visual of the current shape that carries a legacy title as well, and
    one whose declared type the schema-aware parser does not list. *)
Definition typedAndTitled : value :=
  obj1 "visual"
    (JObj [ ("visualType", JStr "card");
            ("singleVisual",
             obj1 "objects" (titled (obj1 "literal" (obj1 "value" (JStr "Sales"))))) ]).

(** The type of a filter record. *)
Definition filterType (f : value) (t : string) : Prop :=
  fieldOf f "type" = Some (JStr t).

(** A visual with one filter of a listed type, one of a type that is not
    listed, and a query filter. *)
Definition filteredVisual : value :=
  JObj [ ("filterConfig",
          obj1 "filters"
            (JArr [ JObj [ ("type", JStr "Categorical"); ("name", JStr "f1") ];
                    JObj [ ("type", JStr "Basic"); ("name", JStr "f2") ] ]));
         ("visual",
          obj1 "singleVisual"
            (obj1 "prototypeQuery"
               (obj1 "Where" (JArr [ obj1 "Condition" (obj1 "Not" (JObj [])) ])))) ].

(* ================================================================== *)
(** ** Further vocabulary: the report generator *)

Definition positionFields : list string := ["x"; "y"; "width"; "height"].

(** [n] is the integer nearest to [q], a half counting upwards. *)
Definition nearest (n : Z) (q : Q) : Prop :=
  (inject_Z n - (1 # 2) <= q)%Q /\ (q < inject_Z n + (1 # 2))%Q.

(** The number that a position gives for [k]: 0 when it has no such
    member, and nothing when the member is not a number. *)
Definition numberAt (pos : list (string * value)) (k : string) : option Q :=
  match own pos k with
  | None => Some (inject_Z 0)
  | Some (JNum q) => Some q
  | Some _ => None
  end.

(** A visual placed at fractions of a pixel. *)
Definition fractionalVisual : value :=
  obj1 "position"
    (JObj [ ("x", JNum (21 # 2)); ("y", JNum (-5 # 2)); ("width", JNum (1999 # 10)) ]).

(** The name that the generator gives to a filter: its display name, else
    its name, else a placeholder. *)
Definition filterName (filter : value) : value :=
  or_else (member filter "displayName")
    (or_else (member filter "name") (JStr "Unnamed Filter")).

(** A page with three filters: one with both names, one of a type that no
    table lists, and one that is empty. *)
Definition filteredPage : value :=
  obj1 "filterConfig"
    (obj1 "filters"
       (JArr [ JObj [ ("name", JStr "f1"); ("displayName", JStr "Region");
                      ("type", JStr "Categorical") ];
               JObj [ ("name", JStr "f2"); ("type", JStr "Basic") ];
               JObj [] ])).

(** The type that a visual declares: what stands under
    [visual.visualType] when it is truthy, else what stands under
    [visual.singleVisual.visualType] when it is truthy, else [unknown]. *)
Definition declaredType (visualData : value) : value :=
  let legacy :=
    match at_path visualData [Key "visual"; Key "singleVisual"; Key "visualType"] with
    | Some l => if truthy l then l else JStr "unknown"
    | None => JStr "unknown"
    end in
  match at_path visualData [Key "visual"; Key "visualType"] with
  | Some d => if truthy d then d else legacy
  | None => legacy
  end.

Definition isString (v : value) : bool :=
  match v with
  | JStr _ => true
  | _ => false
  end.

(** A visual whose type is written as a number. *)
Definition numberedVisual : value :=
  obj1 "visual" (obj1 "visualType" (num 7)).

(** A visual without anything that could name it. *)
Definition bareVisual : value := JObj [].



(** [pageData] is the document of a page file of [files] whose identifier
    is [pageId]; it was read and is not falsy. *)
Definition PageOf (files : list file) (pageId : string) (pageData : value) : Prop :=
  exists f,
    In f files /\ PBIRReportGeneratorPages.isPage f = true
    /\ PBIRReportGenerator.extractPageName (relativePath f) = pageId
    /\ content f = inr pageData /\ truthy pageData = true.

(** [page] is an element of the page list of [files] whose name prints as
    [pageId]. *)
Definition ListedAs (files : list file) (pageId : string) (page : value) : Prop :=
  exists pagesFile listed n,
    findFile files "definition/pages/pages.json" = Some pagesFile
    /\ at_path (parseJsonFile pagesFile) [Key "pages"] = Some (JArr listed)
    /\ In page listed
    /\ get page "name" = Ok n /\ toString n = Ok pageId.

(** What the generator keeps of a page under [pageId]: the identifier, a
    name that is not empty, the display name of the page document itself
    whenever it has one, and else the display name that the page list gives
    for the identifier or the identifier itself. *)
Definition NamedPage (files : list file) (pageId : string)
  (info : PBIRReportGeneratorPages.pageInfo) : Prop :=
  PBIRReportGeneratorPages.id info = pageId
  /\ truthy (PBIRReportGeneratorPages.name info) = true
  /\ exists pageData,
       PageOf files pageId pageData
       /\ (truthy (member pageData "displayName") = true ->
           PBIRReportGeneratorPages.name info = member pageData "displayName")
       /\ (truthy (member pageData "displayName") = false ->
           PBIRReportGeneratorPages.name info = JStr pageId
           \/ exists page,
                ListedAs files pageId page
                /\ PBIRReportGeneratorPages.name info = member page "displayName").

(** A report whose page list renames a page that has a display name of its
    own, and names a page that has none. *)
Definition renamedPages : list file :=
  [ mkFile "definition/pages/pages.json"
      (inr (obj1 "pages"
              (JArr [ JObj [ ("name", JStr "p1"); ("displayName", JStr "Listed One") ];
                      JObj [ ("name", JStr "p2"); ("displayName", JStr "Listed Two") ] ])));
    mkFile "definition/pages/p1/page.json" (inr (obj1 "displayName" (JStr "Own One")));
    mkFile "definition/pages/p2/page.json" (inr (obj1 "width" (num 1280))) ].

(* ================================================================== *)
(** ** Further vocabulary: the command-line parser *)

(** A validator that never throws. *)
Definition Total (validate : value -> string -> string + (bool * list string)) : Prop :=
  forall data schemaName, exists verdict, validate data schemaName = inr verdict.

(** Two runs end alike: both complete, with results that [R] relates, or
    both throw, or both reach what is left out. *)
Definition related {A : Type} (R : A -> A -> Prop) (r1 r2 : result A) : Prop :=
  match r1, r2 with
  | Ok a, Ok b => R a b
  | Throw, Throw => True
  | Beyond, Beyond => True
  | _, _ => False
  end.

(** Two states of the command-line parser that differ in their warnings at
    most. *)
Definition agree (s1 s2 : EnhancedPBIRParser.state) : Prop :=
  EnhancedPBIRParser.reportData s1 = EnhancedPBIRParser.reportData s2
  /\ EnhancedPBIRParser.pages s1 = EnhancedPBIRParser.pages s2
  /\ EnhancedPBIRParser.visuals s1 = EnhancedPBIRParser.visuals s2
  /\ EnhancedPBIRParser.bookmarks s1 = EnhancedPBIRParser.bookmarks s2
  /\ EnhancedPBIRParser.parseErrors s1 = EnhancedPBIRParser.parseErrors s2.

(** A validator that finds every document invalid. *)
Definition reject (data : value) (schemaName : string) : string + (bool * list string) :=
  inr (false, ["Missing required field: name"]).

(** A visual that declares a type in the current place and another one in
    the legacy place. *)
Definition twiceTyped : value :=
  obj1 "visual"
    (JObj [ ("visualType", JStr "card");
            ("singleVisual", obj1 "visualType" (JStr "slicer")) ]).

(** The type that the schema-aware parser makes of a declared type. *)
Definition listedOrUnknown (s : string) : value :=
  if existsb (String.eqb s) PBIRParserEnhanced.visualTypes then JStr s
  else JStr "unknown".

(** A visual whose legacy title is written as an expression. *)
Definition expressionTitled : value :=
  obj1 "visual"
    (JObj [ ("visualType", JStr "card");
            ("singleVisual",
             obj1 "objects" (titled (obj1 "expr" (literalNode (JStr "'Sales'"))))) ]).

(** Where a visual document carries its legacy title. *)
Definition legacyTitleText : list step :=
  [ Key "visual"; Key "singleVisual"; Key "objects"; Key "title"; Index 0;
    Key "properties"; Key "text" ].

(** The fields of the layout of the basic parser, each with the member of
    the document that it is read from. *)
Definition layoutSources : list (string * string) :=
  [ ("x", "x"); ("y", "y"); ("width", "width"); ("height", "height");
    ("zIndex", "z") ].

(** A visual with coordinates of its own next to its position. *)
Definition displacedVisual : value :=
  JObj [ ("position", JObj [ ("x", num 10); ("y", num 20); ("width", num 300) ]);
         ("x", JNull); ("width", JStr "wide") ].

(** [name] is a key of the object, its own or one that every object
    inherits. *)
Definition present (ps : list (string * value)) (name : string) : bool :=
  match own ps name with
  | Some _ => true
  | None => existsb (String.eqb name) objectPrototypeMembers
  end.

Definition missingField (name : string) : string :=
  "Missing required field: " ++ name.

Definition isObject (v : value) : bool :=
  match v with
  | JObj _ | JArr _ | JBuiltin _ => true
  | _ => false
  end.

(** A schema that requires three fields, one of which every object
    inherits. *)
Definition pageSchemas : entries :=
  [ ("page",
     obj1 "required" (JArr [ JStr "name"; JStr "displayName"; JStr "toString" ])) ].





(* ================================================================== *)
(** ** Further vocabulary: the basic parser *)

(** [record] is the record of a visual document of [fileMap], stored under
    the key made of its page and of its own identifier, and it names both. *)
Definition VisualRecord (fileMap : list file) (key : string) (record : value) : Prop :=
  exists pageFile visualFile,
    In pageFile fileMap /\ PBIRParser.isPage pageFile = true
    /\ In visualFile fileMap
    /\ PBIRParser.isVisualOf (PBIRParser.extractPageName (relativePath pageFile))
         visualFile = true
    /\ key = PBIRParser.extractPageName (relativePath pageFile) ++ ":"
             ++ PBIRParser.extractVisualName (relativePath visualFile)
    /\ fieldOf record "pageName"
       = Some (JStr (PBIRParser.extractPageName (relativePath pageFile)))
    /\ fieldOf record "visualName"
       = Some (JStr (PBIRParser.extractVisualName (relativePath visualFile))).

(** A processing of visuals that keeps the document as it is. *)
Definition asItIs (visualData mobileData : value) : result value := Ok visualData.

(** A report with a bookmark and without the list of the bookmarks. *)
Definition unlistedBookmark : list file :=
  [ mkFile "definition/report.json" (inr (JObj []));
    mkFile "definition/bookmarks/b1.bookmark.json" (inr (obj1 "name" (JStr "b1"))) ].

(** A filter configuration with two filters. *)
Definition twoFilters : value :=
  obj1 "filters"
    (JArr [ JObj [ ("type", JStr "TopN"); ("field", obj1 "Column" (obj1 "Property" (JStr "Amount"))) ];
            JObj [ ("type", JStr "Advanced"); ("field", JStr "Region") ] ]).

(** What the language prints for an object. *)
Definition objectText : string := "[object Object]".

(** The labels that [parseFilterExpression] gives to a filter. *)
Definition filterLabels : list string :=
  [ "TopN Filter"; "BottomN Filter"; "Advanced Filter"; "Basic Filter";
    "Expression Filter"; "Unknown Filter" ].

(** A record that [parseFilterExpression] built: it has one of the six
    labels as its type, and no [toString] of its own. *)
Definition LabelledFilter (r : value) : Prop :=
  exists rs label,
    r = JObj rs /\ own rs "type" = Some (JStr label) /\ In label filterLabels
    /\ own rs "toString" = None.

(** A binding that the generator made from a projection or from a Select
    entry: it is a measure or a dimension, and it names a table. *)
Definition TabledBinding (b : value) : Prop :=
  exists kind table,
    fieldOf b "type" = Some (JStr kind)
    /\ (kind = "measure" \/ kind = "dimension")
    /\ fieldOf b "table" = Some table /\ truthy table = true.

(** A Select entry that binds a column of a table that it does not name. *)
Definition unsourcedColumn : value :=
  JObj [ ("Name", JStr "Sales.Amount");
         ("Column", obj1 "Property" (JStr "Amount")) ].

(** What the document holds along the path [p]: [undefined] when it holds
    nothing there. *)
Definition under (v : value) (p : list step) : value :=
  match at_path v p with
  | Some d => d
  | None => JUndefined
  end.

(** The table of the expression at [p]: the entity of its source reference,
    and the placeholder when the document names none there. *)
Definition tableUnder (v : value) (p : list step) : value :=
  or_else (under v (p ++ [Key "SourceRef"; Key "Entity"])) (JStr "Unknown Table").

(** The member that a projected field or a Select entry binds, and the kind
    of the binding: a measure first, then a column, then an aggregation. *)
Inductive Binds (entry : value) : string -> string -> Prop :=
| binds_measure :
    truthy (under entry [Key "Measure"]) = true ->
    Binds entry "Measure" "measure"
| binds_column :
    truthy (under entry [Key "Measure"]) = false ->
    truthy (under entry [Key "Column"]) = true ->
    Binds entry "Column" "dimension"
| binds_aggregation :
    truthy (under entry [Key "Measure"]) = false ->
    truthy (under entry [Key "Column"]) = false ->
    truthy (under entry [Key "Aggregation"]) = true ->
    Binds entry "Aggregation" "measure".

(** The table of a projected field that binds its member [m]: that of the
    member's expression, and for an aggregation that of the column that it
    aggregates. *)
Definition projectedTable (field : value) (m : string) : value :=
  if m =? "Aggregation"
  then tableUnder field [Key m; Key "Expression"; Key "Column"; Key "Expression"]
  else tableUnder field [Key m; Key "Expression"].

(** The table of a Select entry that binds its member [m]: that of the
    member's expression when it has a source reference of its own, and else
    that of the column under it. *)
Definition selectedTable (select : value) (m : string) : value :=
  if truthy (under select [Key m; Key "Expression"; Key "SourceRef"])
  then tableUnder select [Key m; Key "Expression"]
  else tableUnder select [Key m; Key "Expression"; Key "Column"; Key "Expression"].

(** A Select entry that aggregates a column of the table [Sales]. *)
Definition sourcedAggregation : value :=
  obj1 "Aggregation"
    (JObj [ ("Function", num 0);
            ("Expression",
             obj1 "Column"
               (JObj [ ("Expression", obj1 "SourceRef" (obj1 "Entity" (JStr "Sales")));
                       ("Property", JStr "Amount") ])) ]).

(** A condition that negates a comparison. *)
Definition negatedCondition : value :=
  obj1 "Not" (obj1 "Comparison" (obj1 "ComparisonKind" (num 1))).



(** Every visual that the page [page] lists is a key of [global], under the
    identifier [pageName]. *)
Definition ListedVisualsIn (global : entries) (pageName : string) (page : value) : Prop :=
  forall listed visualName,
    fieldOf page "visuals" = Some (JObj listed) ->
    own listed visualName <> None ->
    own global (pageName ++ ":" ++ visualName) <> None.

(** A name without an underscore and without a point. *)
Fixpoint plainName (n : string) : bool :=
  match n with
  | EmptyString => true
  | String c r => negb (c =? "_")%char && negb (c =? ".")%char && plainName r
  end.

(** The schema directory of the repository: one schema, of which the
    validator reads the list of the required fields. *)
Definition bundledSchemas : list file :=
  [ mkFile "visualContainerMobileState_schema.json"
      (inr (obj1 "required" (JArr [JStr "$schema"; JStr "position"]))) ].

(* ================================================================== *)
(** * Properties *)

(** ** Reading a document along a path *)

Lemma at_path_key (v : value) (k : string) (r : list step) (x : value) :
  at_path v (Key k :: r) = Some x ->
  exists ps y, v = JObj ps /\ own ps k = Some y /\ at_path y r = Some x.
Proof.
  simpl. destruct v; try discriminate.
  destruct (own props k) as [y|] eqn:E; try discriminate.
  intros H. exists props, y. auto.
Qed.

Lemma at_path_index (v : value) (i : nat) (r : list step) (x : value) :
  at_path v (Index i :: r) = Some x ->
  exists l y, v = JArr l /\ nth_error l i = Some y /\ at_path y r = Some x.
Proof.
  simpl. destruct v; try discriminate.
  destruct (nth_error l i) as [y|] eqn:E; try discriminate.
  intros H. exists l, y. auto.
Qed.

Lemma get_own (ps : list (string * value)) (k : string) (y : value) :
  own ps k = Some y -> get (JObj ps) k = Ok y.
Proof. intros H. simpl. unfold ownOr. now rewrite H. Qed.

Lemma idx_nth (l : list value) (i : nat) (y : value) :
  nth_error l i = Some y -> idx (JArr l) i = Ok y.
Proof.
  intros H. simpl. f_equal. revert i H.
  induction l as [|a l IH]; intros [|i] H; simpl in *; try discriminate.
  - now inversion H.
  - now apply IH.
Qed.

Lemma truthy_str (s : string) : s <> "" -> truthy (JStr s) = true.
Proof.
  intros H. simpl. destruct (String.eqb_spec s ""); [contradiction | reflexivity].
Qed.

(** Taking one step of a path apart, in a hypothesis. *)
Ltac walk H :=
  match type of H with
  | at_path _ (Key _ :: _) = Some _ =>
      let ps := fresh "ps" in
      let y := fresh "y" in
      let E := fresh "E" in
      let O := fresh "O" in
      apply at_path_key in H; destruct H as (ps & y & E & O & H); subst
  | at_path _ (Index _ :: _) = Some _ =>
      let l := fresh "l" in
      let y := fresh "y" in
      let E := fresh "E" in
      let O := fresh "O" in
      apply at_path_index in H; destruct H as (l & y & E & O & H); subst
  | at_path _ [] = Some _ => simpl in H; inversion H; subst; clear H
  end.

(** ** Visual types (claim C2) *)

Lemma ownOr_some (ps : list (string * value)) (k : string) (y : value) :
  own ps k = Some y -> ownOr ps k = y.
Proof. intros H. unfold ownOr. now rewrite H. Qed.

Lemma ownOr_none (ps : list (string * value)) (k : string) :
  own ps k = None -> ownOr ps k = JUndefined.
Proof. intros H. unfold ownOr. now rewrite H. Qed.

(** Running a method on a document of which some members are known. *)
Ltac known :=
  repeat match goal with
  | H : own ?ps ?k = Some ?y |- context [ownOr ?ps ?k] =>
      rewrite (ownOr_some ps k y H)
  | H : own ?ps ?k = None |- context [ownOr ?ps ?k] =>
      rewrite (ownOr_none ps k H)
  | H : truthy ?v = _ |- context [truthy ?v] => rewrite H
  | H : nth_error ?l ?i = Some ?y |- context [nth ?i ?l ?d] =>
      rewrite (nth_error_nth l i d H)
  end.

Ltac constructed :=
  repeat match goal with
  | |- context [truthy (JObj ?ps)] => change (truthy (JObj ps)) with true
  | |- context [truthy (JArr ?l)] => change (truthy (JArr l)) with true
  | |- context [truthy (JBuiltin ?n)] => change (truthy (JBuiltin n)) with true
  | |- context [truthy JUndefined] => change (truthy JUndefined) with false
  | |- context [truthy JNull] => change (truthy JNull) with false
  end.

Ltac run :=
  repeat (known; unfold and_get, and_idx, or_else; constructed;
          cbn [bind get idx negb fst snd]).

(** An optional access never throws. *)
Lemma getOpt_returns (v : value) (k : string) : exists x, getOpt v k = Ok x.
Proof. unfold getOpt. destruct v; cbn [nullish get]; eauto. Qed.

Lemma getOpt_obj (ps : list (string * value)) (k : string) :
  getOpt (JObj ps) k = Ok (ownOr ps k).
Proof. reflexivity. Qed.

Ltac optional :=
  repeat match goal with
  | |- context [getOpt (JObj ?ps) ?k] => rewrite (getOpt_obj ps k); cbn [bind]
  | |- context [getOpt ?v ?k] =>
      let x := fresh "x" in
      let E := fresh "E" in
      destruct (getOpt_returns v k) as (x & E); rewrite E; clear E; cbn [bind]
  end.

Lemma getVisualType_raw (visualData : value) (s : string) :
  RawType visualData s ->
  PBIRReportGenerator.getVisualType visualData = Ok (resolved s).
Proof.
  intros [H Hs | Hd H Hs]; apply truthy_str in Hs.
  - repeat walk H.
    unfold PBIRReportGenerator.getVisualType. run.
    unfold resolved, or_else.
    now destruct (startsWith s "PBI_CV_" || includes s "CV_"
                  || (30 <? String.length s)%nat).
  - repeat walk H.
    assert (Hf : truthy (ownOr ps0 "visualType") = false).
    { unfold ownOr. destruct (own ps0 "visualType") as [d|] eqn:Ed; [|reflexivity].
      apply Hd. simpl. rewrite O. simpl. now rewrite Ed. }
    unfold PBIRReportGenerator.getVisualType. run.
    unfold resolved, or_else.
    now destruct (startsWith s "PBI_CV_" || includes s "CV_"
                  || (30 <? String.length s)%nat).
Qed.

Lemma includes_length (s sub : string) :
  includes s sub = true -> (String.length sub <= String.length s)%nat.
Proof.
  induction s as [|c s IH]; simpl.
  - destruct sub; simpl; [lia | discriminate].
  - destruct sub as [|d sub]; [simpl; lia |].
    intros H. apply orb_true_iff in H. destruct H as [H | H].
    + destruct (Ascii.ascii_dec d c); [|discriminate].
      assert (L : forall p t, String.prefix p t = true ->
                              (String.length p <= String.length t)%nat).
      { clear. induction p as [|a p IHp]; intros [|b t] H; simpl in *; try lia;
          try discriminate.
        destruct (Ascii.ascii_dec a b); [|discriminate].
        specialize (IHp t H). lia. }
      specialize (L _ _ H). simpl. lia.
    + specialize (IH H). simpl in *. lia.
Qed.

(** C2, as the code has it: a raw type string that holds the infix token
    [CV_] or is longer than thirty code units resolves to [Custom Visual],
    and a key of the mapping table resolves to the display name that the
    table gives it. *)
Theorem getVisualType_custom_or_mapped (visualData : value) (s : string) :
  RawType visualData s ->
  (includes s "CV_" = true \/ (30 < String.length s)%nat ->
   PBIRReportGenerator.getVisualType visualData = Ok (JStr "Custom Visual"))
  /\ (forall displayName,
        In (s, displayName) PBIRReportGenerator.typeMapping ->
        PBIRReportGenerator.getVisualType visualData = Ok (JStr displayName)).
Proof.
  intros R. rewrite (getVisualType_raw _ _ R). split.
  - intros [H | H]; unfold resolved.
    + rewrite H. now rewrite orb_true_r.
    + apply Nat.ltb_lt in H. rewrite H. now rewrite !orb_true_r.
  - intros displayName H. simpl in H.
    repeat (destruct H as [H | H]; [inversion H; subst; reflexivity |]).
    contradiction.
Qed.

Lemma getVisualType_custom_or_mapped_witness :
  PBIRReportGenerator.getVisualType (typedVisual "card") = Ok (JStr "Card")
  /\ PBIRReportGenerator.getVisualType (typedVisual "PBI_CV_0123")
     = Ok (JStr "Custom Visual").
Proof.
  split.
  - refine (proj2 (getVisualType_custom_or_mapped (typedVisual "card") "card" _)
              "Card" _).
    + apply raw_direct; [reflexivity | discriminate].
    + simpl. tauto.
  - refine (proj1 (getVisualType_custom_or_mapped (typedVisual "PBI_CV_0123")
                     "PBI_CV_0123" _) _).
    + apply raw_direct; [reflexivity | discriminate].
    + left. reflexivity.
Defined.

(** C2 as stated fails on a raw string of exactly thirty code units: the
    code asks for more than thirty, and passes this one through. *)
Lemma thirty_is_not_custom : ~ customFromThirty (typedVisual thirty) thirty.
Proof.
  unfold customFromThirty. intros H.
  assert (R : RawType (typedVisual thirty) thirty)
    by (apply raw_direct; [reflexivity | discriminate]).
  specialize (H R (or_intror (Nat.le_refl 30))).
  vm_compute in H. discriminate.
Qed.

(** ** The literal resolver (claim C3) *)

Lemma lacks_falsy (ps : list (string * value)) (k : string) :
  lacks (JObj ps) k -> truthy (ownOr ps k) = false.
Proof.
  intros H. unfold ownOr. destruct (own ps k) as [d|] eqn:E; [|reflexivity].
  apply H. simpl. now rewrite E.
Qed.

(** C3, as the code has it: the resolver never throws; it gives [null] for a
    falsy wrapper, else [literal.value] when the wrapper has a [literal],
    else [solid.color] when it has a [solid], whatever these two values are,
    and else the wrapper itself, unchanged; and it gives [null] in no other
    case than a falsy wrapper and a [literal.value] or [solid.color] that is
    [null] itself. *)
Theorem extractLiteralValue_shapes (property : value) :
  (exists v, PBIRParserEnhanced.extractLiteralValue property = Ok v)
  /\ (truthy property = false ->
      PBIRParserEnhanced.extractLiteralValue property = Ok JNull)
  /\ (forall l, at_path property [Key "literal"] = Some l -> truthy l = true ->
      PBIRParserEnhanced.extractLiteralValue property = Ok (member l "value"))
  /\ (forall s, lacks property "literal" ->
      at_path property [Key "solid"] = Some s -> truthy s = true ->
      PBIRParserEnhanced.extractLiteralValue property = Ok (member s "color"))
  /\ (truthy property = true -> lacks property "literal" -> lacks property "solid" ->
      PBIRParserEnhanced.extractLiteralValue property = Ok property)
  /\ (PBIRParserEnhanced.extractLiteralValue property = Ok JNull ->
      truthy property = false
      \/ (exists l, at_path property [Key "literal"] = Some l
                    /\ truthy l = true /\ member l "value" = JNull)
      \/ (lacks property "literal"
          /\ exists s, at_path property [Key "solid"] = Some s
                       /\ truthy s = true /\ member s "color" = JNull)).
Proof.
  assert (G : forall v k, (k =? "length") = false -> truthy v = true ->
                          get v k = Ok (member v k)).
  { intros v k K T. destruct v; try discriminate T; cbn [get member];
      rewrite ?K; reflexivity. }
  assert (L : forall k, truthy property = true ->
                        (exists d, at_path property [Key k] = Some d
                                   /\ member property k = d /\ truthy d = true)
                        \/ (lacks property k /\ truthy (member property k) = false)).
  { intros k T. destruct property; try discriminate T;
      try (right; split; [intros d H; discriminate H | reflexivity]).
    cbn [at_path member]. unfold ownOr, lacks. cbn [at_path].
    destruct (own props k) as [d|] eqn:E.
    - destruct (truthy d) eqn:Td.
      + left. now exists d.
      + right. split; [|reflexivity]. intros d' [= <-]. exact Td.
    - right. split; [intros d H; discriminate H | reflexivity]. }
  unfold PBIRParserEnhanced.extractLiteralValue.
  destruct (truthy property) eqn:T; cbn [negb].
  - rewrite (G _ "literal" eq_refl T). cbn [bind].
    destruct (L "literal" eq_refl) as [(l & Pl & Ml & Tl) | (Ll & Fl)].
    + rewrite Ml, Tl, (G _ "value" eq_refl Tl).
      split; [eauto|]. split; [discriminate|]. split.
      { intros l' H _. rewrite Pl in H. now injection H as <-. }
      split.
      { intros s La. specialize (La _ Pl). congruence. }
      split.
      { intros _ La. specialize (La _ Pl). congruence. }
      intros [= N]. right. left. now exists l.
    + rewrite Fl. rewrite (G _ "solid" eq_refl T). cbn [bind].
      destruct (L "solid" eq_refl) as [(s & Ps & Ms & Ts) | (Ls & Fs)].
      * rewrite Ms, Ts, (G _ "color" eq_refl Ts).
        split; [eauto|]. split; [discriminate|]. split.
        { intros l' H Tl'. specialize (Ll _ H). congruence. }
        split.
        { intros s' _ H _. rewrite Ps in H. now injection H as <-. }
        split.
        { intros _ _ Ls. specialize (Ls _ Ps). congruence. }
        intros [= N]. right. right. split; [exact Ll|]. now exists s.
      * rewrite Fs.
        split; [eauto|]. split; [discriminate|]. split.
        { intros l' H Tl'. specialize (Ll _ H). congruence. }
        split.
        { intros s' _ H Ts'. specialize (Ls _ H). congruence. }
        split; [reflexivity|].
        intros [= ->]. discriminate T.
  - split; [eauto|]. split; [reflexivity|]. split.
    { intros l H. destruct property; try discriminate H; discriminate T. }
    split.
    { intros s _ H. destruct property; try discriminate H; discriminate T. }
    split; [discriminate|]. now left.
Qed.

Lemma extractLiteralValue_shapes_witness :
  PBIRParserEnhanced.extractLiteralValue literalWrapper = Ok (JStr "Chart1")
  /\ PBIRParserEnhanced.extractLiteralValue solidWrapper = Ok (JStr "#FF0000")
  /\ PBIRParserEnhanced.extractLiteralValue exprWrapper = Ok exprWrapper
  /\ PBIRParserEnhanced.extractLiteralValue JUndefined = Ok JNull
  /\ PBIRParserEnhanced.extractLiteralValue (obj1 "literal" (obj1 "value" JNull))
     = Ok JNull.
Proof.
  split; [|split; [|split; [|split]]].
  - apply (proj1 (proj2 (proj2 (extractLiteralValue_shapes literalWrapper)))
             (obj1 "value" (JStr "Chart1"))); reflexivity.
  - apply (proj1 (proj2 (proj2 (proj2 (extractLiteralValue_shapes solidWrapper))))
             (obj1 "color" (JStr "#FF0000"))).
    + intros d H. discriminate H.
    + reflexivity.
    + reflexivity.
  - apply (proj1 (proj2 (proj2 (proj2 (proj2 (extractLiteralValue_shapes exprWrapper)))))).
    + reflexivity.
    + intros d H. discriminate H.
    + intros d H. discriminate H.
  - apply (proj1 (proj2 (extractLiteralValue_shapes JUndefined))). reflexivity.
  - apply (proj1 (proj2 (proj2 (extractLiteralValue_shapes
                                  (obj1 "literal" (obj1 "value" JNull)))))
             (obj1 "value" JNull)); reflexivity.
Defined.

(** C3 as stated fails on an expression literal, which the resolver gives
    back as it came, quotes and wrapper included, and on a wrapper of no
    known shape, which it gives back instead of [null]. *)
Lemma expression_literal_is_not_resolved :
  ~ resolvesAsDescribed exprWrapper /\ ~ resolvesAsDescribed gradientWrapper.
Proof.
  split; intros H; vm_compute in H; discriminate H.
Qed.

(** ** Aggregation codes (claim C6) *)

Lemma tableGetV_int (table : list (string * string)) (z : Z) :
  (Z.abs z < 10 ^ 21)%Z ->
  tableGetV table (num z) = Ok (tableGet table (intToString z)).
Proof.
  intros H. unfold tableGetV, num, asInteger. cbn [Qnum Qden inject_Z].
  rewrite Z.mod_1_r. cbn [Z.eqb]. rewrite Z.div_1_r.
  apply Z.ltb_lt in H. now rewrite H.
Qed.

Lemma parseProjectionField_aggregation (roleKey : string)
  (projection field code : value) :
  at_path projection [Key "field"] = Some field ->
  aggregates field code ->
  forall named, tableGetV PBIRReportGenerator.aggregationTypes code = Ok named ->
  memberOf (PBIRReportGenerator.parseProjectionField roleKey projection) "aggregation"
  = Some (or_else named (JStr "Unknown")).
Proof.
  intros F (M & C & A) named N. repeat walk F. repeat walk A.
  apply lacks_falsy in M, C.
  unfold PBIRReportGenerator.parseProjectionField. run. rewrite N. run.
  unfold PBIRReportGenerator.entityOf. optional. reflexivity.
Qed.

Lemma extractTableName_returns (expression : value) :
  exists t, PBIRReportGenerator.extractTableName expression = Ok t.
Proof.
  unfold PBIRReportGenerator.extractTableName, and_get.
  repeat match goal with
         | |- context [if truthy ?v then _ else _] =>
             let T := fresh "T" in destruct (truthy v) eqn:T; cbn [bind]
         | |- context [get ?v ?k] =>
             let E := fresh "E" in
             destruct (get v k) eqn:E;
               [cbn [bind]
               | destruct v; discriminate
               | destruct v; discriminate]
         end; eauto.
Qed.

Lemma extractFieldName_returns (expression : value) :
  exists t, PBIRReportGenerator.extractFieldName expression = Ok t.
Proof.
  unfold PBIRReportGenerator.extractFieldName, and_get.
  repeat match goal with
         | |- context [if truthy ?v then _ else _] =>
             let T := fresh "T" in destruct (truthy v) eqn:T; cbn [bind]
         | |- context [get ?v ?k] =>
             let E := fresh "E" in
             destruct (get v k) eqn:E;
               [cbn [bind]
               | destruct v; discriminate
               | destruct v; discriminate]
         end; eauto.
Qed.

Lemma parseFieldFromSelect_aggregation (select code : value) :
  aggregates select code ->
  forall named, tableGetV PBIRReportGenerator.aggregationTypes code = Ok named ->
  memberOf (PBIRReportGenerator.parseFieldFromSelect select) "aggregation"
  = Some (or_else named (JStr "Unknown")).
Proof.
  intros (M & C & A) named N. repeat walk A.
  apply lacks_falsy in M, C.
  unfold PBIRReportGenerator.parseFieldFromSelect. run. rewrite N. run.
  destruct (extractTableName_returns (ownOr ps0 "Expression")) as (t & ->).
  destruct (extractFieldName_returns (ownOr ps0 "Expression")) as (f & ->).
  reflexivity.
Qed.

Lemma parseSelectExpression_aggregation (select code : value) :
  aggregates select code -> lacks select "Hierarchy" ->
  forall named, tableGetV PBIRParserEnhanced.aggregationFunctions code = Ok named ->
  memberOf (PBIRParserEnhanced.parseSelectExpression select) "aggregation"
  = Some (or_else named (JStr "Unknown")).
Proof.
  intros (M & C & A) H named N. repeat walk A.
  apply lacks_falsy in M, C, H.
  unfold PBIRParserEnhanced.parseSelectExpression. run. rewrite N. run.
  reflexivity.
Qed.

Lemma intToString_head (z : Z) :
  exists c r, intToString z = String c r
              /\ (c = "-"%char \/ (48 <= nat_of_ascii c <= 57)%nat).
Proof.
  unfold intToString, NilZero.string_of_int.
  destruct z as [|p|p]; cbn [Z.to_int].
  - eexists _, _. split; [reflexivity|]. right. cbn. lia.
  - unfold NilZero.string_of_uint.
    destruct (Pos.to_uint p); eexists _, _; (split; [reflexivity|]); right; cbn; lia.
  - eexists _, _. split; [reflexivity|]. now left.
Qed.

(** The text of an integer names no member of the prototype. *)
Lemma inherited_int (z : Z) : inherited (intToString z) = JUndefined.
Proof.
  destruct (intToString_head z) as (c & r & -> & H).
  unfold inherited, objectPrototypeMembers. cbn [existsb String.eqb].
  destruct H as [-> | H].
  - reflexivity.
  - assert (E : forall d, (nat_of_ascii d < 48 \/ 57 < nat_of_ascii d)%nat ->
                          Ascii.eqb c d = false).
    { intros d D. destruct (Ascii.eqb_spec c d) as [-> | N]; [lia | reflexivity]. }
    rewrite !E by (cbn; lia). reflexivity.
Qed.

Lemma asInteger_sound (q : Q) (z : Z) : asInteger q = Some z -> (q == inject_Z z)%Q.
Proof.
  unfold asInteger. destruct (Z.eqb_spec (Qnum q mod Z.pos (Qden q)) 0) as [M|];
    [|discriminate].
  intros [= <-]. unfold Qeq. cbn [Qnum Qden inject_Z].
  rewrite Z.mul_1_r. rewrite Z.mul_comm. now apply Z.div_exact.
Qed.

Lemma tableOwn_In (table : list (string * string)) (k v : string) :
  tableOwn table k = Some v -> In k (map fst table).
Proof.
  induction table as [|[k' v'] r IH]; cbn [tableOwn map fst In]; [discriminate|].
  destruct (String.eqb_spec k' k) as [-> | N]; [now left | right; now apply IH].
Qed.

(** A numeric code is looked up without a throw, and gives a name of the
    table or nothing. *)
Lemma tableGetV_code (table : list (string * string)) (q : Q) :
  (exists name, tableGetV table (JNum q) = Ok (JStr name))
  \/ tableGetV table (JNum q) = Ok JUndefined.
Proof.
  unfold tableGetV. destruct (asInteger q) as [z|]; [|now right].
  destruct (Z.abs z <? 10 ^ 21)%Z; [|now right].
  unfold tableGet. destruct (tableOwn table (intToString z)) as [name|].
  - left. now exists name.
  - right. now rewrite inherited_int.
Qed.

Lemma tableGetV_unmapped (table : list (string * string)) (q : Q) :
  ~ mappedCode table q -> tableGetV table (JNum q) = Ok JUndefined.
Proof.
  intros U. unfold tableGetV. destruct (asInteger q) as [z|] eqn:A; [|reflexivity].
  destruct (Z.abs z <? 10 ^ 21)%Z; [|reflexivity].
  unfold tableGet. destruct (tableOwn table (intToString z)) as [name|] eqn:T.
  - exfalso. apply U. exists z. split; [now apply asInteger_sound|].
    now apply tableOwn_In in T.
  - now rewrite inherited_int.
Qed.

Lemma or_else_name (named : value) :
  (exists name, named = JStr name) \/ named = JUndefined ->
  exists name, or_else named (JStr "Unknown") = JStr name.
Proof.
  intros [(name & ->) | ->].
  - unfold or_else. destruct (truthy (JStr name)); eauto.
  - now exists "Unknown".
Qed.

Lemma tableGetV_named (table : list (string * string)) (q : Q) :
  exists named name,
    tableGetV table (JNum q) = Ok named
    /\ or_else named (JStr "Unknown") = JStr name.
Proof.
  destruct (tableGetV_code table q) as [(n & E) | E].
  - destruct (or_else_name (JStr n)) as (name & N); [left; eauto|].
    now exists (JStr n), name.
  - now exists JUndefined, "Unknown".
Qed.

(** C6: at each place where an aggregation code is resolved (the lookup of
    the basic parser, the projections and the Select entries of the report
    generator, the Select entries of the schema-aware parser), the code 0
    gives [Sum], every numeric code that the table of the place does not map
    gives [Unknown], 99 among them, and no numeric code makes the lookup
    throw: each gives a name. *)
Theorem aggregation_code_resolution :
  (PBIRParser.getAggregationFunction (num 0) = Ok (JStr "Sum")
   /\ (forall q, ~ mappedCode PBIRParser.functions q ->
                 PBIRParser.getAggregationFunction (JNum q) = Ok (JStr "Unknown"))
   /\ (forall q, exists name,
                 PBIRParser.getAggregationFunction (JNum q) = Ok (JStr name)))
  /\ (forall roleKey projection field,
        at_path projection [Key "field"] = Some field ->
        (aggregates field (num 0) ->
         memberOf (PBIRReportGenerator.parseProjectionField roleKey projection)
           "aggregation" = Some (JStr "Sum"))
        /\ (forall q, ~ mappedCode PBIRReportGenerator.aggregationTypes q ->
              aggregates field (JNum q) ->
              memberOf (PBIRReportGenerator.parseProjectionField roleKey projection)
                "aggregation" = Some (JStr "Unknown"))
        /\ (forall q, aggregates field (JNum q) ->
              exists name,
                memberOf (PBIRReportGenerator.parseProjectionField roleKey projection)
                  "aggregation" = Some (JStr name)))
  /\ (forall select,
        (aggregates select (num 0) ->
         memberOf (PBIRReportGenerator.parseFieldFromSelect select) "aggregation"
         = Some (JStr "Sum"))
        /\ (forall q, ~ mappedCode PBIRReportGenerator.aggregationTypes q ->
              aggregates select (JNum q) ->
              memberOf (PBIRReportGenerator.parseFieldFromSelect select) "aggregation"
              = Some (JStr "Unknown"))
        /\ (forall q, aggregates select (JNum q) ->
              exists name,
                memberOf (PBIRReportGenerator.parseFieldFromSelect select)
                  "aggregation" = Some (JStr name)))
  /\ (forall select, lacks select "Hierarchy" ->
        (aggregates select (num 0) ->
         memberOf (PBIRParserEnhanced.parseSelectExpression select) "aggregation"
         = Some (JStr "Sum"))
        /\ (forall q, ~ mappedCode PBIRParserEnhanced.aggregationFunctions q ->
              aggregates select (JNum q) ->
              memberOf (PBIRParserEnhanced.parseSelectExpression select) "aggregation"
              = Some (JStr "Unknown"))
        /\ (forall q, aggregates select (JNum q) ->
              exists name,
                memberOf (PBIRParserEnhanced.parseSelectExpression select)
                  "aggregation" = Some (JStr name))).
Proof.
  split; [|split; [|split]].
  - split; [reflexivity|]. split.
    + intros q U. unfold PBIRParser.getAggregationFunction.
      now rewrite (tableGetV_unmapped _ _ U).
    + intros q. unfold PBIRParser.getAggregationFunction.
      destruct (tableGetV_named PBIRParser.functions q) as (named & name & -> & N).
      exists name. cbn [bind]. now rewrite N.
  - intros roleKey projection field F. split; [|split].
    + intros A.
      now rewrite (parseProjectionField_aggregation _ _ _ _ F A (JStr "Sum")).
    + intros q U A.
      now rewrite (parseProjectionField_aggregation _ _ _ _ F A JUndefined
                     (tableGetV_unmapped _ _ U)).
    + intros q A.
      destruct (tableGetV_named PBIRReportGenerator.aggregationTypes q)
        as (named & name & E & N).
      exists name.
      now rewrite (parseProjectionField_aggregation _ _ _ _ F A named E), N.
  - intros select. split; [|split].
    + intros A. now rewrite (parseFieldFromSelect_aggregation _ _ A (JStr "Sum")).
    + intros q U A.
      now rewrite (parseFieldFromSelect_aggregation _ _ A JUndefined
                     (tableGetV_unmapped _ _ U)).
    + intros q A.
      destruct (tableGetV_named PBIRReportGenerator.aggregationTypes q)
        as (named & name & E & N).
      exists name. now rewrite (parseFieldFromSelect_aggregation _ _ A named E), N.
  - intros select H. split; [|split].
    + intros A. now rewrite (parseSelectExpression_aggregation _ _ A H (JStr "Sum")).
    + intros q U A.
      now rewrite (parseSelectExpression_aggregation _ _ A H JUndefined
                     (tableGetV_unmapped _ _ U)).
    + intros q A.
      destruct (tableGetV_named PBIRParserEnhanced.aggregationFunctions q)
        as (named & name & E & N).
      exists name. now rewrite (parseSelectExpression_aggregation _ _ A H named E), N.
Qed.

Lemma aggregated_aggregates (code : Z) : aggregates (aggregated code) (num code).
Proof.
  repeat split; intros d H; discriminate H.
Qed.

(** No table has a key for 99, nor for a half. *)
Lemma ninety_nine_unmapped (table : list (string * string)) :
  existsb (String.eqb "99") (map fst table) = false ->
  ~ mappedCode table (inject_Z 99).
Proof.
  intros K (z & E & I).
  assert (Z : z = 99%Z) by (unfold Qeq in E; cbn in E; lia). subst z.
  apply Bool.not_true_iff_false in K. apply K. apply existsb_exists.
  exists "99". split; [exact I | reflexivity].
Qed.

Lemma aggregation_code_resolution_witness :
  memberOf (PBIRReportGenerator.parseProjectionField "Values"
              (obj1 "field" (aggregated 0))) "aggregation" = Some (JStr "Sum")
  /\ memberOf (PBIRReportGenerator.parseFieldFromSelect (aggregated 99))
       "aggregation" = Some (JStr "Unknown")
  /\ memberOf (PBIRParserEnhanced.parseSelectExpression (aggregated 0))
       "aggregation" = Some (JStr "Sum")
  /\ memberOf (PBIRParserEnhanced.parseSelectExpression (aggregated 99))
       "aggregation" = Some (JStr "Unknown")
  /\ PBIRParser.getAggregationFunction (JNum (13 # 2)) = Ok (JStr "Unknown").
Proof.
  destruct aggregation_code_resolution as ((_ & B & _) & P & S & E).
  split; [|split; [|split; [|split]]].
  - apply (proj1 (P "Values" (obj1 "field" (aggregated 0)) (aggregated 0) eq_refl)).
    apply aggregated_aggregates.
  - apply (proj1 (proj2 (S (aggregated 99))) (inject_Z 99)).
    + now apply ninety_nine_unmapped.
    + apply aggregated_aggregates.
  - apply (proj1 (E (aggregated 0) ltac:(intros d H; discriminate H))).
    apply aggregated_aggregates.
  - apply (proj1 (proj2 (E (aggregated 99) ltac:(intros d H; discriminate H)))
             (inject_Z 99)).
    + now apply ninety_nine_unmapped.
    + apply aggregated_aggregates.
  - apply B. intros (z & Q & _). unfold Qeq in Q. cbn in Q. lia.
Defined.

(** ** Positions (claim C9) *)

Lemma get_member (v : value) (k : string) :
  nullish v = false -> (k =? "length") = false -> get v k = Ok (member v k).
Proof.
  intros N L. destruct v; try discriminate N; cbn [get member]; try reflexivity;
    now rewrite L.
Qed.

Lemma truthy_not_nullish (v : value) : truthy v = true -> nullish v = false.
Proof. now destruct v. Qed.

Lemma coordinate_member (visualData : value) (k : string) :
  coordinate visualData k
  = if truthy (member visualData "position")
    then or_else (member (member visualData "position") k) (num 0)
    else num 0.
Proof.
  unfold coordinate, or_else. cbn [at_path].
  destruct visualData; try reflexivity. cbn [member]. unfold ownOr.
  destruct (own props "position") as [pos|]; [|reflexivity].
  destruct pos; cbn [member truthy at_path];
    try reflexivity;
    try match goal with |- context [if ?c then _ else _] => now destruct c end.
  unfold ownOr. destruct (own props0 k); reflexivity.
Qed.

Lemma coordinate_keeps (visualData : value) (k : string) :
  nullish (coordinate visualData k) = false
  /\ (at_path visualData [Key "position"; Key k] = None ->
      coordinate visualData k = num 0)
  /\ (forall q, at_path visualData [Key "position"; Key k] = Some (JNum q) ->
      (0 <= q)%Q -> nonNegative (coordinate visualData k)).
Proof.
  unfold coordinate.
  destruct (at_path visualData [Key "position"; Key k]) as [d|];
    (split; [|split]).
  - destruct (truthy d) eqn:T; [|reflexivity]. now destruct d.
  - discriminate.
  - intros q H Hq. inversion H; subst.
    destruct (truthy (JNum q)); [exists q | exists (inject_Z 0)]; split;
      auto; reflexivity || apply Qle_refl.
  - reflexivity.
  - reflexivity.
  - intros q H. discriminate.
Qed.

Ltac coordinate_cases H :=
  unfold coordinates in H; cbn [In] in H;
  repeat (destruct H as [<- | H]; [| ]); [..| contradiction].

Ltac read_position N :=
  rewrite (get_member _ "position" N eq_refl); cbn [bind];
  rewrite coordinate_member;
  match goal with
  | |- context [truthy (member ?v "position")] =>
      let T := fresh "T" in
      destruct (truthy (member v "position")) eqn:T;
      [ apply truthy_not_nullish in T;
        repeat match goal with
               | |- context [get (member v "position") ?k] =>
                   rewrite (get_member (member v "position") k T eq_refl);
                   cbn [bind]
               end | ]
  end.

Lemma extractLayout_coordinate (visualData : value) (k : string) :
  nullish visualData = false -> In k coordinates ->
  memberOf (EnhancedPBIRParser.extractLayout visualData) k
  = Some (coordinate visualData k).
Proof.
  intros N H. unfold EnhancedPBIRParser.extractLayout.
  read_position N; coordinate_cases H; reflexivity.
Qed.

Lemma extractLayoutEnhanced_coordinate (visualData : value) (k : string) :
  nullish visualData = false -> In k coordinates ->
  memberOf (PBIRParserEnhanced.extractLayoutEnhanced visualData) k
  = Some (coordinate visualData k).
Proof.
  intros N H. unfold PBIRParserEnhanced.extractLayoutEnhanced.
  read_position N; coordinate_cases H; reflexivity.
Qed.

Lemma validatePosition_coordinate (position : value) (k : string) :
  truthy position = true -> In k coordinates ->
  memberOf (PBIRParserEnhanced.validatePosition position) k
  = Some (coordinate (obj1 "position" position) k).
Proof.
  intros T H. unfold PBIRParserEnhanced.validatePosition.
  rewrite T. cbn [negb]. rewrite coordinate_member.
  change (member (obj1 "position" position) "position") with position.
  rewrite T. apply truthy_not_nullish in T.
  repeat match goal with
         | |- context [get position ?k] =>
             rewrite (get_member position k T eq_refl); cbn [bind]
         end.
  coordinate_cases H; reflexivity.
Qed.

(** C9, as the code has it: in the layout records of the command-line parser
    and of the schema-aware parser, and in a validated position, each of
    [x], [y], [z], [width] and [height] is the value of the document when
    that value is truthy and 0 otherwise; so it is never [null] or
    [undefined], it is 0 when the document has no such value, and it is a
    number that is not negative whenever the document gives one.  Without a
    position to validate, [validatePosition] gives [null]. *)
Theorem layout_coordinates (visualData : value) :
  nullish visualData = false ->
  (forall k, In k coordinates ->
     memberOf (EnhancedPBIRParser.extractLayout visualData) k
     = Some (coordinate visualData k)
     /\ memberOf (PBIRParserEnhanced.extractLayoutEnhanced visualData) k
        = Some (coordinate visualData k)
     /\ nullish (coordinate visualData k) = false
     /\ (at_path visualData [Key "position"; Key k] = None ->
         coordinate visualData k = num 0)
     /\ (forall q, at_path visualData [Key "position"; Key k] = Some (JNum q) ->
         (0 <= q)%Q -> nonNegative (coordinate visualData k)))
  /\ (forall position,
        (truthy position = false ->
         PBIRParserEnhanced.validatePosition position = Ok JNull)
        /\ (truthy position = true ->
            forall k, In k coordinates ->
              memberOf (PBIRParserEnhanced.validatePosition position) k
              = Some (coordinate (obj1 "position" position) k))).
Proof.
  intros N. split.
  - intros k H.
    split; [now apply extractLayout_coordinate |].
    split; [now apply extractLayoutEnhanced_coordinate |].
    apply coordinate_keeps.
  - intros position. split.
    + intros T. unfold PBIRParserEnhanced.validatePosition. now rewrite T.
    + intros T k H. now apply validatePosition_coordinate.
Qed.

Lemma layout_coordinates_witness :
  memberOf (EnhancedPBIRParser.extractLayout placedVisual) "x"
  = Some (JNum (21 # 2))
  /\ memberOf (PBIRParserEnhanced.extractLayoutEnhanced placedVisual) "height"
     = Some (num 0)
  /\ memberOf (EnhancedPBIRParser.extractLayout placedVisual) "z" = Some (num 0).
Proof.
  assert (N : nullish placedVisual = false) by reflexivity.
  destruct (layout_coordinates placedVisual N) as (L & _).
  split; [|split].
  - apply (proj1 (L "x" ltac:(simpl; tauto))).
  - apply (proj1 (proj2 (L "height" ltac:(simpl; tauto)))).
  - apply (proj1 (L "z" ltac:(simpl; tauto))).
Defined.

(** C9 as stated fails on a document whose position has a negative width:
    the width is copied as it is. *)
Lemma negative_width_is_kept :
  ~ layoutAsDescribed (EnhancedPBIRParser.extractLayout narrowVisual)
  /\ ~ layoutAsDescribed (PBIRParserEnhanced.extractLayoutEnhanced narrowVisual).
Proof.
  split; intros ((w & H & q & -> & Hq) & _); vm_compute in H;
    inversion H; subst; vm_compute in Hq; now apply Hq.
Qed.

(** ** Filter rendering (claim C4) *)

Lemma depth_own (ps : list (string * value)) (k : string) (x : value) :
  own ps k = Some x -> (depth x < depth (JObj ps))%nat.
Proof.
  cbn [depth]. induction ps as [|[k' v] ps IH]; cbn [own]; [discriminate|].
  destruct (k' =? k).
  - intros [= ->]. lia.
  - intros H. specialize (IH H). lia.
Qed.

Lemma depth_in (l : list value) (x : value) :
  In x l -> (depth x < depth (JArr l))%nat.
Proof.
  cbn [depth]. induction l as [|a l IH]; cbn [In fold_right]; [contradiction|].
  intros [-> | H]; [lia | specialize (IH H); lia].
Qed.

Lemma mapM_ext_in {A B : Type} (f g : A -> result B) (l : list A) :
  (forall x, In x l -> f x = g x) -> mapM f l = mapM g l.
Proof.
  induction l as [|a l IH]; intros H; cbn [mapM]; [reflexivity|].
  rewrite (H a (or_introl eq_refl)).
  rewrite IH; [reflexivity|]. intros x Hx. apply H. now right.
Qed.

Lemma mapArray_fuel (f g : value -> result value) (ps : list (string * value))
  (k : string) (n : nat) :
  (depth (JObj ps) <= n)%nat ->
  (forall x, (depth x < n)%nat -> f x = g x) ->
  mapArray f (ownOr ps k) = mapArray g (ownOr ps k).
Proof.
  intros D H. unfold ownOr. destruct (own ps k) as [c|] eqn:E; [|reflexivity].
  destruct c; try reflexivity. cbn [mapArray].
  apply mapM_ext_in. intros x Hx. apply H.
  apply depth_own in E. apply depth_in in Hx. lia.
Qed.

Lemma formatFilterObjectN_fuel (n m : nat) (filterObj : value) :
  (depth filterObj < n)%nat -> (depth filterObj < m)%nat ->
  PBIRParser.formatFilterObjectN n filterObj
  = PBIRParser.formatFilterObjectN m filterObj.
Proof.
  revert m filterObj. induction n as [|n IH]; intros [|m] filterObj Hn Hm; try lia.
  destruct filterObj; try reflexivity.
  cbn [PBIRParser.formatFilterObjectN get bind].
  destruct (and_get (ownOr props "In") "Expressions") as [e| |]; cbn [bind];
    try reflexivity.
  destruct (truthy e); [reflexivity|].
  destruct (truthy (ownOr props "Between")); [reflexivity|].
  destruct (truthy (ownOr props "And")).
  { rewrite (mapArray_fuel (PBIRParser.formatFilterObjectN n)
               (PBIRParser.formatFilterObjectN m) props "And" (Nat.min n m));
      [reflexivity | lia |].
    intros x Hx. apply IH; lia. }
  destruct (truthy (ownOr props "Or")).
  { rewrite (mapArray_fuel (PBIRParser.formatFilterObjectN n)
               (PBIRParser.formatFilterObjectN m) props "Or" (Nat.min n m));
      [reflexivity | lia |].
    intros x Hx. apply IH; lia. }
  destruct (truthy (ownOr props "Not")) eqn:T; [|reflexivity].
  rewrite (IH m (ownOr props "Not")); [reflexivity | |];
    unfold ownOr in *; destruct (own props "Not") as [c|] eqn:E;
    try discriminate T; apply depth_own in E; lia.
Qed.

(** C4: the rendering of a filter node is a function of the node alone,
    whatever the fuel given to the nested calls beyond the depth of the node;
    and the conjunction of a membership in [A, B] with a comparison
    [GreaterThan] against the literal 10 renders as the string
    [(IN (A, B) AND GreaterThan 10)]. *)
Theorem formatFilterObject_renders :
  (forall fuel filterObj,
     (depth filterObj < fuel)%nat ->
     PBIRParser.formatFilterObjectN fuel filterObj
     = PBIRParser.formatFilterObject filterObj)
  /\ PBIRParser.formatFilterObject sampleFilter
     = Ok (JStr "(IN (A, B) AND GreaterThan 10)").
Proof.
  split.
  - intros fuel filterObj H. unfold PBIRParser.formatFilterObject.
    apply formatFilterObjectN_fuel; lia.
  - reflexivity.
Qed.

Lemma formatFilterObject_renders_witness :
  PBIRParser.formatFilterObjectN 7 sampleFilter
  = PBIRParser.formatFilterObject sampleFilter.
Proof.
  apply (proj1 formatFilterObject_renders 7 sampleFilter).
  vm_compute. lia.
Defined.

(** ** Titles (claim C1) *)

Lemma clean_nonempty (s : string) : trim (stripQuotes s) <> "" -> s <> "".
Proof. intros H ->. now apply H. Qed.

Lemma cleanTitle_some (s : string) :
  trim (stripQuotes s) <> "" -> trim (stripQuotes s) <> "Title" ->
  PBIRReportGenerator.cleanTitle (JStr s) = Ok (Some (trim (stripQuotes s))).
Proof.
  intros E T. cbn [PBIRReportGenerator.cleanTitle].
  destruct (String.eqb_spec (trim (stripQuotes s)) ""); [contradiction|].
  destruct (String.eqb_spec (trim (stripQuotes s)) "Title"); [contradiction|].
  reflexivity.
Qed.

Lemma containerTitle_reads (visualData : value) (s : string) :
  ContainerTitle visualData s ->
  trim (stripQuotes s) <> "" -> trim (stripQuotes s) <> "Title" ->
  PBIRReportGenerator.containerTitle visualData = Ok (Some (trim (stripQuotes s))).
Proof.
  intros C E T. pose proof (truthy_str s (clean_nonempty s E)) as Ts.
  destruct C as [H | F H]; unfold titleText, exprValue in H; cbn [app] in H.
  - repeat walk H.
    unfold PBIRReportGenerator.containerTitle. run. optional. run.
    now apply cleanTitle_some.
  - repeat walk H.
    unfold PBIRReportGenerator.containerTitle. run.
    assert (V : exists c, getOpt (ownOr ps "visual") "visualContainerObjects" = Ok c
                          /\ truthy c = false).
    { unfold ownOr. destruct (own ps "visual") as [v|] eqn:Ev; [|now exists JUndefined].
      destruct v; try (now exists JUndefined).
      exists (ownOr props "visualContainerObjects"). split; [reflexivity|].
      unfold ownOr.
      destruct (own props "visualContainerObjects") as [c|] eqn:Ec; [|reflexivity].
      apply F. cbn [at_path]. now rewrite Ev, Ec. }
    destruct V as (c & -> & Tc). cbn [bind]. run.
    now apply cleanTitle_some.
Qed.

(** C1, as the code has it: when the title of the visual container objects
    (those under [visual], or those at the root of a document whose [visual]
    holds none) is written as an expression literal whose string, without
    the quotes around it and trimmed, is not empty and not the placeholder,
    the display name of the visual is that string, whatever else the
    document holds: a legacy title under [visual.singleVisual.objects], in
    either of its shapes, does not come into it. *)
Theorem container_title_wins (visualData : value) (s : string) :
  ContainerTitle visualData s ->
  trim (stripQuotes s) <> "" -> trim (stripQuotes s) <> "Title" ->
  PBIRReportGenerator.getVisualDisplayName visualData = Ok (trim (stripQuotes s)).
Proof.
  intros C E T. unfold PBIRReportGenerator.getVisualDisplayName.
  now rewrite (containerTitle_reads _ _ C E T).
Qed.

Lemma container_title_wins_witness :
  LegacyTitle twiceTitled "Chart1"
  /\ PBIRReportGenerator.getVisualDisplayName twiceTitled = Ok "Revenue Trend".
Proof.
  split; [reflexivity|].
  apply (container_title_wins twiceTitled "'Revenue Trend'").
  - apply container_of_visual. reflexivity.
  - vm_compute. discriminate.
  - vm_compute. discriminate.
Defined.

(** C1 as stated fails on a container title that is written as a direct
    literal, which the generator does not read in that place, and on a
    container title at the root of a document whose [visual] has container
    objects of its own: in both the legacy title is taken. *)
Lemma container_override_can_lose :
  ~ containerOverrideWins directlyTitled /\ ~ containerOverrideWins shadowedTitle.
Proof.
  split; intros H.
  - specialize (H (obj1 "literal" (obj1 "value" (JStr "Revenue Trend")))
                  (obj1 "literal" (obj1 "value" (JStr "Chart1")))
                  "Revenue Trend" "Chart1").
    assert (E : PBIRReportGenerator.getVisualDisplayName directlyTitled
                = Ok "Revenue Trend").
    { apply H; [left; reflexivity | reflexivity | |];
        (split; [reflexivity | split; discriminate]). }
    vm_compute in E. discriminate E.
  - specialize (H (obj1 "expr" (literalNode (JStr "'Revenue Trend'")))
                  (obj1 "literal" (obj1 "value" (JStr "Chart1")))
                  "Revenue Trend" "Chart1").
    assert (E : PBIRReportGenerator.getVisualDisplayName shadowedTitle
                = Ok "Revenue Trend").
    { apply H; [right; reflexivity | reflexivity | |];
        (split; [reflexivity | split; discriminate]). }
    vm_compute in E. discriminate E.
Qed.

(** ** The report record (claim C5) *)

Lemma own_setProp (ps : list (string * value)) (k k' : string) (v : value) :
  own (setProp ps k v) k' = if k =? k' then Some v else own ps k'.
Proof.
  induction ps as [|[a x] ps IH]; cbn [setProp own].
  - reflexivity.
  - destruct (String.eqb_spec a k) as [-> | N]; cbn [own].
    + destruct (k =? k'); reflexivity.
    + rewrite IH. destruct (String.eqb_spec a k') as [-> | N'].
      * destruct (String.eqb_spec k k'); [congruence | reflexivity].
      * reflexivity.
Qed.

Lemma fieldOf_withField (rd : value) (key k : string) (data : value) :
  fieldOf (JObj (setProp (spread rd) key data)) k
  = if key =? k then Some data else fieldOf rd k.
Proof. unfold fieldOf. cbn [spread]. apply own_setProp. Qed.

Lemma neq_eqb (a b : string) : a <> b -> (b =? a) = false.
Proof. intros H. destruct (String.eqb_spec b a); congruence. Qed.

Lemma basic_merge_fields (fileMap : list file) (st : PBIRParser.state) (k : string) :
  fieldOf (PBIRParser.reportData (PBIRParser.parseReportStructure fileMap st)) k
  = match findFile fileMap "definition/reportExtensions.json" with
    | Some extensionsFile =>
        if "extensions" =? k then Some (parseJsonFile extensionsFile)
        else match findFile fileMap "definition/version.json" with
             | Some versionFile =>
                 if "version" =? k then Some (parseJsonFile versionFile)
                 else fieldOf (basicRoot fileMap st) k
             | None => fieldOf (basicRoot fileMap st) k
             end
    | None =>
        match findFile fileMap "definition/version.json" with
        | Some versionFile =>
            if "version" =? k then Some (parseJsonFile versionFile)
            else fieldOf (basicRoot fileMap st) k
        | None => fieldOf (basicRoot fileMap st) k
        end
    end.
Proof.
  unfold PBIRParser.parseReportStructure, basicRoot, PBIRParser.withField.
  destruct (findFile fileMap "definition/reportExtensions.json");
    destruct (findFile fileMap "definition/version.json");
    destruct (findFile fileMap "definition/report.json");
    cbn [PBIRParser.reportData];
    rewrite ?fieldOf_withField; reflexivity.
Qed.

Section CheckedMerge.

Variable validate : value -> string -> string + (bool * list string).

Lemma mergeOptional_fields (files : list file) (path schemaName key : string)
  (st : EnhancedPBIRParser.state) (k : string) :
  key <> k ->
  fieldOf (EnhancedPBIRParser.reportData
             (EnhancedPBIRParser.mergeOptional validate files path schemaName key st)) k
  = fieldOf (EnhancedPBIRParser.reportData st) k.
Proof.
  intros N. unfold EnhancedPBIRParser.mergeOptional.
  destruct (findFile files path) as [f|]; [|reflexivity].
  assert (R : EnhancedPBIRParser.reportData
                (snd (EnhancedPBIRParser.parseJsonFileWithValidation
                        validate f schemaName st))
              = EnhancedPBIRParser.reportData st).
  { unfold EnhancedPBIRParser.parseJsonFileWithValidation.
    destruct (content f); [reflexivity|].
    destruct (schemaName =? ""); [reflexivity|].
    destruct (validate v schemaName) as [|[[] ?]]; reflexivity. }
  destruct (EnhancedPBIRParser.parseJsonFileWithValidation validate f schemaName st)
    as [data st'].
  cbn [snd] in R.
  destruct (truthy (EnhancedPBIRParser.reportData st') && truthy data).
  - cbn [EnhancedPBIRParser.setReport EnhancedPBIRParser.reportData].
    unfold EnhancedPBIRParser.withField. rewrite fieldOf_withField.
    destruct (String.eqb_spec key k); [contradiction|]. now rewrite R.
  - now rewrite R.
Qed.

Lemma checked_merge_other_fields (files : list file) (k : string) :
  k <> "version" -> k <> "extensions" ->
  fieldOf (EnhancedPBIRParser.reportData
             (EnhancedPBIRParser.parseReportStructure validate files
                EnhancedPBIRParser.initial)) k
  = match findFile files "definition/report.json" with
    | Some reportFile =>
        fieldOf (fst (EnhancedPBIRParser.parseJsonFileWithValidation
                        validate reportFile "report" EnhancedPBIRParser.initial)) k
    | None => None
    end.
Proof.
  intros Nv Ne. unfold EnhancedPBIRParser.parseReportStructure.
  rewrite !mergeOptional_fields by congruence.
  destruct (findFile files "definition/report.json") as [f|]; [|reflexivity].
  destruct (EnhancedPBIRParser.parseJsonFileWithValidation validate f "report"
              EnhancedPBIRParser.initial) as [data st'].
  reflexivity.
Qed.

End CheckedMerge.

Section CheckedFields.

Variable validate : value -> string -> string + (bool * list string).

Local Abbreviation read := (EnhancedPBIRParser.parseJsonFileWithValidation validate).

(** What is read from a file does not depend on the state, and reading
    leaves the report as it is. *)
Lemma read_data (f : file) (schemaName : string) (st : EnhancedPBIRParser.state) :
  fst (read f schemaName st) = fst (read f schemaName EnhancedPBIRParser.initial)
  /\ EnhancedPBIRParser.reportData (snd (read f schemaName st))
     = EnhancedPBIRParser.reportData st.
Proof.
  unfold EnhancedPBIRParser.parseJsonFileWithValidation.
  destruct (content f); [now split|].
  destruct (schemaName =? ""); [now split|].
  destruct (validate v schemaName) as [|[[] ?]]; now split.
Qed.

Lemma mergeOptional_report (files : list file) (path schemaName key : string)
  (st : EnhancedPBIRParser.state) :
  EnhancedPBIRParser.reportData
    (EnhancedPBIRParser.mergeOptional validate files path schemaName key st)
  = match findFile files path with
    | Some f =>
        let data := fst (read f schemaName EnhancedPBIRParser.initial) in
        if truthy (EnhancedPBIRParser.reportData st) && truthy data
        then EnhancedPBIRParser.withField (EnhancedPBIRParser.reportData st) key data
        else EnhancedPBIRParser.reportData st
    | None => EnhancedPBIRParser.reportData st
    end.
Proof.
  unfold EnhancedPBIRParser.mergeOptional.
  destruct (findFile files path) as [f|]; [|reflexivity].
  destruct (read_data f schemaName st) as (D & R).
  destruct (read f schemaName st) as [data st']. cbn [fst snd] in D, R.
  cbn zeta. rewrite <- D, R.
  destruct (truthy (EnhancedPBIRParser.reportData st) && truthy data); [reflexivity|].
  exact R.
Qed.

Lemma checked_root (files : list file) :
  EnhancedPBIRParser.reportData
    (match findFile files "definition/report.json" with
     | Some reportFile =>
         let '(data, st') := read reportFile "report" EnhancedPBIRParser.initial in
         EnhancedPBIRParser.setReport st' data
     | None => EnhancedPBIRParser.warn EnhancedPBIRParser.initial
                 "No main report.json found"
     end)
  = checkedRoot validate files.
Proof.
  unfold checkedRoot. destruct (findFile files "definition/report.json") as [f|];
    [|reflexivity].
  destruct (read f "report" EnhancedPBIRParser.initial). reflexivity.
Qed.

(** The record of the command-line parser after the two merges. *)
Lemma checked_merge_record (files : list file) :
  EnhancedPBIRParser.reportData
    (EnhancedPBIRParser.parseReportStructure validate files EnhancedPBIRParser.initial)
  = let root := checkedRoot validate files in
    let versioned :=
      match findFile files "definition/version.json" with
      | Some f =>
          let data := dataOf validate "versionMetadata" f in
          if truthy root && truthy data
          then EnhancedPBIRParser.withField root "version" data else root
      | None => root
      end in
    match findFile files "definition/reportExtensions.json" with
    | Some f =>
        let data := dataOf validate "reportExtension" f in
        if truthy versioned && truthy data
        then EnhancedPBIRParser.withField versioned "extensions" data else versioned
    | None => versioned
    end.
Proof.
  unfold EnhancedPBIRParser.parseReportStructure.
  rewrite !mergeOptional_report, checked_root. reflexivity.
Qed.

Lemma checked_merge_fields (files : list file) :
  (forall versionFile,
     findFile files "definition/version.json" = Some versionFile ->
     fieldOf (EnhancedPBIRParser.reportData
                (EnhancedPBIRParser.parseReportStructure validate files
                   EnhancedPBIRParser.initial)) "version"
     = checkedField (checkedRoot validate files) "version"
         (dataOf validate "versionMetadata" versionFile))
  /\ (forall extensionsFile,
        findFile files "definition/reportExtensions.json" = Some extensionsFile ->
        fieldOf (EnhancedPBIRParser.reportData
                   (EnhancedPBIRParser.parseReportStructure validate files
                      EnhancedPBIRParser.initial)) "extensions"
        = checkedField (checkedRoot validate files) "extensions"
            (dataOf validate "reportExtension" extensionsFile))
  /\ (truthy (checkedRoot validate files) = false ->
      EnhancedPBIRParser.reportData
        (EnhancedPBIRParser.parseReportStructure validate files
           EnhancedPBIRParser.initial)
      = checkedRoot validate files).
Proof.
  rewrite checked_merge_record. cbn zeta. unfold checkedField.
  set (root := checkedRoot validate files).
  split; [|split].
  - intros versionFile ->.
    set (vd := dataOf validate "versionMetadata" versionFile).
    destruct (truthy root) eqn:T; cbn [andb];
      [destruct (truthy vd) eqn:V|];
      destruct (findFile files "definition/reportExtensions.json") as [e|];
      cbn [truthy EnhancedPBIRParser.withField andb];
      rewrite ?T; cbn [andb];
      try destruct (truthy (dataOf validate "reportExtension" e));
      unfold EnhancedPBIRParser.withField;
      rewrite ?fieldOf_withField; reflexivity.
  - intros extensionsFile ->.
    set (ed := dataOf validate "reportExtension" extensionsFile).
    destruct (truthy root) eqn:T; cbn [andb];
      destruct (findFile files "definition/version.json") as [v|];
      try destruct (truthy (dataOf validate "versionMetadata" v));
      cbn [truthy EnhancedPBIRParser.withField andb];
      rewrite ?T; cbn [andb];
      try destruct (truthy ed);
      unfold EnhancedPBIRParser.withField;
      rewrite ?fieldOf_withField; reflexivity.
  - intros T. rewrite T. cbn [andb].
    destruct (findFile files "definition/version.json");
      destruct (findFile files "definition/reportExtensions.json");
      rewrite ?T; reflexivity.
Qed.

End CheckedFields.

(** C5, as the code has it: in the basic parser and in the command-line
    parser, merging [definition/version.json] and
    [definition/reportExtensions.json] into the report record leaves every
    field unchanged except the fields named [version] and [extensions], and
    these two as well when the directory has no such document.  The
    basic parser sets these two to the merged documents, over any value that
    the report document had put there.  The command-line parser does so when
    the report and the merged document are both truthy, and otherwise leaves
    the field as the report document has it; without a truthy report it
    merges nothing. *)
Theorem report_merge_keeps_other_fields :
  (forall fileMap st k,
     k <> "version" -> k <> "extensions" ->
     fieldOf (PBIRParser.reportData (PBIRParser.parseReportStructure fileMap st)) k
     = fieldOf (basicRoot fileMap st) k)
  /\ (forall fileMap st versionFile,
        findFile fileMap "definition/version.json" = Some versionFile ->
        fieldOf (PBIRParser.reportData (PBIRParser.parseReportStructure fileMap st))
          "version" = Some (parseJsonFile versionFile))
  /\ (forall fileMap st extensionsFile,
        findFile fileMap "definition/reportExtensions.json" = Some extensionsFile ->
        fieldOf (PBIRParser.reportData (PBIRParser.parseReportStructure fileMap st))
          "extensions" = Some (parseJsonFile extensionsFile))
  /\ (forall validate files k,
        k <> "version" -> k <> "extensions" ->
        fieldOf (EnhancedPBIRParser.reportData
                   (EnhancedPBIRParser.parseReportStructure validate files
                      EnhancedPBIRParser.initial)) k
        = fieldOf (checkedRoot validate files) k)
  /\ (forall validate files versionFile,
        findFile files "definition/version.json" = Some versionFile ->
        fieldOf (EnhancedPBIRParser.reportData
                   (EnhancedPBIRParser.parseReportStructure validate files
                      EnhancedPBIRParser.initial)) "version"
        = checkedField (checkedRoot validate files) "version"
            (dataOf validate "versionMetadata" versionFile))
  /\ (forall validate files extensionsFile,
        findFile files "definition/reportExtensions.json" = Some extensionsFile ->
        fieldOf (EnhancedPBIRParser.reportData
                   (EnhancedPBIRParser.parseReportStructure validate files
                      EnhancedPBIRParser.initial)) "extensions"
        = checkedField (checkedRoot validate files) "extensions"
            (dataOf validate "reportExtension" extensionsFile))
  /\ (forall validate files,
        truthy (checkedRoot validate files) = false ->
        EnhancedPBIRParser.reportData
          (EnhancedPBIRParser.parseReportStructure validate files
             EnhancedPBIRParser.initial)
        = checkedRoot validate files)
  /\ (forall fileMap st,
        (findFile fileMap "definition/version.json" = None ->
         fieldOf (PBIRParser.reportData (PBIRParser.parseReportStructure fileMap st))
           "version" = fieldOf (basicRoot fileMap st) "version")
        /\ (findFile fileMap "definition/reportExtensions.json" = None ->
            fieldOf (PBIRParser.reportData (PBIRParser.parseReportStructure fileMap st))
              "extensions" = fieldOf (basicRoot fileMap st) "extensions"))
  /\ (forall validate files,
        (findFile files "definition/version.json" = None ->
         fieldOf (EnhancedPBIRParser.reportData
                    (EnhancedPBIRParser.parseReportStructure validate files
                       EnhancedPBIRParser.initial)) "version"
         = fieldOf (checkedRoot validate files) "version")
        /\ (findFile files "definition/reportExtensions.json" = None ->
            fieldOf (EnhancedPBIRParser.reportData
                       (EnhancedPBIRParser.parseReportStructure validate files
                          EnhancedPBIRParser.initial)) "extensions"
            = fieldOf (checkedRoot validate files) "extensions")).
Proof.
  split; [|split; [|split; [|split; [|split; [|split; [|split; [|split]]]]]]].
  - intros fileMap st k Nv Ne. rewrite basic_merge_fields.
    rewrite (neq_eqb _ _ Nv), (neq_eqb _ _ Ne).
    destruct (findFile fileMap "definition/reportExtensions.json");
      destruct (findFile fileMap "definition/version.json"); reflexivity.
  - intros fileMap st versionFile H. rewrite basic_merge_fields, H.
    destruct (findFile fileMap "definition/reportExtensions.json"); reflexivity.
  - intros fileMap st extensionsFile H. rewrite basic_merge_fields, H. reflexivity.
  - intros validate files k Nv Ne. rewrite checked_merge_other_fields by assumption.
    unfold checkedRoot.
    destruct (findFile files "definition/report.json"); reflexivity.
  - intros validate files. apply checked_merge_fields.
  - intros validate files. apply checked_merge_fields.
  - intros validate files. apply checked_merge_fields.
  - intros fileMap st. split; intros N; rewrite basic_merge_fields, N.
    + now destruct (findFile fileMap "definition/reportExtensions.json").
    + now destruct (findFile fileMap "definition/version.json").
  - intros validate files. rewrite checked_merge_record. cbn zeta.
    set (root := checkedRoot validate files).
    split; intros N; rewrite N.
    + destruct (findFile files "definition/reportExtensions.json") as [e|];
        [|reflexivity].
      destruct (truthy root && truthy (dataOf validate "reportExtension" e));
        [|reflexivity].
      unfold EnhancedPBIRParser.withField. now rewrite fieldOf_withField.
    + destruct (findFile files "definition/version.json") as [v|]; [|reflexivity].
      destruct (truthy root && truthy (dataOf validate "versionMetadata" v));
        [|reflexivity].
      unfold EnhancedPBIRParser.withField. now rewrite fieldOf_withField.
Qed.

Lemma report_merge_keeps_other_fields_witness :
  fieldOf (PBIRParser.reportData
             (PBIRParser.parseReportStructure versionedReport PBIRParser.initial))
    "themeCollection" = Some (JObj [])
  /\ fieldOf (PBIRParser.reportData
                (PBIRParser.parseReportStructure versionedReport PBIRParser.initial))
       "version" = Some (obj1 "version" (JStr "2.0.0"))
  /\ fieldOf (EnhancedPBIRParser.reportData
                (EnhancedPBIRParser.parseReportStructure accept versionedReport
                   EnhancedPBIRParser.initial))
       "themeCollection" = Some (JObj [])
  /\ fieldOf (EnhancedPBIRParser.reportData
                (EnhancedPBIRParser.parseReportStructure accept versionedReport
                   EnhancedPBIRParser.initial))
       "version" = Some (obj1 "version" (JStr "2.0.0"))
  /\ EnhancedPBIRParser.reportData
       (EnhancedPBIRParser.parseReportStructure accept rootless
          EnhancedPBIRParser.initial) = JNull.
Proof.
  destruct report_merge_keeps_other_fields as (B & V & _ & C & CV & _ & N & _).
  split; [|split; [|split; [|split]]].
  - rewrite (B versionedReport PBIRParser.initial "themeCollection");
      [reflexivity | discriminate | discriminate].
  - apply (V versionedReport PBIRParser.initial
             (mkFile "definition/version.json" (inr (obj1 "version" (JStr "2.0.0"))))).
    reflexivity.
  - rewrite (C accept versionedReport "themeCollection");
      [reflexivity | discriminate | discriminate].
  - rewrite (CV accept versionedReport
               (mkFile "definition/version.json" (inr (obj1 "version" (JStr "2.0.0"))))
               eq_refl).
    reflexivity.
  - apply (N accept rootless). reflexivity.
Defined.

(** C5 as stated fails on a report document that has a field named
    [version]: merging [definition/version.json] puts the version document in
    its place. *)
Lemma version_field_is_overwritten :
  ~ basicMergeOnlyAdds versionedReport
  /\ ~ checkedMergeOnlyAdds accept versionedReport.
Proof.
  split; intros H;
    specialize (H _ eq_refl "version" (JStr "5.0") eq_refl);
    vm_compute in H; discriminate H.
Qed.

(** ** The order of the visuals of a page (claim C10) *)

(** Filtering keeps the files that are permutations of each other so. *)
Lemma filter_Permutation {X : Type} (keep : X -> bool) (xs ys : list X) :
  Permutation xs ys -> Permutation (filter keep xs) (filter keep ys).
Proof.
  intros P. induction P as [| x xs ys _ IH | x y xs | xs ys zs _ IH1 _ IH2];
    cbn [filter].
  - constructor.
  - destruct (keep x); [now constructor | assumption].
  - destruct (keep x), (keep y); try apply Permutation_refl. apply perm_swap.
  - now transitivity (filter keep ys).
Qed.

Section SortedVisuals.

Variable localeCompare : string -> string -> Z.
Variable getVisualPosition getVisualFields getVisualFilters : value -> result value.

(** What is asked of a collation: any two strings compare one way or the
    other, and consistently. *)
Hypothesis localeCompare_total :
  forall a b, (localeCompare a b <= 0)%Z \/ (localeCompare b a <= 0)%Z.
Hypothesis localeCompare_trans :
  forall a b c, (localeCompare a b <= 0)%Z -> (localeCompare b c <= 0)%Z ->
                (localeCompare a c <= 0)%Z.

Local Abbreviation insertByName := (PBIRReportGenerator.insertByName localeCompare).
Local Abbreviation sortByName := (PBIRReportGenerator.sortByName localeCompare).
Local Abbreviation collectVisuals :=
  (PBIRReportGenerator.collectVisuals getVisualPosition getVisualFields
     getVisualFilters).
Local Abbreviation parsePageVisuals :=
  (PBIRReportGenerator.parsePageVisuals localeCompare getVisualPosition
     getVisualFields getVisualFilters).
Local Abbreviation sorted := (StronglySorted (byName localeCompare)).

Lemma insertByName_perm (x : PBIRReportGenerator.visualInfo) l :
  Permutation (x :: l) (insertByName x l).
Proof.
  induction l as [|y l IH]; cbn [PBIRReportGenerator.insertByName].
  - apply Permutation_refl.
  - destruct (localeCompare _ _ <=? 0)%Z; [apply Permutation_refl|].
    transitivity (y :: x :: l); [apply perm_swap | now constructor].
Qed.

Lemma insertByName_sorted (x : PBIRReportGenerator.visualInfo) l :
  sorted l -> sorted (insertByName x l).
Proof.
  induction 1 as [|y l S IH F]; cbn [PBIRReportGenerator.insertByName].
  - repeat constructor.
  - destruct (Z.leb_spec (localeCompare (PBIRReportGenerator.name x)
                            (PBIRReportGenerator.name y)) 0) as [L | G].
    + constructor; [now constructor|].
      constructor; [exact L|].
      eapply Forall_impl; [|exact F].
      intros z Hz. unfold byName in *. eapply localeCompare_trans; eassumption.
    + constructor; [exact IH|].
      assert (Y : byName localeCompare y x).
      { unfold byName. destruct (localeCompare_total (PBIRReportGenerator.name x)
                                   (PBIRReportGenerator.name y)); [lia | assumption]. }
      eapply Permutation_Forall; [apply insertByName_perm|].
      now constructor.
Qed.

Lemma sortByName_sorted l : sorted (sortByName l).
Proof.
  induction l as [|x l IH]; cbn [PBIRReportGenerator.sortByName fold_right].
  - constructor.
  - now apply insertByName_sorted.
Qed.

Lemma sortByName_perm l : Permutation l (sortByName l).
Proof.
  induction l as [|x l IH]; cbn [PBIRReportGenerator.sortByName fold_right].
  - constructor.
  - transitivity (x :: sortByName l); [now constructor | apply insertByName_perm].
Qed.

(** The loop gathers the same visuals from the same files, in whatever
    order the files come. *)
Lemma collectVisuals_perm (fs fs' : list file) :
  Permutation fs fs' ->
  forall l, collectVisuals fs = Ok l ->
  exists l', collectVisuals fs' = Ok l' /\ Permutation l l'.
Proof.
  induction 1 as [| x fs fs' _ IH | x y fs | fs fs' fs'' _ IH1 _ IH2]; intros l.
  - intros [= <-]. exists []. split; [reflexivity | constructor].
  - cbn [PBIRReportGenerator.collectVisuals].
    destruct (content x) as [|d]; [apply IH|].
    destruct (truthy d); [|apply IH].
    destruct (PBIRReportGenerator.extractVisualInfo _ _ _ _ d) as [i| |];
      cbn [bind]; try discriminate.
    destruct (collectVisuals fs) as [r| |] eqn:E; cbn [bind]; try discriminate.
    intros [= <-]. destruct (IH r eq_refl) as (r' & -> & P).
    exists (i :: r'). split; [reflexivity | now constructor].
  - cbn [PBIRReportGenerator.collectVisuals].
    destruct (content x) as [|dx], (content y) as [|dy]; eauto using Permutation_refl;
      try destruct (truthy dx); try destruct (truthy dy);
      eauto using Permutation_refl;
      try destruct (PBIRReportGenerator.extractVisualInfo _ _ _ _ dx) as [ix| |];
      try destruct (PBIRReportGenerator.extractVisualInfo _ _ _ _ dy) as [iy| |];
      cbn [bind]; try discriminate; eauto using Permutation_refl;
      destruct (collectVisuals fs) as [r| |]; cbn [bind]; try discriminate;
      intros [= <-]; eexists; split; try reflexivity;
      apply perm_swap || apply Permutation_refl.
  - intros H. destruct (IH1 l H) as (l' & H' & P').
    destruct (IH2 l' H') as (l'' & H'' & P'').
    exists l''. split; [assumption | now transitivity l'].
Qed.

(** C10: the visuals that the report generator lists for a page are in
    ascending order of their display names under [localeCompare]; and when
    the files are enumerated in another order, the list holds the same
    visuals, again in ascending order. *)
Theorem parsePageVisuals_sorted (files : list file) (pageName : string)
  (visuals : list PBIRReportGenerator.visualInfo) :
  parsePageVisuals files pageName = Ok visuals ->
  sorted visuals
  /\ (forall files', Permutation files files' ->
        exists visuals', parsePageVisuals files' pageName = Ok visuals'
                         /\ sorted visuals' /\ Permutation visuals visuals').
Proof.
  unfold PBIRReportGenerator.parsePageVisuals.
  destruct (collectVisuals (filter _ files)) as [l| |] eqn:E; cbn [bind];
    try discriminate.
  intros [= <-]. split; [apply sortByName_sorted|].
  intros files' P.
  destruct (collectVisuals_perm _ _
              (filter_Permutation (PBIRReportGenerator.isVisualOf pageName) _ _ P)
              l E) as (l' & -> & Pl).
  cbn [bind]. eexists. split; [reflexivity|]. split; [apply sortByName_sorted|].
  transitivity l; [symmetry; apply sortByName_perm|].
  transitivity l'; [assumption | apply sortByName_perm].
Qed.

End SortedVisuals.

Lemma codeUnitCompare_le (a b : string) :
  (codeUnitCompare a b <= 0)%Z <-> String_as_OT.compare a b <> Gt.
Proof.
  unfold codeUnitCompare. destruct (String_as_OT.compare a b); split;
    intros H; try lia; try discriminate; congruence.
Qed.

Lemma codeUnitCompare_total (a b : string) :
  (codeUnitCompare a b <= 0)%Z \/ (codeUnitCompare b a <= 0)%Z.
Proof.
  rewrite !codeUnitCompare_le.
  destruct (String_as_OT.compare_spec a b) as [E | L | G].
  - left. discriminate.
  - left. discriminate.
  - right. unfold String_as_OT.lt in G. rewrite G. discriminate.
Qed.

Lemma codeUnitCompare_trans (a b c : string) :
  (codeUnitCompare a b <= 0)%Z -> (codeUnitCompare b c <= 0)%Z ->
  (codeUnitCompare a c <= 0)%Z.
Proof.
  rewrite !codeUnitCompare_le.
  destruct (String_as_OT.compare_spec a b) as [E | L | G]; [| |congruence].
  - unfold String_as_OT.eq in E. now subst.
  - intros _.
    destruct (String_as_OT.compare_spec b c) as [E' | L' | G']; [| |congruence].
    + unfold String_as_OT.eq in E'. subst. intros _.
      unfold String_as_OT.lt in L. rewrite L. discriminate.
    + intros _.
      pose proof (@RelationClasses.StrictOrder_Transitive _ _
                    String_as_OT.lt_strorder a b c L L') as T.
      unfold String_as_OT.lt in T. rewrite T. discriminate.
Qed.

Lemma parsePageVisuals_sorted_witness :
  exists visuals,
    PBIRReportGenerator.parsePageVisuals codeUnitCompare
      (fun _ => Ok JNull) (fun _ => Ok JNull) (fun _ => Ok JNull)
      salesPage "Sales" = Ok visuals
    /\ map PBIRReportGenerator.name visuals = ["Net Sales"; "Returns"; "Units Sold"]
    /\ StronglySorted (byName codeUnitCompare) visuals.
Proof.
  eexists. split; [reflexivity|]. split; [reflexivity|].
  apply (proj1 (parsePageVisuals_sorted codeUnitCompare
                  (fun _ => Ok JNull) (fun _ => Ok JNull) (fun _ => Ok JNull)
                  codeUnitCompare_total codeUnitCompare_trans
                  salesPage "Sales" _ eq_refl)).
Defined.

(** ** Identifiers in paths (claim C8) *)

Lemma append_nil_r (s : string) : s ++ "" = s.
Proof. induction s as [|c s IH]; cbn; [reflexivity | now rewrite IH]. Qed.

Lemma append_assoc (a b c : string) : (a ++ b) ++ c = a ++ (b ++ c).
Proof. induction a as [|x a IH]; cbn; [reflexivity | now rewrite IH]. Qed.

Lemma length_append (a b : string) :
  String.length (a ++ b) = (String.length a + String.length b)%nat.
Proof. induction a as [|x a IH]; cbn; [reflexivity | now rewrite IH]. Qed.

Lemma rev_string_append (s acc : string) :
  rev_string s acc = rev_string s "" ++ acc.
Proof.
  revert acc. induction s as [|c s IH]; intros acc; cbn [rev_string].
  - reflexivity.
  - rewrite (IH (String c acc)), (IH (String c "")), append_assoc. reflexivity.
Qed.

Lemma rev_string_app (a b : string) :
  rev_string (a ++ b) "" = rev_string b "" ++ rev_string a "".
Proof.
  induction a as [|c a IH]; cbn [append rev_string].
  - now rewrite append_nil_r.
  - rewrite (rev_string_append (a ++ b) (String c "")), IH,
      (rev_string_append a (String c "")), append_assoc.
    reflexivity.
Qed.

Lemma rev_string_involutive (s : string) :
  rev_string (rev_string s "") "" = s.
Proof.
  induction s as [|c s IH]; cbn [rev_string]; [reflexivity|].
  rewrite (rev_string_append s (String c "")), rev_string_app, IH. reflexivity.
Qed.

Lemma substring_all (s : string) : String.substring 0 (String.length s) s = s.
Proof. induction s as [|c s IH]; cbn; [reflexivity | now rewrite IH]. Qed.

Lemma substring_prefix (a b : string) :
  String.substring 0 (String.length a) (a ++ b) = a.
Proof.
  induction a as [|c a IH]; cbn.
  - now destruct b.
  - now rewrite IH.
Qed.

Lemma substring_suffix (a b : string) :
  String.substring (String.length a) (String.length b) (a ++ b) = b.
Proof. induction a as [|c a IH]; cbn; [apply substring_all | exact IH]. Qed.

Lemma substring_split (n : nat) (s : string) :
  (n <= String.length s)%nat ->
  s = String.substring 0 n s ++ String.substring n (String.length s - n) s.
Proof.
  revert n. induction s as [|c s IH]; intros [|n] H; cbn in *; try lia.
  - reflexivity.
  - now rewrite substring_all.
  - f_equal. apply IH. lia.
Qed.

Lemma endsWith_split (s T : string) :
  endsWith s T = true ->
  s = String.substring 0 (String.length s - String.length T) s ++ T.
Proof.
  unfold endsWith. intros H. apply andb_true_iff in H. destruct H as [L E].
  apply Nat.leb_le in L. apply String.eqb_eq in E.
  rewrite (substring_split (String.length s - String.length T) s) at 1 by lia.
  replace (String.length s - (String.length s - String.length T))%nat
    with (String.length T) by lia.
  now rewrite E.
Qed.

Lemma endsWith_append (a T : string) : endsWith (a ++ T) T = true.
Proof.
  unfold endsWith. rewrite length_append.
  replace (String.length a + String.length T - String.length T)%nat
    with (String.length a) by lia.
  rewrite substring_suffix, String.eqb_refl.
  apply andb_true_iff. split; [apply Nat.leb_le; lia | reflexivity].
Qed.

Lemma untilSlash_split (t : string) : exists rest, t = untilSlash t ++ rest.
Proof.
  induction t as [|c t [rest IH]]; cbn [untilSlash].
  - now exists "".
  - destruct (c =? "/")%char.
    + now exists (String c t).
    + exists rest. cbn. now rewrite <- IH.
Qed.

Lemma slashFree_untilSlash (t : string) : slashFree (untilSlash t) = true.
Proof.
  induction t as [|c t IH]; cbn [untilSlash]; [reflexivity|].
  destruct (c =? "/")%char eqn:E; [reflexivity|]. cbn. now rewrite E.
Qed.

Lemma slashFree_append (a b : string) :
  slashFree (a ++ b) = slashFree a && slashFree b.
Proof.
  induction a as [|c a IH]; cbn; [reflexivity|].
  rewrite IH. now rewrite andb_assoc.
Qed.

Lemma slashFree_rev (s : string) : slashFree (rev_string s "") = slashFree s.
Proof.
  induction s as [|c s IH]; cbn [rev_string]; [reflexivity|].
  rewrite (rev_string_append s (String c "")), slashFree_append, IH. cbn.
  rewrite andb_true_r. apply andb_comm.
Qed.

Lemma lastSegment_split (s : string) :
  exists before, s = before ++ lastSegment s.
Proof.
  unfold lastSegment.
  destruct (untilSlash_split (rev_string s "")) as [rest E].
  exists (rev_string rest "").
  rewrite <- rev_string_app, <- E. symmetry. apply rev_string_involutive.
Qed.

Lemma slashFree_lastSegment (s : string) : slashFree (lastSegment s) = true.
Proof. unfold lastSegment. rewrite slashFree_rev. apply slashFree_untilSlash. Qed.

(** The function finds a group only in a path of the shape of the
    pattern. *)
Lemma matchSegment_sound (D T path segment : string) :
  matchSegment D T path = Some segment -> Matches D T path segment.
Proof.
  unfold matchSegment.
  destruct (endsWith path T) eqn:ET; [|discriminate].
  set (body := String.substring 0 (String.length path - String.length T) path).
  destruct (negb (lastSegment body =? "")) eqn:NE; [|discriminate].
  cbn [andb].
  destruct (endsWith _ D) eqn:ED; [|discriminate].
  intros [= <-].
  apply endsWith_split in ET. fold body in ET.
  destruct (lastSegment_split body) as [before EB].
  assert (EQ : String.substring 0 (String.length body - String.length (lastSegment body))
                 body = before).
  { rewrite EB at 1 3. rewrite length_append.
    replace (String.length before + String.length (lastSegment body)
             - String.length (lastSegment body))%nat
      with (String.length before) by lia.
    apply substring_prefix. }
  rewrite EQ in ED. apply endsWith_split in ED.
  exists (String.substring 0 (String.length before - String.length D) before).
  split; [|split].
  - rewrite ET, EB at 1. rewrite ED at 1. now rewrite !append_assoc.
  - apply negb_true_iff in NE. now apply String.eqb_neq in NE.
  - apply slashFree_lastSegment.
Qed.

Lemma untilSlash_stops (a r : string) :
  slashFree a = true -> untilSlash (a ++ String "/" r) = a.
Proof.
  induction a as [|c a IH]; cbn; [reflexivity|].
  intros H. apply andb_true_iff in H. destruct H as [N F].
  apply negb_true_iff in N. rewrite N. now rewrite IH.
Qed.

Lemma lastSegment_after_slash (before segment : string) :
  slashFree segment = true ->
  lastSegment ((before ++ "/") ++ segment) = segment.
Proof.
  intros F. unfold lastSegment.
  rewrite rev_string_app, rev_string_app. cbn [rev_string append].
  rewrite untilSlash_stops by now rewrite slashFree_rev.
  apply rev_string_involutive.
Qed.

(** And it finds the group of every path of that shape, when the literal
    part before the group ends with a slash. *)
Lemma matchSegment_complete (D T path segment : string) :
  Matches (D ++ "/") T path segment ->
  matchSegment (D ++ "/") T path = Some segment.
Proof.
  intros (before & -> & NE & F). unfold matchSegment.
  assert (B : before ++ (D ++ "/") ++ segment ++ T
              = ((before ++ D) ++ "/") ++ segment ++ T)
    by now rewrite !append_assoc.
  rewrite B. clear B.
  rewrite <- (append_assoc ((before ++ D) ++ "/") segment T).
  rewrite endsWith_append, length_append.
  replace (String.length (((before ++ D) ++ "/") ++ segment) + String.length T
           - String.length T)%nat
    with (String.length (((before ++ D) ++ "/") ++ segment)) by lia.
  rewrite substring_prefix, (lastSegment_after_slash _ _ F).
  rewrite length_append.
  replace (String.length ((before ++ D) ++ "/") + String.length segment
           - String.length segment)%nat
    with (String.length ((before ++ D) ++ "/")) by lia.
  rewrite substring_prefix.
  rewrite (append_assoc before D "/"), endsWith_append.
  destruct (String.eqb_spec segment ""); [contradiction | reflexivity].
Qed.

Lemma orUnknown_sentinel (D T path : string) :
  (forall segment, ~ Matches D T path segment) ->
  orUnknown (matchSegment D T path) = "unknown".
Proof.
  intros H. destruct (matchSegment D T path) as [segment|] eqn:E; [|reflexivity].
  exfalso. apply (H segment). now apply matchSegment_sound.
Qed.

(** ** Entries of the maps (claim C8) *)

Lemma setProp_keys_in (ps : list (string * value)) (k k' : string) (v : value) :
  In k' (map fst (setProp ps k v)) -> k' = k \/ In k' (map fst ps).
Proof.
  induction ps as [|[a x] ps IH]; cbn [setProp map fst In].
  - intros [<- | []]. now left.
  - destruct (String.eqb_spec a k) as [-> | N]; cbn [map fst In].
    + tauto.
    + intros [<- | H]; [tauto|]. destruct (IH H); tauto.
Qed.

Lemma setProp_NoDup (ps : list (string * value)) (k : string) (v : value) :
  NoDup (map fst ps) -> NoDup (map fst (setProp ps k v)).
Proof.
  induction ps as [|[a x] ps IH]; cbn [setProp map fst]; intros H.
  - repeat constructor. intros [].
  - inversion H as [|? ? Ha Hps]; subst.
    destruct (String.eqb_spec a k) as [-> | N]; cbn [map fst].
    + now constructor.
    + constructor; [|now apply IH].
      intros I. apply setProp_keys_in in I. destruct I; [congruence | contradiction].
Qed.

Lemma entriesOf_NoDup (id : string) (m : entries) :
  NoDup (map fst m) -> (List.length (entriesOf id m) <= 1)%nat.
Proof.
  induction m as [|[a x] m IH]; cbn [entriesOf filter map fst]; intros H; [cbn; lia|].
  inversion H as [|? ? Ha Hm]; subst. specialize (IH Hm).
  destruct (String.eqb_spec a id) as [-> | N]; [|exact IH].
  cbn [List.length].
  assert (Z : entriesOf id m = []).
  { clear IH H Hm. induction m as [|[b y] m IHm]; [reflexivity|].
    cbn [entriesOf filter fst]. cbn [map fst In] in Ha.
    destruct (String.eqb_spec b id) as [-> | N]; [tauto|].
    apply IHm. tauto. }
  unfold entriesOf in Z. rewrite Z. cbn. lia.
Qed.

Section BasicPages.

Variable processVisualData : value -> value -> result value.

Local Abbreviation pagesLoop := (PBIRParser.pagesLoop processVisualData).
Local Abbreviation parsePages := (PBIRParser.parsePages processVisualData).

Lemma pagesLoop_keys (fileMap todo : list file) (st st' : PBIRParser.state) :
  pagesLoop fileMap todo st = Ok st' ->
  NoDup (map fst (PBIRParser.pages st)) ->
  NoDup (map fst (PBIRParser.pages st')).
Proof.
  revert st. induction todo as [|f r IH]; intros st; cbn [PBIRParser.pagesLoop].
  - now intros [= <-].
  - destruct (PBIRParser.isPage f); [|apply IH].
    destruct (PBIRParser.parsePageVisuals _ _ _ _) as [pv| |]; cbn [bind];
      try discriminate.
    intros H N. apply (IH _ H). cbn [PBIRParser.pages]. now apply setProp_NoDup.
Qed.

Lemma pagesLoop_last (fileMap todo : list file) (st st' : PBIRParser.state)
  (id : string) :
  pagesLoop fileMap todo st = Ok st' ->
  match lastPageOf id todo with
  | Some f => exists visuals, own (PBIRParser.pages st') id = Some (pageEntry f visuals)
  | None => own (PBIRParser.pages st') id = own (PBIRParser.pages st) id
  end.
Proof.
  revert st. induction todo as [|f r IH]; intros st;
    cbn [PBIRParser.pagesLoop lastPageOf].
  - now intros [= <-].
  - destruct (PBIRParser.isPage f) eqn:P; cbn [andb].
    + destruct (PBIRParser.parsePageVisuals _ _ _ _) as [pv| |]; cbn [bind];
        try discriminate.
      intros H. specialize (IH _ H).
      destruct (lastPageOf id r) as [g|]; [exact IH|].
      rewrite IH. cbn [PBIRParser.pages]. rewrite own_setProp.
      destruct (PBIRParser.extractPageName (relativePath f) =? id) eqn:E;
        [|reflexivity].
      apply String.eqb_eq in E. exists (fst pv). unfold pageEntry.
      now rewrite E.
    + intros H. specialize (IH _ H). destruct (lastPageOf id r); exact IH.
Qed.

Lemma parsePages_loop (fileMap : list file) (st st' : PBIRParser.state) :
  parsePages fileMap st = Ok st' -> pagesLoop fileMap fileMap st = Ok st'.
Proof.
  unfold PBIRParser.parsePages.
  destruct (findFile fileMap "definition/pages/pages.json") as [f|]; cbn [bind];
    [|auto].
  destruct (get (parseJsonFile f) "pages"); cbn [bind]; auto; discriminate.
Qed.

Lemma visualsLoop_keys (fileMap : list file) (pageName : string) (todo : list file)
  (local global local' global' : entries) :
  PBIRParser.visualsLoop processVisualData fileMap pageName todo local global
  = Ok (local', global') ->
  NoDup (map fst local) -> NoDup (map fst global) ->
  NoDup (map fst local') /\ NoDup (map fst global').
Proof.
  revert local global. induction todo as [|f r IH]; intros local global;
    cbn [PBIRParser.visualsLoop].
  - intros [= <- <-]. now split.
  - destruct (PBIRParser.isVisualOf pageName f); [|apply IH].
    destruct (processVisualData _ _) as [processed| |]; cbn [bind]; try discriminate.
    intros H L G. apply (IH _ _ H); now apply setProp_NoDup.
Qed.

Lemma pagesLoop_visual_keys (fileMap todo : list file) (st st' : PBIRParser.state) :
  pagesLoop fileMap todo st = Ok st' ->
  NoDup (map fst (PBIRParser.visuals st)) ->
  NoDup (map fst (PBIRParser.visuals st')).
Proof.
  revert st. induction todo as [|f r IH]; intros st; cbn [PBIRParser.pagesLoop].
  - now intros [= <-].
  - destruct (PBIRParser.isPage f); [|apply IH].
    unfold PBIRParser.parsePageVisuals.
    destruct (PBIRParser.visualsLoop _ _ _ _ _ _) as [[local global]| |] eqn:E;
      cbn [bind fst snd]; try discriminate.
    intros H N. apply (IH _ H). cbn [PBIRParser.visuals].
    apply (visualsLoop_keys _ _ _ _ _ _ _ E); [constructor | exact N].
Qed.

Lemma pagesLoop_bookmarks (fileMap todo : list file) (st st' : PBIRParser.state) :
  pagesLoop fileMap todo st = Ok st' ->
  PBIRParser.bookmarks st' = PBIRParser.bookmarks st.
Proof.
  revert st. induction todo as [|f r IH]; intros st; cbn [PBIRParser.pagesLoop].
  - now intros [= <-].
  - destruct (PBIRParser.isPage f); [|apply IH].
    destruct (PBIRParser.parsePageVisuals _ _ _ _) as [pv| |]; cbn [bind];
      try discriminate.
    intros H. now rewrite (IH _ H).
Qed.

End BasicPages.

Lemma bookmarksLoop_keys (todo : list file) (bookmarks : entries) :
  NoDup (map fst bookmarks) ->
  NoDup (map fst (PBIRParser.bookmarksLoop todo bookmarks)).
Proof.
  revert bookmarks. induction todo as [|f r IH]; intros bookmarks N;
    cbn [PBIRParser.bookmarksLoop]; [exact N|].
  destruct (PBIRParser.isBookmark f); apply IH; [now apply setProp_NoDup | exact N].
Qed.

Section BasicEntries.

Variable processVisualData : value -> value -> result value.

Local Abbreviation processed_of fileMap h :=
  (processVisualData (parseJsonFile h) (PBIRParser.mobileOf fileMap h)).

(** One run of [parsePageVisuals]: in the list of the page and in the map
    of all visuals, a key holds the last of the visual documents that were
    stored under it. *)
Lemma visualsLoop_last (fileMap : list file) (pageName : string) (todo : list file) :
  forall local global local' global',
    PBIRParser.visualsLoop processVisualData fileMap pageName todo local global
    = Ok (local', global') ->
    (forall id,
       match lastVisualOf pageName id todo with
       | Some h => exists processed,
                     processed_of fileMap h = Ok processed
                     /\ own local' id = Some processed
       | None => own local' id = own local id
       end)
    /\ (forall key,
          match lastVisualAt key pageName todo with
          | Some h => exists processed,
                        processed_of fileMap h = Ok processed
                        /\ own global' key
                           = Some (visualEntry processed pageName
                                     (PBIRParser.extractVisualName (relativePath h)))
          | None => own global' key = own global key
          end).
Proof.
  induction todo as [|f r IH]; intros local global local' global';
    cbn [PBIRParser.visualsLoop lastVisualOf lastVisualAt].
  - intros [= <- <-]. now split.
  - destruct (PBIRParser.isVisualOf pageName f) eqn:V; cbn [andb].
    + destruct (processVisualData _ _) as [processed| |] eqn:P; cbn [bind];
        try discriminate.
      intros H. destruct (IH _ _ _ _ H) as (L & G). split.
      * intros id. specialize (L id).
        destruct (lastVisualOf pageName id r); [exact L|].
        rewrite L, own_setProp.
        destruct (PBIRParser.extractVisualName (relativePath f) =? id);
          [now exists processed | reflexivity].
      * intros key. specialize (G key).
        destruct (lastVisualAt key pageName r); [exact G|].
        rewrite G, own_setProp.
        destruct (pageName ++ ":" ++ PBIRParser.extractVisualName (relativePath f)
                  =? key); [now exists processed | reflexivity].
    + intros H. destruct (IH _ _ _ _ H) as (L & G). split.
      * intros id. specialize (L id). now destruct (lastVisualOf pageName id r).
      * intros key. specialize (G key). now destruct (lastVisualAt key pageName r).
Qed.

(** The pages one after the other: a page identifier holds the last page
    document of that identifier, with the list of its visuals, and a key of
    the map of all visuals holds the last visual document stored under it. *)
Lemma pagesLoop_entries (fileMap todo : list file) :
  forall st st',
    PBIRParser.pagesLoop processVisualData fileMap todo st = Ok st' ->
    (forall id,
       match lastPageOf id todo with
       | Some g =>
           exists listed,
             own (PBIRParser.pages st') id = Some (pageEntry g (JObj listed))
             /\ forall v,
                  match lastVisualOf id v fileMap with
                  | Some h => exists processed,
                                processed_of fileMap h = Ok processed
                                /\ own listed v = Some processed
                  | None => own listed v = None
                  end
       | None => own (PBIRParser.pages st') id = own (PBIRParser.pages st) id
       end)
    /\ (forall key,
          match lastVisualUnder key fileMap todo with
          | Some (g, h) =>
              exists processed,
                processed_of fileMap h = Ok processed
                /\ own (PBIRParser.visuals st') key
                   = Some (visualEntry processed
                             (PBIRParser.extractPageName (relativePath g))
                             (PBIRParser.extractVisualName (relativePath h)))
          | None => own (PBIRParser.visuals st') key = own (PBIRParser.visuals st) key
          end).
Proof.
  induction todo as [|g r IH]; intros st st';
    cbn [PBIRParser.pagesLoop lastPageOf lastVisualUnder].
  - intros [= <-]. now split.
  - destruct (PBIRParser.isPage g) eqn:P; cbn [andb].
    + unfold PBIRParser.parsePageVisuals.
      destruct (PBIRParser.visualsLoop _ _ _ _ _ _) as [[local global]| |] eqn:E;
        cbn [bind fst snd]; try discriminate.
      intros H. destruct (IH _ _ H) as (Pg & Vs).
      destruct (visualsLoop_last _ _ _ _ _ _ _ E) as (L & G). split.
      * intros id. specialize (Pg id).
        destruct (lastPageOf id r); [exact Pg|].
        rewrite Pg. cbn [PBIRParser.pages]. rewrite own_setProp.
        destruct (String.eqb_spec (PBIRParser.extractPageName (relativePath g)) id)
          as [<- | N]; [|reflexivity].
        exists local. split; [reflexivity|]. intros v. specialize (L v).
        now destruct (lastVisualOf _ v fileMap).
      * intros key. specialize (Vs key).
        destruct (lastVisualUnder key fileMap r) as [[g' h']|]; [exact Vs|].
        rewrite Vs. cbn [PBIRParser.visuals]. specialize (G key).
        now destruct (lastVisualAt key _ fileMap).
    + intros H. destruct (IH _ _ H) as (Pg & Vs). split.
      * intros id. specialize (Pg id). now destruct (lastPageOf id r).
      * intros key. specialize (Vs key).
        now destruct (lastVisualUnder key fileMap r) as [[g' h']|].
Qed.

End BasicEntries.

Lemma bookmarksLoop_last (todo : list file) (id : string) :
  forall bookmarks,
    own (PBIRParser.bookmarksLoop todo bookmarks) id
    = match lastBookmarkOf id todo with
      | Some f => Some (parseJsonFile f)
      | None => own bookmarks id
      end.
Proof.
  induction todo as [|f r IH]; intros bookmarks;
    cbn [PBIRParser.bookmarksLoop lastBookmarkOf]; [reflexivity|].
  destruct (PBIRParser.isBookmark f); cbn [andb]; rewrite IH;
    destruct (lastBookmarkOf id r); try reflexivity.
  rewrite own_setProp.
  now destruct (PBIRParser.extractBookmarkName (relativePath f) =? id).
Qed.

(** A key of the map of all visuals tells the page of its visual from any
    other page. *)
Lemma visual_keys_apart (p q v : string) : p ++ ":" ++ v = q ++ ":" ++ v -> p = q.
Proof.
  revert q. induction p as [|a p IH]; intros [|b q] H; cbn [append] in H.
  - reflexivity.
  - exfalso. apply (f_equal String.length) in H. cbn [String.length] in H.
    rewrite !length_append in H. cbn [String.length] in H. lia.
  - exfalso. apply (f_equal String.length) in H. cbn [String.length] in H.
    rewrite !length_append in H. cbn [String.length] in H. lia.
  - injection H as -> H. f_equal. now apply IH.
Qed.

Lemma lastVisualAt_some (pageName : string) (h : file) (todo : list file) :
  In h todo -> PBIRParser.isVisualOf pageName h = true ->
  lastVisualAt (pageName ++ ":" ++ PBIRParser.extractVisualName (relativePath h))
    pageName todo <> None.
Proof.
  induction todo as [|f r IH]; intros I V; [destruct I|]. cbn [lastVisualAt].
  destruct I as [-> | I].
  - destruct (lastVisualAt _ pageName r); [discriminate|].
    rewrite V, String.eqb_refl. discriminate.
  - specialize (IH I V). now destruct (lastVisualAt _ pageName r).
Qed.

Lemma lastVisualUnder_some (fileMap : list file) (g h : file) (todo : list file) :
  In g todo -> PBIRParser.isPage g = true ->
  In h fileMap ->
  PBIRParser.isVisualOf (PBIRParser.extractPageName (relativePath g)) h = true ->
  lastVisualUnder
    (PBIRParser.extractPageName (relativePath g) ++ ":"
     ++ PBIRParser.extractVisualName (relativePath h)) fileMap todo <> None.
Proof.
  induction todo as [|f r IH]; intros I P Ih V; [destruct I|].
  cbn [lastVisualUnder]. destruct I as [-> | I].
  - destruct (lastVisualUnder _ fileMap r); [discriminate|]. rewrite P.
    pose proof (lastVisualAt_some _ _ _ Ih V) as S.
    destruct (lastVisualAt _ _ fileMap); [discriminate | contradiction].
  - specialize (IH I P Ih V). now destruct (lastVisualUnder _ fileMap r).
Qed.

(** C8, as the code has it: the identifier of a page, of a visual or of a
    bookmark is the segment that the pattern of its role captures, and the
    sentinel [unknown] for every path that the pattern does not match.  The
    documents are kept in maps, with one entry for a key: the pages keyed by
    their identifier, the bookmarks by theirs, the visuals by the identifier
    of their page, a colon and their own, and in the list of their page by
    their own.  The documents of one key, the sentinel included, share a
    single entry, which holds the last of them; every visual document of a
    page has an entry in the map of all visuals, and the entries of two
    visuals of one identifier on pages of different identifiers have
    different keys. *)
Theorem identifiers_and_entries :
  (forall path,
     ((forall segment, ~ Matches "/pages/" "/page.json" path segment) ->
      PBIRParser.extractPageName path = "unknown")
     /\ ((forall segment, ~ Matches "/visuals/" "/visual.json" path segment) ->
         PBIRParser.extractVisualName path = "unknown")
     /\ ((forall segment, ~ Matches "/" ".bookmark.json" path segment) ->
         PBIRParser.extractBookmarkName path = "unknown"))
  /\ (forall path segment,
        (Matches "/pages/" "/page.json" path segment ->
         PBIRParser.extractPageName path = segment)
        /\ (Matches "/visuals/" "/visual.json" path segment ->
            PBIRParser.extractVisualName path = segment)
        /\ (Matches "/" ".bookmark.json" path segment ->
            PBIRParser.extractBookmarkName path = segment))
  /\ (forall processVisualData fileMap st,
        PBIRParser.parsePages processVisualData fileMap PBIRParser.initial = Ok st ->
        NoDup (map fst (PBIRParser.pages st))
        /\ NoDup (map fst (PBIRParser.visuals st))
        /\ (forall id,
              (List.length (entriesOf id (PBIRParser.pages st)) <= 1)%nat
              /\ match lastPageOf id fileMap with
                 | Some g =>
                     exists listed,
                       own (PBIRParser.pages st) id = Some (pageEntry g (JObj listed))
                       /\ forall v,
                            match lastVisualOf id v fileMap with
                            | Some h =>
                                exists processed,
                                  processVisualData (parseJsonFile h)
                                    (PBIRParser.mobileOf fileMap h) = Ok processed
                                  /\ own listed v = Some processed
                            | None => own listed v = None
                            end
                 | None => own (PBIRParser.pages st) id = None
                 end)
        /\ (forall key,
              match lastVisualUnder key fileMap fileMap with
              | Some (g, h) =>
                  exists processed,
                    processVisualData (parseJsonFile h)
                      (PBIRParser.mobileOf fileMap h) = Ok processed
                    /\ own (PBIRParser.visuals st) key
                       = Some (visualEntry processed
                                 (PBIRParser.extractPageName (relativePath g))
                                 (PBIRParser.extractVisualName (relativePath h)))
              | None => own (PBIRParser.visuals st) key = None
              end)
        /\ (forall g h,
              In g fileMap -> PBIRParser.isPage g = true ->
              In h fileMap ->
              PBIRParser.isVisualOf (PBIRParser.extractPageName (relativePath g)) h
              = true ->
              own (PBIRParser.visuals st)
                (PBIRParser.extractPageName (relativePath g) ++ ":"
                 ++ PBIRParser.extractVisualName (relativePath h)) <> None))
  /\ (forall processVisualData files st,
        PBIRParser.parseFiles processVisualData files = Ok st ->
        NoDup (map fst (PBIRParser.pages st))
        /\ NoDup (map fst (PBIRParser.visuals st))
        /\ NoDup (map fst (PBIRParser.bookmarks st))
        /\ forall id,
             own (PBIRParser.bookmarks st) id
             = match findFile (PBIRParser.toFileMap files)
                       "definition/bookmarks/bookmarks.json" with
               | Some _ =>
                   match lastBookmarkOf id (PBIRParser.toFileMap files) with
                   | Some f => Some (parseJsonFile f)
                   | None => None
                   end
               | None => None
               end)
  /\ (forall p q v, p ++ ":" ++ v = q ++ ":" ++ v -> p = q).
Proof.
  split; [|split; [|split; [|split]]].
  - intros path. repeat split; apply orUnknown_sentinel.
  - intros path segment. repeat split; intros M.
    + unfold PBIRParser.extractPageName.
      pose proof (matchSegment_complete "/pages" _ _ _ M) as C.
      cbn [append] in C. now rewrite C.
    + unfold PBIRParser.extractVisualName.
      pose proof (matchSegment_complete "/visuals" _ _ _ M) as C.
      cbn [append] in C. now rewrite C.
    + unfold PBIRParser.extractBookmarkName.
      pose proof (matchSegment_complete "" _ _ _ M) as C.
      cbn [append] in C. now rewrite C.
  - intros processVisualData fileMap st H. apply parsePages_loop in H.
    assert (N : NoDup (map fst (PBIRParser.pages st)))
      by (apply (pagesLoop_keys _ _ _ _ _ H); constructor).
    assert (Nv : NoDup (map fst (PBIRParser.visuals st)))
      by (apply (pagesLoop_visual_keys _ _ _ _ _ H); constructor).
    destruct (pagesLoop_entries _ _ _ _ _ H) as (Pg & Vs).
    split; [exact N|]. split; [exact Nv|]. split; [|split].
    + intros id. split; [now apply entriesOf_NoDup|]. exact (Pg id).
    + exact Vs.
    + intros g h Ig P Ih V.
      pose proof (lastVisualUnder_some fileMap g h fileMap Ig P Ih V) as S.
      specialize (Vs (PBIRParser.extractPageName (relativePath g) ++ ":"
                      ++ PBIRParser.extractVisualName (relativePath h))).
      destruct (lastVisualUnder _ fileMap fileMap) as [[g' h']|]; [|contradiction].
      destruct Vs as (processed & _ & ->). discriminate.
  - intros processVisualData files st. unfold PBIRParser.parseFiles.
    destruct (PBIRParser.parsePages _ _ _) as [st1| |] eqn:E; cbn [bind];
      try discriminate.
    intros [= <-]. apply parsePages_loop in E.
    assert (S0 : forall fileMap st0,
               PBIRParser.pages (PBIRParser.parseReportStructure fileMap st0)
               = PBIRParser.pages st0
               /\ PBIRParser.visuals (PBIRParser.parseReportStructure fileMap st0)
                  = PBIRParser.visuals st0
               /\ PBIRParser.bookmarks (PBIRParser.parseReportStructure fileMap st0)
                  = PBIRParser.bookmarks st0).
    { intros fileMap st0. unfold PBIRParser.parseReportStructure.
      destruct (findFile fileMap "definition/reportExtensions.json");
        destruct (findFile fileMap "definition/version.json");
        destruct (findFile fileMap "definition/report.json"); repeat split. }
    destruct (S0 (PBIRParser.toFileMap files) PBIRParser.initial) as (P0 & V0 & B0).
    assert (P1 : NoDup (map fst (PBIRParser.pages st1)))
      by (apply (pagesLoop_keys _ _ _ _ _ E); rewrite P0; constructor).
    assert (V1 : NoDup (map fst (PBIRParser.visuals st1)))
      by (apply (pagesLoop_visual_keys _ _ _ _ _ E); rewrite V0; constructor).
    assert (B1 : PBIRParser.bookmarks st1 = [])
      by (rewrite (pagesLoop_bookmarks _ _ _ _ _ E); exact B0).
    unfold PBIRParser.parseBookmarks.
    destruct (findFile (PBIRParser.toFileMap files)
                "definition/bookmarks/bookmarks.json");
      cbn [PBIRParser.pages PBIRParser.visuals PBIRParser.bookmarks].
    + split; [exact P1|]. split; [exact V1|]. split.
      * apply bookmarksLoop_keys. rewrite B1. constructor.
      * intros id. rewrite bookmarksLoop_last, B1.
        now destruct (lastBookmarkOf id (PBIRParser.toFileMap files)).
    + split; [exact P1|]. split; [exact V1|]. rewrite B1. split; [constructor|].
      reflexivity.
  - exact visual_keys_apart.
Qed.

Lemma identifiers_and_entries_witness :
  PBIRParser.extractPageName "definition/pages/Sales/page.json" = "Sales"
  /\ PBIRParser.extractPageName "definition/pages/archive/2023/page.json" = "unknown"
  /\ (exists st,
        PBIRParser.parsePages (fun _ _ => Ok JNull) strayPages PBIRParser.initial
        = Ok st
        /\ (List.length (entriesOf "unknown" (PBIRParser.pages st)) <= 1)%nat
        /\ exists listed,
             own (PBIRParser.pages st) "unknown"
             = Some (pageEntry
                       (mkFile "definition/pages/archive/2024/page.json"
                          (inr (obj1 "displayName" (JStr "Results 2024"))))
                       (JObj listed)))
  /\ (exists st,
        PBIRParser.parsePages asItIs strayVisuals PBIRParser.initial = Ok st
        /\ own (PBIRParser.visuals st) "Sales:unknown"
           = Some (visualEntry (obj1 "name" (JStr "b")) "Sales" "unknown")
        /\ own (PBIRParser.visuals st) "Other:unknown"
           = Some (visualEntry (obj1 "name" (JStr "d")) "Other" "unknown")).
Proof.
  destruct identifiers_and_entries as (S & M & P & _).
  split; [|split; [|split]].
  - apply (proj1 (M "definition/pages/Sales/page.json" "Sales")).
    exists "definition". repeat split. discriminate.
  - apply (proj1 (S "definition/pages/archive/2023/page.json")).
    intros segment M'. apply (matchSegment_complete "/pages") in M'.
    vm_compute in M'. discriminate M'.
  - eexists. split; [reflexivity|].
    destruct (P (fun _ _ => Ok JNull) strayPages _ eq_refl) as (_ & _ & E & _).
    split.
    + apply (proj1 (E "unknown")).
    + destruct (proj2 (E "unknown")) as (listed & O & _). now exists listed.
  - eexists. split; [reflexivity|].
    destruct (P asItIs strayVisuals _ eq_refl) as (_ & _ & _ & V & _).
    split.
    + destruct (V "Sales:unknown") as (processed & [= <-] & O). exact O.
    + destruct (V "Other:unknown") as (processed & [= <-] & O). exact O.
Defined.

(** C8 as stated fails on two page documents that both resolve to the
    sentinel: the second takes the place of the first in the map of the
    pages, and one entry is left for the two. *)
Lemma unknown_pages_share_an_entry :
  ~ (forall processVisualData, keepsUnknownApart processVisualData strayPages).
Proof.
  intros H. specialize (H (fun _ _ => Ok JNull) _ eq_refl).
  vm_compute in H. discriminate H.
Qed.

(** ** A report without its root document (claim C7) *)

Section Rootless.

Variable validate : value -> string -> string + (bool * list string).

Local Abbreviation read := (EnhancedPBIRParser.parseJsonFileWithValidation validate).
Local Abbreviation occurrences :=
  (fun st => count_occ string_dec (EnhancedPBIRParser.parseWarnings st) noMainReport).

(** Reading a file changes the two logs only, and never records a missing
    root. *)
Lemma read_frame (f : file) (schemaName : string) (st st' : EnhancedPBIRParser.state)
  (data : value) :
  read f schemaName st = (data, st') ->
  data = dataOf validate schemaName f
  /\ EnhancedPBIRParser.reportData st' = EnhancedPBIRParser.reportData st
  /\ EnhancedPBIRParser.pages st' = EnhancedPBIRParser.pages st
  /\ EnhancedPBIRParser.visuals st' = EnhancedPBIRParser.visuals st
  /\ EnhancedPBIRParser.bookmarks st' = EnhancedPBIRParser.bookmarks st
  /\ occurrences st' = occurrences st.
Proof.
  unfold dataOf, EnhancedPBIRParser.parseJsonFileWithValidation.
  destruct (content f) as [message|d].
  - intros [= <- <-]. repeat split.
  - destruct (schemaName =? ""); [intros [= <- <-]; repeat split|].
    destruct (validate d schemaName) as [message|[[] errors]];
      intros [= <- <-]; repeat split.
    cbn [EnhancedPBIRParser.warn EnhancedPBIRParser.parseWarnings].
    rewrite count_occ_app. cbn [count_occ].
    destruct (string_dec _ noMainReport) as [E|]; [discriminate E | lia].
Qed.

Lemma mergeOptional_frame (files : list file) (path schemaName key : string)
  (st : EnhancedPBIRParser.state) :
  EnhancedPBIRParser.reportData st = JNull ->
  EnhancedPBIRParser.reportData
    (EnhancedPBIRParser.mergeOptional validate files path schemaName key st) = JNull
  /\ EnhancedPBIRParser.pages
       (EnhancedPBIRParser.mergeOptional validate files path schemaName key st)
     = EnhancedPBIRParser.pages st
  /\ occurrences (EnhancedPBIRParser.mergeOptional validate files path schemaName key st)
     = occurrences st.
Proof.
  intros R. unfold EnhancedPBIRParser.mergeOptional.
  destruct (findFile files path) as [f|]; [|repeat split; assumption].
  destruct (read f schemaName st) as [data st'] eqn:E.
  apply read_frame in E. destruct E as (_ & R' & P & _ & _ & W).
  rewrite R', R. cbn [truthy andb]. rewrite R', R. repeat split; assumption.
Qed.

Lemma parseReportStructure_rootless (files : list file) :
  findFile files "definition/report.json" = None ->
  EnhancedPBIRParser.reportData
    (EnhancedPBIRParser.parseReportStructure validate files EnhancedPBIRParser.initial)
  = JNull
  /\ EnhancedPBIRParser.pages
       (EnhancedPBIRParser.parseReportStructure validate files
          EnhancedPBIRParser.initial) = []
  /\ occurrences
       (EnhancedPBIRParser.parseReportStructure validate files
          EnhancedPBIRParser.initial) = 1%nat.
Proof.
  intros N. unfold EnhancedPBIRParser.parseReportStructure. rewrite N.
  set (st1 := EnhancedPBIRParser.warn EnhancedPBIRParser.initial
                "No main report.json found").
  destruct (mergeOptional_frame files "definition/version.json" "versionMetadata"
              "version" st1 eq_refl) as (R2 & P2 & W2).
  destruct (mergeOptional_frame files "definition/reportExtensions.json"
              "reportExtension" "extensions" _ R2) as (R3 & P3 & W3).
  repeat split.
  - exact R3.
  - now rewrite P3, P2.
  - now rewrite W3, W2.
Qed.

End Rootless.

Lemma own_setProp_kept (ps : list (string * value)) (k : string) (v : value) :
  keeps ps (setProp ps k v).
Proof.
  intros k' H. rewrite own_setProp. now destruct (k =? k').
Qed.

Lemma own_setProp_same (ps : list (string * value)) (k : string) (v : value) :
  own (setProp ps k v) k <> None.
Proof. rewrite own_setProp. now rewrite String.eqb_refl. Qed.

Lemma keeps_refl (m : entries) : keeps m m.
Proof. intros k H. exact H. Qed.

Lemma keeps_trans (a b c : entries) : keeps a b -> keeps b c -> keeps a c.
Proof. intros H1 H2 k H. auto. Qed.

Lemma extends_refl (st : EnhancedPBIRParser.state) : extends st st.
Proof. repeat split; apply keeps_refl. Qed.

Lemma extends_trans (a b c : EnhancedPBIRParser.state) :
  extends a b -> extends b c -> extends a c.
Proof.
  intros (R1 & W1 & P1 & V1) (R2 & W2 & P2 & V2). repeat split.
  - congruence.
  - congruence.
  - eapply keeps_trans; eassumption.
  - eapply keeps_trans; eassumption.
Qed.

Section Loops.

Variable validate : value -> string -> string + (bool * list string).
Variable files : list file.

Local Abbreviation read := (EnhancedPBIRParser.parseJsonFileWithValidation validate).
Local Abbreviation visualId :=
  (fun h => EnhancedPBIRParser.extractVisualName (relativePath h)).
Local Abbreviation pageId :=
  (fun f => EnhancedPBIRParser.extractPageName (relativePath f)).

Lemma read_extends (f : file) (schemaName : string) (st st' : EnhancedPBIRParser.state)
  (data : value) :
  read f schemaName st = (data, st') ->
  data = dataOf validate schemaName f
  /\ EnhancedPBIRParser.pages st' = EnhancedPBIRParser.pages st
  /\ EnhancedPBIRParser.visuals st' = EnhancedPBIRParser.visuals st
  /\ extends st st'.
Proof.
  intros H. apply read_frame in H. destruct H as (D & R & P & V & _ & W).
  repeat split; try assumption.
  - rewrite P. apply keeps_refl.
  - rewrite V. apply keeps_refl.
Qed.

Lemma visualsLoop_populates (pageName : string) (todo : list file) :
  forall local st local' st',
    EnhancedPBIRParser.visualsLoop validate files pageName todo local st
    = Ok (local', st') ->
    EnhancedPBIRParser.pages st' = EnhancedPBIRParser.pages st
    /\ extends st st'
    /\ keeps local local'
    /\ (forall h, In h todo ->
          truthy (dataOf validate "visualContainer" h) = true ->
          own local' (visualId h) <> None
          /\ own (EnhancedPBIRParser.visuals st') (pageName ++ ":" ++ visualId h)
             <> None).
Proof.
  induction todo as [|h r IH]; intros local st local' st';
    cbn [EnhancedPBIRParser.visualsLoop].
  - intros [= <- <-]. split; [reflexivity|]. split; [apply extends_refl|].
    split; [apply keeps_refl|]. intros h [].
  - destruct (read h "visualContainer" st) as [visualData st1] eqn:E1.
    apply read_extends in E1. destruct E1 as (-> & P1 & V1 & X1).
    destruct (truthy (dataOf validate "visualContainer" h)) eqn:T.
    + set (mobile := match fileAt files _ with
                     | Some mobileFile => read mobileFile "visualContainerMobileState" st1
                     | None => (JNull, st1)
                     end).
      assert (M : EnhancedPBIRParser.pages (snd mobile) = EnhancedPBIRParser.pages st1
                  /\ EnhancedPBIRParser.visuals (snd mobile)
                     = EnhancedPBIRParser.visuals st1
                  /\ extends st1 (snd mobile)).
      { subst mobile. destruct (fileAt files _) as [mobileFile|].
        - destruct (read mobileFile "visualContainerMobileState" st1)
            as [d s] eqn:E2.
          apply read_extends in E2. cbn [snd]. tauto.
        - cbn [snd]. split; [reflexivity|]. split; [reflexivity|].
          apply extends_refl. }
      destruct mobile as [mobileData st2]. cbn [snd] in M.
      destruct M as (P2 & V2 & X2).
      destruct (EnhancedPBIRParser.processVisualData _ mobileData) as [processed| |];
        cbn [bind]; try discriminate.
      intros H. apply IH in H. destruct H as (P & X & K & C).
      cbn [EnhancedPBIRParser.setVisuals EnhancedPBIRParser.pages] in P.
      assert (X' : extends st2 st').
      { destruct X as (R & W & KP & KV).
        split; [exact R|]. split; [exact W|]. split; [exact KP|].
        eapply keeps_trans; [|exact KV].
        cbn [EnhancedPBIRParser.setVisuals EnhancedPBIRParser.visuals].
        apply own_setProp_kept. }
      split; [congruence|].
      split; [eapply extends_trans; [exact X1|]; eapply extends_trans; eassumption|].
      split; [eapply keeps_trans; [apply own_setProp_kept | exact K]|].
      intros g [<- | G] Tg; [|now apply C].
      split.
      * apply K. apply own_setProp_same.
      * destruct X as (_ & _ & _ & KV). apply KV.
        cbn [EnhancedPBIRParser.setVisuals EnhancedPBIRParser.visuals].
        apply own_setProp_same.
    + intros H. apply IH in H. destruct H as (P & X & K & C).
      split; [congruence|].
      split; [eapply extends_trans; eassumption|].
      split; [exact K|].
      intros g [<- | G] Tg; [congruence | now apply C].
Qed.

Lemma parsePageVisuals_populates (pageName : string)
  (st st' : EnhancedPBIRParser.state) (visuals : value) :
  EnhancedPBIRParser.parsePageVisuals validate files pageName st = Ok (visuals, st') ->
  EnhancedPBIRParser.pages st' = EnhancedPBIRParser.pages st
  /\ extends st st'
  /\ exists V, visuals = JObj V
       /\ forall h, In h files -> EnhancedPBIRParser.isVisualOf pageName h = true ->
            truthy (dataOf validate "visualContainer" h) = true ->
            own V (visualId h) <> None
            /\ own (EnhancedPBIRParser.visuals st') (pageName ++ ":" ++ visualId h)
               <> None.
Proof.
  unfold EnhancedPBIRParser.parsePageVisuals.
  destruct (EnhancedPBIRParser.visualsLoop _ _ _ _ _ _) as [[local s]| |] eqn:E;
    cbn [bind fst snd]; try discriminate.
  intros [= <- <-]. apply visualsLoop_populates in E.
  destruct E as (P & X & _ & C).
  split; [exact P|]. split; [exact X|].
  exists local. split; [reflexivity|].
  intros h I V. apply C. apply filter_In. now split.
Qed.

Lemma pagesLoop_populates (todo : list file) :
  (forall f, In f todo -> In f files /\ EnhancedPBIRParser.isPage f = true) ->
  forall st st',
    EnhancedPBIRParser.pagesLoop validate files todo st = Ok st' ->
    (forall id e, own (EnhancedPBIRParser.pages st) id = Some e ->
                  Populated validate files id e) ->
    extends st st'
    /\ (forall id e, own (EnhancedPBIRParser.pages st') id = Some e ->
                     Populated validate files id e)
    /\ (forall f, In f todo -> truthy (dataOf validate "page" f) = true ->
          own (EnhancedPBIRParser.pages st') (pageId f) <> None
          /\ forall h, In h files ->
               EnhancedPBIRParser.isVisualOf (pageId f) h = true ->
               truthy (dataOf validate "visualContainer" h) = true ->
               own (EnhancedPBIRParser.visuals st')
                 (pageId f ++ ":" ++ visualId h) <> None).
Proof.
  induction todo as [|f r IH]; intros S st st'; cbn [EnhancedPBIRParser.pagesLoop].
  - intros [= <-] I. split; [apply extends_refl|]. split; [exact I|]. intros f [].
  - destruct (read f "page" st) as [pageData st1] eqn:E1.
    apply read_extends in E1. destruct E1 as (-> & P1 & V1 & X1).
    assert (S' : forall g, In g r -> In g files /\ EnhancedPBIRParser.isPage g = true)
      by (intros g G; apply S; now right).
    destruct (truthy (dataOf validate "page" f)) eqn:T.
    + destruct (EnhancedPBIRParser.parsePageVisuals validate files (pageId f) st1)
        as [[visuals st2]| |] eqn:E2; cbn [bind fst snd]; try discriminate.
      apply parsePageVisuals_populates in E2.
      destruct E2 as (P2 & X2 & V & -> & C2).
      intros H I.
      set (st3 := EnhancedPBIRParser.setPages st2 _) in H.
      assert (X3 : extends st2 st3).
      { subst st3. split; [reflexivity|]. split; [reflexivity|].
        split; [|apply keeps_refl].
        cbn [EnhancedPBIRParser.setPages EnhancedPBIRParser.pages].
        apply own_setProp_kept. }
      assert (I3 : forall id e, own (EnhancedPBIRParser.pages st3) id = Some e ->
                                Populated validate files id e).
      { subst st3. intros id e.
        cbn [EnhancedPBIRParser.setPages EnhancedPBIRParser.pages].
        rewrite own_setProp.
        destruct (String.eqb_spec (pageId f) id) as [<- | N].
        - intros [= <-]. exists f, V.
          destruct (S f (or_introl eq_refl)) as (F1 & F2).
          split; [exact F1|]. split; [exact F2|]. split; [reflexivity|].
          split; [exact T|]. split; [reflexivity|].
          intros h Hh Hv Ht. now apply C2.
        - rewrite P2, P1. apply I. }
      destruct (IH S' _ _ H I3) as (X & I' & C).
      split; [|split].
      * eapply extends_trans; [exact X1|]. eapply extends_trans; [exact X2|].
        eapply extends_trans; eassumption.
      * exact I'.
      * intros g [<- | G] Tg; [|now apply C].
        destruct X as (_ & _ & KP & KV). split.
        -- apply KP. subst st3.
           cbn [EnhancedPBIRParser.setPages EnhancedPBIRParser.pages].
           apply own_setProp_same.
        -- intros h Hh Hv Ht. apply KV. subst st3.
           cbn [EnhancedPBIRParser.setPages EnhancedPBIRParser.visuals].
           now apply C2.
    + intros H I.
      assert (I1 : forall id e, own (EnhancedPBIRParser.pages st1) id = Some e ->
                                Populated validate files id e)
        by (rewrite P1; exact I).
      destruct (IH S' _ _ H I1) as (X & I' & C).
      split; [|split].
      * eapply extends_trans; eassumption.
      * exact I'.
      * intros g [<- | G] Tg; [congruence | now apply C].
Qed.

Lemma bookmarksLoop_extends (todo : list file) (st : EnhancedPBIRParser.state) :
  extends st (EnhancedPBIRParser.bookmarksLoop validate todo st)
  /\ EnhancedPBIRParser.pages (EnhancedPBIRParser.bookmarksLoop validate todo st)
     = EnhancedPBIRParser.pages st
  /\ EnhancedPBIRParser.visuals (EnhancedPBIRParser.bookmarksLoop validate todo st)
     = EnhancedPBIRParser.visuals st.
Proof.
  revert st. induction todo as [|f r IH]; intros st;
    cbn [EnhancedPBIRParser.bookmarksLoop].
  - split; [apply extends_refl | split; reflexivity].
  - destruct (read f "bookmark" st) as [d st1] eqn:E.
    apply read_extends in E. destruct E as (_ & P1 & V1 & X1).
    destruct (truthy d).
    + destruct (IH (EnhancedPBIRParser.setBookmarks st1
                      (setProp (EnhancedPBIRParser.bookmarks st1)
                         (EnhancedPBIRParser.extractBookmarkName (relativePath f)) d)))
        as (X & P & V).
      split; [|split].
      * eapply extends_trans; [exact X1|].
        eapply extends_trans; [|exact X].
        split; [reflexivity|]. split; [reflexivity|]. split; apply keeps_refl.
      * now rewrite P.
      * now rewrite V.
    + destruct (IH st1) as (X & P & V). split; [|split].
      * eapply extends_trans; eassumption.
      * congruence.
      * congruence.
Qed.

Lemma parseBookmarks_extends (st : EnhancedPBIRParser.state) :
  extends st (EnhancedPBIRParser.parseBookmarks validate files st)
  /\ EnhancedPBIRParser.pages (EnhancedPBIRParser.parseBookmarks validate files st)
     = EnhancedPBIRParser.pages st
  /\ EnhancedPBIRParser.visuals (EnhancedPBIRParser.parseBookmarks validate files st)
     = EnhancedPBIRParser.visuals st.
Proof.
  unfold EnhancedPBIRParser.parseBookmarks.
  destruct (findFile files "definition/bookmarks/bookmarks.json") as [b|].
  - destruct (read b "bookmarksMetadata" st) as [d st1] eqn:E.
    apply read_extends in E. destruct E as (_ & P1 & V1 & X1). cbn [snd].
    destruct (bookmarksLoop_extends
                (filter EnhancedPBIRParser.isBookmark files) st1) as (X & P & V).
    split; [|split].
    + eapply extends_trans; eassumption.
    + congruence.
    + congruence.
  - split; [apply extends_refl | split; reflexivity].
Qed.

End Loops.

Section Completion.

Variable validate : value -> string -> string + (bool * list string).
Variable files : list file.

Local Abbreviation read := (EnhancedPBIRParser.parseJsonFileWithValidation validate).
Local Abbreviation visualId :=
  (fun h => EnhancedPBIRParser.extractVisualName (relativePath h)).
Local Abbreviation pageId :=
  (fun f => EnhancedPBIRParser.extractPageName (relativePath f)).

(** What the loop reads as the mobile layout of a visual. *)
Lemma read_mobile (h : file) (st : EnhancedPBIRParser.state) :
  fst (match fileAt files (replaceFirst (relativePath h) "/visual.json" "/mobile.json")
       with
       | Some mobileFile => read mobileFile "visualContainerMobileState" st
       | None => (JNull, st)
       end) = mobileDataOf validate files h.
Proof.
  unfold mobileDataOf. destruct (fileAt files _) as [m|]; [|reflexivity].
  destruct (read m "visualContainerMobileState" st) as [d s] eqn:E.
  apply read_frame in E. now destruct E as (-> & _).
Qed.

(** The loop over the visuals of a page returns exactly when each of the
    visual documents that could be read can be processed. *)
Lemma visualsLoop_returns (pageName : string) (todo : list file) :
  forall local st,
    (exists r, EnhancedPBIRParser.visualsLoop validate files pageName todo local st
               = Ok r)
    <-> (forall h, In h todo ->
           truthy (dataOf validate "visualContainer" h) = true ->
           exists processed,
             EnhancedPBIRParser.processVisualData
               (dataOf validate "visualContainer" h) (mobileDataOf validate files h)
             = Ok processed).
Proof.
  induction todo as [|h r IH]; intros local st;
    cbn [EnhancedPBIRParser.visualsLoop].
  - split; [intros _ h [] | eauto].
  - destruct (read h "visualContainer" st) as [visualData st1] eqn:E1.
    apply read_frame in E1. destruct E1 as (-> & _).
    destruct (truthy (dataOf validate "visualContainer" h)) eqn:T.
    + pose proof (read_mobile h st1) as M.
      destruct (match fileAt files _ with
                | Some mobileFile => read mobileFile "visualContainerMobileState" st1
                | None => (JNull, st1)
                end) as [mobileData st2].
      cbn [fst] in M. subst mobileData.
      destruct (EnhancedPBIRParser.processVisualData _ _) as [processed| |] eqn:P;
        cbn [bind].
      * rewrite IH. split.
        -- intros A g [<- | G] Tg; [eauto | now apply A].
        -- intros A g G. apply A. now right.
      * split; [intros (x & X); discriminate X|].
        intros A. destruct (A h (or_introl eq_refl) T) as (p & X).
        rewrite P in X. discriminate X.
      * split; [intros (x & X); discriminate X|].
        intros A. destruct (A h (or_introl eq_refl) T) as (p & X).
        rewrite P in X. discriminate X.
    + rewrite IH. split.
      * intros A g [<- | G] Tg; [congruence | now apply A].
      * intros A g G. apply A. now right.
Qed.

Lemma pagesLoop_returns (todo : list file) :
  forall st,
    (exists st', EnhancedPBIRParser.pagesLoop validate files todo st = Ok st')
    <-> (forall g h, In g todo -> truthy (dataOf validate "page" g) = true ->
           In h files -> EnhancedPBIRParser.isVisualOf (pageId g) h = true ->
           truthy (dataOf validate "visualContainer" h) = true ->
           exists processed,
             EnhancedPBIRParser.processVisualData
               (dataOf validate "visualContainer" h) (mobileDataOf validate files h)
             = Ok processed).
Proof.
  induction todo as [|f r IH]; intros st; cbn [EnhancedPBIRParser.pagesLoop].
  - split; [intros _ g h [] | eauto].
  - destruct (read f "page" st) as [pageData st1] eqn:E1.
    apply read_frame in E1. destruct E1 as (-> & _).
    destruct (truthy (dataOf validate "page" f)) eqn:T.
    + unfold EnhancedPBIRParser.parsePageVisuals.
      pose proof (visualsLoop_returns (pageId f)
                    (filter (EnhancedPBIRParser.isVisualOf (pageId f)) files) [] st1)
        as V.
      destruct (EnhancedPBIRParser.visualsLoop _ _ _ _ _ _) as [x| |] eqn:E;
        cbn [bind].
      * rewrite IH. split.
        -- intros A g h [<- | G] Tg Ih Vh Th; [|now apply (A g h)].
           apply (proj1 V); [eauto | | exact Th]. apply filter_In. now split.
        -- intros A g h G. apply A. now right.
      * split; [intros (x & X); discriminate X|].
        intros A. destruct (proj2 V) as (x & X); [|discriminate X].
        intros h Ih Th. apply filter_In in Ih. destruct Ih as (Ih & Vh).
        now apply (A f h (or_introl eq_refl) T).
      * split; [intros (x & X); discriminate X|].
        intros A. destruct (proj2 V) as (x & X); [|discriminate X].
        intros h Ih Th. apply filter_In in Ih. destruct Ih as (Ih & Vh).
        now apply (A f h (or_introl eq_refl) T).
    + rewrite IH. split.
      * intros A g h [<- | G] Tg; [congruence | now apply A].
      * intros A g h G. apply A. now right.
Qed.

Lemma parseDirectory_returns :
  (exists st, EnhancedPBIRParser.parseDirectory validate files = Ok st)
  <-> Processable validate files.
Proof.
  unfold EnhancedPBIRParser.parseDirectory, EnhancedPBIRParser.parsePages, Processable,
    ReadVisual.
  set (st1 := match findFile files "definition/pages/pages.json" with
              | Some pagesFile => _
              | None => _
              end).
  pose proof (pagesLoop_returns (filter EnhancedPBIRParser.isPage files) st1) as L.
  split.
  - intros (st & H).
    destruct (EnhancedPBIRParser.pagesLoop validate files _ st1) as [st2| |] eqn:E;
      cbn [bind] in H; try discriminate H.
    intros g h (Ig & Pg & Tg & Ih & Vh & Th).
    apply (proj1 L (ex_intro _ st2 eq_refl) g h); try assumption.
    apply filter_In. now split.
  - intros A. destruct (proj2 L) as (st2 & ->); [|cbn [bind]; eauto].
    intros g h Ig Tg Ih Vh Th. apply filter_In in Ig. destruct Ig as (Ig & Pg).
    apply (A g h). repeat split; assumption.
Qed.

(** The map of all visuals holds nothing but visuals that the parser read:
    each key is made of the identifier of a page document and of that of a
    visual document of the page. *)
Lemma visualsLoop_only (g : file) (todo : list file) :
  In g files -> EnhancedPBIRParser.isPage g = true ->
  truthy (dataOf validate "page" g) = true ->
  (forall h, In h todo ->
     In h files /\ EnhancedPBIRParser.isVisualOf (pageId g) h = true) ->
  forall local st local' st',
    EnhancedPBIRParser.visualsLoop validate files (pageId g) todo local st
    = Ok (local', st') ->
    (forall key e, own (EnhancedPBIRParser.visuals st) key = Some e ->
       exists g' h', ReadVisual validate files g' h'
                     /\ key = pageId g' ++ ":" ++ visualId h') ->
    forall key e, own (EnhancedPBIRParser.visuals st') key = Some e ->
      exists g' h', ReadVisual validate files g' h'
                    /\ key = pageId g' ++ ":" ++ visualId h'.
Proof.
  intros Ig Pg Tg. induction todo as [|h r IH]; intros S local st local' st';
    cbn [EnhancedPBIRParser.visualsLoop].
  - now intros [= <- <-].
  - assert (S' : forall k, In k r ->
                   In k files /\ EnhancedPBIRParser.isVisualOf (pageId g) k = true)
      by (intros k K; apply S; now right).
    destruct (read h "visualContainer" st) as [visualData st1] eqn:E1.
    apply read_frame in E1. destruct E1 as (-> & _ & _ & V1 & _).
    destruct (truthy (dataOf validate "visualContainer" h)) eqn:T.
    + assert (M : EnhancedPBIRParser.visuals
                    (snd (match fileAt files (replaceFirst (relativePath h)
                                                "/visual.json" "/mobile.json") with
                          | Some mobileFile =>
                              read mobileFile "visualContainerMobileState" st1
                          | None => (JNull, st1)
                          end)) = EnhancedPBIRParser.visuals st1).
      { destruct (fileAt files _) as [m|]; [|reflexivity].
        destruct (read m "visualContainerMobileState" st1) as [d s] eqn:E2.
        apply read_frame in E2. cbn [snd]. tauto. }
      destruct (match fileAt files _ with
                | Some mobileFile => read mobileFile "visualContainerMobileState" st1
                | None => (JNull, st1)
                end) as [mobileData st2].
      cbn [snd] in M.
      destruct (EnhancedPBIRParser.processVisualData _ mobileData) as [processed| |];
        cbn [bind]; try discriminate.
      intros H I. refine (IH S' _ _ _ _ H _).
      intros key e.
      cbn [EnhancedPBIRParser.setVisuals EnhancedPBIRParser.visuals].
      rewrite own_setProp.
      destruct (String.eqb_spec (pageId g ++ ":" ++ visualId h) key) as [<- | N].
      * intros _. exists g, h. split; [|reflexivity].
        destruct (S h (or_introl eq_refl)) as (Ih & Vh).
        repeat split; assumption.
      * rewrite M, V1. apply I.
    + intros H I. refine (IH S' _ _ _ _ H _). rewrite V1. exact I.
Qed.

Lemma pagesLoop_only (todo : list file) :
  (forall g, In g todo -> In g files /\ EnhancedPBIRParser.isPage g = true) ->
  forall st st',
    EnhancedPBIRParser.pagesLoop validate files todo st = Ok st' ->
    (forall key e, own (EnhancedPBIRParser.visuals st) key = Some e ->
       exists g' h', ReadVisual validate files g' h'
                     /\ key = pageId g' ++ ":" ++ visualId h') ->
    forall key e, own (EnhancedPBIRParser.visuals st') key = Some e ->
      exists g' h', ReadVisual validate files g' h'
                    /\ key = pageId g' ++ ":" ++ visualId h'.
Proof.
  induction todo as [|g r IH]; intros S st st'; cbn [EnhancedPBIRParser.pagesLoop].
  - now intros [= <-].
  - assert (S' : forall k, In k r ->
                   In k files /\ EnhancedPBIRParser.isPage k = true)
      by (intros k K; apply S; now right).
    destruct (read g "page" st) as [pageData st1] eqn:E1.
    apply read_frame in E1. destruct E1 as (-> & _ & _ & V1 & _).
    destruct (truthy (dataOf validate "page" g)) eqn:T.
    + unfold EnhancedPBIRParser.parsePageVisuals.
      destruct (EnhancedPBIRParser.visualsLoop _ _ _ _ _ _) as [[local st2]| |] eqn:E;
        cbn [bind fst snd]; try discriminate.
      intros H I. refine (IH S' _ _ H _).
      cbn [EnhancedPBIRParser.setPages EnhancedPBIRParser.visuals].
      destruct (S g (or_introl eq_refl)) as (Ig & Pg).
      refine (visualsLoop_only g _ Ig Pg T _ _ _ _ _ E _).
      * intros h Ih. apply filter_In in Ih. exact Ih.
      * rewrite V1. exact I.
    + intros H I. refine (IH S' _ _ H _). rewrite V1. exact I.
Qed.

End Completion.

Lemma parseReportStructure_visuals
  (validate : value -> string -> string + (bool * list string)) (files : list file) :
  EnhancedPBIRParser.visuals
    (EnhancedPBIRParser.parseReportStructure validate files EnhancedPBIRParser.initial)
  = [].
Proof.
  assert (M : forall path schemaName key st,
             EnhancedPBIRParser.visuals
               (EnhancedPBIRParser.mergeOptional validate files path schemaName key st)
             = EnhancedPBIRParser.visuals st).
  { intros path schemaName key st. unfold EnhancedPBIRParser.mergeOptional.
    destruct (findFile files path) as [f|]; [|reflexivity].
    destruct (EnhancedPBIRParser.parseJsonFileWithValidation validate f schemaName st)
      as [d s] eqn:E.
    apply read_frame in E. destruct E as (_ & _ & _ & V & _).
    now destruct (truthy (EnhancedPBIRParser.reportData s) && truthy d). }
  unfold EnhancedPBIRParser.parseReportStructure. rewrite !M.
  destruct (findFile files "definition/report.json") as [f|]; [|reflexivity].
  destruct (EnhancedPBIRParser.parseJsonFileWithValidation validate f "report"
              EnhancedPBIRParser.initial) as [d s] eqn:E.
  apply read_frame in E. now destruct E as (_ & _ & _ & V & _).
Qed.

(** C7, as the code has it: when the directory has no
    [definition/report.json], the command-line parser runs to its end
    exactly when every visual document that it reads can be processed, as it
    does with a root; the report of the result is then [null], the warnings
    of the result hold the missing-root warning exactly once, every page
    document that could be read has an entry under its identifier, every
    entry is made from a page document of that identifier and holds a visual
    for every visual document of the page that could be read, each of these
    visuals is also in the map of all visuals, and that map holds nothing
    but visuals of page documents that could be read. *)
Theorem rootless_report_is_populated
  (validate : value -> string -> string + (bool * list string))
  (files : list file) :
  findFile files "definition/report.json" = None ->
  ((exists st, EnhancedPBIRParser.parseDirectory validate files = Ok st)
   <-> Processable validate files)
  /\ (forall st,
        EnhancedPBIRParser.parseDirectory validate files = Ok st ->
        EnhancedPBIRParser.reportData st = JNull
        /\ missingRootWarnings st = 1%nat
        /\ (forall id e, own (EnhancedPBIRParser.pages st) id = Some e ->
                         Populated validate files id e)
        /\ (forall f, In f files -> EnhancedPBIRParser.isPage f = true ->
              truthy (dataOf validate "page" f) = true ->
              own (EnhancedPBIRParser.pages st)
                (EnhancedPBIRParser.extractPageName (relativePath f)) <> None
              /\ forall h, In h files ->
                   EnhancedPBIRParser.isVisualOf
                     (EnhancedPBIRParser.extractPageName (relativePath f)) h = true ->
                   truthy (dataOf validate "visualContainer" h) = true ->
                   own (EnhancedPBIRParser.visuals st)
                     (EnhancedPBIRParser.extractPageName (relativePath f) ++ ":"
                      ++ EnhancedPBIRParser.extractVisualName (relativePath h))
                   <> None)
        /\ (forall key e, own (EnhancedPBIRParser.visuals st) key = Some e ->
              exists g h,
                ReadVisual validate files g h
                /\ key = EnhancedPBIRParser.extractPageName (relativePath g) ++ ":"
                         ++ EnhancedPBIRParser.extractVisualName (relativePath h))).
Proof.
  intros N. split; [apply parseDirectory_returns|].
  unfold EnhancedPBIRParser.parseDirectory, EnhancedPBIRParser.parsePages.
  destruct (parseReportStructure_rootless validate files N) as (R0 & P0 & W0).
  pose proof (parseReportStructure_visuals validate files) as V0.
  set (st0 := EnhancedPBIRParser.parseReportStructure validate files
                EnhancedPBIRParser.initial) in *.
  set (st1 := match findFile files "definition/pages/pages.json" with
              | Some pagesFile =>
                  snd (EnhancedPBIRParser.parseJsonFileWithValidation validate
                         pagesFile "pagesMetadata" st0)
              | None => st0
              end).
  assert (X1 : extends st0 st1 /\ EnhancedPBIRParser.pages st1 = []
               /\ EnhancedPBIRParser.visuals st1 = []).
  { subst st1. destruct (findFile files "definition/pages/pages.json") as [p|].
    - destruct (EnhancedPBIRParser.parseJsonFileWithValidation validate p
                  "pagesMetadata" st0) as [d s] eqn:E.
      apply read_extends in E. cbn [snd]. split; [tauto|].
      destruct E as (_ & P & V & _). now rewrite P, V.
    - split; [apply extends_refl | now split]. }
  destruct X1 as (X1 & P1 & V1).
  intros st.
  destruct (EnhancedPBIRParser.pagesLoop validate files _ st1) as [st2| |] eqn:E;
    cbn [bind]; try discriminate.
  intros [= <-].
  pose proof (pagesLoop_only validate files _
                (fun g G => proj1 (filter_In _ _ _) G) _ _ E) as O.
  apply pagesLoop_populates in E.
  - destruct E as (X2 & I & C).
    destruct (parseBookmarks_extends validate files st2) as (X3 & P3 & V3).
    pose proof (extends_trans _ _ _ X1 (extends_trans _ _ _ X2 X3)) as X.
    destruct X as (R & W & _ & _).
    split; [congruence|]. split; [unfold missingRootWarnings in *; congruence|].
    rewrite P3, V3. split; [exact I|]. split.
    + intros f F1 F2 T. apply C; [|exact T]. apply filter_In. now split.
    + apply O. rewrite V1. intros key e H. discriminate H.
  - intros f F. apply filter_In in F. exact F.
  - rewrite P1. intros id e H. discriminate H.
Qed.

Lemma rootless_report_is_populated_witness :
  Processable accept rootless
  /\ exists st,
       EnhancedPBIRParser.parseDirectory accept rootless = Ok st
       /\ EnhancedPBIRParser.reportData st = JNull
       /\ EnhancedPBIRParser.parseWarnings st = [noMainReport]
       /\ map fst (EnhancedPBIRParser.pages st) = ["Sales"]
       /\ map fst (EnhancedPBIRParser.visuals st) = ["Sales:v1"]
       /\ missingRootWarnings st = 1%nat.
Proof.
  split.
  - apply (proj1 (proj1 (rootless_report_is_populated accept rootless eq_refl))).
    eexists. reflexivity.
  - eexists. split; [reflexivity|].
    split; [reflexivity|]. split; [reflexivity|].
    split; [reflexivity|]. split; [reflexivity|].
    apply (proj1 (proj2 (proj2 (rootless_report_is_populated accept rootless eq_refl)
                           _ eq_refl))).
Defined.

(** C7 as stated fails on a directory with a visual document that cannot be
    processed, on which the parse throws, without a root as with one; on a
    directory with a visual document that cannot be read, which gets no
    entry; and on a directory with a visual document of a page that has no
    page document, which gets none either. *)
Lemma rootless_parse_can_fail :
  ~ populatedFromAll accept unprocessable
  /\ ~ populatedFromAll accept rootless
  /\ ~ populatedFromAll accept orphaned.
Proof.
  split; [|split]; intros H; destruct (H eq_refl) as (st & E & _ & _ & V).
  - vm_compute in E. discriminate E.
  - vm_compute in E. injection E as <-.
    apply (V (mkFile "definition/pages/Sales/visuals/v2/visual.json"
                (inl "Unexpected end of JSON input")) "Sales");
      [cbn; tauto | reflexivity | reflexivity].
  - vm_compute in E. injection E as <-.
    apply (V (mkFile "definition/pages/Ghost/visuals/v1/visual.json"
                (inr (JObj [ ("name", JStr "v1");
                             ("visual", obj1 "visualType" (JStr "card")) ])))
             "Ghost");
      [cbn; tauto | reflexivity | reflexivity].
Qed.

(** ** The embedding at work on sample documents *)

Example generated_name_of_a_card :
  PBIRReportGenerator.getVisualDisplayName plainCard = Ok "Card (44929275)".
Proof. reflexivity. Qed.

Example first_run_of_a_text_box :
  PBIRReportGenerator.getVisualDisplayName textBox = Ok "Overview".
Proof. reflexivity. Qed.

Example unmapped_type_passes_through :
  PBIRReportGenerator.getVisualType (typedVisual "sankeyChart") = Ok (JStr "sankeyChart").
Proof. reflexivity. Qed.

Example type_named_like_an_inherited_member :
  PBIRReportGenerator.getVisualType (typedVisual "constructor")
  = Ok (JBuiltin "constructor").
Proof. reflexivity. Qed.

Example type_that_is_not_a_string :
  PBIRReportGenerator.getVisualType (obj1 "visual" (obj1 "visualType" (num 7))) = Throw.
Proof. reflexivity. Qed.

Example visual_name_of_a_path :
  PBIRReportGenerator.extractVisualName
    "definition/pages/Sales/visuals/44929275ab/visual.json" = "44929275ab".
Proof. reflexivity. Qed.

Example bookmark_name_of_a_path :
  PBIRParser.extractBookmarkName "definition/bookmarks/Bookmark1.bookmark.json"
  = "Bookmark1".
Proof. reflexivity. Qed.

Example between_renders :
  PBIRParser.formatFilterObject
    (obj1 "Between" (JObj [ ("LowerBound", literalNode (num 1));
                            ("UpperBound", literalNode (num 5)) ]))
  = Ok (JStr "BETWEEN 1 AND 5").
Proof. reflexivity. Qed.

Example negated_disjunction_renders :
  PBIRParser.formatFilterObject
    (obj1 "Not" (obj1 "Or" (JArr [inNode [JStr "A"]; inNode [JStr "B"]])))
  = Ok (JStr "NOT ((IN (A) OR IN (B)))").
Proof. reflexivity. Qed.

Example numeric_comparison_kind_renders_as_written :
  PBIRParser.formatFilterObject (comparisonNode (num 1) (literalNode (num 10)))
  = Ok (JStr "1 10").
Proof. reflexivity. Qed.

Example unknown_node_is_dumped :
  PBIRParser.formatFilterObject (obj1 "Exists" (JArr [JNull; JBool true; JStr "a"]))
  = Ok (JStr (String "{" (quote "Exists"
              ++ ":[null,true," ++ quote "a" ++ "]}"))).
Proof. reflexivity. Qed.

Example render_of_nothing_throws :
  PBIRParser.formatFilterObject JUndefined = Throw.
Proof. reflexivity. Qed.

(** The dump of a node lists the keys that are array indices first, as
    [Object.keys] does. *)
Example index_keys_are_dumped_first :
  PBIRParser.formatFilterObject (JObj [ ("b", num 1); ("10", num 2); ("9", num 3) ])
  = Ok (JStr (String "{" (quote "9" ++ ":3," ++ quote "10" ++ ":2,"
              ++ quote "b" ++ ":1}"))).
Proof. reflexivity. Qed.

(** An array among the filters, or as the properties of a colour, has the
    methods of every array under the names [filter] and [fill]: the
    command-line parser copies them into its records. *)
Example array_filter_keeps_its_method :
  memberOf (EnhancedPBIRParser.parseFilterFromSchema (JArr [])) "filter"
  = Some (JBuiltin "filter")
  /\ memberOf (EnhancedPBIRParser.parseFilterFromSchema (JObj [])) "filter"
     = Some JUndefined.
Proof. split; reflexivity. Qed.

Example array_properties_give_their_fill :
  EnhancedPBIRParser.fillOf (obj1 "properties" (JArr [])) = Ok (Some (JBuiltin "fill"))
  /\ EnhancedPBIRParser.fillOf (obj1 "properties" (JObj [])) = Ok None.
Proof. split; reflexivity. Qed.

Example codes_of_the_two_tables_differ :
  PBIRParser.getAggregationFunction (num 2) = Ok (JStr "Min")
  /\ memberOf (PBIRParserEnhanced.parseSelectExpression (aggregated 2)) "aggregation"
     = Some (JStr "DistinctCount")
  /\ memberOf (PBIRReportGenerator.parseFieldFromSelect (aggregated 2)) "aggregation"
     = Some (JStr "Count (Distinct)").
Proof. repeat split. Qed.

(** The title of the visual container objects is read in the shape of an
    expression literal only: a direct literal there is passed over, and the
    legacy title is taken. *)
Remark direct_literal_container_title_is_passed_over :
  PBIRReportGenerator.containerTitle directlyTitled = Ok None
  /\ PBIRReportGenerator.getVisualDisplayName directlyTitled = Ok "Chart1".
Proof. split; reflexivity. Qed.

(** The renderer reads the members of a conjunction from an array; a
    conjunction written with [Left] and [Right] has no [map] to call. *)
Example conjunction_of_left_and_right_throws :
  PBIRParser.formatFilterObject
    (obj1 "And" (JObj [ ("Left", inNode [JStr "A"; JStr "B"]);
                        ("Right", comparisonNode (JStr "GreaterThan")
                                    (literalNode (num 10))) ]))
  = Throw.
Proof. reflexivity. Qed.

Example literal_operands_render_alike :
  PBIRParser.formatFilterObject
    (andNode (inNode [literalNode (JStr "A"); literalNode (JStr "B")])
             (comparisonNode (JStr "GreaterThan") (literalNode (JStr "10"))))
  = Ok (JStr "(IN (A, B) AND GreaterThan 10)").
Proof. reflexivity. Qed.

(* ================================================================== *)
(** * Further properties of the parsers

    The properties below are read off the code of the four classes; they
    cover the methods next to those of the ten claims. *)

(** ** Taking a run apart *)

Lemma bind_Ok {A B : Type} (c : result A) (k : A -> result B) (b : B) :
  bind c k = Ok b -> exists a, c = Ok a /\ k a = Ok b.
Proof. destruct c as [a| |]; cbn [bind]; try discriminate. eauto. Qed.

(** The first step of a run that completed, in a hypothesis. *)
Ltac unbind H :=
  let a := fresh "a" in
  let E := fresh "E" in
  apply bind_Ok in H; destruct H as (a & E & H).

Tactic Notation "step" hyp(H) "as" ident(a) ident(E) :=
  apply bind_Ok in H; destruct H as (a & E & H).

Lemma get_returns (v : value) (k : string) :
  nullish v = false -> get v k = Ok (if (k =? "length")
                                     then match v with
                                          | JArr l => num (Z.of_nat (List.length l))
                                          | JStr s => num (Z.of_nat (String.length s))
                                          | _ => member v k
                                          end
                                     else member v k).
Proof.
  destruct v; cbn [nullish get member]; try discriminate; intros _;
    destruct (k =? "length"); reflexivity.
Qed.

Lemma get_Ok_not_nullish (v x : value) (k : string) :
  get v k = Ok x -> nullish v = false.
Proof. destruct v; cbn [get nullish]; congruence. Qed.

Lemma or_else_idem (a d : value) : or_else (or_else a d) d = or_else a d.
Proof.
  unfold or_else. destruct (truthy a) eqn:T; [now rewrite T|].
  now destruct (truthy d).
Qed.

(** ** The file map of the browser parsers *)

Lemma fileAt_setFile (m : list file) (f : file) (p : string) :
  fileAt (PBIRParser.setFile m f) p
  = if relativePath f =? p then Some f else fileAt m p.
Proof.
  unfold fileAt. induction m as [|g m IH]; cbn [PBIRParser.setFile find].
  - reflexivity.
  - destruct (String.eqb_spec (relativePath g) (relativePath f)) as [E|N];
      cbn [find].
    + rewrite E. now destruct (relativePath f =? p).
    + rewrite IH. destruct (String.eqb_spec (relativePath g) p) as [Eg|Ng];
        [|reflexivity].
      destruct (String.eqb_spec (relativePath f) p); [congruence | reflexivity].
Qed.

Lemma setFile_paths (m : list file) (f : file) (p : string) :
  In p (map relativePath (PBIRParser.setFile m f)) ->
  p = relativePath f \/ In p (map relativePath m).
Proof.
  induction m as [|g m IH]; cbn [PBIRParser.setFile map In].
  - intros [H|[]]. now left.
  - destruct (String.eqb_spec (relativePath g) (relativePath f)) as [E|N];
      cbn [map In].
    + intros [H|H]; [now left | now right; right].
    + intros [H|H]; [now right; left|].
      destruct (IH H); [now left | now right; right].
Qed.

Lemma setFile_NoDup (m : list file) (f : file) :
  NoDup (map relativePath m) -> NoDup (map relativePath (PBIRParser.setFile m f)).
Proof.
  induction m as [|g m IH]; cbn [PBIRParser.setFile map]; intros N.
  - constructor; [intros [] | constructor].
  - inversion N as [|? ? Hn Hr]; subst.
    destruct (String.eqb_spec (relativePath g) (relativePath f)) as [E|Ne];
      cbn [map].
    + rewrite <- E. now constructor.
    + constructor; [|now apply IH].
      intros H. apply setFile_paths in H. destruct H; [congruence | contradiction].
Qed.

Lemma fileAt_app (a b : list file) (p : string) :
  fileAt (a ++ b)%list p
  = match fileAt a p with Some f => Some f | None => fileAt b p end.
Proof.
  unfold fileAt. induction a as [|g a IH]; cbn [app find]; [reflexivity|].
  now destruct (relativePath g =? p).
Qed.

Lemma fold_setFile (files acc : list file) :
  (NoDup (map relativePath acc) ->
   NoDup (map relativePath (fold_left PBIRParser.setFile files acc)))
  /\ forall p,
       fileAt (fold_left PBIRParser.setFile files acc) p
       = match fileAt (rev files) p with
         | Some f => Some f
         | None => fileAt acc p
         end.
Proof.
  revert acc. induction files as [|f files IH]; intros acc; cbn [fold_left rev].
  - split; [auto | reflexivity].
  - destruct (IH (PBIRParser.setFile acc f)) as (N & L). split.
    + intros H. apply N. now apply setFile_NoDup.
    + intros p. rewrite L, fileAt_app, fileAt_setFile.
      destruct (fileAt (rev files) p); [reflexivity|].
      change (fileAt [f] p) with (if relativePath f =? p then Some f else None).
      now destruct (relativePath f =? p).
Qed.

(** X1: The file map holds one file for a path, and for every path the last of
    the files given under it: [fileAt (rev files)] is the first file of that
    path from the end. *)
Theorem toFileMap_last_wins (files : list file) :
  NoDup (map relativePath (PBIRParser.toFileMap files))
  /\ forall path,
       fileAt (PBIRParser.toFileMap files) path = fileAt (rev files) path.
Proof.
  unfold PBIRParser.toFileMap. destruct (fold_setFile files []) as (N & L). split.
  - apply N. constructor.
  - intros path. rewrite L. now destruct (fileAt (rev files) path).
Qed.

(** ** What [processVisualData] keeps of a visual document *)

(** X2: The command-line parser copies every field of the visual document and
    lays its six computed fields over it: a field of the document that has
    the name of a computed field is overwritten, every other field is found
    unchanged. *)
Theorem processVisualData_keeps_document_fields
  (visualData mobileData processed : value) :
  EnhancedPBIRParser.processVisualData visualData mobileData = Ok processed ->
  (forall k, ~ In k computedFields -> fieldOf processed k = fieldOf visualData k)
  /\ fieldOf processed "mobile" = Some mobileData
  /\ holds processed "properties" (EnhancedPBIRParser.extractVisualProperties visualData)
  /\ holds processed "fields" (EnhancedPBIRParser.extractFields visualData)
  /\ holds processed "filters" (EnhancedPBIRParser.extractFilters visualData)
  /\ holds processed "layout" (EnhancedPBIRParser.extractLayout visualData)
  /\ holds processed "formatting" (EnhancedPBIRParser.extractFormatting visualData).
Proof.
  unfold EnhancedPBIRParser.processVisualData. intros H.
  unbind H. unbind H. unbind H. unbind H. unbind H.
  injection H as <-. unfold holds, fieldOf. cbn [spread].
  split; [|split; [|split; [|split; [|split; [|split]]]]].
  - intros k N. rewrite !own_setProp.
    repeat match goal with
    | |- context [?c =? k] =>
        destruct (String.eqb_spec c k) as [<-|_];
        [exfalso; apply N; cbn; tauto|]
    end.
    reflexivity.
  - now rewrite !own_setProp.
  - eexists. split; [eassumption|]. now rewrite !own_setProp.
  - eexists. split; [eassumption|]. now rewrite !own_setProp.
  - eexists. split; [eassumption|]. now rewrite !own_setProp.
  - eexists. split; [eassumption|]. now rewrite !own_setProp.
  - eexists. split; [eassumption|]. now rewrite !own_setProp.
Qed.

Lemma processVisualData_keeps_document_fields_witness :
  fieldOf annotatedCard "note" = Some (JStr "kept")
  /\ exists processed,
       EnhancedPBIRParser.processVisualData annotatedCard JNull = Ok processed
       /\ fieldOf processed "note" = Some (JStr "kept")
       /\ fieldOf processed "layout" <> Some (JStr "mine").
Proof.
  split; [reflexivity|].
  destruct (EnhancedPBIRParser.processVisualData annotatedCard JNull)
    as [processed| |] eqn:E; try discriminate E.
  exists processed. split; [reflexivity|].
  pose proof (processVisualData_keeps_document_fields _ _ _ E) as (K & _ & _ & _ & _ & L & _).
  split.
  - rewrite K; [reflexivity|]. cbn. intuition discriminate.
  - destruct L as (x & Lx & ->). vm_compute in Lx. injection Lx as <-. discriminate.
Defined.

(** ** Normalisation in the schema-aware parser *)

Lemma get_total (v : value) (k : string) :
  nullish v = false -> exists x, get v k = Ok x.
Proof. destruct v; cbn [nullish get]; try discriminate; eauto. Qed.

Lemma validatePosition_returns (position : value) :
  exists p, PBIRParserEnhanced.validatePosition position = Ok p.
Proof.
  unfold PBIRParserEnhanced.validatePosition.
  destruct (truthy position) eqn:T; cbn [negb]; [|eauto].
  apply truthy_not_nullish in T.
  destruct position; try discriminate T; cbn [get bind]; eauto.
Qed.

Lemma validatePosition_idem (position p : value) :
  PBIRParserEnhanced.validatePosition position = Ok p ->
  PBIRParserEnhanced.validatePosition p = Ok p.
Proof.
  unfold PBIRParserEnhanced.validatePosition at 1.
  destruct (truthy position) eqn:T; cbn [negb].
  - intros H. do 7 unbind H. injection H as <-.
    unfold PBIRParserEnhanced.validatePosition. cbn.
    now rewrite !or_else_idem.
  - now intros [= <-].
Qed.

(** X3: The schema-aware parser drops what the visual container schema does not
    name: the record of a visual has the ten fields of the schema and the
    six computed fields, in this order, whatever the document holds. *)
Theorem processVisualDataEnhanced_fields (visualData mobileData processed : value) :
  PBIRParserEnhanced.processVisualDataEnhanced visualData mobileData = Ok processed ->
  exists ps, processed = JObj ps
             /\ map fst ps = (containerFields ++ computedFields)%list.
Proof.
  unfold PBIRParserEnhanced.processVisualDataEnhanced. intros H.
  unbind H. unfold PBIRParserEnhanced.validateVisualContainer in E.
  do 11 unbind E. injection E as <-.
  do 5 unbind H. injection H as <-.
  eexists. split; reflexivity.
Qed.

Lemma processVisualDataEnhanced_fields_witness :
  exists processed,
    PBIRParserEnhanced.processVisualDataEnhanced annotatedCard JNull = Ok processed
    /\ fieldOf annotatedCard "note" = Some (JStr "kept")
    /\ fieldOf processed "note" = None.
Proof.
  eexists. split; [reflexivity|]. split; [reflexivity|].
  destruct (processVisualDataEnhanced_fields annotatedCard JNull _ eq_refl)
    as (ps & E & K).
  injection E as <-. reflexivity.
Defined.

(** X4: Validating a visual container before its layout is extracted changes
    nothing in the layout: what [processVisualDataEnhanced] stores is the
    layout of the document itself. *)
Theorem validated_layout (visualData : value) :
  (validated <- PBIRParserEnhanced.validateVisualContainer visualData ;;
   PBIRParserEnhanced.extractLayoutEnhanced validated)
  = PBIRParserEnhanced.extractLayoutEnhanced visualData.
Proof.
  destruct visualData as [| | | | |l|props|]; try reflexivity.
  unfold PBIRParserEnhanced.validateVisualContainer,
    PBIRParserEnhanced.extractLayoutEnhanced, PBIRParserEnhanced.validatePosition.
  cbn [get bind].
  destruct (ownOr props "position") as [| |b|q|s|l|pp|n] eqn:P;
    try reflexivity.
  - destruct b; reflexivity.
  - destruct (truthy (JNum q)) eqn:T; cbn [negb get bind]; cbn; [|reflexivity].
    reflexivity.
  - destruct (truthy (JStr s)) eqn:T; cbn [negb get bind]; cbn; [|reflexivity].
    reflexivity.
  - cbn. now rewrite !or_else_idem.
Qed.

(** X5: The five normalisers give a fixed point: a normalised document
    normalises to itself, so that defaults are filled in once and for all. *)
Theorem normalisers_idempotent :
  Idempotent PBIRParserEnhanced.validateAndNormalizeReport
  /\ Idempotent PBIRParserEnhanced.validateVersionMetadata
  /\ Idempotent PBIRParserEnhanced.validateAndNormalizePage
  /\ Idempotent PBIRParserEnhanced.validateVisualContainer
  /\ Idempotent PBIRParserEnhanced.validateBookmark.
Proof.
  split; [|split; [|split; [|split]]]; intros v n H.
  - unfold PBIRParserEnhanced.validateAndNormalizeReport in H.
    do 11 unbind H. injection H as <-.
    unfold PBIRParserEnhanced.validateAndNormalizeReport. cbn.
    now rewrite !or_else_idem.
  - unfold PBIRParserEnhanced.validateVersionMetadata in H.
    do 3 unbind H. injection H as <-. reflexivity.
  - unfold PBIRParserEnhanced.validateAndNormalizePage in H.
    do 14 unbind H. injection H as <-.
    unfold PBIRParserEnhanced.validateAndNormalizePage. cbn.
    now rewrite !or_else_idem.
  - unfold PBIRParserEnhanced.validateVisualContainer in H.
    do 11 unbind H. injection H as <-.
    unfold PBIRParserEnhanced.validateVisualContainer. cbn [get bind ownOr own String.eqb Ascii.eqb Bool.eqb].
    match goal with
    | V : PBIRParserEnhanced.validatePosition _ = Ok ?p |- _ =>
        rewrite (validatePosition_idem _ _ V)
    end.
    cbn [bind]. now rewrite !or_else_idem.
  - unfold PBIRParserEnhanced.validateBookmark in H.
    do 4 unbind H. injection H as <-.
    unfold PBIRParserEnhanced.validateBookmark. cbn.
    now rewrite !or_else_idem.
Qed.

Lemma normalisers_idempotent_witness :
  exists n,
    PBIRParserEnhanced.validateAndNormalizeReport sparseReport = Ok n
    /\ PBIRParserEnhanced.validateAndNormalizeReport n = Ok n
    /\ fieldOf n "reportSource" = Some (JStr "Default").
Proof.
  eexists. split; [reflexivity|]. split; [|reflexivity].
  apply (proj1 normalisers_idempotent sparseReport). reflexivity.
Defined.

(** ** Types and filters in the schema-aware parser *)

Lemma has_In (members : list string) (v : value) :
  has members v = true -> exists s, v = JStr s /\ In s members.
Proof.
  destruct v; cbn [has]; try discriminate. intros H.
  apply existsb_exists in H. destruct H as (m & I & E).
  apply String.eqb_eq in E. subst. eauto.
Qed.

(** X6: The type that the schema-aware parser records is one of the twenty
    listed types or [unknown]; and a visual that declares its type under
    [visual.visualType] gets no title, whatever titles it carries. *)
Theorem enhanced_type_is_listed (visualData properties : value) :
  PBIRParserEnhanced.extractVisualPropertiesEnhanced visualData = Ok properties ->
  (exists t, fieldOf properties "type" = Some (JStr t)
             /\ (In t PBIRParserEnhanced.visualTypes \/ t = "unknown"))
  /\ (forall d,
        at_path visualData [Key "visual"; Key "visualType"] = Some d ->
        truthy d = true ->
        fieldOf properties "title" = Some JNull).
Proof.
  intros H. split.
  - unfold PBIRParserEnhanced.extractVisualPropertiesEnhanced in H.
    do 5 unbind H. injection H as <-. unfold fieldOf. cbn [spread own String.eqb Ascii.eqb Bool.eqb].
    destruct (has PBIRParserEnhanced.visualTypes (fst a3)) eqn:K.
    + apply has_In in K. destruct K as (s & -> & I). eauto.
    + eauto.
  - intros d P T. walk P. walk P. walk P.
    revert H. unfold PBIRParserEnhanced.extractVisualPropertiesEnhanced. run.
    intros [= <-]. reflexivity.
Qed.

Lemma enhanced_type_is_listed_witness :
  exists properties,
    PBIRParserEnhanced.extractVisualPropertiesEnhanced typedAndTitled = Ok properties
    /\ fieldOf properties "type" = Some (JStr "card")
    /\ fieldOf properties "title" = Some JNull.
Proof.
  eexists. split; [reflexivity|]. split; [reflexivity|].
  apply (proj2 (enhanced_type_is_listed typedAndTitled _ eq_refl) (JStr "card"));
    reflexivity.
Defined.

Lemma mapM_Forall2 {A B : Type} (f : A -> result B) (l : list A) (out : list B) :
  mapM f l = Ok out -> Forall2 (fun a b => f a = Ok b) l out.
Proof.
  revert out. induction l as [|a l IH]; intros out; cbn [mapM].
  - intros [= <-]. constructor.
  - intros H. unbind H. unbind H. injection H as <-. constructor; auto.
Qed.

Lemma Forall2_source {A B : Type} (R : A -> B -> Prop) (l : list A) (out : list B)
  (b : B) :
  Forall2 R l out -> In b out -> exists a, In a l /\ R a b.
Proof.
  induction 1 as [|a b' l out Rab F IH]; cbn [In]; [intros []|].
  intros [<-|I]; [eauto|]. destruct (IH I) as (a' & Ia & Ra). eauto.
Qed.

Lemma parseFilterContainer_type (filterContainer f : value) :
  PBIRParserEnhanced.parseFilterContainer filterContainer = Ok f ->
  truthy f = true ->
  exists t, filterType f t /\ In t PBIRParserEnhanced.filterTypes.
Proof.
  unfold PBIRParserEnhanced.parseFilterContainer. intros H T. unbind H.
  destruct (has PBIRParserEnhanced.filterTypes a) eqn:K; cbn [negb] in H.
  - do 10 unbind H. injection H as <-.
    apply has_In in K. destruct K as (s & -> & I). exists s. now split.
  - injection H as <-. discriminate T.
Qed.

Lemma parseQueryFilter_type (clause f : value) :
  PBIRParserEnhanced.parseQueryFilter clause = Ok f -> filterType f "Query Filter".
Proof.
  unfold PBIRParserEnhanced.parseQueryFilter. intros H. do 4 unbind H.
  now injection H as <-.
Qed.

Lemma forEach_Forall2 {A : Type} (f : value -> result A) (v : value) (out : list A) :
  PBIRParserEnhanced.forEach f v = Ok out ->
  exists l, v = JArr l /\ Forall2 (fun a b => f a = Ok b) l out.
Proof.
  destruct v; cbn [PBIRParserEnhanced.forEach]; try discriminate.
  intros H. apply mapM_Forall2 in H. eauto.
Qed.

(** X7: The schema-aware parser never reports a configured filter of a type
    that is not listed: every filter that it returns has one of the eleven
    listed types, or is a query filter. *)
Theorem enhanced_filters_are_listed (visualData filters : value) :
  PBIRParserEnhanced.extractFiltersEnhanced visualData = Ok filters ->
  exists out,
    filters = JArr out
    /\ Forall (fun f => exists t, filterType f t
                                  /\ (In t PBIRParserEnhanced.filterTypes
                                      \/ t = "Query Filter")) out.
Proof.
  unfold PBIRParserEnhanced.extractFiltersEnhanced. intros H.
  step H as filterConfig E1. step H as configured E2. step H as fromConfig E3.
  step H as visual E4. step H as singleVisual E5. step H as fromQuery E6.
  injection H as <-. eexists. split; [reflexivity|].
  apply Forall_app. split.
  - destruct (truthy configured); [|injection E3 as <-; constructor].
    step E3 as found F. injection E3 as <-.
    apply forEach_Forall2 in F. destruct F as (l & _ & F).
    apply Forall_forall. intros f I. apply filter_In in I. destruct I as (I & T).
    destruct (Forall2_source _ l _ f F I) as (c & _ & P).
    destruct (parseFilterContainer_type _ _ P T) as (t & Ft & It). eauto.
  - destruct (truthy singleVisual); [|injection E6 as <-; constructor].
    step E6 as prototypeQuery Q. step E6 as clauses W.
    destruct (truthy clauses); [|injection E6 as <-; constructor].
    apply forEach_Forall2 in E6. destruct E6 as (l & _ & F).
    apply Forall_forall. intros f I.
    destruct (Forall2_source _ l _ f F I) as (c & _ & P).
    exists "Query Filter". split; [|now right].
    now apply parseQueryFilter_type in P.
Qed.

Lemma enhanced_filters_are_listed_witness :
  exists out,
    PBIRParserEnhanced.extractFiltersEnhanced filteredVisual = Ok (JArr out)
    /\ List.length out = 2%nat
    /\ Forall (fun f => exists t, filterType f t
                                  /\ (In t PBIRParserEnhanced.filterTypes
                                      \/ t = "Query Filter")) out.
Proof.
  eexists. split; [reflexivity|]. split; [reflexivity|].
  destruct (enhanced_filters_are_listed filteredVisual _ eq_refl) as (out & E & F).
  injection E as <-. exact F.
Defined.

(** ** Positions in the report generator *)

Lemma roundHalfUp_nearest (q : Q) : nearest (roundHalfUp q) q.
Proof.
  unfold nearest, roundHalfUp.
  pose proof (Qfloor_le (q + (1 # 2))) as L.
  pose proof (Qlt_floor (q + (1 # 2))) as U.
  rewrite inject_Z_plus in U. change (inject_Z 1) with 1%Q in U.
  set (n := inject_Z (Qfloor (q + (1 # 2)))) in *. split; lra.
Qed.

Lemma rounded_coordinate (pos : list (string * value)) (k : string) (q : Q) :
  numberAt pos k = Some q ->
  exists n, mathRound (or_else (ownOr pos k) (num 0)) = Ok (num n) /\ nearest n q.
Proof.
  unfold numberAt, ownOr, or_else.
  destruct (own pos k) as [[| | |p| | | |]|]; try discriminate; intros [= <-].
  - cbn [truthy]. destruct (Qeq_bool p (inject_Z 0)) eqn:Z; cbn [negb mathRound].
    + exists 0%Z. split; [reflexivity|]. apply Qeq_bool_iff in Z.
      unfold nearest. change (inject_Z 0) with 0%Q in *. split; lra.
    + eexists. split; [reflexivity|]. apply roundHalfUp_nearest.
  - exists 0%Z. split; [reflexivity|].
    unfold nearest. change (inject_Z 0) with 0%Q. split; lra.
Qed.

(** X8: [getVisualPosition] gives [null] for a visual without a position; for a
    position whose four coordinates are numbers or missing it returns, and
    each coordinate of the result is the integer nearest to the number of
    the document, a half counting upwards (0 for a missing coordinate). *)
Theorem getVisualPosition_rounds :
  (forall visualData,
     nullish visualData = false -> lacks visualData "position" ->
     PBIRReportGenerator.getVisualPosition visualData = Ok JNull)
  /\ (forall ps pos,
        own ps "position" = Some (JObj pos) ->
        (forall k, In k positionFields -> numberAt pos k <> None) ->
        exists r,
          PBIRReportGenerator.getVisualPosition (JObj ps) = Ok (JObj r)
          /\ map fst r = positionFields
          /\ forall k q,
               In k positionFields -> numberAt pos k = Some q ->
               exists n, own r k = Some (num n) /\ nearest n q).
Proof.
  split.
  - intros visualData N L. unfold PBIRReportGenerator.getVisualPosition.
    destruct visualData; try discriminate N; try reflexivity.
    cbn [get bind]. now rewrite (lacks_falsy _ _ L).
  - intros ps pos P Hn. unfold PBIRReportGenerator.getVisualPosition. run.
    assert (R : forall k, In k positionFields ->
                  exists n, mathRound (or_else (ownOr pos k) (num 0)) = Ok (num n)
                            /\ forall q, numberAt pos k = Some q -> nearest n q).
    { intros k I. specialize (Hn k I).
      destruct (numberAt pos k) as [q|] eqn:E; [|contradiction].
      destruct (rounded_coordinate pos k q E) as (n & M & Nn).
      exists n. split; [exact M|]. now intros q' [= <-]. }
    destruct (R "x") as (nx & Ex & Nx); [cbn; tauto|].
    destruct (R "y") as (ny & Ey & Ny); [cbn; tauto|].
    destruct (R "width") as (nw & Ew & Nw); [cbn; tauto|].
    destruct (R "height") as (nh & Eh & Nh); [cbn; tauto|].
    unfold or_else in *. rewrite Ex. cbn [bind]. rewrite Ey. cbn [bind].
    rewrite Ew. cbn [bind]. rewrite Eh. cbn [bind].
    eexists. split; [reflexivity|]. split; [reflexivity|].
    intros k q I Q.
    cbn [positionFields In] in I.
    destruct I as [<-|[<-|[<-|[<-|[]]]]]; eexists; (split; [reflexivity|]); auto.
Qed.

Lemma getVisualPosition_rounds_witness :
  exists r,
    PBIRReportGenerator.getVisualPosition fractionalVisual = Ok (JObj r)
    /\ own r "x" = Some (num 11) /\ own r "y" = Some (num (-2))
    /\ own r "width" = Some (num 200) /\ own r "height" = Some (num 0)
    /\ exists n, own r "y" = Some (num n) /\ nearest n (-5 # 2).
Proof.
  destruct (proj2 getVisualPosition_rounds
              [("position",
                JObj [ ("x", JNum (21 # 2)); ("y", JNum (-5 # 2));
                       ("width", JNum (1999 # 10)) ])]
              [ ("x", JNum (21 # 2)); ("y", JNum (-5 # 2));
                ("width", JNum (1999 # 10)) ] eq_refl) as (r & E & _ & R).
  - intros k [<-|[<-|[<-|[<-|[]]]]]; discriminate.
  - exists r. change (PBIRReportGenerator.getVisualPosition fractionalVisual = Ok (JObj r)) in E.
    vm_compute in E. injection E as <-.
    repeat (split; [reflexivity|]).
    apply (R "y"); [cbn; tauto | reflexivity].
Defined.

(** ** Filters in the report generator *)

Lemma parseFilter_name (filter info : value) :
  PBIRReportGenerator.parseFilter filter = Ok info ->
  truthy info = true
  /\ fieldOf info "name" = Some (filterName filter)
  /\ truthy (filterName filter) = true.
Proof.
  unfold PBIRReportGenerator.parseFilter. intros H.
  step H as displayName E1. step H as name E2. step H as type E3.
  step H as typeName E4. step H as field E5. step H as fieldName E6.
  step H as hidden E7. step H as locked E8. injection H as <-.
  pose proof (get_Ok_not_nullish _ _ _ E1) as N.
  rewrite (get_member filter "displayName" N eq_refl) in E1.
  rewrite (get_member filter "name" N eq_refl) in E2.
  injection E1 as <-. injection E2 as <-.
  split; [reflexivity|]. split; [reflexivity|].
  unfold filterName, or_else.
  destruct (truthy (member filter "displayName")) eqn:D; [exact D|].
  destruct (truthy (member filter "name")) eqn:M; [exact M | reflexivity].
Qed.

Lemma filter_all {A : Type} (keep : A -> bool) (l : list A) :
  Forall (fun a => keep a = true) l -> filter keep l = l.
Proof.
  induction 1 as [|a l K F IH]; cbn [filter]; [reflexivity|].
  now rewrite K, IH.
Qed.

(** X9: The generator reports every filter of a [filterConfig.filters] list, of
    a visual and of a page alike: one entry for each filter, in the order of
    the list, whatever the type of the filter; and every entry has a name
    that is not empty, the display name of the filter before its name. *)
Theorem generator_filters_are_all_listed (container : value) (l : list value)
  (found : value) :
  at_path container [Key "filterConfig"; Key "filters"] = Some (JArr l) ->
  PBIRReportGenerator.getVisualFilters container = Ok found ->
  PBIRReportGenerator.extractPageFilters container = Ok found
  /\ exists out,
       found = JArr out
       /\ Forall2 (fun filter info =>
                     fieldOf info "name" = Some (filterName filter)
                     /\ truthy (filterName filter) = true) l out.
Proof.
  intros P H. split; [exact H|].
  walk P. walk P. walk P. revert H.
  unfold PBIRReportGenerator.getVisualFilters, PBIRReportGenerator.listedFilters.
  run. cbn [PBIRReportGenerator.forEach]. intros H. step H as parsed M.
  injection H as <-. apply mapM_Forall2 in M.
  exists parsed. split.
  - f_equal. apply filter_all. clear -M.
    induction M as [|f o l out Pf F IH]; constructor; [|exact IH].
    now apply parseFilter_name in Pf.
  - clear -M. induction M as [|f o l out Pf F IH]; constructor; [|exact IH].
    apply parseFilter_name in Pf. tauto.
Qed.

Lemma generator_filters_are_all_listed_witness :
  exists out,
    PBIRReportGenerator.extractPageFilters filteredPage = Ok (JArr out)
    /\ map (fun info => fieldOf info "name") out
       = [ Some (JStr "Region"); Some (JStr "f2"); Some (JStr "Unnamed Filter") ]
    /\ List.length out = 3%nat.
Proof.
  destruct (generator_filters_are_all_listed filteredPage _ _ eq_refl eq_refl)
    as (E & out & O & F).
  injection O as <-. eexists. split; [exact E|]. split; reflexivity.
Defined.

(** ** Visual types and names in the report generator *)

Lemma declaredType_reads (visualData : value) :
  nullish visualData = false ->
  PBIRReportGenerator.getVisualType visualData
  = match declaredType visualData with
    | JStr s =>
        if startsWith s "PBI_CV_" || includes s "CV_" || (30 <? String.length s)%nat
        then Ok (JStr "Custom Visual")
        else Ok (or_else (tableGet PBIRReportGenerator.typeMapping s) (JStr s))
    | _ => Throw
    end.
Proof.
  intros N. unfold PBIRReportGenerator.getVisualType, declaredType.
  destruct visualData as [| | | | | |ps|]; try discriminate N; try reflexivity.
  cbn [get bind at_path]. unfold ownOr.
  destruct (own ps "visual") as [visual|]; [|reflexivity].
  destruct (truthy visual) eqn:V;
    [|destruct visual; try discriminate V; run; reflexivity].
  destruct visual as [| |b|q|s|l|vps|n]; try discriminate V;
    try (run; reflexivity).
  run. unfold ownOr.
  destruct (own vps "visualType") as [d|].
  - destruct (truthy d) eqn:D; cbn [bind]; [now destruct d|].
    destruct (own vps "singleVisual") as [single|]; [|reflexivity].
    destruct (truthy single) eqn:S;
      [|destruct single; try discriminate S; run; reflexivity].
    destruct single as [| |b|q|s|l|sps|n]; try discriminate S;
      try (run; reflexivity).
    run. unfold ownOr.
    destruct (own sps "visualType") as [t|]; [|reflexivity].
    destruct (truthy t); [now destruct t | reflexivity].
  - cbn [truthy bind].
    destruct (own vps "singleVisual") as [single|]; [|reflexivity].
    destruct (truthy single) eqn:S;
      [|destruct single; try discriminate S; run; reflexivity].
    destruct single as [| |b|q|s|l|sps|n]; try discriminate S;
      try (run; reflexivity).
    run. unfold ownOr.
    destruct (own sps "visualType") as [t|]; [|reflexivity].
    destruct (truthy t); [now destruct t | reflexivity].
Qed.

(** X10: [getVisualType] throws exactly on the visuals whose declared type is
    not a string (a number, a list, an object, [true]), and on every other
    visual it returns a value. *)
Theorem getVisualType_throws_on_other_than_strings (visualData : value) :
  nullish visualData = false ->
  (PBIRReportGenerator.getVisualType visualData = Throw
   <-> isString (declaredType visualData) = false)
  /\ (isString (declaredType visualData) = true ->
      exists t, PBIRReportGenerator.getVisualType visualData = Ok t).
Proof.
  intros N. rewrite (declaredType_reads visualData N).
  destruct (declaredType visualData) as [| |b|q|s|l|ps|n]; cbn [isString];
    try (split; [split; [reflexivity | reflexivity] | discriminate]).
  destruct (startsWith s "PBI_CV_" || includes s "CV_"
            || (30 <? String.length s)%nat).
  - split; [split; discriminate | eauto].
  - split; [split; discriminate | eauto].
Qed.

Lemma getVisualType_throws_on_other_than_strings_witness :
  PBIRReportGenerator.getVisualType numberedVisual = Throw
  /\ isString (declaredType numberedVisual) = false.
Proof.
  split; [|reflexivity].
  apply (proj1 (getVisualType_throws_on_other_than_strings numberedVisual eq_refl)).
  reflexivity.
Defined.

(** Taking apart a run that completed, down to the calls that decide. *)
Ltac peel H :=
  repeat first
    [ discriminate H
    | match type of H with
      | bind _ _ = Ok _ => unbind H
      | (if ?c then _ else _) = Ok _ => destruct c eqn:?
      | match ?x with _ => _ end = Ok _ => destruct x eqn:?
      end ].

Lemma cleanTitle_nonempty (v : value) (t : string) :
  PBIRReportGenerator.cleanTitle v = Ok (Some t) -> t <> "".
Proof.
  unfold PBIRReportGenerator.cleanTitle. intros H. peel H.
  injection H as <-.
  destruct (String.eqb_spec (trim (stripQuotes s)) ""); [discriminate | assumption].
Qed.

Lemma trimmedTitle_nonempty (v : value) (t : string) :
  PBIRReportGenerator.trimmedTitle v = Ok (Some t) -> t <> "".
Proof.
  unfold PBIRReportGenerator.trimmedTitle. intros H. peel H.
  injection H as <-.
  destruct (String.eqb_spec (trim s) ""); [discriminate | assumption].
Qed.

Lemma containerTitle_nonempty (visualData : value) (t : string) :
  PBIRReportGenerator.containerTitle visualData = Ok (Some t) -> t <> "".
Proof.
  unfold PBIRReportGenerator.containerTitle. intros H. peel H.
  now apply cleanTitle_nonempty in H.
Qed.

Lemma singleVisualTitle_nonempty (objects : value) (t : string) :
  PBIRReportGenerator.singleVisualTitle objects = Ok (Some t) -> t <> "".
Proof.
  unfold PBIRReportGenerator.singleVisualTitle. intros H. peel H.
  - injection H as <-.
    match goal with
    | E : (if _ then _ else _) = Ok (Some _) |- _ =>
        peel E; now apply trimmedTitle_nonempty in E
    end.
  - now apply cleanTitle_nonempty in H.
Qed.

Lemma textBoxTitle_nonempty (objects : value) (t : string) :
  PBIRReportGenerator.textBoxTitle objects = Ok (Some t) -> t <> "".
Proof.
  unfold PBIRReportGenerator.textBoxTitle. intros H. peel H.
  injection H as <-.
  match goal with
  | E : negb (trim ?s =? "") && _ = true |- _ =>
      apply andb_prop in E; destruct E as (E & _);
      destruct (String.eqb_spec (trim s) ""); [discriminate | assumption]
  end.
Qed.

Lemma directObjectsTitle_nonempty (visual : value) (t : string) :
  PBIRReportGenerator.directObjectsTitle visual = Ok (Some t) -> t <> "".
Proof.
  unfold PBIRReportGenerator.directObjectsTitle. intros H. peel H.
  - injection H as <-.
    match goal with
    | E : (if _ then _ else _) = Ok (Some _) |- _ =>
        peel E; now apply trimmedTitle_nonempty in E
    end.
  - now apply cleanTitle_nonempty in H.
Qed.

Lemma visualTitle_nonempty (visual : value) (t : string) :
  PBIRReportGenerator.visualTitle visual = Ok (Some t) -> t <> "".
Proof.
  unfold PBIRReportGenerator.visualTitle. intros H. peel H.
  - injection H as <-.
    match goal with
    | E : (if _ then _ else _) = Ok (Some _) |- _ => peel E
    end.
    + match goal with
      | E : Ok (Some _) = Ok (Some _) |- _ => injection E as <-
      end.
      match goal with
      | E : PBIRReportGenerator.singleVisualTitle _ = Ok (Some _) |- _ =>
          now apply singleVisualTitle_nonempty in E
      end.
    + match goal with
      | E : PBIRReportGenerator.textBoxTitle _ = Ok (Some _) |- _ =>
          now apply textBoxTitle_nonempty in E
      end.
  - now apply directObjectsTitle_nonempty in H.
Qed.

Lemma append_nonempty (a b : string) : b <> "" -> a ++ b <> "".
Proof. destruct a; cbn [append]; [auto | discriminate]. Qed.

Lemma generatedName_nonempty (visualData : value) (n : string) :
  PBIRReportGenerator.generatedName visualData = Ok n -> n <> "".
Proof.
  unfold PBIRReportGenerator.generatedName. intros H.
  step H as visualType E1. step H as name E2. step H as shortId E3.
  assert (G : forall t, t ++ " (" ++ shortId ++ ")" <> "")
    by (intros t; apply append_nonempty; discriminate).
  destruct visualType as [| | | |s| | |];
    try (step H as t T; injection H as <-; apply G).
  destruct (String.eqb_spec s "unknown") as [->|Ns].
  - injection H as <-. discriminate.
  - assert (R : (t <- toString (JStr s) ;; Ok (t ++ " (" ++ shortId ++ ")")) = Ok n).
    { revert H. clear -Ns. 
      repeat (destruct s as [|[[] [] [] [] [] [] [] []] s]; try exact (fun H => H);
              try (exfalso; apply Ns; reflexivity)). }
    injection R as <-. apply G.
Qed.

(** X11: Every visual gets a display name that is not empty: a title that the
    generator accepts is never empty, and the name made up from the type and
    the identifier never is. *)
Theorem getVisualDisplayName_not_empty (visualData : value) (n : string) :
  PBIRReportGenerator.getVisualDisplayName visualData = Ok n -> n <> "".
Proof.
  unfold PBIRReportGenerator.getVisualDisplayName. intros H.
  step H as c C. destruct c as [title|].
  - injection H as <-. now apply containerTitle_nonempty in C.
  - step H as visual V. step H as t T. destruct t as [title|].
    + injection H as <-. destruct (truthy visual); [|discriminate T].
      now apply visualTitle_nonempty in T.
    + now apply generatedName_nonempty in H.
Qed.

Lemma getVisualDisplayName_not_empty_witness :
  PBIRReportGenerator.getVisualDisplayName bareVisual = Ok "Visual (unknown)"
  /\ "Visual (unknown)" <> "".
Proof.
  split; [reflexivity|].
  apply (getVisualDisplayName_not_empty bareVisual). reflexivity.
Defined.

(** ** Field bindings in the report generator *)










(** ** Pages in the report generator *)

Lemma entryOf_setEntry {A : Type} (l : list (string * A)) (k k' : string) (a : A) :
  entryOf (setEntry l k a) k' = if k =? k' then Some a else entryOf l k'.
Proof.
  induction l as [|[j b] l IH]; cbn [setEntry entryOf].
  - reflexivity.
  - destruct (String.eqb_spec j k) as [->|N]; cbn [entryOf].
    + now destruct (k =? k').
    + rewrite IH. destruct (String.eqb_spec j k') as [->|N']; [|reflexivity].
      now rewrite (neq_eqb _ _ N).
Qed.

Lemma matched_segment_nonempty (D T path : string) :
  orUnknown (matchSegment D T path) <> "".
Proof.
  destruct (matchSegment D T path) as [segment|] eqn:M; cbn [orUnknown];
    [|discriminate].
  apply matchSegment_sound in M. destruct M as (_ & _ & N & _). exact N.
Qed.

Lemma getOpt_member (v : value) (k : string) :
  (k =? "length") = false -> getOpt v k = Ok (member v k).
Proof.
  intros L. unfold getOpt.
  destruct v; cbn [nullish get member]; rewrite ?L; reflexivity.
Qed.

Lemma listPages_listed (listed : list value) (meta meta' : entries) (P : string -> value -> Prop) :
  (forall k page, own meta k = Some page -> P k page) ->
  (forall page n k, In page listed -> get page "name" = Ok n -> toString n = Ok k ->
                    P k page) ->
  PBIRReportGeneratorPages.listPages listed meta = Ok meta' ->
  forall k page, own meta' k = Some page -> P k page.
Proof.
  revert meta. induction listed as [|page listed IH]; intros meta Hm Hl;
    cbn [PBIRReportGeneratorPages.listPages].
  - now intros [= <-].
  - intros H. step H as n N. step H as k K.
    destruct (k =? "__proto__"); [discriminate H|].
    apply (IH (setProp meta k page)); [| |exact H].
    + intros k' page' O. rewrite own_setProp in O.
      destruct (String.eqb_spec k k') as [<-|Ne].
      * injection O as <-. apply (Hl page n k); [now left | exact N | exact K].
      * now apply Hm.
    + intros page' n' k' I. apply Hl. now right.
Qed.

Section GeneratorPages.

Variable localeCompare : string -> string -> Z.

Lemma pagesLoop_names (files : list file) (meta : entries) (todo : list file) :
  (forall k page, own meta k = Some page -> ListedAs files k page) ->
  (forall f, In f todo -> In f files /\ PBIRReportGeneratorPages.isPage f = true) ->
  forall pages pages',
    (forall pageId info, entryOf pages pageId = Some info -> NamedPage files pageId info) ->
    PBIRReportGeneratorPages.pagesLoop localeCompare files meta todo pages = Ok pages' ->
    forall pageId info, entryOf pages' pageId = Some info -> NamedPage files pageId info.
Proof.
  intros Hm. induction todo as [|f todo IH]; intros Hf pages pages' Hp;
    cbn [PBIRReportGeneratorPages.pagesLoop].
  - now intros [= <-].
  - assert (Hr : forall g, In g todo ->
                   In g files /\ PBIRReportGeneratorPages.isPage g = true)
      by (intros g I; apply Hf; now right).
    destruct (truthy (parseJsonFile f)) eqn:T; [|now apply IH].
    intros H.
    step H as displayName E1. step H as listed E2. step H as width E3.
    step H as height E4. step H as displayOption E5. step H as visibility E6.
    step H as type E7. step H as filters E8. step H as visuals E9.
    refine (IH Hr _ pages' _ H).
    intros pageId info. rewrite entryOf_setEntry.
    destruct (String.eqb_spec (PBIRReportGenerator.extractPageName (relativePath f))
                pageId) as [<-|Ne]; [|now apply Hp].
    intros [= <-]. unfold NamedPage. cbn [PBIRReportGeneratorPages.id
                                           PBIRReportGeneratorPages.name].
    pose proof (truthy_not_nullish _ T) as N.
    rewrite (get_member _ "displayName" N eq_refl) in E1. injection E1 as <-.
    split; [reflexivity|]. split.
    + unfold or_else.
      destruct (truthy (member (parseJsonFile f) "displayName")) eqn:D; [exact D|].
      destruct (truthy listed) eqn:L; [exact L|].
      apply truthy_str. apply matched_segment_nonempty.
    + exists (parseJsonFile f). split; [|split].
      * exists f. destruct (Hf f (or_introl eq_refl)) as (I & P).
        split; [exact I|]. split; [exact P|]. split; [reflexivity|].
        unfold parseJsonFile in *. destruct (content f); [discriminate T | auto].
      * intros D. unfold or_else. now rewrite D.
      * intros D. unfold or_else. rewrite D.
        destruct (truthy listed) eqn:L; [|now left]. right.
        unfold PBIRReportGeneratorPages.listedName in E2.
        destruct (own meta (PBIRReportGenerator.extractPageName (relativePath f)))
          as [page|] eqn:O.
        -- rewrite (getOpt_member page "displayName" eq_refl) in E2.
           injection E2 as <-. exists page. split; [now apply Hm | reflexivity].
        -- rewrite (getOpt_member _ "displayName" eq_refl) in E2.
           injection E2 as <-. unfold inherited in L.
           destruct (existsb _ _); discriminate L.
Qed.

End GeneratorPages.

(** X13: The generator names every page: an entry of the page map has the
    identifier of a page document as its key, a name that is not empty, and
    as its name the display name of the page document itself whenever that
    is truthy; only else the display name that the page list gives for the
    identifier, or the identifier. *)
Theorem generator_page_names (localeCompare : string -> string -> Z)
  (files : list file) (pages : list (string * PBIRReportGeneratorPages.pageInfo)) :
  PBIRReportGeneratorPages.parsePages localeCompare files [] = Ok pages ->
  forall pageId info, entryOf pages pageId = Some info -> NamedPage files pageId info.
Proof.
  unfold PBIRReportGeneratorPages.parsePages. intros H. step H as meta M.
  refine (pagesLoop_names localeCompare files meta
            (filter PBIRReportGeneratorPages.isPage files) _ _ [] pages _ H);
    [| |discriminate].
  - destruct (findFile files "definition/pages/pages.json") as [pagesFile|] eqn:F;
      [|injection M as <-; discriminate].
    step M as listed L.
    destruct (truthy listed) eqn:T; [|injection M as <-; discriminate].
    destruct listed as [| | | | |l| |]; try discriminate M.
    assert (P : at_path (parseJsonFile pagesFile) [Key "pages"] = Some (JArr l)).
    { unfold and_get in L. destruct (truthy (parseJsonFile pagesFile)) eqn:Tp;
        [|injection L as E; rewrite E in Tp; discriminate Tp].
      destruct (parseJsonFile pagesFile) as [| | | |s|a|ps|]; cbn [get] in L;
        try discriminate L.
      injection L as L. cbn [at_path]. unfold ownOr in L.
      destruct (own ps "pages"); [now subst | discriminate L]. }
    apply (listPages_listed l [] meta (ListedAs files)); [discriminate| |exact M].
    intros page n k I G S. exists pagesFile, l, n. auto.
  - intros f I. apply filter_In in I. exact I.
Qed.

Lemma generator_page_names_witness :
  exists pages one two,
    PBIRReportGeneratorPages.parsePages codeUnitCompare renamedPages [] = Ok pages
    /\ entryOf pages "p1" = Some one /\ entryOf pages "p2" = Some two
    /\ PBIRReportGeneratorPages.name one = JStr "Own One"
    /\ PBIRReportGeneratorPages.name two = JStr "Listed Two"
    /\ NamedPage renamedPages "p1" one.
Proof.
  eexists _, _, _. split; [reflexivity|]. split; [reflexivity|].
  split; [reflexivity|]. split; [reflexivity|]. split; [reflexivity|].
  apply (generator_page_names codeUnitCompare renamedPages _ eq_refl).
  reflexivity.
Defined.

(** ** Validation in the command-line parser *)

Lemma related_bind {A B : Type} (R : A -> A -> Prop) (S : B -> B -> Prop)
  (c1 c2 : result A) (k1 k2 : A -> result B) :
  related R c1 c2 ->
  (forall a b, R a b -> related S (k1 a) (k2 b)) ->
  related S (bind c1 k1) (bind c2 k2).
Proof.
  destruct c1, c2; cbn [related bind]; try contradiction; auto.
Qed.

Lemma related_refl {A : Type} (R : A -> A -> Prop) (r : result A) :
  (forall a, R a a) -> related R r r.
Proof. intros H. destruct r; cbn [related]; auto. Qed.

(** Two states that were made alike agree. *)
Ltac agreed :=
  unfold agree, EnhancedPBIRParser.fail, EnhancedPBIRParser.warn,
    EnhancedPBIRParser.setReport, EnhancedPBIRParser.setVisuals,
    EnhancedPBIRParser.setPages, EnhancedPBIRParser.setBookmarks in *;
  cbn [EnhancedPBIRParser.reportData EnhancedPBIRParser.pages
       EnhancedPBIRParser.visuals EnhancedPBIRParser.bookmarks
       EnhancedPBIRParser.parseErrors] in *;
  repeat match goal with
  | H : _ /\ _ |- _ => destruct H
  end;
  repeat split; congruence.

Section Validators.

Variables validate1 validate2 : value -> string -> string + (bool * list string).
Hypothesis total1 : Total validate1.
Hypothesis total2 : Total validate2.

Local Abbreviation read1 := (EnhancedPBIRParser.parseJsonFileWithValidation validate1).
Local Abbreviation read2 := (EnhancedPBIRParser.parseJsonFileWithValidation validate2).

Lemma read_agree (f : file) (schemaName : string) (s1 s2 : EnhancedPBIRParser.state) :
  agree s1 s2 ->
  fst (read1 f schemaName s1) = fst (read2 f schemaName s2)
  /\ agree (snd (read1 f schemaName s1)) (snd (read2 f schemaName s2)).
Proof.
  intros A. unfold EnhancedPBIRParser.parseJsonFileWithValidation.
  destruct (content f) as [message|data].
  - cbn [fst snd]. split; [reflexivity | agreed].
  - destruct (schemaName =? ""); [cbn [fst snd]; split; [reflexivity | agreed]|].
    destruct (total1 data schemaName) as ([valid1 errors1] & E1).
    destruct (total2 data schemaName) as ([valid2 errors2] & E2).
    rewrite E1, E2.
    destruct valid1, valid2; cbn [fst snd]; (split; [reflexivity | agreed]).
Qed.

(** Reading a file with the two validators, in a goal. *)
Ltac read_both f schemaName s1 s2 A d t1 t2 A' :=
  let D := fresh "D" in
  destruct (read_agree f schemaName s1 s2 A) as (D & A');
  destruct (read1 f schemaName s1) as [d t1];
  let d' := fresh "d" in
  destruct (read2 f schemaName s2) as [d' t2];
  cbn [fst snd] in D, A'; subst d'.

Lemma mergeOptional_agree (files : list file) (path schemaName key : string)
  (s1 s2 : EnhancedPBIRParser.state) :
  agree s1 s2 ->
  agree (EnhancedPBIRParser.mergeOptional validate1 files path schemaName key s1)
        (EnhancedPBIRParser.mergeOptional validate2 files path schemaName key s2).
Proof.
  intros A. unfold EnhancedPBIRParser.mergeOptional.
  destruct (findFile files path) as [f|]; [|exact A].
  read_both f schemaName s1 s2 A d t1 t2 A'.
  assert (R : EnhancedPBIRParser.reportData t1 = EnhancedPBIRParser.reportData t2)
    by apply A'.
  rewrite R.
  destruct (truthy (EnhancedPBIRParser.reportData t2) && truthy d); agreed.
Qed.

Lemma parseReportStructure_agree (files : list file) (s1 s2 : EnhancedPBIRParser.state) :
  agree s1 s2 ->
  agree (EnhancedPBIRParser.parseReportStructure validate1 files s1)
        (EnhancedPBIRParser.parseReportStructure validate2 files s2).
Proof.
  intros A. unfold EnhancedPBIRParser.parseReportStructure.
  apply mergeOptional_agree. apply mergeOptional_agree.
  destruct (findFile files "definition/report.json") as [f|].
  - read_both f "report" s1 s2 A d t1 t2 A'. agreed.
  - agreed.
Qed.

Lemma visualsLoop_agree (files : list file) (pageName : string) (todo : list file) :
  forall local s1 s2,
    agree s1 s2 ->
    related (fun r1 r2 => fst r1 = fst r2 /\ agree (snd r1) (snd r2))
      (EnhancedPBIRParser.visualsLoop validate1 files pageName todo local s1)
      (EnhancedPBIRParser.visualsLoop validate2 files pageName todo local s2).
Proof.
  induction todo as [|f todo IH]; intros local s1 s2 A;
    cbn [EnhancedPBIRParser.visualsLoop].
  - cbn [related fst snd]. auto.
  - read_both f "visualContainer" s1 s2 A d t1 t2 A1.
    destruct (truthy d); [|now apply IH].
    destruct (fileAt files (replaceFirst (relativePath f) "/visual.json" "/mobile.json"))
      as [m|].
    + read_both m "visualContainerMobileState" t1 t2 A1 mobile u1 u2 A2.
      destruct (EnhancedPBIRParser.processVisualData d mobile) as [p| |];
        cbn [bind related]; auto.
      assert (V : EnhancedPBIRParser.visuals u1 = EnhancedPBIRParser.visuals u2)
        by apply A2.
      rewrite V. apply IH. agreed.
    + destruct (EnhancedPBIRParser.processVisualData d JNull) as [p| |];
        cbn [bind related]; auto.
      assert (V : EnhancedPBIRParser.visuals t1 = EnhancedPBIRParser.visuals t2)
        by apply A1.
      rewrite V. apply IH. agreed.
Qed.

Lemma pagesLoop_agree (files : list file) (todo : list file) :
  forall s1 s2,
    agree s1 s2 ->
    related agree (EnhancedPBIRParser.pagesLoop validate1 files todo s1)
                  (EnhancedPBIRParser.pagesLoop validate2 files todo s2).
Proof.
  induction todo as [|f todo IH]; intros s1 s2 A;
    cbn [EnhancedPBIRParser.pagesLoop].
  - exact A.
  - read_both f "page" s1 s2 A d t1 t2 A1.
    destruct (truthy d); [|now apply IH].
    unfold EnhancedPBIRParser.parsePageVisuals.
    pose proof (visualsLoop_agree files
                  (EnhancedPBIRParser.extractPageName (relativePath f))
                  (filter (EnhancedPBIRParser.isVisualOf
                             (EnhancedPBIRParser.extractPageName (relativePath f)))
                     files) [] t1 t2 A1) as L.
    destruct (EnhancedPBIRParser.visualsLoop validate1 _ _ _ _ _) as [[l1 u1]| |];
      destruct (EnhancedPBIRParser.visualsLoop validate2 _ _ _ _ _) as [[l2 u2]| |];
      cbn [related] in L; try contradiction; cbn [bind related fst snd]; auto.
    cbn [fst snd] in L. destruct L as (<- & A2).
    assert (P : EnhancedPBIRParser.pages u1 = EnhancedPBIRParser.pages u2)
      by apply A2.
    rewrite P. apply IH. agreed.
Qed.

Lemma bookmarksLoop_agree (todo : list file) :
  forall s1 s2,
    agree s1 s2 ->
    agree (EnhancedPBIRParser.bookmarksLoop validate1 todo s1)
          (EnhancedPBIRParser.bookmarksLoop validate2 todo s2).
Proof.
  induction todo as [|f todo IH]; intros s1 s2 A;
    cbn [EnhancedPBIRParser.bookmarksLoop]; [exact A|].
  read_both f "bookmark" s1 s2 A d t1 t2 A1.
  destruct (truthy d); [|now apply IH].
  assert (B : EnhancedPBIRParser.bookmarks t1 = EnhancedPBIRParser.bookmarks t2)
    by apply A1.
  rewrite B. apply IH. agreed.
Qed.

Lemma parseDirectory_agree (files : list file) :
  related agree (EnhancedPBIRParser.parseDirectory validate1 files)
                (EnhancedPBIRParser.parseDirectory validate2 files).
Proof.
  unfold EnhancedPBIRParser.parseDirectory.
  apply (related_bind agree agree).
  - unfold EnhancedPBIRParser.parsePages.
    apply pagesLoop_agree.
    assert (A : agree (EnhancedPBIRParser.parseReportStructure validate1 files
                         EnhancedPBIRParser.initial)
                      (EnhancedPBIRParser.parseReportStructure validate2 files
                         EnhancedPBIRParser.initial))
      by (apply parseReportStructure_agree; agreed).
    destruct (findFile files "definition/pages/pages.json") as [f|]; [|exact A].
    now apply read_agree.
  - intros s1 s2 A. cbn [related]. unfold EnhancedPBIRParser.parseBookmarks.
    destruct (findFile files "definition/bookmarks/bookmarks.json") as [f|];
      [|exact A].
    apply bookmarksLoop_agree. now apply read_agree.
Qed.

End Validators.

(** X14: Schema validation decides nothing in the command-line parser: with any
    two validators that do not throw, [parseDirectory] ends alike, and the
    report, the pages, the visuals, the bookmarks and the parse errors that
    it returns are the same; the warnings alone depend on the validator. *)
Theorem validation_only_warns
  (validate1 validate2 : value -> string -> string + (bool * list string))
  (files : list file) :
  Total validate1 -> Total validate2 ->
  related agree (EnhancedPBIRParser.parseDirectory validate1 files)
                (EnhancedPBIRParser.parseDirectory validate2 files).
Proof. intros T1 T2. now apply parseDirectory_agree. Qed.

Lemma validation_only_warns_witness :
  related agree (EnhancedPBIRParser.parseDirectory accept salesPage)
                (EnhancedPBIRParser.parseDirectory reject salesPage)
  /\ related (fun s1 s2 => EnhancedPBIRParser.parseWarnings s1
                           <> EnhancedPBIRParser.parseWarnings s2)
       (EnhancedPBIRParser.parseDirectory accept salesPage)
       (EnhancedPBIRParser.parseDirectory reject salesPage).
Proof.
  split.
  - apply (validation_only_warns accept reject salesPage);
      intros data schemaName; eexists; reflexivity.
  - vm_compute. discriminate.
Defined.

(** ** The declared type and the legacy title across the parsers *)

Lemma get_outcome (v : value) (k : string) :
  (exists x, get v k = Ok x) \/ get v k = Throw.
Proof. destruct v; cbn [get]; eauto. Qed.

Lemma idx_outcome (v : value) (i : nat) :
  (exists x, idx v i = Ok x) \/ idx v i = Throw.
Proof. destruct v; cbn [idx]; eauto. Qed.

Lemma and_get_returns (v : value) (k : string) : exists x, and_get v k = Ok x.
Proof.
  unfold and_get. destruct (truthy v) eqn:T; [|eauto].
  apply get_total. now apply truthy_not_nullish.
Qed.

Lemma idx_returns (v : value) (i : nat) :
  truthy v = true -> exists x, idx v i = Ok x.
Proof. destruct v; cbn [truthy idx]; try discriminate; eauto. Qed.

Lemma own_setProp_eq (ps : list (string * value)) (k : string) (v : value) :
  own (setProp ps k v) k = Some v.
Proof. now rewrite own_setProp, String.eqb_refl. Qed.

Lemma own_setProp_other (ps : list (string * value)) (k k' : string) (v : value) :
  (k =? k') = false -> own (setProp ps k v) k' = own ps k'.
Proof. intros N. now rewrite own_setProp, N. Qed.

(** Running the calls whose result is not known: each returns or throws. *)
Ltac outcome :=
  match goal with
  | |- context [bind (and_get ?v ?k) _] =>
      let x := fresh "x" in
      let E := fresh "E" in
      destruct (and_get_returns v k) as (x & E); rewrite E; cbn [bind]
  | |- context [bind (get ?v ?k) _] =>
      let x := fresh "x" in
      let E := fresh "E" in
      destruct (get_outcome v k) as [(x & E)|E]; rewrite E; cbn [bind];
      [|try reflexivity]
  | |- context [bind (idx ?v ?i) _] =>
      let x := fresh "x" in
      let E := fresh "E" in
      destruct (idx_outcome v i) as [(x & E)|E]; rewrite E; cbn [bind];
      [|try reflexivity]
  end.

Lemma cli_type_is_legacy (visualData : value) (legacy : string) :
  at_path visualData [Key "visual"; Key "singleVisual"; Key "visualType"]
    = Some (JStr legacy) ->
  legacy <> "" ->
  exists p,
    EnhancedPBIRParser.extractVisualProperties visualData = Ok p
    /\ fieldOf p "type" = Some (JStr legacy).
Proof.
  intros P N. apply truthy_str in N. walk P. walk P. walk P. walk P.
  unfold EnhancedPBIRParser.extractVisualProperties. run.
  set (p2 := if truthy (ownOr ps "name") then _ else _).
  assert (T : forall q, own q "type" = Some (JStr legacy) ->
                exists p, Ok (JObj (if truthy (ownOr q "type") then q
                                    else setProp q "type" (JStr "unknown"))) = Ok p
                          /\ fieldOf p "type" = Some (JStr legacy)).
  { intros q Q. rewrite (ownOr_some _ _ _ Q), N. eauto. }
  assert (S : own (setProp p2 "type" (JStr legacy)) "type" = Some (JStr legacy))
    by apply own_setProp_eq.
  match goal with
  | |- exists p, bind ?c _ = _ /\ _ =>
      assert (I : exists q, c = Ok q /\ own q "type" = Some (JStr legacy))
  end.
  { assert (F : forall c,
               c = Ok (setProp p2 "type" (JStr legacy)) ->
               exists q, c = Ok q /\ own q "type" = Some (JStr legacy))
      by (intros c ->; eauto).
    destruct (truthy (ownOr ps1 "objects")) eqn:O2; cbn [bind];
      [|apply F; now rewrite O2].
    destruct (get_total (ownOr ps1 "objects") "title"
                (truthy_not_nullish _ O2)) as (titleObj & E1).
    rewrite E1. cbn [bind].
    destruct (truthy titleObj) eqn:O3; [|now apply F].
    destruct (idx_returns titleObj 0 O3) as (t0 & E2). rewrite E2. cbn [bind].
    destruct (truthy t0) eqn:O4; cbn [bind];
      [|apply F; rewrite O4; cbn [bind]; now rewrite O4].
    destruct (get_total t0 "properties" (truthy_not_nullish _ O4)) as (pr & E3).
    rewrite E3. cbn [bind].
    destruct (truthy pr) eqn:O5; cbn [bind]; [|apply F; now rewrite O5].
    destruct (get_total pr "text" (truthy_not_nullish _ O5)) as (text & E4).
    rewrite E4. cbn [bind].
    destruct (truthy text) eqn:O6; [|now apply F].
    destruct (get_total text "literal" (truthy_not_nullish _ O6)) as (lit & E5).
    rewrite E5. cbn [bind].
    destruct (getOpt_returns lit "value") as (title & E6). rewrite E6. cbn [bind].
    eexists. split; [reflexivity|]. now rewrite own_setProp_other. }
  destruct I as (q & -> & Q). cbn [bind]. now apply T.
Qed.

Lemma basic_type_is_direct (visualData p : value) (direct : string) :
  at_path visualData [Key "visual"; Key "visualType"] = Some (JStr direct) ->
  direct <> "" ->
  PBIRParser.extractVisualProperties visualData = Ok p ->
  fieldOf p "type" = Some (JStr direct).
Proof.
  intros P N. apply truthy_str in N. walk P. walk P. walk P.
  unfold PBIRParser.extractVisualProperties. run. intros H.
  step H as p2 E. injection H as <-.
  assert (T : own p2 "type" = Some (JStr direct)).
  { peel E; injection E as <-; reflexivity. }
  unfold fieldOf. cbn [spread].
  destruct (truthy (ownOr ps "name")).
  - rewrite (ownOr_some _ "type" (JStr direct));
      [|now rewrite own_setProp_other].
    rewrite N. now rewrite own_setProp_other.
  - now rewrite (ownOr_some _ _ _ T), N.
Qed.

Lemma enhanced_type_is_direct (visualData p : value) (direct : string) :
  at_path visualData [Key "visual"; Key "visualType"] = Some (JStr direct) ->
  direct <> "" ->
  PBIRParserEnhanced.extractVisualPropertiesEnhanced visualData = Ok p ->
  fieldOf p "type" = Some (listedOrUnknown direct).
Proof.
  intros P N. apply truthy_str in N. walk P. walk P. walk P.
  unfold PBIRParserEnhanced.extractVisualPropertiesEnhanced. run.
  intros [= <-]. reflexivity.
Qed.

(** X15: A visual that declares a type in both places gets the legacy one from
    the command-line parser and the current one from the three other
    classes: the basic parser records it as it is, the schema-aware parser
    when it lists it, the generator after its own resolution. *)
Theorem declared_type_priority (visualData : value) (direct legacy : string) :
  at_path visualData [Key "visual"; Key "visualType"] = Some (JStr direct) ->
  at_path visualData [Key "visual"; Key "singleVisual"; Key "visualType"]
    = Some (JStr legacy) ->
  direct <> "" -> legacy <> "" ->
  (exists p,
     EnhancedPBIRParser.extractVisualProperties visualData = Ok p
     /\ fieldOf p "type" = Some (JStr legacy))
  /\ PBIRReportGenerator.getVisualType visualData = Ok (resolved direct)
  /\ (forall p, PBIRParser.extractVisualProperties visualData = Ok p ->
                fieldOf p "type" = Some (JStr direct))
  /\ (forall p, PBIRParserEnhanced.extractVisualPropertiesEnhanced visualData = Ok p ->
                fieldOf p "type" = Some (listedOrUnknown direct)).
Proof.
  intros D L Nd Nl. split; [|split; [|split]].
  - now apply cli_type_is_legacy.
  - apply getVisualType_raw. now apply raw_direct.
  - intros p. now apply basic_type_is_direct.
  - intros p. now apply enhanced_type_is_direct.
Qed.

Lemma declared_type_priority_witness :
  (exists p,
     EnhancedPBIRParser.extractVisualProperties twiceTyped = Ok p
     /\ fieldOf p "type" = Some (JStr "slicer"))
  /\ PBIRReportGenerator.getVisualType twiceTyped = Ok (JStr "Card")
  /\ memberOf (PBIRParser.extractVisualProperties twiceTyped) "type" = Some (JStr "card").
Proof.
  destruct (declared_type_priority twiceTyped "card" "slicer" eq_refl eq_refl)
    as (C & G & _ & _); try discriminate.
  split; [exact C|]. split; [exact G | reflexivity].
Defined.

Lemma get_nullish (v : value) (k : string) : nullish v = true -> get v k = Throw.
Proof. destruct v; cbn [nullish get]; congruence. Qed.

Lemma getOpt_nullish (v : value) (k : string) :
  nullish v = true -> getOpt v k = Ok JUndefined.
Proof. unfold getOpt. now intros ->. Qed.

(** X16: A legacy title whose text carries no [literal] (a title written as an
    expression, or as a plain string) makes the basic parser throw on the
    visual, so that [parseFiles] fails; the command-line parser reads the
    same visual and records an undefined title. *)
Theorem legacy_title_without_literal (visualData text : value) :
  at_path visualData legacyTitleText = Some text ->
  truthy text = true ->
  nullish (member text "literal") = true ->
  PBIRParser.extractVisualProperties visualData = Throw
  /\ exists p,
       EnhancedPBIRParser.extractVisualProperties visualData = Ok p
       /\ fieldOf p "title" = Some JUndefined.
Proof.
  unfold legacyTitleText. intros P T L.
  walk P. walk P. walk P. walk P. walk P. walk P. walk P. walk P.
  pose proof (get_member text "literal" (truthy_not_nullish _ T) eq_refl) as G.
  split.
  - unfold PBIRParser.extractVisualProperties. run.
    rewrite G. cbn [bind]. rewrite (get_nullish _ _ L). cbn [bind].
    repeat first
      [ reflexivity
      | outcome
      | match goal with
        | |- context [if truthy ?v then _ else _] => destruct (truthy v); cbn [bind]
        end ].
  - unfold EnhancedPBIRParser.extractVisualProperties. run.
    rewrite G. cbn [bind]. rewrite (getOpt_nullish _ _ L). cbn [bind].
    eexists. split; [reflexivity|].
    unfold fieldOf. cbn [spread].
    match goal with
    | |- own (if truthy (ownOr ?q "type") then _ else _) _ = _ =>
        assert (Q : own q "title" = Some JUndefined) by apply own_setProp_eq;
        destruct (truthy (ownOr q "type")); [exact Q|];
        now rewrite own_setProp_other
    end.
Qed.

Lemma legacy_title_without_literal_witness :
  PBIRParser.extractVisualProperties expressionTitled = Throw
  /\ exists p,
       EnhancedPBIRParser.extractVisualProperties expressionTitled = Ok p
       /\ fieldOf p "title" = Some JUndefined.
Proof.
  apply (legacy_title_without_literal expressionTitled
           (obj1 "expr" (literalNode (JStr "'Sales'")))); reflexivity.
Defined.

(** ** The layout of the basic parser *)

(** X17: In the layout of the basic parser a coordinate that the visual
    document carries at its root is taken as it is, whatever it is ([null],
    a string, a negative number), and wins over the position; without one,
    the coordinate is that of the position when it is truthy, and 0. *)
Theorem basic_layout_precedence (ps : list (string * value)) (k source : string) :
  In (k, source) layoutSources ->
  (forall root, own ps source = Some root -> root <> JUndefined ->
                memberOf (PBIRParser.extractLayout (JObj ps)) k = Some root)
  /\ (own ps source = None ->
      memberOf (PBIRParser.extractLayout (JObj ps)) k
      = Some (coordinate (JObj ps) source)).
Proof.
  intros I. unfold PBIRParser.extractLayout.
  assert (N : nullish (JObj ps) = false) by reflexivity.
  rewrite (get_member _ "position" N eq_refl). cbn [bind].
  rewrite coordinate_member.
  destruct (truthy (member (JObj ps) "position")) eqn:T.
  - apply truthy_not_nullish in T.
    repeat match goal with
           | |- context [get (member (JObj ps) "position") ?j] =>
               rewrite (get_member (member (JObj ps) "position") j T eq_refl);
               cbn [bind]
           end.
    cbn [get bind nth memberOf].
    unfold layoutSources in I. cbn [In] in I.
    repeat (destruct I as [[= <- <-] | I]; [| ]); [..| contradiction];
      (split; [intros root O U; rewrite (ownOr_some _ _ _ O); cbn;
               destruct root; try reflexivity; now contradiction U
              |intros O; rewrite (ownOr_none _ _ O); reflexivity]).
  - cbn [get bind nth memberOf].
    unfold layoutSources in I. cbn [In] in I.
    repeat (destruct I as [[= <- <-] | I]; [| ]); [..| contradiction];
      (split; [intros root O U; rewrite (ownOr_some _ _ _ O); cbn;
               destruct root; try reflexivity; now contradiction U
              |intros O; rewrite (ownOr_none _ _ O); reflexivity]).
Qed.

Lemma basic_layout_precedence_witness :
  memberOf (PBIRParser.extractLayout displacedVisual) "x" = Some JNull
  /\ memberOf (PBIRParser.extractLayout displacedVisual) "width" = Some (JStr "wide")
  /\ memberOf (PBIRParser.extractLayout displacedVisual) "y" = Some (num 20)
  /\ memberOf (PBIRParser.extractLayout displacedVisual) "zIndex" = Some (num 0).
Proof.
  pose (ps := [ ("position", JObj [ ("x", num 10); ("y", num 20); ("width", num 300) ]);
                ("x", JNull); ("width", JStr "wide") ]).
  change displacedVisual with (JObj ps).
  split; [|split; [|split]].
  - apply (proj1 (basic_layout_precedence ps "x" "x" ltac:(cbn; tauto)));
      [reflexivity | discriminate].
  - apply (proj1 (basic_layout_precedence ps "width" "width" ltac:(cbn; tauto)));
      [reflexivity | discriminate].
  - exact (proj2 (basic_layout_precedence ps "y" "y" ltac:(cbn; tauto)) eq_refl).
  - exact (proj2 (basic_layout_precedence ps "zIndex" "z" ltac:(cbn; tauto)) eq_refl).
Defined.

(** ** The schema validator *)

Lemma missing_fields (ps : list (string * value)) (required : list string) :
  SchemaValidator.missing (JObj ps) (map JStr required)
  = Ok (map missingField (filter (fun n => negb (present ps n)) required)).
Proof.
  induction required as [|n required IH];
    cbn [map SchemaValidator.missing filter]; [reflexivity|].
  cbn [toString bind SchemaValidator.hasProperty]. fold (present ps n).
  rewrite IH. destruct (present ps n); reflexivity.
Qed.

Lemma no_missing_field (ps : list (string * value)) (required : list string) :
  match map missingField (filter (fun n => negb (present ps n)) required) with
  | [] => true
  | _ => false
  end = forallb (present ps) required.
Proof.
  induction required as [|n required IH]; cbn [filter map forallb]; [reflexivity|].
  destruct (present ps n); cbn [negb andb map]; [exact IH | reflexivity].
Qed.

(** X18: The validator finds an object valid exactly when every field that the
    schema requires is a key of the object (its own, or one that every
    object inherits, such as [toString]), and else reports each missing
    field once, in the order of the schema; a schema that is not loaded
    makes every document invalid; and a document that is not an object
    makes the validator throw as soon as the schema requires a field. *)
Theorem validate_reports_missing_fields :
  (forall schemas name schema required ps,
     own schemas name = Some schema ->
     at_path schema [Key "required"] = Some (JArr (map JStr required)) ->
     SchemaValidator.validate schemas (JObj ps) name
     = Ok (forallb (present ps) required,
           map missingField (filter (fun n => negb (present ps n)) required)))
  /\ (forall schemas data name,
        own schemas name = None ->
        SchemaValidator.validate schemas data name
        = Ok (false, ["Schema " ++ name ++ " not found"]))
  /\ (forall schemas name schema field fields data,
        own schemas name = Some schema ->
        at_path schema [Key "required"] = Some (JArr (field :: fields)) ->
        isObject data = false ->
        SchemaValidator.validate schemas data name = Throw).
Proof.
  split; [|split].
  - intros schemas name schema required ps S R. walk R. walk R.
    unfold SchemaValidator.validate, SchemaValidator.basicValidate.
    rewrite S. run. cbn [SchemaValidator.iterate bind].
    rewrite missing_fields. cbn [bind]. now rewrite no_missing_field.
  - intros schemas data name S. unfold SchemaValidator.validate. now rewrite S.
  - intros schemas name schema field fields data S R O. walk R. walk R.
    unfold SchemaValidator.validate, SchemaValidator.basicValidate.
    rewrite S. run. cbn [SchemaValidator.iterate bind SchemaValidator.missing].
    destruct data; try discriminate O; reflexivity.
Qed.

Lemma validate_reports_missing_fields_witness :
  SchemaValidator.validate pageSchemas (JObj [("name", JNull)]) "page"
  = Ok (false, ["Missing required field: displayName"])
  /\ SchemaValidator.validate pageSchemas (num 5) "page" = Throw.
Proof.
  split.
  - exact (proj1 validate_reports_missing_fields pageSchemas "page" _
             ["name"; "displayName"; "toString"] [("name", JNull)] eq_refl eq_refl).
  - exact (proj2 (proj2 validate_reports_missing_fields) pageSchemas "page" _ _ _
             (num 5) eq_refl eq_refl eq_refl).
Defined.

(** ** The summary of the visual types *)






(** ** The maps of the basic parser *)

Section BasicVisuals.

Variable processVisualData : value -> value -> result value.

Lemma visualsLoop_records (fileMap : list file) (pageFile : file) (todo : list file) :
  In pageFile fileMap -> PBIRParser.isPage pageFile = true ->
  (forall f, In f todo -> In f fileMap) ->
  forall local global local' global',
    PBIRParser.visualsLoop processVisualData fileMap
      (PBIRParser.extractPageName (relativePath pageFile)) todo local global
    = Ok (local', global') ->
    (forall k e, own global k = Some e -> VisualRecord fileMap k e) ->
    forall k e, own global' k = Some e -> VisualRecord fileMap k e.
Proof.
  intros Ip Pp. induction todo as [|f todo IH]; intros Hf local global local' global';
    cbn [PBIRParser.visualsLoop].
  - now intros [= <- <-].
  - assert (Hr : forall g, In g todo -> In g fileMap) by (intros g I; apply Hf; now right).
    destruct (PBIRParser.isVisualOf _ f) eqn:V; [|now apply IH].
    intros H. step H as processed P. intros G. refine (IH Hr _ _ _ _ H _).
    intros k e. rewrite own_setProp.
    destruct (String.eqb_spec
                (PBIRParser.extractPageName (relativePath pageFile) ++ ":"
                 ++ PBIRParser.extractVisualName (relativePath f)) k) as [<-|Ne];
      [|now apply G].
    intros [= <-]. exists pageFile, f.
    split; [exact Ip|]. split; [exact Pp|]. split; [apply Hf; now left|].
    split; [exact V|]. split; [reflexivity|]. unfold fieldOf. cbn [spread]. split.
    + rewrite own_setProp_other; [apply own_setProp_eq | reflexivity].
    + apply own_setProp_eq.
Qed.

Lemma pagesLoop_records (fileMap todo : list file) :
  (forall f, In f todo -> In f fileMap) ->
  forall st st',
    PBIRParser.pagesLoop processVisualData fileMap todo st = Ok st' ->
    (forall k e, own (PBIRParser.visuals st) k = Some e -> VisualRecord fileMap k e) ->
    forall k e, own (PBIRParser.visuals st') k = Some e -> VisualRecord fileMap k e.
Proof.
  induction todo as [|f todo IH]; intros Hf st st'; cbn [PBIRParser.pagesLoop].
  - now intros [= <-].
  - assert (Hr : forall g, In g todo -> In g fileMap) by (intros g I; apply Hf; now right).
    destruct (PBIRParser.isPage f) eqn:P; [|now apply IH].
    unfold PBIRParser.parsePageVisuals. intros H. step H as pv E. step E as r L.
    injection E as <-. destruct r as [local global]. cbn [fst snd] in H.
    intros G. refine (IH Hr _ _ H _). cbn [PBIRParser.visuals].
    exact (visualsLoop_records fileMap f fileMap (Hf f (or_introl eq_refl)) P
             (fun g I => I) _ _ _ _ L G).
Qed.

End BasicVisuals.

(** X20: In the basic parser the record that [getVisualDetails] finds names the
    page and the visual of its key: whatever [processVisualData] extracts,
    a record of the visuals map is that of a visual document of the report,
    stored under the identifier of its page, a colon and its own identifier,
    and it carries both identifiers as [pageName] and [visualName]. *)
Theorem visual_details_name_their_key
  (processVisualData : value -> value -> result value)
  (files : list file) (st : PBIRParser.state) (pageName visualName : string)
  (record : value) :
  PBIRParser.parseFiles processVisualData files = Ok st ->
  own (PBIRParser.visuals st) (pageName ++ ":" ++ visualName) = Some record ->
  PBIRParser.getVisualDetails st pageName visualName = record
  /\ VisualRecord (PBIRParser.toFileMap files) (pageName ++ ":" ++ visualName) record.
Proof.
  unfold PBIRParser.parseFiles. intros H O. step H as st1 E. injection H as <-.
  assert (V : PBIRParser.visuals
                (PBIRParser.parseBookmarks (PBIRParser.toFileMap files) st1)
              = PBIRParser.visuals st1).
  { unfold PBIRParser.parseBookmarks.
    now destruct (findFile (PBIRParser.toFileMap files)
                    "definition/bookmarks/bookmarks.json"). }
  split.
  - unfold PBIRParser.getVisualDetails. now rewrite (ownOr_some _ _ _ O).
  - rewrite V in O. apply parsePages_loop in E.
    refine (pagesLoop_records processVisualData _ _ (fun g I => I) _ _ E _ _ _ O).
    intros k e. unfold PBIRParser.parseReportStructure.
    destruct (findFile _ "definition/reportExtensions.json");
      destruct (findFile _ "definition/version.json");
      destruct (findFile _ "definition/report.json"); discriminate.
Qed.

Lemma visual_details_name_their_key_witness :
  exists st record,
    PBIRParser.parseFiles asItIs salesPage = Ok st
    /\ PBIRParser.getVisualDetails st "Sales" "v2" = record
    /\ fieldOf record "pageName" = Some (JStr "Sales")
    /\ VisualRecord (PBIRParser.toFileMap salesPage) "Sales:v2" record.
Proof.
  eexists _, _. split; [reflexivity|].
  split; [exact (proj1 (visual_details_name_their_key asItIs salesPage _ "Sales" "v2" _
                          eq_refl eq_refl))|].
  split; [reflexivity|].
  exact (proj2 (visual_details_name_their_key asItIs salesPage _ "Sales" "v2" _
                  eq_refl eq_refl)).
Defined.

(** ** Bookmarks *)

Section Bookmarks.

Variable validate : value -> string -> string + (bool * list string).

Local Abbreviation read := (EnhancedPBIRParser.parseJsonFileWithValidation validate).

Lemma read_bookmarks (f : file) (schemaName : string) (st : EnhancedPBIRParser.state) :
  EnhancedPBIRParser.bookmarks (snd (read f schemaName st))
  = EnhancedPBIRParser.bookmarks st.
Proof.
  unfold EnhancedPBIRParser.parseJsonFileWithValidation.
  destruct (content f); [reflexivity|].
  destruct (schemaName =? ""); [reflexivity|].
  destruct (validate v schemaName) as [m|[[] errors]]; reflexivity.
Qed.

Lemma mergeOptional_bookmarks (files : list file) (path schemaName key : string)
  (st : EnhancedPBIRParser.state) :
  EnhancedPBIRParser.bookmarks
    (EnhancedPBIRParser.mergeOptional validate files path schemaName key st)
  = EnhancedPBIRParser.bookmarks st.
Proof.
  unfold EnhancedPBIRParser.mergeOptional.
  destruct (findFile files path) as [f|]; [|reflexivity].
  pose proof (read_bookmarks f schemaName st) as R.
  destruct (read f schemaName st) as [d t]. cbn [snd] in R.
  now destruct (truthy (EnhancedPBIRParser.reportData t) && truthy d).
Qed.

Lemma visualsLoop_bookmarks (files : list file) (pageName : string) (todo : list file) :
  forall local st r,
    EnhancedPBIRParser.visualsLoop validate files pageName todo local st = Ok r ->
    EnhancedPBIRParser.bookmarks (snd r) = EnhancedPBIRParser.bookmarks st.
Proof.
  induction todo as [|f todo IH]; intros local st r;
    cbn [EnhancedPBIRParser.visualsLoop].
  - now intros [= <-].
  - pose proof (read_bookmarks f "visualContainer" st) as R.
    destruct (read f "visualContainer" st) as [d t]. cbn [snd] in R.
    destruct (truthy d); [|intros H; now rewrite (IH _ _ _ H)].
    destruct (fileAt files _) as [m|].
    + pose proof (read_bookmarks m "visualContainerMobileState" t) as M.
      destruct (read m "visualContainerMobileState" t) as [mobile u].
      cbn [snd] in M. intros H. step H as processed P.
      rewrite (IH _ _ _ H). cbn [EnhancedPBIRParser.setVisuals
                                  EnhancedPBIRParser.bookmarks]. congruence.
    + intros H. step H as processed P.
      rewrite (IH _ _ _ H). cbn [EnhancedPBIRParser.setVisuals
                                  EnhancedPBIRParser.bookmarks]. congruence.
Qed.

Lemma pagesLoop_keeps_bookmarks (files todo : list file) :
  forall st st',
    EnhancedPBIRParser.pagesLoop validate files todo st = Ok st' ->
    EnhancedPBIRParser.bookmarks st' = EnhancedPBIRParser.bookmarks st.
Proof.
  induction todo as [|f todo IH]; intros st st'; cbn [EnhancedPBIRParser.pagesLoop].
  - now intros [= <-].
  - pose proof (read_bookmarks f "page" st) as R.
    destruct (read f "page" st) as [d t]. cbn [snd] in R.
    destruct (truthy d); [|intros H; now rewrite (IH _ _ H)].
    unfold EnhancedPBIRParser.parsePageVisuals. intros H.
    step H as pv E. step E as r L. injection E as <-. cbn [fst snd] in H.
    rewrite (IH _ _ H). cbn [EnhancedPBIRParser.setPages EnhancedPBIRParser.bookmarks].
    rewrite (visualsLoop_bookmarks _ _ _ _ _ _ L). exact R.
Qed.

Lemma parsePages_keeps_bookmarks (files : list file) (st : EnhancedPBIRParser.state) :
  EnhancedPBIRParser.parsePages validate files
    (EnhancedPBIRParser.parseReportStructure validate files EnhancedPBIRParser.initial)
  = Ok st ->
  EnhancedPBIRParser.bookmarks st = [].
Proof.
  unfold EnhancedPBIRParser.parsePages. intros H.
  apply pagesLoop_keeps_bookmarks in H. rewrite H.
  assert (B : EnhancedPBIRParser.bookmarks
                (EnhancedPBIRParser.parseReportStructure validate files
                   EnhancedPBIRParser.initial) = []).
  { unfold EnhancedPBIRParser.parseReportStructure.
    rewrite !mergeOptional_bookmarks.
    destruct (findFile files "definition/report.json") as [f|]; [|reflexivity].
    pose proof (read_bookmarks f "report" EnhancedPBIRParser.initial) as R.
    destruct (read f "report" EnhancedPBIRParser.initial) as [d t]. exact R. }
  destruct (findFile files "definition/pages/pages.json") as [f|]; [|exact B].
  now rewrite read_bookmarks.
Qed.

End Bookmarks.

Lemma bookmarksLoop_sets (todo : list file) (f : file) :
  In f todo -> PBIRParser.isBookmark f = true ->
  forall bookmarks,
    own (PBIRParser.bookmarksLoop todo bookmarks)
      (PBIRParser.extractBookmarkName (relativePath f)) <> None.
Proof.
  induction todo as [|g todo IH]; intros I B bookmarks; [destruct I|].
  cbn [PBIRParser.bookmarksLoop].
  assert (K : forall todo bookmarks k,
             own bookmarks k <> None ->
             own (PBIRParser.bookmarksLoop todo bookmarks) k <> None).
  { clear. induction todo as [|g todo IH]; intros bookmarks k H;
      cbn [PBIRParser.bookmarksLoop]; [exact H|].
    destruct (PBIRParser.isBookmark g); [|now apply IH].
    apply IH. rewrite own_setProp. now destruct (_ =? k). }
  destruct I as [->|I].
  - rewrite B. apply K. now rewrite own_setProp_eq.
  - destruct (PBIRParser.isBookmark g); now apply IH.
Qed.

(** X21: The bookmarks are read only when the report has a list of bookmarks:
    without [definition/bookmarks/bookmarks.json] the basic parser and the
    command-line parser return no bookmark, whatever bookmark documents the
    report holds; with it, the basic parser has an entry for every bookmark
    document, under its identifier. *)
Theorem bookmarks_need_their_list :
  (forall processVisualData files st,
     PBIRParser.parseFiles processVisualData files = Ok st ->
     match findFile (PBIRParser.toFileMap files) "definition/bookmarks/bookmarks.json" with
     | None => PBIRParser.bookmarks st = []
     | Some _ =>
         forall f, In f (PBIRParser.toFileMap files) ->
                   PBIRParser.isBookmark f = true ->
                   own (PBIRParser.bookmarks st)
                     (PBIRParser.extractBookmarkName (relativePath f)) <> None
     end)
  /\ (forall validate files st,
        EnhancedPBIRParser.parseDirectory validate files = Ok st ->
        findFile files "definition/bookmarks/bookmarks.json" = None ->
        EnhancedPBIRParser.bookmarks st = []).
Proof.
  split.
  - intros processVisualData files st. unfold PBIRParser.parseFiles. intros H.
    step H as st1 E. injection H as <-. apply parsePages_loop in E.
    apply pagesLoop_bookmarks in E.
    assert (B : PBIRParser.bookmarks st1 = []).
    { rewrite E. unfold PBIRParser.parseReportStructure.
      destruct (findFile _ "definition/reportExtensions.json");
        destruct (findFile _ "definition/version.json");
        destruct (findFile _ "definition/report.json"); reflexivity. }
    unfold PBIRParser.parseBookmarks.
    destruct (findFile (PBIRParser.toFileMap files)
                "definition/bookmarks/bookmarks.json"); [|exact B].
    cbn [PBIRParser.bookmarks]. intros g I K. now apply bookmarksLoop_sets.
  - intros validate files st. unfold EnhancedPBIRParser.parseDirectory. intros H N.
    step H as st1 E. injection H as <-.
    unfold EnhancedPBIRParser.parseBookmarks. rewrite N.
    now apply parsePages_keeps_bookmarks in E.
Qed.

Lemma bookmarks_need_their_list_witness :
  exists st,
    EnhancedPBIRParser.parseDirectory accept unlistedBookmark = Ok st
    /\ EnhancedPBIRParser.bookmarks st = []
    /\ exists f, In f unlistedBookmark /\ EnhancedPBIRParser.isBookmark f = true.
Proof.
  eexists. split; [reflexivity|]. split.
  - exact (proj2 bookmarks_need_their_list accept unlistedBookmark _ eq_refl eq_refl).
  - eexists. split; [right; left; reflexivity | reflexivity].
Defined.

(** ** Rendering in the basic parser *)

Lemma joinValues_strings (sep : string) (l : list string) :
  joinValues sep (map JStr l) = Ok (join sep l).
Proof.
  induction l as [|a l IH]; [reflexivity|].
  destruct l as [|b l]; [reflexivity|].
  change (joinValues sep (map JStr (a :: b :: l)))
    with (sx <- Ok a ;; sr <- joinValues sep (map JStr (b :: l)) ;; Ok (sx ++ sep ++ sr)).
  now rewrite IH.
Qed.

Lemma mapM_rendered (fuel : nat) (children : list value) (rendered : list string) :
  (forall c, In c children -> (depth c < fuel)%nat) ->
  Forall2 (fun c s => PBIRParser.formatFilterObject c = Ok (JStr s)) children rendered ->
  mapM (PBIRParser.formatFilterObjectN fuel) children = Ok (map JStr rendered).
Proof.
  intros D F. induction F as [|c s children rendered R F IH]; [reflexivity|].
  cbn [mapM map].
  rewrite (formatFilterObjectN_fuel fuel (S (depth c)) c);
    [|apply D; now left | lia].
  unfold PBIRParser.formatFilterObject in R. rewrite R. cbn [bind].
  rewrite IH; [reflexivity|]. intros x I. apply D. now right.
Qed.

(** X22: The rendering of a filter is compositional: a conjunction whose members
    render to the strings [s1 .. sn] renders to [(s1 AND .. AND sn)], a
    disjunction to [(s1 OR .. OR sn)], and the negation of a truthy node
    that renders to [s] renders to [NOT (s)]. *)
Theorem formatFilterObject_composes :
  (forall children rendered,
     Forall2 (fun c s => PBIRParser.formatFilterObject c = Ok (JStr s))
       children rendered ->
     PBIRParser.formatFilterObject (obj1 "And" (JArr children))
     = Ok (JStr ("(" ++ join " AND " rendered ++ ")"))
     /\ PBIRParser.formatFilterObject (obj1 "Or" (JArr children))
        = Ok (JStr ("(" ++ join " OR " rendered ++ ")")))
  /\ (forall c s,
        truthy c = true ->
        PBIRParser.formatFilterObject c = Ok (JStr s) ->
        PBIRParser.formatFilterObject (obj1 "Not" c)
        = Ok (JStr ("NOT (" ++ s ++ ")"))).
Proof.
  split.
  - intros children rendered F.
    assert (D : forall k c, In c children ->
                  (depth c < depth (obj1 k (JArr children)))%nat).
    { intros k c I. apply depth_in in I. cbn [obj1 depth] in *. lia. }
    split.
    + unfold PBIRParser.formatFilterObject at 1.
      cbn [PBIRParser.formatFilterObjectN obj1 get bind ownOr own String.eqb
           Ascii.eqb Bool.eqb and_get truthy mapArray].
      rewrite (mapM_rendered _ children rendered (D "And") F). cbn [bind].
      now rewrite joinValues_strings.
    + unfold PBIRParser.formatFilterObject at 1.
      cbn [PBIRParser.formatFilterObjectN obj1 get bind ownOr own String.eqb
           Ascii.eqb Bool.eqb and_get truthy mapArray].
      rewrite (mapM_rendered _ children rendered (D "Or") F). cbn [bind].
      now rewrite joinValues_strings.
  - intros c s T R.
    unfold PBIRParser.formatFilterObject at 1.
    cbn [PBIRParser.formatFilterObjectN obj1 get bind ownOr own String.eqb
         Ascii.eqb Bool.eqb and_get truthy].
    rewrite T.
    rewrite (formatFilterObjectN_fuel _ (S (depth c)) c);
      [|cbn [obj1 depth]; lia | lia].
    unfold PBIRParser.formatFilterObject in R. rewrite R. reflexivity.
Qed.

Lemma formatFilterObject_composes_witness :
  PBIRParser.formatFilterObject
    (obj1 "Or" (JArr [ inNode [JStr "A"; JStr "B"];
                       comparisonNode (JStr "GreaterThan") (literalNode (num 10)) ]))
  = Ok (JStr "(IN (A, B) OR GreaterThan 10)").
Proof.
  refine (proj2 (proj1 formatFilterObject_composes
                   [ inNode [JStr "A"; JStr "B"];
                     comparisonNode (JStr "GreaterThan") (literalNode (num 10)) ]
                   ["IN (A, B)"; "GreaterThan 10"] _)).
  repeat constructor.
Defined.

(** ** Filter records of the basic parser *)

Lemma parseFilterExpression_labels (filter r : value) :
  PBIRParser.parseFilterExpression filter = Ok r -> LabelledFilter r.
Proof.
  assert (T : forall kind lower,
             In (kind ++ " Filter") filterLabels ->
             PBIRParser.topFilter kind lower filter = Ok r -> LabelledFilter r).
  { intros kind lower I H. unfold PBIRParser.topFilter in H. peel H.
    injection H as <-. eexists _, _. repeat (split; [reflexivity|]).
    split; [exact I | reflexivity]. }
  assert (N : forall kind,
             In (kind ++ " Filter") filterLabels ->
             PBIRParser.namedFilter kind filter = Ok r -> LabelledFilter r).
  { intros kind I H. unfold PBIRParser.namedFilter in H. peel H.
    injection H as <-. eexists _, _. repeat (split; [reflexivity|]).
    split; [exact I | reflexivity]. }
  assert (O : PBIRParser.otherFilter filter = Ok r -> LabelledFilter r).
  { intros H. unfold PBIRParser.otherFilter in H.
    peel H; injection H as <-; eexists _, _;
      (split; [reflexivity|]); (split; [reflexivity|]);
      (split; [cbn; tauto | reflexivity]). }
  unfold PBIRParser.parseFilterExpression. intros H. step H as type E.
  destruct type as [| | | |s| | |]; try (now apply O).
  destruct (s =? "TopN"); [apply (T "TopN" "topn"); [cbn; tauto | exact H]|].
  destruct (s =? "BottomN");
    [apply (T "BottomN" "bottomn"); [cbn; tauto | exact H]|].
  destruct (s =? "Advanced"); [apply (N "Advanced"); [cbn; tauto | exact H]|].
  destruct (s =? "Basic"); [apply (N "Basic"); [cbn; tauto | exact H]|].
  now apply O.
Qed.

Lemma joinValues_objects (sep : string) (l : list value) :
  Forall LabelledFilter l ->
  joinValues sep l = Ok (join sep (repeat objectText (List.length l))).
Proof.
  assert (T : forall r, LabelledFilter r ->
                (if nullish r then Ok "" else toString r) = Ok objectText).
  { intros r (rs & label & -> & _ & _ & N). cbn [nullish toString]. now rewrite N. }
  induction 1 as [|a l La F IH]; [reflexivity|].
  destruct l as [|b l].
  - cbn [joinValues List.length repeat join]. now apply T.
  - change (joinValues sep (a :: b :: l))
      with (sx <- (if nullish a then Ok "" else toString a) ;;
            sr <- joinValues sep (b :: l) ;; Ok (sx ++ sep ++ sr)).
    rewrite (T a La), IH. reflexivity.
Qed.

(** X23: [parseFilterExpression] gives every filter one of six labels, and
    [parseFilterConfig] loses what it found: the description of a filter
    configuration that lists [n] filters is the text that the language
    prints for an object, [n] times, whatever the filters are. *)
Theorem filter_config_description (config : value) (filters : list value) :
  at_path config [Key "filters"] = Some (JArr filters) ->
  (forall parsed,
     mapM PBIRParser.parseFilterExpression filters = Ok parsed ->
     Forall LabelledFilter parsed
     /\ PBIRParser.parseFilterConfig config
        = Ok (JObj [ ("type", JStr "Visual Filter Config");
                     ("description",
                      JStr (join "; " (repeat objectText (List.length filters))));
                     ("raw", config) ])).
Proof.
  intros P parsed M. walk P. walk P.
  assert (L : Forall LabelledFilter parsed).
  { apply mapM_Forall2 in M. clear -M.
    induction M as [|f r l out Pf F IH]; constructor; [|exact IH].
    now apply parseFilterExpression_labels in Pf. }
  split; [exact L|].
  unfold PBIRParser.parseFilterConfig, PBIRParser.formatFilterConfig. run.
  rewrite M. cbn [bind]. rewrite (joinValues_objects _ _ L). cbn [bind].
  apply mapM_Forall2 in M. apply Forall2_length in M. now rewrite M.
Qed.

Lemma filter_config_description_witness :
  PBIRParser.parseFilterConfig twoFilters
  = Ok (JObj [ ("type", JStr "Visual Filter Config");
               ("description", JStr "[object Object]; [object Object]");
               ("raw", twoFilters) ])
  /\ memberOf (PBIRParser.parseFilterExpression
                 (JObj [ ("type", JStr "TopN");
                         ("field", obj1 "Column" (obj1 "Property" (JStr "Amount"))) ]))
       "expression"
     = Some (JStr "Show topn N by Amount").
Proof.
  split; [|reflexivity].
  exact (proj2 (filter_config_description twoFilters _ eq_refl _ eq_refl)).
Defined.

(** ** Bindings of the report generator *)

Lemma or_else_truthy (a d : value) : truthy d = true -> truthy (or_else a d) = true.
Proof. intros T. unfold or_else. destruct (truthy a) eqn:A; [exact A | exact T]. Qed.

Lemma under_cons (v : value) (k : string) (p : list step) :
  under v (Key k :: p) = under (member v k) p.
Proof.
  unfold under. cbn [at_path]. destruct v; cbn [member];
    try (destruct p as [|[]]; reflexivity).
  unfold ownOr. destruct (own props k); [reflexivity|].
  destruct p as [|[]]; reflexivity.
Qed.

Lemma under_nil (v : value) : under v [] = v.
Proof. reflexivity. Qed.

Lemma entityOf_reads (expression : value) :
  PBIRReportGenerator.entityOf expression
  = Ok (or_else (member (member expression "SourceRef") "Entity")
          (JStr "Unknown Table")).
Proof.
  unfold PBIRReportGenerator.entityOf.
  rewrite (getOpt_member expression "SourceRef" eq_refl). cbn [bind].
  now rewrite (getOpt_member _ "Entity" eq_refl).
Qed.

(** What [v && v.k] gives is, to the tests and the readings that follow, the
    member [k] of [v]. *)
Lemma and_get_member (v : value) (k : string) :
  (k =? "length") = false ->
  exists x, and_get v k = Ok x
            /\ truthy x = truthy (member v k)
            /\ (forall k', member x k' = member (member v k) k')
            /\ (truthy x = true -> x = member v k).
Proof.
  intros L. unfold and_get. destruct (truthy v) eqn:T.
  - rewrite (get_member _ _ (truthy_not_nullish _ T) L). eauto.
  - exists v. split; [reflexivity|].
    assert (M : member v k = JUndefined).
    { destruct v; try reflexivity; discriminate T. }
    rewrite M, T. split; [reflexivity|]. split; [|discriminate].
    intros k'. destruct v; try reflexivity; discriminate T.
Qed.

Lemma extractTableName_reads (expression : value) :
  PBIRReportGenerator.extractTableName expression
  = Ok (if truthy (member expression "SourceRef")
        then or_else (member (member expression "SourceRef") "Entity")
               (JStr "Unknown Table")
        else or_else
               (member (member (member (member expression "Column") "Expression")
                          "SourceRef") "Entity")
               (JStr "Unknown Table")).
Proof.
  assert (F : forall v k, truthy v = false -> member v k = JUndefined).
  { intros v k T. destruct v; try reflexivity; discriminate T. }
  unfold PBIRReportGenerator.extractTableName.
  destruct (and_get_member expression "SourceRef" eq_refl) as (s & -> & Ts & Ms & Es).
  cbn [bind]. rewrite <- Ts.
  destruct (truthy s) eqn:T1.
  - rewrite (get_member _ "Entity" (truthy_not_nullish _ T1) eq_refl). cbn [bind].
    now rewrite Ms.
  - destruct (and_get_member expression "Column" eq_refl) as (c & -> & Tc & Mc & Ec).
    cbn [bind].
    destruct (and_get_member c "Expression" eq_refl) as (e & -> & Te & Me & Ee).
    cbn [bind].
    destruct (and_get_member e "SourceRef" eq_refl) as (r & -> & Tr & Mr & Er).
    cbn [bind]. rewrite <- Mc, <- Me, <- Mr.
    destruct (truthy r) eqn:T4.
    + now rewrite (get_member _ "Entity" (truthy_not_nullish _ T4) eq_refl).
    + now rewrite (F _ "Entity" T4).
Qed.

Ltac reads H :=
  repeat (first
            [ rewrite get_member in H
                by first [reflexivity | assumption | now apply truthy_not_nullish]
            | rewrite getOpt_member in H by reflexivity
            | rewrite entityOf_reads in H
            | rewrite extractTableName_reads in H ];
          cbn [bind] in H).

(** X24: Every binding that the generator makes from a projection of the query
    state or from an entry of the legacy Select list is a measure or a
    dimension and names a table: the entity of the source reference of the
    measure, of the column or of the aggregated column that it binds (for a
    Select entry, of the expression's own source reference before that of
    its column), and a placeholder when the document names none there. *)
Theorem bindings_name_a_table :
  (forall roleKey projection b,
     PBIRReportGenerator.parseProjectionField roleKey projection = Ok b ->
     truthy b = true ->
     TabledBinding b
     /\ exists m kind,
          Binds (under projection [Key "field"]) m kind
          /\ fieldOf b "type" = Some (JStr kind)
          /\ fieldOf b "table"
             = Some (projectedTable (under projection [Key "field"]) m))
  /\ (forall select b,
        PBIRReportGenerator.parseFieldFromSelect select = Ok b ->
        truthy b = true ->
        TabledBinding b
        /\ exists m kind,
             Binds select m kind
             /\ fieldOf b "type" = Some (JStr kind)
             /\ fieldOf b "table" = Some (selectedTable select m)).
Proof.
  assert (TB : forall b kind table,
             fieldOf b "type" = Some (JStr kind) ->
             kind = "measure" \/ kind = "dimension" ->
             fieldOf b "table" = Some (or_else table (JStr "Unknown Table")) ->
             TabledBinding b).
  { intros b kind table Hk K Ht. exists kind, (or_else table (JStr "Unknown Table")).
    repeat split; try assumption. now apply or_else_truthy. }
  split.
  - intros roleKey projection b H T.
    unfold PBIRReportGenerator.parseProjectionField in H.
    destruct (nullish projection) eqn:Np;
      [rewrite (get_nullish _ _ Np) in H; discriminate H|].
    rewrite under_cons, under_nil.
    reads H. set (field := member projection "field") in *.
    destruct (truthy field) eqn:Tf; [|injection H as <-; discriminate T].
    reads H. unfold projectedTable, tableUnder. cbn [app].
    destruct (truthy (member field "Measure")) eqn:Tm.
    { reads H. injection H as <-. split.
      - eapply TB; [reflexivity | now left | reflexivity].
      - exists "Measure", "measure". split; [|split; [reflexivity|]].
        + apply binds_measure. now rewrite under_cons.
        + cbn [String.eqb Ascii.eqb Bool.eqb]. now rewrite !under_cons. }
    reads H. destruct (truthy (member field "Column")) eqn:Tc.
    { reads H. injection H as <-. split.
      - eapply TB; [reflexivity | now right | reflexivity].
      - exists "Column", "dimension". split; [|split; [reflexivity|]].
        + apply binds_column; now rewrite under_cons.
        + cbn [String.eqb Ascii.eqb Bool.eqb]. now rewrite !under_cons. }
    reads H. destruct (truthy (member field "Aggregation")) eqn:Ta;
      [|injection H as <-; discriminate T].
    reads H. step H as named En. reads H. injection H as <-. split.
    + eapply TB; [reflexivity | now left | reflexivity].
    + exists "Aggregation", "measure". split; [|split; [reflexivity|]].
      * apply binds_aggregation; now rewrite under_cons.
      * cbn [String.eqb Ascii.eqb Bool.eqb]. now rewrite !under_cons.
  - intros select b H T.
    unfold PBIRReportGenerator.parseFieldFromSelect in H.
    destruct (nullish select) eqn:Ns;
      [rewrite (get_nullish _ _ Ns) in H; discriminate H|].
    assert (S : forall m table,
               truthy (member select m) = true ->
               Some (if truthy (member (member (member select m) "Expression")
                                  "SourceRef")
                     then or_else (member (member (member (member select m)
                                     "Expression") "SourceRef") "Entity")
                            (JStr "Unknown Table")
                     else or_else (member (member (member (member (member
                                     (member select m) "Expression") "Column")
                                     "Expression") "SourceRef") "Entity")
                            (JStr "Unknown Table")) = Some table ->
               Some table = Some (selectedTable select m)
               /\ exists t, table = or_else t (JStr "Unknown Table")).
    { intros m table _ [= <-]. unfold selectedTable, tableUnder. cbn [app].
      rewrite !under_cons, !under_nil.
      destruct (truthy (member (member (member select m) "Expression") "SourceRef"));
        split; eauto. }
    reads H. destruct (truthy (member select "Measure")) eqn:Tm.
    { reads H. injection H as <-.
      destruct (S "Measure" _ Tm eq_refl) as (St & t & Et). split.
      - eapply TB; [reflexivity | now left |]. cbn. now rewrite Et.
      - exists "Measure", "measure". split; [|split; [reflexivity|exact St]].
        apply binds_measure. now rewrite under_cons. }
    reads H. destruct (truthy (member select "Column")) eqn:Tc.
    { reads H. injection H as <-.
      destruct (S "Column" _ Tc eq_refl) as (St & t & Et). split.
      - eapply TB; [reflexivity | now right |]. cbn. now rewrite Et.
      - exists "Column", "dimension". split; [|split; [reflexivity|exact St]].
        apply binds_column; now rewrite under_cons. }
    reads H. destruct (truthy (member select "Aggregation")) eqn:Ta;
      [|injection H as <-; discriminate T].
    reads H. step H as named En. reads H. step H as field Ef. injection H as <-.
    destruct (S "Aggregation" _ Ta eq_refl) as (St & t & Et). split.
    + eapply TB; [reflexivity | now left |]. cbn. now rewrite Et.
    + exists "Aggregation", "measure". split; [|split; [reflexivity|exact St]].
      apply binds_aggregation; now rewrite under_cons.
Qed.

Lemma bindings_name_a_table_witness :
  memberOf (PBIRReportGenerator.parseFieldFromSelect unsourcedColumn) "table"
  = Some (JStr "Unknown Table")
  /\ memberOf (PBIRReportGenerator.parseFieldFromSelect sourcedAggregation) "table"
     = Some (JStr "Sales")
  /\ exists b,
       PBIRReportGenerator.parseFieldFromSelect sourcedAggregation = Ok b
       /\ TabledBinding b
       /\ exists m kind,
            Binds sourcedAggregation m kind
            /\ fieldOf b "type" = Some (JStr kind)
            /\ fieldOf b "table" = Some (selectedTable sourcedAggregation m).
Proof.
  split; [reflexivity|]. split; [reflexivity|]. eexists. split; [reflexivity|].
  apply (proj2 bindings_name_a_table sourcedAggregation); reflexivity.
Defined.

(** ** Conditions and fields in the schema-aware parser *)

Lemma parseConditionExpressionN_fixed (fuel : nat) :
  forall condition r,
    PBIRParserEnhanced.parseConditionExpressionN fuel condition = Ok r ->
    forall fuel', PBIRParserEnhanced.parseConditionExpressionN (S fuel') r = Ok r.
Proof.
  induction fuel as [|fuel IH]; intros condition r;
    cbn [PBIRParserEnhanced.parseConditionExpressionN]; [discriminate|].
  intros H fuel'.
  destruct (truthy condition) eqn:T; cbn [negb] in H;
    [|injection H as <-; reflexivity].
  step H as comp E1. destruct (truthy comp) eqn:T1.
  { do 4 unbind H. injection H as <-. reflexivity. }
  step H as inn E2. destruct (truthy inn) eqn:T2.
  { do 2 unbind H. injection H as <-. reflexivity. }
  step H as between E3. destruct (truthy between) eqn:T3.
  { do 3 unbind H. injection H as <-. reflexivity. }
  step H as conj E4. destruct (truthy conj) eqn:T4.
  { do 4 unbind H. injection H as <-. reflexivity. }
  step H as disj E5. destruct (truthy disj) eqn:T5.
  { do 4 unbind H. injection H as <-. reflexivity. }
  injection H as <-.
  cbn [PBIRParserEnhanced.parseConditionExpressionN].
  rewrite T. cbn [negb]. rewrite E1. cbn [bind]. rewrite T1.
  rewrite E2. cbn [bind]. rewrite T2. rewrite E3. cbn [bind]. rewrite T3.
  rewrite E4. cbn [bind]. rewrite T4. rewrite E5. cbn [bind]. now rewrite T5.
Qed.

Lemma get_lacks (v : value) (k : string) :
  truthy v = true -> (k =? "length") = false -> lacks v k ->
  exists d, get v k = Ok d /\ truthy d = false.
Proof.
  intros T K L. destruct v; try discriminate T; cbn [get]; rewrite ?K;
    try (now exists JUndefined).
  exists (ownOr props k). split; [reflexivity | now apply lacks_falsy].
Qed.

(** X25: A parsed condition is a fixed point of the condition parser: parsing it
    again gives it back.  The parser reads comparisons, memberships, ranges,
    conjunctions and disjunctions; a node of any other kind, a negation for
    one, is returned as it was written. *)
Theorem parseConditionExpression_fixed_point :
  (forall condition r,
     PBIRParserEnhanced.parseConditionExpression condition = Ok r ->
     PBIRParserEnhanced.parseConditionExpression r = Ok r)
  /\ (forall condition,
        truthy condition = true ->
        lacks condition "Comparison" -> lacks condition "In" ->
        lacks condition "Between" -> lacks condition "And" ->
        lacks condition "Or" ->
        PBIRParserEnhanced.parseConditionExpression condition = Ok condition).
Proof.
  split.
  - intros condition r H. unfold PBIRParserEnhanced.parseConditionExpression in *.
    exact (parseConditionExpressionN_fixed _ _ _ H _).
  - intros condition T C I B A O.
    unfold PBIRParserEnhanced.parseConditionExpression.
    cbn [PBIRParserEnhanced.parseConditionExpressionN]. rewrite T. cbn [negb].
    destruct (get_lacks _ "Comparison" T eq_refl C) as (c & Ec & Tc).
    rewrite Ec. cbn [bind]. rewrite Tc.
    destruct (get_lacks _ "In" T eq_refl I) as (i & Ei & Ti).
    rewrite Ei. cbn [bind]. rewrite Ti.
    destruct (get_lacks _ "Between" T eq_refl B) as (b & Eb & Tb).
    rewrite Eb. cbn [bind]. rewrite Tb.
    destruct (get_lacks _ "And" T eq_refl A) as (a & Ea & Ta).
    rewrite Ea. cbn [bind]. rewrite Ta.
    destruct (get_lacks _ "Or" T eq_refl O) as (o & Eo & To).
    rewrite Eo. cbn [bind]. rewrite To. reflexivity.
Qed.

Lemma parseConditionExpression_fixed_point_witness :
  PBIRParserEnhanced.parseConditionExpression
    (JObj [ ("type", JStr "Comparison"); ("comparisonKind", JStr "GreaterThan");
            ("left", JUndefined); ("right", JUndefined) ])
  = Ok (JObj [ ("type", JStr "Comparison"); ("comparisonKind", JStr "GreaterThan");
               ("left", JUndefined); ("right", JUndefined) ])
  /\ PBIRParserEnhanced.parseConditionExpression negatedCondition = Ok negatedCondition.
Proof.
  split.
  - apply (proj1 parseConditionExpression_fixed_point
             (obj1 "Comparison" (obj1 "ComparisonKind" (num 1)))).
    reflexivity.
  - apply (proj2 parseConditionExpression_fixed_point negatedCondition);
      [reflexivity | intros d H; discriminate H ..].
Defined.





(** ** The visuals of a page and the map of all visuals *)

Section PageVisuals.

Variable processVisualData : value -> value -> result value.

Lemma visualsLoop_lists (fileMap : list file) (pageName : string) (todo : list file) :
  forall local global local' global',
    PBIRParser.visualsLoop processVisualData fileMap pageName todo local global
    = Ok (local', global') ->
    keeps global global'
    /\ ((forall v, own local v <> None -> own global (pageName ++ ":" ++ v) <> None) ->
        forall v, own local' v <> None -> own global' (pageName ++ ":" ++ v) <> None).
Proof.
  induction todo as [|f todo IH]; intros local global local' global';
    cbn [PBIRParser.visualsLoop].
  - intros [= <- <-]. split; [apply keeps_refl | auto].
  - destruct (PBIRParser.isVisualOf pageName f); [|apply IH].
    intros H. step H as processed P. destruct (IH _ _ _ _ H) as (K & L). split.
    + apply (keeps_trans _ (setProp global
                              (pageName ++ ":" ++ PBIRParser.extractVisualName (relativePath f))
                              (JObj (setProp (setProp (spread processed)
                                                "pageName" (JStr pageName))
                                       "visualName"
                                       (JStr (PBIRParser.extractVisualName (relativePath f))))))
                            _); [|exact K].
      intros k N. rewrite own_setProp. now destruct (_ =? k).
    + intros G. apply L. intros v. rewrite !own_setProp.
      destruct (String.eqb_spec (PBIRParser.extractVisualName (relativePath f)) v)
        as [<-|Ne].
      * now rewrite String.eqb_refl.
      * intros N. specialize (G v N). now destruct (_ =? _).
Qed.

Lemma pagesLoop_lists (fileMap todo : list file) :
  forall st st',
    PBIRParser.pagesLoop processVisualData fileMap todo st = Ok st' ->
    keeps (PBIRParser.visuals st) (PBIRParser.visuals st')
    /\ ((forall p page, own (PBIRParser.pages st) p = Some page ->
                        ListedVisualsIn (PBIRParser.visuals st) p page) ->
        forall p page, own (PBIRParser.pages st') p = Some page ->
                       ListedVisualsIn (PBIRParser.visuals st') p page).
Proof.
  induction todo as [|f todo IH]; intros st st'; cbn [PBIRParser.pagesLoop].
  - intros [= <-]. split; [apply keeps_refl | auto].
  - destruct (PBIRParser.isPage f); [|apply IH].
    unfold PBIRParser.parsePageVisuals. intros H. step H as pv E. step E as r L.
    injection E as <-. destruct r as [local global]. cbn [fst snd] in H.
    destruct (visualsLoop_lists _ _ _ _ _ _ _ L) as (K & Lv).
    destruct (IH _ _ H) as (K' & Lp). cbn [PBIRParser.visuals PBIRParser.pages] in *.
    split; [exact (keeps_trans _ _ _ K K')|].
    intros G. apply Lp. intros p page. rewrite own_setProp.
    destruct (String.eqb_spec (PBIRParser.extractPageName (relativePath f)) p)
      as [<-|Ne].
    + intros [= <-] listed v F N. unfold fieldOf in F. cbn [spread] in F.
      rewrite own_setProp_eq in F. injection F as <-.
      apply Lv; [|exact N]. intros v' N'. now contradiction N'.
    + intros O listed v F N. apply K. exact (G p page O listed v F N).
Qed.

End PageVisuals.

(** X27: In the basic parser every visual that a page lists is in the map of all
    visuals: when [getPageVisuals] gives a record with the visual [v] for
    the page [p], [getVisualDetails] finds a record for [p] and [v]. *)
Theorem page_visuals_have_details
  (processVisualData : value -> value -> result value)
  (files : list file) (st : PBIRParser.state) (pageName visualName : string)
  (listed : list (string * value)) :
  PBIRParser.parseFiles processVisualData files = Ok st ->
  PBIRParser.getPageVisuals st pageName = Ok (JObj listed) ->
  own listed visualName <> None ->
  PBIRParser.getVisualDetails st pageName visualName <> JUndefined
  /\ own (PBIRParser.visuals st) (pageName ++ ":" ++ visualName) <> None.
Proof.
  unfold PBIRParser.parseFiles. intros H G N. step H as st1 E. injection H as <-.
  apply parsePages_loop in E.
  destruct (pagesLoop_lists processVisualData _ _ _ _ E) as (_ & L).
  assert (S : PBIRParser.pages
                (PBIRParser.parseBookmarks (PBIRParser.toFileMap files) st1)
              = PBIRParser.pages st1
              /\ PBIRParser.visuals
                   (PBIRParser.parseBookmarks (PBIRParser.toFileMap files) st1)
                 = PBIRParser.visuals st1).
  { unfold PBIRParser.parseBookmarks.
    now destruct (findFile (PBIRParser.toFileMap files)
                    "definition/bookmarks/bookmarks.json"). }
  destruct S as (Sp & Sv).
  unfold PBIRParser.getPageVisuals, PBIRParser.getVisualDetails in *.
  rewrite Sp in G. rewrite Sv.
  assert (V : own (PBIRParser.visuals st1) (pageName ++ ":" ++ visualName) <> None).
  { destruct (own (PBIRParser.pages st1) pageName) as [page|] eqn:O.
    - refine (L _ pageName page O listed visualName _ N).
      + intros p page'. unfold PBIRParser.parseReportStructure.
        destruct (findFile _ "definition/reportExtensions.json");
          destruct (findFile _ "definition/version.json");
          destruct (findFile _ "definition/report.json"); discriminate.
      + destruct (truthy page) eqn:T.
        * destruct page; try discriminate T; cbn [get] in G;
            try (injection G as G; discriminate G);
            try (destruct ("visuals" =? "length"); discriminate G).
          injection G as G. unfold fieldOf. cbn [spread]. unfold ownOr in G.
          destruct (own props "visuals"); [now subst | discriminate G].
        * injection G as <-. now contradiction N.
    - injection G as <-. now contradiction N. }
  split; [|exact V]. unfold ownOr.
  destruct (own (PBIRParser.visuals st1) (pageName ++ ":" ++ visualName)) as [record|] eqn:O;
    [|now contradiction V].
  intros ->.
  assert (R : VisualRecord (PBIRParser.toFileMap files)
                (pageName ++ ":" ++ visualName) JUndefined).
  { refine (pagesLoop_records processVisualData _ _ (fun g I => I) _ _ E _ _ _ O).
    intros k e. unfold PBIRParser.parseReportStructure.
    destruct (findFile _ "definition/reportExtensions.json");
      destruct (findFile _ "definition/version.json");
      destruct (findFile _ "definition/report.json"); discriminate. }
  destruct R as (pageFile & visualFile & _ & _ & _ & _ & _ & F & _).
  discriminate F.
Qed.

Lemma page_visuals_have_details_witness :
  exists st listed,
    PBIRParser.parseFiles asItIs salesPage = Ok st
    /\ PBIRParser.getPageVisuals st "Sales" = Ok (JObj listed)
    /\ map fst listed = ["v1"; "v2"; "v3"]
    /\ PBIRParser.getVisualDetails st "Sales" "v3" <> JUndefined.
Proof.
  eexists _, _. split; [reflexivity|]. split; [reflexivity|]. split; [reflexivity|].
  apply (page_visuals_have_details asItIs salesPage _ "Sales" "v3" _ eq_refl eq_refl).
  discriminate.
Defined.

(** ** The schemas that the validator loads *)

Lemma prefix_self (p : string) : String.prefix p p = true.
Proof.
  induction p as [|c p IH]; cbn [String.prefix]; [reflexivity|].
  destruct (ascii_dec c c); [exact IH | contradiction].
Qed.

Lemma substring_none (s : string) :
  String.substring (String.length s) 0 s = "".
Proof. induction s as [|c s IH]; cbn [String.length String.substring]; auto. Qed.

Lemma replaceFirst_plain (n pat rep : string) (c : ascii) (r : string) :
  pat = String c r ->
  (forall d, (d =? c)%char = true -> plainName (String d "") = false) ->
  plainName n = true ->
  replaceFirst n pat rep = n
  /\ replaceFirst (n ++ pat) pat rep = n ++ rep.
Proof.
  intros -> C. induction n as [|d n IH]; intros P.
  - split; [reflexivity|].
    cbn [append]. remember (String c r) as pat eqn:E.
    destruct pat as [|c' r']; [discriminate E|].
    cbn [replaceFirst]. rewrite prefix_self, Nat.sub_diag, substring_none.
    apply append_nil_r.
  - cbn [plainName] in P. apply andb_prop in P. destruct P as (Pd & Pn).
    destruct (IH Pn) as (IH1 & IH2).
    assert (N : (c =? d)%char = false).
    { destruct (Ascii.eqb_spec c d) as [<-|Ne]; [|reflexivity].
      specialize (C c (Ascii.eqb_refl c)). cbn [plainName] in C.
      rewrite andb_true_r in C. congruence. }
    assert (F : forall t, String.prefix (String c r) (String d t) = false).
    { intros t. cbn [String.prefix].
      destruct (ascii_dec c d) as [->|Ne]; [|reflexivity].
      now rewrite Ascii.eqb_refl in N. }
    split.
    + cbn [replaceFirst]. rewrite F. now rewrite IH1.
    + cbn [append replaceFirst]. rewrite F. now rewrite IH2.
Qed.

Lemma loadSchemas_sources (todo : list file) :
  forall schemas name schema,
    own (SchemaValidator.loadSchemas todo schemas) name = Some schema ->
    own schemas name = Some schema
    \/ exists f, In f todo
                 /\ SchemaValidator.schemaName (relativePath f) = name
                 /\ content f = inr schema.
Proof.
  induction todo as [|f todo IH]; intros schemas name schema;
    cbn [SchemaValidator.loadSchemas]; [auto|].
  assert (R : own (SchemaValidator.loadSchemas todo schemas) name = Some schema ->
              own schemas name = Some schema
              \/ exists g, In g (f :: todo)
                           /\ SchemaValidator.schemaName (relativePath g) = name
                           /\ content g = inr schema).
  { intros H. destruct (IH _ _ _ H) as [O|(g & I & N & C)]; [now left|].
    right. exists g. split; [now right | auto]. }
  destruct (endsWith (relativePath f) ".json"); [|exact R].
  destruct (content f) as [m|s] eqn:C; [exact R|].
  intros H. destruct (IH _ _ _ H) as [O|(g & I & N & Cg)].
  - rewrite own_setProp in O.
    destruct (String.eqb_spec (SchemaValidator.schemaName (relativePath f)) name)
      as [E|Ne]; [|now left].
    injection O as <-. right. exists f. split; [now left | auto].
  - right. exists g. split; [now right | auto].
Qed.

(** X28: The validator knows a schema under the name of its file without the
    ending [_schema.json] or [.json]: a file [n_schema.json] gives the name
    [n] when [n] has no underscore and no point, so does [n.json]; and a
    schema that is found under a name was read from a file of that name. *)
Theorem schemas_are_named_after_their_files :
  (forall n,
     plainName n = true ->
     SchemaValidator.schemaName (n ++ "_schema.json") = n
     /\ SchemaValidator.schemaName (n ++ ".json") = n)
  /\ (forall schemaFiles name schema,
        own (SchemaValidator.loadSchemas schemaFiles []) name = Some schema ->
        exists f, In f schemaFiles
                  /\ SchemaValidator.schemaName (relativePath f) = name
                  /\ content f = inr schema).
Proof.
  split.
  - intros n P. unfold SchemaValidator.schemaName.
    assert (U : forall d, (d =? "_")%char = true -> plainName (String d "") = false)
      by (intros d E; cbn [plainName]; now rewrite E).
    assert (D : forall d, (d =? ".")%char = true -> plainName (String d "") = false).
    { intros d E. cbn [plainName]. rewrite E.
      now destruct (d =? "_")%char. }
    destruct (replaceFirst_plain n "_schema.json" "" "_" "schema.json" eq_refl U P)
      as (S1 & S2).
    destruct (replaceFirst_plain n ".json" "" "." "json" eq_refl D P) as (J1 & J2).
    rewrite S2, append_nil_r, J1. split; [reflexivity|].
    assert (S3 : replaceFirst (n ++ ".json") "_schema.json" "" = n ++ ".json").
    { clear -P. induction n as [|d n IH]; [reflexivity|].
      cbn [plainName] in P. apply andb_prop in P. destruct P as (Pd & Pn).
      apply andb_prop in Pd. destruct Pd as (Pu & _).
      cbn [append replaceFirst String.prefix].
      destruct (ascii_dec "_" d) as [<-|Ne]; [discriminate Pu|].
      now rewrite (IH Pn). }
    now rewrite S3, J2, append_nil_r.
  - intros schemaFiles name schema H.
    destruct (loadSchemas_sources _ _ _ _ H) as [O|F]; [discriminate O | exact F].
Qed.

Lemma schemas_are_named_after_their_files_witness :
  SchemaValidator.schemaName "visualContainerMobileState_schema.json"
  = "visualContainerMobileState"
  /\ map fst (SchemaValidator.loadSchemas bundledSchemas [])
     = ["visualContainerMobileState"].
Proof.
  split; [|reflexivity].
  exact (proj1 (proj1 schemas_are_named_after_their_files
                  "visualContainerMobileState" eq_refl)).
Defined.


